(** * Meeting analyzer: fact-first pipeline (src2 = V8, src3 = V9)

    A shallow embedding of the extraction, validation, generation and
    compliance nodes, and the properties of them that the specification
    states.

    Conventions of the embedding.
    - Text is a [string]; one [ascii] is one code point in 0..255, so
      the model covers text in the Latin-1 range.  [isspace], [lower]
      and [isdigit] are Python's on that range.
    - A raised exception is [None]; a function that can raise returns an
      [option].  Console output ([print]) is not part of the model.
    - The text generator is an oracle: it sees the prompts issued so far
      and the current prompt, and either raises or answers.  A stage that
      calls it threads the log of issued prompts. *)

From Stdlib Require Import String Ascii List Bool Arith Lia DecimalString.
From Stdlib Require DecimalNat DecimalFacts.
Import ListNotations.
Open Scope list_scope.
Open Scope string_scope.

(* ===================================================================== *)
(** ** Python text primitives *)
(* ===================================================================== *)

Module Py.

Definition code (c : ascii) : nat := nat_of_ascii c.

Definition between (lo hi n : nat) : bool := (lo <=? n)%nat && (n <=? hi)%nat.

(** The double quote, the line feed and the backslash. *)
Definition dquote : ascii := "034"%char.
Definition LF : ascii := "010"%char.
Definition backslash : ascii := "092"%char.
Definition dq : string := String dquote "".
Definition nl : string := String LF "".

(** [str.isspace] of one character (also the class [\s] of [re] on
    [str] patterns): TAB..CR, FS..US, space, NEL and NBSP. *)
Definition isspace (c : ascii) : bool :=
  let n := code c in
  between 9 13 n || between 28 32 n || (n =? 133)%nat || (n =? 160)%nat.

(** [str.lower] of one character: A-Z and the capital letters
    U+00C0..U+00DE except the multiplication sign U+00D7. *)
Definition lower_char (c : ascii) : ascii :=
  let n := code c in
  if between 65 90 n || (between 192 222 n && negb (n =? 215)%nat)
  then ascii_of_nat (n + 32) else c.

(** [str.upper] on the ASCII letters; used on category names only. *)
Definition upper_char (c : ascii) : ascii :=
  let n := code c in
  if between 97 122 n then ascii_of_nat (n - 32) else c.

Fixpoint map_str (f : ascii -> ascii) (s : string) : string :=
  match s with
  | "" => ""
  | String c s' => String (f c) (map_str f s')
  end.

Definition lower : string -> string := map_str lower_char.
Definition upper : string -> string := map_str upper_char.

(** [s[n:]] and [s[:n]] for [n >= 0]. *)
Fixpoint drop (n : nat) (s : string) : string :=
  match n, s with
  | 0, _ => s
  | S _, "" => ""
  | S k, String _ s' => drop k s'
  end.

Fixpoint take (n : nat) (s : string) : string :=
  match n, s with
  | 0, _ => ""
  | S _, "" => ""
  | S k, String c s' => String c (take k s')
  end.

(** [s.startswith(p)]. *)
Fixpoint startswith (p s : string) : bool :=
  match p, s with
  | "", _ => true
  | String _ _, "" => false
  | String a p', String b s' => Ascii.eqb a b && startswith p' s'
  end.

(** [sub in s]. *)
Fixpoint contains (sub s : string) : bool :=
  startswith sub s ||
  match s with
  | "" => false
  | String _ s' => contains sub s'
  end.

(** [s.find(sub)], [None] for -1. *)
Fixpoint find (sub s : string) : option nat :=
  if startswith sub s then Some 0
  else match s with
       | "" => None
       | String _ s' => option_map S (find sub s')
       end.

(** [s.rfind(sub)], [None] for -1. *)
Fixpoint rfind (sub s : string) : option nat :=
  match s with
  | "" => if startswith sub s then Some 0 else None
  | String _ s' =>
      match rfind sub s' with
      | Some i => Some (S i)
      | None => if startswith sub s then Some 0 else None
      end
  end.

Fixpoint lstrip (s : string) : string :=
  match s with
  | "" => ""
  | String c s' => if isspace c then lstrip s' else s
  end.

Fixpoint rstrip (s : string) : string :=
  match s with
  | "" => ""
  | String c s' =>
      match rstrip s' with
      | "" => if isspace c then "" else String c ""
      | r => String c r
      end
  end.

(** [s.strip()]. *)
Definition strip (s : string) : string := rstrip (lstrip s).

(** [s.split()]: the maximal runs of non-space characters. *)
Fixpoint words_aux (s : string) : string * list string :=
  match s with
  | "" => ("", [])
  | String c s' =>
      let (w, ws) := words_aux s' in
      if isspace c
      then ("", match w with "" => ws | _ => w :: ws end)
      else (String c w, ws)
  end.

Definition words (s : string) : list string :=
  let (w, ws) := words_aux s in
  match w with "" => ws | _ => w :: ws end.

(** [s.split(sep)] for a non-empty [sep]: [skip] counts the characters
    of a separator still to be passed over. *)
Fixpoint split_aux (sep : string) (skip : nat) (s : string)
  : string * list string :=
  match s with
  | "" => ("", [])
  | String c s' =>
      match skip with
      | S k => split_aux sep k s'
      | 0 =>
          if startswith sep s
          then let (p, ps) := split_aux sep (String.length sep - 1) s' in
               ("", p :: ps)
          else let (p, ps) := split_aux sep 0 s' in
               (String c p, ps)
      end
  end.

Definition split (sep s : string) : list string :=
  let (p, ps) := split_aux sep 0 s in p :: ps.

(** [s.replace(old, new)] for a non-empty [old]. *)
Fixpoint replace_aux (old new : string) (skip : nat) (s : string) : string :=
  match s with
  | "" => ""
  | String c s' =>
      match skip with
      | S k => replace_aux old new k s'
      | 0 =>
          if startswith old s
          then new ++ replace_aux old new (String.length old - 1) s'
          else String c (replace_aux old new 0 s')
      end
  end.

Definition replace (old new s : string) : string := replace_aux old new 0 s.

(** [sep.join(l)]. *)
Fixpoint join (sep : string) (l : list string) : string :=
  match l with
  | [] => ""
  | [x] => x
  | x :: rest => x ++ sep ++ join sep rest
  end.

(** [str.isdigit] of one character: 0-9 and the superscripts
    U+00B2, U+00B3, U+00B9. *)
Definition isdigit_char (c : ascii) : bool :=
  let n := code c in
  between 48 57 n || (n =? 178)%nat || (n =? 179)%nat || (n =? 185)%nat.

Fixpoint all_chars (p : ascii -> bool) (s : string) : bool :=
  match s with
  | "" => true
  | String c s' => p c && all_chars p s'
  end.

(** [s.isdigit()]: false on the empty string. *)
Definition isdigit (s : string) : bool :=
  match s with "" => false | _ => all_chars isdigit_char s end.

(** [x in l] for a list of strings. *)
Definition mem (x : string) (l : list string) : bool :=
  existsb (String.eqb x) l.

(** [str(n)] for a natural number. *)
Definition str_of_nat (n : nat) : string :=
  NilEmpty.string_of_uint (Nat.to_uint n).

(** [list(dict.fromkeys(l))] for a list of strings: the first
    occurrence of each, in order. *)
Fixpoint dedupe_aux (seen l : list string) : list string :=
  match l with
  | [] => []
  | x :: rest =>
      if mem x seen then dedupe_aux seen rest
      else x :: dedupe_aux (x :: seen) rest
  end.

Definition dedupe (l : list string) : list string := dedupe_aux [] l.

(** Truthiness of a string. *)
Definition truthy (s : string) : bool := negb (s =? "").

End Py.

(* ===================================================================== *)
(** ** The regular-expression substitutions of the recovery parse *)
(* ===================================================================== *)

Module Re.
Import Py.

Definition is_char (a c : ascii) : bool := Ascii.eqb a c.

Fixpoint filter_str (keep : ascii -> bool) (s : string) : string :=
  match s with
  | "" => ""
  | String c s' =>
      if keep c then String c (filter_str keep s') else filter_str keep s'
  end.

(** [re.sub(r'//.*?$', '', s, flags=re.MULTILINE)]: a pair of slashes
    and what follows it on the line go; the line feed stays. *)
Fixpoint sub_line_comments_from (in_comment : bool) (s : string) : string :=
  match s with
  | "" => ""
  | String c s' =>
      if in_comment then
        if is_char LF c then String c (sub_line_comments_from false s')
        else sub_line_comments_from true s'
      else
        match s' with
        | String c2 s'' =>
            if is_char "/" c && is_char "/" c2
            then sub_line_comments_from true s''
            else String c (sub_line_comments_from false s')
        | "" => String c ""
        end
  end.

Definition sub_line_comments : string -> string :=
  sub_line_comments_from false.

(** [re.sub(r'/\*.*?\*/', '', s, flags=re.DOTALL)]: an opener with a
    closer somewhere after it goes, up to the first such closer; an
    opener that is never closed stays. *)
Fixpoint sub_block_comments_from (in_comment : bool) (s : string) : string :=
  match s with
  | "" => ""
  | String c s' =>
      if in_comment then
        match s' with
        | String c2 s'' =>
            if is_char "*" c && is_char "/" c2
            then sub_block_comments_from false s''
            else sub_block_comments_from true s'
        | "" => ""
        end
      else
        match s' with
        | String c2 s'' =>
            if is_char "/" c && is_char "*" c2 && contains "*/" s''
            then sub_block_comments_from true s''
            else String c (sub_block_comments_from false s')
        | "" => String c ""
        end
  end.

Definition sub_block_comments : string -> string :=
  sub_block_comments_from false.

(** The class [[\x00-\x08\x0b-\x0c\x0e-\x1f\x7f-\x9f]]. *)
Definition is_control (c : ascii) : bool :=
  let n := code c in
  between 0 8 n || between 11 12 n || between 14 31 n || between 127 159 n.

(** The class [[\x00-\x1f\x7f-\x9f]]. *)
Definition is_control_all (c : ascii) : bool :=
  let n := code c in
  between 0 31 n || between 127 159 n.

(** [re.sub(r'[\x00-\x08\x0b-\x0c\x0e-\x1f\x7f-\x9f]', '', s)]. *)
Definition sub_control (s : string) : string :=
  filter_str (fun c => negb (is_control c)) s.

(** [re.sub(r'[\x00-\x1f\x7f-\x9f]', ' ', s)]. *)
Definition sub_control_space (s : string) : string :=
  map_str (fun c => if is_control_all c then " "%char else c) s.

(** Does [\s*[}\]]] match at the start of [s]? *)
Fixpoint closes_after_space (s : string) : bool :=
  match s with
  | "" => false
  | String c s' =>
      if isspace c then closes_after_space s'
      else is_char "}" c || is_char "]" c
  end.

(** [re.sub(r',(\s*[}\]])', r'\1', s)]: a comma that only white space
    separates from a closing brace or bracket goes. *)
Fixpoint sub_trailing_commas (s : string) : string :=
  match s with
  | "" => ""
  | String c s' =>
      if is_char "," c && closes_after_space s'
      then sub_trailing_commas s'
      else String c (sub_trailing_commas s')
  end.

(** [re.sub(cls+, ' ', s)] for a character class [cls]: each maximal
    run of the class becomes one space. *)
Fixpoint sub_runs_from (cls : ascii -> bool) (in_run : bool) (s : string)
  : string :=
  match s with
  | "" => ""
  | String c s' =>
      if cls c then
        if in_run then sub_runs_from cls true s'
        else String " " (sub_runs_from cls true s')
      else String c (sub_runs_from cls false s')
  end.

(** [re.sub(r'\s+', ' ', s)]. *)
Definition sub_spaces : string -> string := sub_runs_from isspace false.

(** [re.sub(r'[ \t]+', ' ', s)]. *)
Definition sub_blanks : string -> string :=
  sub_runs_from (fun c => is_char " " c || is_char "009" c) false.

(** [re.sub(r'\n{3,}', '\n\n', s)]: [run] counts the line feeds just
    passed; the third and later ones of a run go. *)
Fixpoint sub_newlines_from (run : nat) (s : string) : string :=
  match s with
  | "" => ""
  | String c s' =>
      if is_char LF c then
        if (run <? 2)%nat then String c (sub_newlines_from (S run) s')
        else sub_newlines_from run s'
      else String c (sub_newlines_from 0 s')
  end.

Definition sub_newlines : string -> string := sub_newlines_from 0.

(** [re.sub] of [fix_string_newlines] over the quoted stretches (a
    double quote, characters other than it, a double quote): inside
    one, a line feed, a carriage return and a tab are written as their
    two-character escapes. *)
Fixpoint fix_strings_from (in_string : bool) (s : string) : string :=
  match s with
  | "" => ""
  | String c s' =>
      if in_string then
        if is_char dquote c then String c (fix_strings_from false s')
        else if is_char LF c then
          String backslash (String "n" (fix_strings_from true s'))
        else if is_char "013" c then
          String backslash (String "r" (fix_strings_from true s'))
        else if is_char "009" c then
          String backslash (String "t" (fix_strings_from true s'))
        else String c (fix_strings_from true s')
      else
        if is_char dquote c && contains dq s'
        then String c (fix_strings_from true s')
        else String c (fix_strings_from false s')
  end.

Definition fix_strings : string -> string := fix_strings_from false.

End Re.

(* ===================================================================== *)
(** ** Word boundaries and the filler pattern of the normalizer *)
(* ===================================================================== *)

Module ReWords.
Import Py.

(** The class [\w] of [re] on [str] patterns: the letters and numbers of
    the range, and the underscore. *)
Definition isword (c : ascii) : bool :=
  let n := code c in
  between 48 57 n || between 65 90 n || (n =? 95)%nat || between 97 122 n
  || (n =? 170)%nat || between 178 179 n || (n =? 181)%nat
  || between 185 186 n || between 188 190 n || between 192 214 n
  || between 216 246 n || between 248 255 n.

(** Is the first character of [s] a word character?  No character is
    none. *)
Definition starts_word (s : string) : bool :=
  match s with
  | "" => false
  | String c _ => isword c
  end.

(** [\b] between a character that is a word character or not ([prev])
    and the text [s] that follows. *)
Definition boundary (prev : bool) (s : string) : bool :=
  negb (Bool.eqb prev (starts_word s)).

(** [p] at the start of [s] under [re.IGNORECASE], for a pattern text
    [p] without letters outside a-z. *)
Fixpoint startswith_ci (p s : string) : bool :=
  match p, s with
  | "", _ => true
  | String _ _, "" => false
  | String a p', String b s' =>
      Ascii.eqb (lower_char a) (lower_char b) && startswith_ci p' s'
  end.

Fixpoint last_is_word (p : string) (default : bool) : bool :=
  match p with
  | "" => default
  | String c p' => last_is_word p' (isword c)
  end.

(** The length of the first alternative of [alternatives] that matches
    at the start of [s] and is followed by a boundary. *)
Fixpoint alternative_at (alternatives : list string) (s : string)
  : option nat :=
  match alternatives with
  | [] => None
  | a :: rest =>
      if startswith_ci a s
         && boundary (last_is_word a false) (drop (String.length a) s)
      then Some (String.length a)
      else alternative_at rest s
  end.

(** [re.sub(r'\b(a1|a2|...)\b', '', s, flags=re.IGNORECASE)] for
    non-empty alternatives: [prev] tells whether the character before
    [s] is a word character, [skip] counts the characters of a match
    still to be passed over. *)
Fixpoint sub_words_from (alternatives : list string) (prev : bool)
  (skip : nat) (s : string) : string :=
  match s with
  | "" => ""
  | String c s' =>
      match skip with
      | S k => sub_words_from alternatives (isword c) k s'
      | 0 =>
          match (if boundary prev s then alternative_at alternatives s
                 else None)
          with
          | Some len => sub_words_from alternatives (isword c) (len - 1) s'
          | None => String c (sub_words_from alternatives (isword c) 0 s')
          end
      end
  end.

Definition sub_words (alternatives : list string) (s : string) : string :=
  sub_words_from alternatives false 0 s.

(** [re.sub(r' +', ' ', s)]. *)
Definition sub_space_runs : string -> string :=
  Re.sub_runs_from (fun c => Re.is_char " " c) false.

End ReWords.

(* ===================================================================== *)
(** ** JSON values and [json.loads] *)
(* ===================================================================== *)

Module Json.
Import Py.

(** A number keeps its literal text; [NaN], [Infinity] and [-Infinity],
    which [json.loads] accepts, are numbers too.  An object keeps its
    members in source order; a later member with the same key wins.
    The limits of the interpreter (recursion depth, length of an
    integer literal) are not part of the model. *)
#[warnings="-register-all"]
Inductive json : Type :=
| JNull
| JBool (b : bool)
| JNum (literal : string)
| JStr (s : string)
| JArr (items : list json)
| JObj (members : list (string * json)).

Definition is_ws (c : ascii) : bool :=
  Re.is_char " " c || Re.is_char "009" c || Re.is_char LF c || Re.is_char "013" c.

Fixpoint skip_ws (s : string) : string :=
  match s with
  | "" => ""
  | String c s' => if is_ws c then skip_ws s' else s
  end.

Definition hex_digit (c : ascii) : option nat :=
  let n := code c in
  if between 48 57 n then Some (n - 48)
  else if between 97 102 n then Some (n - 87)
  else if between 65 70 n then Some (n - 55)
  else None.

Definition hex4 (a b c d : ascii) : option nat :=
  match hex_digit a, hex_digit b, hex_digit c, hex_digit d with
  | Some x, Some y, Some z, Some w => Some (((x * 16 + y) * 16 + z) * 16 + w)
  | _, _, _, _ => None
  end.

(** The one-character escapes of a JSON string. *)
Definition unescape (e : ascii) : option ascii :=
  if Re.is_char dquote e then Some dquote
  else if Re.is_char backslash e then Some backslash
  else if Re.is_char "/" e then Some "/"%char
  else if Re.is_char "b" e then Some "008"%char
  else if Re.is_char "f" e then Some "012"%char
  else if Re.is_char "n" e then Some LF
  else if Re.is_char "r" e then Some "013"%char
  else if Re.is_char "t" e then Some "009"%char
  else None.

Definition cons_char (c : ascii) (r : option (string * string))
  : option (string * string) :=
  match r with
  | Some (str, rest) => Some (String c str, rest)
  | None => None
  end.

(** The body of a string after its opening quote (strict mode): the
    decoded text and what follows the closing quote.  A [\u] escape of
    a code point above U+00FF is outside the alphabet of the model and
    is refused. *)
Fixpoint scanstring (s : string) : option (string * string) :=
  match s with
  | "" => None
  | String c s' =>
      if Re.is_char dquote c then Some ("", s')
      else if Re.is_char backslash c then
        match s' with
        | "" => None
        | String e s'' =>
            if Re.is_char "u" e then
              match s'' with
              | String h1 (String h2 (String h3 (String h4 r))) =>
                  match hex4 h1 h2 h3 h4 with
                  | Some cp =>
                      if (cp <? 256)%nat
                      then cons_char (ascii_of_nat cp) (scanstring r)
                      else None
                  | None => None
                  end
              | _ => None
              end
            else
              match unescape e with
              | Some ch => cons_char ch (scanstring s'')
              | None => None
              end
        end
      else if (code c <? 32)%nat then None
      else cons_char c (scanstring s')
  end.

Definition is_digit (c : ascii) : bool := between 48 57 (code c).

(** The longest prefix of decimal digits, and the rest. *)
Fixpoint span_digits (s : string) : string * string :=
  match s with
  | "" => ("", "")
  | String c s' =>
      if is_digit c
      then let (d, r) := span_digits s' in (String c d, r)
      else ("", s)
  end.

(** The integer part of a number: an optional minus sign, then a
    zero or a non-zero digit followed by digits. *)
Definition match_int (s : string) : option (string * string) :=
  let (sign, s1) :=
    match s with
    | String c s' => if Re.is_char "-" c then ("-", s') else ("", s)
    | "" => ("", s)
    end in
  match s1 with
  | String c s' =>
      if Re.is_char "0" c then Some (sign ++ "0", s')
      else if is_digit c
      then let (d, r) := span_digits s1 in Some (sign ++ d, r)
      else None
  | "" => None
  end.

(** The optional fraction: a dot and at least one digit. *)
Definition match_frac (s : string) : string * string :=
  match s with
  | String c s' =>
      if Re.is_char "." c then
        match span_digits s' with
        | ("", _) => ("", s)
        | (d, r) => (String c d, r)
        end
      else ("", s)
  | "" => ("", s)
  end.

(** The optional exponent: e or E, an optional sign, at least one
    digit. *)
Definition match_exp (s : string) : string * string :=
  match s with
  | String c s' =>
      if Re.is_char "e" c || Re.is_char "E" c then
        let (sign, s1) :=
          match s' with
          | String g s'' =>
              if Re.is_char "-" g || Re.is_char "+" g
              then (String g "", s'') else ("", s')
          | "" => ("", s')
          end in
        match span_digits s1 with
        | ("", _) => ("", s)
        | (d, r) => (String c (sign ++ d), r)
        end
      else ("", s)
  | "" => ("", s)
  end.

Definition match_number (s : string) : option (string * string) :=
  match match_int s with
  | Some (i, r1) =>
      let (f, r2) := match_frac r1 in
      let (e, r3) := match_exp r2 in
      Some (i ++ f ++ e, r3)
  | None => None
  end.

(** A literal word at the start of [s]. *)
Definition literal (w : string) (v : json) (s : string)
  : option (json * string) :=
  if startswith w s then Some (v, drop (String.length w) s) else None.

(** The scanner: one value at the start of [s], and the rest.  [fuel]
    bounds the depth of the calls; [loads] gives enough of it. *)
Fixpoint scan_once (fuel : nat) (s : string) {struct fuel}
  : option (json * string) :=
  match fuel with
  | 0 => None
  | S fuel' =>
      match s with
      | "" => None
      | String c rest =>
          if Re.is_char dquote c then
            match scanstring rest with
            | Some (str, r) => Some (JStr str, r)
            | None => None
            end
          else if Re.is_char "{" c then
            match skip_ws rest with
            | String c1 r1 =>
                if Re.is_char "}" c1 then Some (JObj [], r1)
                else
                  match object_members fuel' (String c1 r1) with
                  | Some (ms, r) => Some (JObj ms, r)
                  | None => None
                  end
            | "" => None
            end
          else if Re.is_char "[" c then
            match skip_ws rest with
            | String c1 r1 =>
                if Re.is_char "]" c1 then Some (JArr [], r1)
                else
                  match array_items fuel' (String c1 r1) with
                  | Some (vs, r) => Some (JArr vs, r)
                  | None => None
                  end
            | "" => None
            end
          else if Re.is_char "n" c then literal "null" JNull s
          else if Re.is_char "t" c then literal "true" (JBool true) s
          else if Re.is_char "f" c then literal "false" (JBool false) s
          else
            match match_number s with
            | Some (lit, r) => Some (JNum lit, r)
            | None =>
                if Re.is_char "N" c then literal "NaN" (JNum "NaN") s
                else if Re.is_char "I" c
                then literal "Infinity" (JNum "Infinity") s
                else if Re.is_char "-" c
                then literal "-Infinity" (JNum "-Infinity") s
                else None
            end
      end
  end

(** The values of an array after its opening bracket, up to and
    including the closing one. *)
with array_items (fuel : nat) (s : string) {struct fuel}
  : option (list json * string) :=
  match fuel with
  | 0 => None
  | S fuel' =>
      match scan_once fuel' s with
      | Some (v, r) =>
          match skip_ws r with
          | String c r1 =>
              if Re.is_char "]" c then Some ([v], r1)
              else if Re.is_char "," c then
                match array_items fuel' (skip_ws r1) with
                | Some (vs, r2) => Some (v :: vs, r2)
                | None => None
                end
              else None
          | "" => None
          end
      | None => None
      end
  end

(** The members of an object from the quote of a key, up to and
    including the closing brace. *)
with object_members (fuel : nat) (s : string) {struct fuel}
  : option (list (string * json) * string) :=
  match fuel with
  | 0 => None
  | S fuel' =>
      match s with
      | String q r0 =>
          if Re.is_char dquote q then
            match scanstring r0 with
            | Some (key, r) =>
                match skip_ws r with
                | String colon r1 =>
                    if Re.is_char ":" colon then
                      match scan_once fuel' (skip_ws r1) with
                      | Some (v, r2) =>
                          match skip_ws r2 with
                          | String c r3 =>
                              if Re.is_char "}" c then Some ([(key, v)], r3)
                              else if Re.is_char "," c then
                                match object_members fuel' (skip_ws r3) with
                                | Some (ms, r4) => Some ((key, v) :: ms, r4)
                                | None => None
                                end
                              else None
                          | "" => None
                          end
                      | None => None
                      end
                    else None
                | "" => None
                end
            | None => None
            end
          else None
      | "" => None
      end
  end.

(** [json.loads(s)]: white space, one value, white space, the end. *)
Definition loads (s : string) : option json :=
  match scan_once (2 * String.length s + 2) (skip_ws s) with
  | Some (v, r) => match skip_ws r with "" => Some v | _ => None end
  | None => None
  end.

(** [d.get(key)] on the members of an object: the last member with
    that key. *)
Fixpoint get (key : string) (members : list (string * json)) : option json :=
  match members with
  | [] => None
  | (k, v) :: rest =>
      match get key rest with
      | Some v' => Some v'
      | None => if String.eqb k key then Some v else None
      end
  end.

(** [d.get(key, default)]. *)
Definition get_default (key : string) (default : json)
  (members : list (string * json)) : json :=
  match get key members with Some v => v | None => default end.

(** The keys of a [dict] in insertion order, each once. *)
Definition keys (members : list (string * json)) : list string :=
  dedupe (map fst members).

Fixpoint chars (s : string) : list string :=
  match s with
  | "" => []
  | String c s' => String c "" :: chars s'
  end.

(** [for item in data]: the items of a list, the keys of a dict, the
    characters of a string; the other values are not iterable. *)
Definition iterate (data : json) : option (list json) :=
  match data with
  | JArr items => Some items
  | JObj members => Some (map JStr (keys members))
  | JStr s => Some (map JStr (chars s))
  | JNull | JBool _ | JNum _ => None
  end.

(** [d[key] = value] on the members of an object; [get] reads the last
    member with a key. *)
Definition set (key : string) (value : json) (members : list (string * json))
  : list (string * json) :=
  (members ++ [(key, value)])%list.

(** The texts of a list whose items are all strings. *)
Fixpoint strings_of (l : list json) : option (list string) :=
  match l with
  | [] => Some []
  | JStr s :: rest => option_map (cons s) (strings_of rest)
  | _ :: _ => None
  end.

(** A list and a dict cannot be the key of a dict. *)
Definition hashable (v : json) : bool :=
  match v with JArr _ | JObj _ => false | _ => true end.

(** [list(dict.fromkeys(v))]; [None] is the [TypeError] of a value that
    is not iterable or of an element that is not hashable.  A list of
    strings loses its repeated entries.  A list with an element that is
    not a string is kept as it is: the equality of Python numbers is
    not modelled, and the [List[str]] field that receives the result
    refuses such a list whatever [fromkeys] leaves of it. *)
Definition fromkeys_list (v : json) : option json :=
  match v with
  | JArr items =>
      if forallb hashable items then
        match strings_of items with
        | Some ss => Some (JArr (map JStr (dedupe ss)))
        | None => Some (JArr items)
        end
      else None
  | JStr s => Some (JArr (map JStr (dedupe (chars s))))
  | JObj members => Some (JArr (map JStr (keys members)))
  | JNull | JBool _ | JNum _ => None
  end.

End Json.

(* ===================================================================== *)
(** ** The generator oracle *)
(* ===================================================================== *)

Module Gen.

(** The prompts issued so far, oldest first. *)
Definition Log := list string.

(** [llm.invoke(prompt).content]: [None] when the call raises.  The
    answer may depend on the whole history, so two calls with one
    prompt may differ. *)
Definition generator := Log -> string -> option string.

Definition invoke (llm : generator) (prompt : string) (log : Log)
  : option string * Log :=
  (llm log prompt, (log ++ [prompt])%list).

(** The number of generator calls between two logs. *)
Definition calls (before after : Log) : nat :=
  List.length after - List.length before.

End Gen.

(* ===================================================================== *)
(** ** The data model *)
(* ===================================================================== *)

(** Modelled from the spec: [src3/models.py] is not among the sources.
    The records follow section 3 of the specification (Fact,
    ValidatedFact, FactSet, ActionPoint, ToDo, FollowUpEmail,
    OutputBundle) under the class and field names that the nodes of
    [src3] use, which are those of [src2/models.py]; the defaults
    (confidence high, priority Medium, empty source_facts, absent
    deadline and context) are the ones of [src2/models.py].  A value
    received from JSON is accepted for a text field only when it is a
    string, for an enumerated field only when it is one of its names,
    which is how pydantic 2 validates; members of a mapping that are
    no fields are ignored. *)
Module Models.
Import Json.

Inductive FactType : Type :=
| decision | action_item | open_question | deadline | metric.

Inductive Confidence : Type := high | medium | low.

Inductive Priority : Type := High | Medium | Low.

Definition fact_type_name (t : FactType) : string :=
  match t with
  | decision => "decision"
  | action_item => "action_item"
  | open_question => "open_question"
  | deadline => "deadline"
  | metric => "metric"
  end.

Definition confidence_name (c : Confidence) : string :=
  match c with high => "high" | medium => "medium" | low => "low" end.

Definition priority_name (p : Priority) : string :=
  match p with High => "High" | Medium => "Medium" | Low => "Low" end.

(** A field of type [Literal[...]]: the value with that name. *)
Fixpoint of_name {A : Type} (name : A -> string) (values : list A)
  (s : string) : option A :=
  match values with
  | [] => None
  | v :: rest => if String.eqb (name v) s then Some v else of_name name rest s
  end.

Definition as_fact_type (v : json) : option FactType :=
  match v with
  | JStr s =>
      of_name fact_type_name
        [decision; action_item; open_question; deadline; metric] s
  | _ => None
  end.

Definition as_confidence (v : json) : option Confidence :=
  match v with
  | JStr s => of_name confidence_name [high; medium; low] s
  | _ => None
  end.

Definition as_priority (v : json) : option Priority :=
  match v with
  | JStr s => of_name priority_name [High; Medium; Low] s
  | _ => None
  end.

(** A field of type [str]. *)
Definition as_str (v : json) : option string :=
  match v with JStr s => Some s | _ => None end.

(** A field of type [Optional[str]]. *)
Definition as_optional_str (v : json) : option (option string) :=
  match v with
  | JNull => Some None
  | JStr s => Some (Some s)
  | _ => None
  end.

(** A field of type [List[str]]. *)
Definition as_list_str (v : json) : option (list string) :=
  match v with JArr l => strings_of l | _ => None end.

Module ExtractedFact.
(** Modelled from the spec: the class [ExtractedFact] of the missing
    [src3/models.py], the Fact of section 3; as in [src2/models.py]. *)
Record t : Type := mk {
  fact_type : FactType;
  content : string;
  source_quote : string;
  confidence : Confidence;
  context : option string }.

(** [ExtractedFact(fact_type=.., content=.., source_quote=..,
    confidence=.., context=..)] on values taken from JSON; [None]
    is the validation error. *)
Definition new (fact_type content source_quote confidence context : json)
  : option t :=
  match as_fact_type fact_type, as_str content, as_str source_quote,
        as_confidence confidence, as_optional_str context with
  | Some ft, Some c, Some q, Some cf, Some cx => Some (mk ft c q cf cx)
  | _, _, _, _, _ => None
  end.
End ExtractedFact.

Module ExtractedFacts.
(** Modelled from the spec: the class [ExtractedFacts] of the missing
    [src3/models.py], the unvalidated FactSet with one list for each
    category; as in [src2/models.py]. *)
Record t : Type := mk {
  decisions : list ExtractedFact.t;
  action_items : list ExtractedFact.t;
  open_questions : list ExtractedFact.t;
  deadlines : list ExtractedFact.t;
  metrics : list ExtractedFact.t }.
End ExtractedFacts.

Module ValidatedFact.
(** Modelled from the spec: the class [ValidatedFact] of the missing
    [src3/models.py], the ValidatedFact of section 3 with its optional
    note; as in [src2/models.py]. *)
Record t : Type := mk {
  fact_type : string;
  content : string;
  source_quote : string;
  confidence : string;
  is_valid : bool;
  validation_notes : option string }.
End ValidatedFact.

Module ValidatedFacts.
(** Modelled from the spec: the class [ValidatedFacts] of the missing
    [src3/models.py], the FactSet of section 3 with its discard ledger;
    as in [src2/models.py]. *)
Record t : Type := mk {
  facts : list ValidatedFact.t;
  discarded_count : nat;
  discarded_reasons : list string }.
End ValidatedFacts.

Module ActionPoint.
(** Modelled from the spec: the class [ActionPoint] of the missing
    [src3/models.py]; as in [src2/models.py]. *)
Record t : Type := mk {
  description : string;
  priority : Priority;
  source_facts : list string }.
End ActionPoint.

Module ToDo.
(** Modelled from the spec: the class [ToDo] of the missing
    [src3/models.py], whose deadline is a text or absent; as in
    [src2/models.py]. *)
Record t : Type := mk {
  task : string;
  deadline : option string;
  priority : Priority;
  source_facts : list string }.

(** The constructor call on the unpacked [td], which has to be a
    mapping: [task] is required, the
    other fields have defaults, members with other keys are
    ignored. *)
Definition of_json (td : json) : option t :=
  match td with
  | JObj members =>
      match get "task" members with
      | Some tk =>
          match as_str tk,
                as_optional_str (get_default "deadline" JNull members),
                as_priority (get_default "priority" (JStr "Medium") members),
                as_list_str (get_default "source_facts" (JArr []) members)
          with
          | Some tk', Some dl, Some pr, Some sf => Some (mk tk' dl pr sf)
          | _, _, _, _ => None
          end
      | None => None
      end
  | _ => None
  end.
End ToDo.

Module FollowUpEmail.
(** Modelled from the spec: the class [FollowUpEmail] of the missing
    [src3/models.py]; as in [src2/models.py]. *)
Record t : Type := mk {
  subject : string;
  body : string;
  source_facts : list string }.

(** The constructor call on the unpacked [data]: [subject] and
    [body] are required. *)
Definition of_json (data : json) : option t :=
  match data with
  | JObj members =>
      match get "subject" members, get "body" members with
      | Some sj, Some bd =>
          match as_str sj, as_str bd,
                as_list_str (get_default "source_facts" (JArr []) members)
          with
          | Some sj', Some bd', Some sf => Some (mk sj' bd' sf)
          | _, _, _ => None
          end
      | _, _ => None
      end
  | _ => None
  end.
End FollowUpEmail.

Module MeetingOutputs.
(** Modelled from the spec: the class [MeetingOutputs] of the missing
    [src3/models.py], the OutputBundle of section 3; as in
    [src2/models.py]. *)
Record t : Type := mk {
  summary : string;
  action_points : list ActionPoint.t;
  todos : list ToDo.t;
  follow_up_emails : list FollowUpEmail.t;
  total_facts_extracted : nat;
  total_facts_validated : nat;
  facts_discarded : nat }.
End MeetingOutputs.

(** The processing record that the stages thread ([GraphState]): a
    key that is not set yet is [None]. *)
Module State.
Record t : Type := mk {
  raw_transcript : option string;
  normalized_transcript : option string;
  extracted_facts : option ExtractedFacts.t;
  validated_facts : option ValidatedFacts.t;
  summary : option string;
  action_points : option (list ActionPoint.t);
  todos : option (list ToDo.t);
  follow_up_emails : option (list FollowUpEmail.t);
  outputs : option MeetingOutputs.t;
  compliance_passed : option bool;
  compliance_issues : option (list string);
  processing_started : option string;
  processing_completed : option string }.

(** [{**state, key: value}] for the keys that the stages set. *)
Definition set_extracted_facts (v : ExtractedFacts.t) (s : t) : t :=
  mk (raw_transcript s) (normalized_transcript s) (Some v)
     (validated_facts s) (summary s) (action_points s) (todos s)
     (follow_up_emails s) (outputs s) (compliance_passed s)
     (compliance_issues s) (processing_started s) (processing_completed s).

Definition set_validated_facts (v : ValidatedFacts.t) (s : t) : t :=
  mk (raw_transcript s) (normalized_transcript s) (extracted_facts s)
     (Some v) (summary s) (action_points s) (todos s)
     (follow_up_emails s) (outputs s) (compliance_passed s)
     (compliance_issues s) (processing_started s) (processing_completed s).

Definition set_todos (v : list ToDo.t) (s : t) : t :=
  mk (raw_transcript s) (normalized_transcript s) (extracted_facts s)
     (validated_facts s) (summary s) (action_points s) (Some v)
     (follow_up_emails s) (outputs s) (compliance_passed s)
     (compliance_issues s) (processing_started s) (processing_completed s).

Definition set_follow_up_emails (v : list FollowUpEmail.t) (s : t) : t :=
  mk (raw_transcript s) (normalized_transcript s) (extracted_facts s)
     (validated_facts s) (summary s) (action_points s) (todos s)
     (Some v) (outputs s) (compliance_passed s)
     (compliance_issues s) (processing_started s) (processing_completed s).

Definition set_outputs (v : MeetingOutputs.t) (s : t) : t :=
  mk (raw_transcript s) (normalized_transcript s) (extracted_facts s)
     (validated_facts s) (summary s) (action_points s) (todos s)
     (follow_up_emails s) (Some v) (compliance_passed s)
     (compliance_issues s) (processing_started s) (processing_completed s).

Definition set_compliance (passed : bool) (issues : list string) (s : t)
  : t :=
  mk (raw_transcript s) (normalized_transcript s) (extracted_facts s)
     (validated_facts s) (summary s) (action_points s) (todos s)
     (follow_up_emails s) (outputs s) (Some passed)
     (Some issues) (processing_started s) (processing_completed s).

End State.

End Models.

(* ===================================================================== *)
(** ** src3: the skills-enhanced pipeline (V9) *)
(* ===================================================================== *)

Module Src3.

(* ------------------------------------------------------------------- *)
(** *** nodes/extract_facts.py *)

Module ExtractFacts.
Import Py Json Models.

(** The [for item in data] loop of [_parse_fact_array]: an item that
    is not a dict is passed over, and so is one that the model
    constructor refuses. *)
Fixpoint facts_of_items (fact_type : string) (data : list json)
  : list ExtractedFact.t :=
  match data with
  | [] => []
  | item :: rest =>
      match item with
      | JObj members =>
          match ExtractedFact.new
                  (get_default "fact_type" (JStr fact_type) members)
                  (get_default "content" (JStr "") members)
                  (get_default "source_quote" (JStr "") members)
                  (get_default "confidence" (JStr "high") members)
                  (get_default "context" JNull members)
          with
          | Some fact => fact :: facts_of_items fact_type rest
          | None => facts_of_items fact_type rest
          end
      | _ => facts_of_items fact_type rest
      end
  end.

(** The text that [_parse_fact_array] hands to [json.loads]. *)
Definition clean_fact_array (content : string) : string :=
  let content := strip content in
  (* Remove markdown *)
  let content :=
    if contains "```" content then
      let parts := split "```" content in
      if (2 <=? List.length parts)%nat then
        let content := nth 1 parts "" in
        if startswith "json" content then drop 4 content else content
      else content
    else content in
  (* Extract array *)
  let content :=
    match find "[" content with
    | Some i => drop i content
    | None => content
    end in
  let content :=
    match rfind "]" content with
    | Some i => take (i + 1) content
    | None => content
    end in
  (* Clean *)
  let content := Re.sub_line_comments content in
  let content := Re.sub_block_comments content in
  let content := Re.sub_control content in
  let content := Re.sub_trailing_commas content in
  strip content.

(** [_parse_fact_array(content, fact_type)]; [None] when it raises. *)
Definition _parse_fact_array (content fact_type : string)
  : option (list ExtractedFact.t) :=
  let content := clean_fact_array content in
  if (content =? "") || (content =? "[]") then Some []
  else
    match loads content with
    | Some data =>
        match iterate data with
        | Some items => Some (facts_of_items fact_type items)
        | None => None
        end
    | None => None
    end.

Definition type_instructions : list (string * string) :=
  [ ("decision",
     "Extract DECISIONS - things that were decided/agreed upon. Must have finality words like 'decided', 'agreed', 'will', 'let's go with'.");
    ("action_item",
     "Extract ACTION ITEMS - things someone committed to do. Must have 'I will', 'X will', 'please', or action verbs. SKIP conditionals.");
    ("deadline",
     "Extract DEADLINES - explicit time references like 'Thursday', 'by noon', 'next Tuesday at 2pm', 'EOD Wednesday'.");
    ("metric",
     "Extract METRICS - explicit numbers like '$3.5M', '3 hours', '12 clients', '23%'.") ].

Fixpoint lookup (key : string) (table : list (string * string)) : string :=
  match table with
  | [] => ""
  | (k, v) :: rest => if String.eqb k key then v else lookup key rest
  end.

Definition quoted (s : string) : string := dq ++ s ++ dq.

Definition extract_prompt (transcript fact_type skill : string) : string :=
  "# SKILL INSTRUCTIONS
" ++ skill ++ "

# SPECIFIC TASK
" ++ lookup fact_type type_instructions ++ "

# TRANSCRIPT
" ++ transcript ++ "

# OUTPUT FORMAT
Return ONLY a valid JSON array. Each item must have:
- fact_type: " ++ quoted fact_type ++ "
- content: Brief description
- source_quote: EXACT quote from transcript
- confidence: " ++ quoted "high" ++ ", " ++ quoted "medium" ++ ", or "
  ++ quoted "low" ++ "

Example:
[{" ++ quoted "fact_type" ++ ": " ++ quoted fact_type ++ ", "
  ++ quoted "content" ++ ": " ++ quoted "description here" ++ ", "
  ++ quoted "source_quote" ++ ": " ++ quoted "exact words from transcript"
  ++ ", " ++ quoted "confidence" ++ ": " ++ quoted "high" ++ "}]

If no " ++ fact_type ++ "s found, return empty array: []

JSON array:".

(** The retry loop of [_extract_fact_type] over the attempt numbers
    still to come.  The result is [None] when the loop is left
    without a [return]; the function itself never raises. *)
Fixpoint extract_attempts (llm : Gen.generator) (prompt fact_type : string)
  (max_retries : nat) (attempts : list nat) (log : Gen.Log)
  : option (list ExtractedFact.t) * Gen.Log :=
  match attempts with
  | [] => (None, log)
  | attempt :: rest =>
      let (response, log1) := Gen.invoke llm prompt log in
      match match response with
            | Some content => _parse_fact_array content fact_type
            | None => None
            end
      with
      | Some facts => (Some facts, log1)
      | None =>
          if (attempt <? max_retries)%nat
          then extract_attempts llm prompt fact_type max_retries rest log1
          else (Some [], log1)
      end
  end.

Definition _extract_fact_type (transcript fact_type skill : string)
  (llm : Gen.generator) (log : Gen.Log)
  : option (list ExtractedFact.t) * Gen.Log :=
  let max_retries := 3 in
  extract_attempts llm (extract_prompt transcript fact_type skill)
    fact_type max_retries (seq 1 max_retries) log.

Section Node.

(** [load_skill(name)]: the text of the skill file, [None] when the
    file is missing ([FileNotFoundError]). *)
Variable load_skill : string -> option string.

(** [extract_facts(state, llm)]; [None] when it raises. *)
Definition extract_facts (state : State.t) (llm : Gen.generator)
  (log : Gen.Log) : option State.t * Gen.Log :=
  match State.normalized_transcript state, load_skill "EXTRACT_FACTS" with
  | Some transcript, Some skill =>
      let (decisions, log1) :=
        _extract_fact_type transcript "decision" skill llm log in
      let (action_items, log2) :=
        _extract_fact_type transcript "action_item" skill llm log1 in
      let (deadlines, log3) :=
        _extract_fact_type transcript "deadline" skill llm log2 in
      let (metrics, log4) :=
        _extract_fact_type transcript "metric" skill llm log3 in
      match decisions, action_items, deadlines, metrics with
      | Some d, Some a, Some dl, Some m =>
          let extracted := ExtractedFacts.mk d a [] dl m in
          (Some (State.set_extracted_facts extracted state), log4)
      | _, _, _, _ => (None, log4)
      end
  | _, _ => (None, log)
  end.

End Node.
End ExtractFacts.

(* ------------------------------------------------------------------- *)
(** *** nodes/validate_facts.py *)

Module ValidateFacts.
Import Py Json Models.

Definition conditional_patterns : list string :=
  [ " if it fails"; " if the test fails"; " if needed"; " might have to";
    " may need to"; " could be"; " would be"; " should consider" ].

Definition commitment_words : list string :=
  [ "will"; "going to"; "please"; "let's"; "'ll"; "send"; "run";
    "schedule"; "reach out"; "set up"; "ensure"; "upload" ].

Definition vague_only_phrases : list string :=
  [ "follow up"; "look into"; "think about"; "work on"; "check on" ].

(** [_validate_single_fact(fact)]: the pair [(is_valid, reason)]. *)
Definition _validate_single_fact (fact : ExtractedFact.t)
  : bool * option string :=
  let content := lower (ExtractedFact.content fact) in
  let source := lower (ExtractedFact.source_quote fact) in
  (* Rule 1: Must have source quote *)
  if negb (truthy (ExtractedFact.source_quote fact))
     || (String.length (ExtractedFact.source_quote fact) <? 5)%nat
  then (false, Some ("Missing source quote: "
                     ++ take 50 (ExtractedFact.content fact)))
  (* Rule 2: No conditional language *)
  else if existsb (fun pattern =>
                     contains pattern content || contains pattern source)
            conditional_patterns
  then (false, Some ("Conditional statement: "
                     ++ take 50 (ExtractedFact.content fact)))
  (* Rule 3: Must have commitment language for action items *)
  else if (fact_type_name (ExtractedFact.fact_type fact) =? "action_item")
          && negb (existsb (fun word => contains word source)
                     commitment_words)
  then (false, Some ("No clear commitment: "
                     ++ take 50 (ExtractedFact.content fact)))
  (* Rule 4: Must be specific enough *)
  else if existsb (fun phrase =>
                     (strip content =? phrase)
                     || (contains phrase content
                         && (String.length content <? 20)%nat))
            vague_only_phrases
  then (false, Some ("Too vague: "
                     ++ take 50 (ExtractedFact.content fact)))
  (* Rule 5: Low confidence facts are discarded *)
  else if confidence_name (ExtractedFact.confidence fact) =? "low"
  then (false, Some ("Low confidence: "
                     ++ take 50 (ExtractedFact.content fact)))
  else (true, None).

(** The record that the loop of [validate_facts] makes of a fact
    that passed. *)
Definition validated_of (fact : ExtractedFact.t) : ValidatedFact.t :=
  ValidatedFact.mk
    (fact_type_name (ExtractedFact.fact_type fact))
    (ExtractedFact.content fact)
    (ExtractedFact.source_quote fact)
    (confidence_name (ExtractedFact.confidence fact))
    true
    None.

(** The loop of [validate_facts]: the lists [validated], [discarded]
    and [discarded_reasons] after all facts. *)
Fixpoint validate_loop (all_facts : list ExtractedFact.t)
  : list ValidatedFact.t * list ExtractedFact.t * list (option string) :=
  match all_facts with
  | [] => ([], [], [])
  | fact :: rest =>
      let '(validated, discarded, discarded_reasons) :=
        validate_loop rest in
      let (is_valid, reason) := _validate_single_fact fact in
      if is_valid
      then (validated_of fact :: validated, discarded, discarded_reasons)
      else (validated, fact :: discarded, reason :: discarded_reasons)
  end.

(** A [List[str]] field refuses a [None] among its entries. *)
Fixpoint all_present (l : list (option string)) : option (list string) :=
  match l with
  | [] => Some []
  | Some s :: rest => option_map (cons s) (all_present rest)
  | None :: _ => None
  end.

Section Node.

Variable load_skill : string -> option string.

(** [validate_facts(state)]; [None] when it raises. *)
Definition validate_facts (state : State.t) : option State.t :=
  match State.extracted_facts state, load_skill "VALIDATE_FACTS" with
  | Some extracted, Some skill =>
      let all_facts :=
        (ExtractedFacts.decisions extracted
         ++ ExtractedFacts.action_items extracted
         ++ ExtractedFacts.deadlines extracted
         ++ ExtractedFacts.metrics extracted)%list in
      let '(validated, discarded, discarded_reasons) :=
        validate_loop all_facts in
      match all_present discarded_reasons with
      | Some reasons =>
          let result :=
            ValidatedFacts.mk validated (List.length discarded) reasons in
          Some (State.set_validated_facts result state)
      | None => None
      end
  | _, _ => None
  end.

End Node.
End ValidateFacts.

(* ------------------------------------------------------------------- *)
(** *** nodes/compliance_check.py *)

Module ComplianceCheck.
Import Py Json Models.

Definition unspecified_deadlines : list string :=
  [ "not specified"; "none"; "n/a" ].

(** The issues of the three loops of [compliance_check], in order. *)
Definition action_point_issues (ap : ActionPoint.t) : list string :=
  match ActionPoint.source_facts ap with
  | [] => [ "Action point missing source_facts: "
            ++ take 50 (ActionPoint.description ap) ]
  | _ => []
  end.

Definition todo_issues (td : ToDo.t) : list string :=
  let missing :=
    match ToDo.source_facts td with
    | [] => [ "Todo missing source_facts: " ++ take 50 (ToDo.task td) ]
    | _ => []
    end in
  let invalid :=
    match ToDo.deadline td with
    | Some d =>
        if truthy d && mem (lower d) unspecified_deadlines
        then [ "Todo has invalid deadline format: " ++ d ]
        else []
    | None => []
    end in
  (missing ++ invalid)%list.

Definition email_issues (email : FollowUpEmail.t) : list string :=
  if contains "[" (FollowUpEmail.body email)
     && contains "]" (FollowUpEmail.body email)
  then [ "Email contains placeholders" ]
  else [].

Definition compliance_check (state : State.t) : State.t :=
  match State.outputs state, State.validated_facts state with
  | Some outputs, Some validated =>
      let issues :=
        (flat_map action_point_issues (MeetingOutputs.action_points outputs)
         ++ flat_map todo_issues (MeetingOutputs.todos outputs)
         ++ flat_map email_issues (MeetingOutputs.follow_up_emails outputs)
        )%list in
      let compliance_passed := (List.length issues =? 0)%nat in
      State.set_compliance compliance_passed issues state
  | _, _ =>
      State.set_compliance false
        [ "Missing outputs or validated facts" ] state
  end.

End ComplianceCheck.

(* ------------------------------------------------------------------- *)
(** *** nodes/generate_todos.py *)

Module GenerateTodos.
Import Py Json Models.

Definition absent_deadlines : list string :=
  [ "not specified"; "none"; "n/a"; "tbd"; "null" ].

Definition task_verbs : list string :=
  [ "run"; "send"; "schedule"; "reach"; "upload"; "complete"; "review" ].

(** The body of the loop of [_fix_common_issues]. *)
Definition fix_todo (todo : ToDo.t) : ToDo.t :=
  (* Fix "Not specified" -> None *)
  let todo :=
    match ToDo.deadline todo with
    | Some d =>
        if truthy d && mem (lower d) absent_deadlines
        then ToDo.mk (ToDo.task todo) None (ToDo.priority todo)
               (ToDo.source_facts todo)
        else todo
    | None => todo
    end in
  (* Fix deadline that looks like a task *)
  match ToDo.deadline todo with
  | Some d =>
      if truthy d then
        if existsb (fun verb => contains verb (lower d)) task_verbs
        then ToDo.mk (ToDo.task todo) None (ToDo.priority todo)
               (ToDo.source_facts todo)
        else todo
      else todo
  | None => todo
  end.

Definition _fix_common_issues (todos : list ToDo.t) : list ToDo.t :=
  map fix_todo todos.

Definition conditional_issue (td : ToDo.t) : list string :=
  if existsb (fun word => contains word (lower (ToDo.task td)))
       [ " if "; " might "; " may " ]
  then [ "Contains conditional: '" ++ ToDo.task td
         ++ "' - remove conditionals" ]
  else [].

Definition index_issue (sf : string) : list string :=
  if isdigit sf || mem sf [ "1"; "2"; "3"; "4"; "5" ]
  then [ "source_facts contains index '" ++ sf
         ++ "' - use actual fact text" ]
  else [].

(** [_validate_todos(todos)]: the issues, in order. *)
Definition _validate_todos (todos : list ToDo.t) : list string :=
  let tasks := map (fun td => strip (lower (ToDo.task td))) todos in
  let duplicates :=
    if negb (List.length tasks =? List.length (dedupe tasks))%nat
    then [ "Contains duplicate todos - remove duplicates" ]
    else [] in
  (duplicates
   ++ flat_map conditional_issue todos
   ++ flat_map (fun td => flat_map index_issue (ToDo.source_facts td)) todos
  )%list.

(** [_clean_json(content)]. *)
Definition _clean_json (content : string) : string :=
  let content := strip content in
  let content :=
    if contains "```" content then
      let parts := split "```" content in
      if (2 <=? List.length parts)%nat then
        let content := nth 1 parts "" in
        if startswith "json" content then drop 4 content else content
      else content
    else content in
  let content :=
    match find "[" content with
    | Some i => drop i content
    | None => content
    end in
  let content :=
    match rfind "]" content with
    | Some i => take (i + 1) content
    | None => content
    end in
  let content := Re.sub_line_comments content in
  let content := Re.sub_block_comments content in
  let content := Re.sub_control content in
  let content := Re.sub_trailing_commas content in
  strip content.

(** One pass of the loop that removes repeated [source_facts]: the item
    after it, [None] when the pass raises on the item. *)
Definition dedupe_item (item : json) : option json :=
  match item with
  | JObj members =>
      match get "source_facts" members with
      | Some v =>
          match fromkeys_list v with
          | Some v' => Some (JObj (set "source_facts" v' members))
          | None => None
          end
      | None => Some item
      end
  | JStr s => if contains "source_facts" s then None else Some item
  | JArr l =>
      if existsb (fun v => match v with
                           | JStr s => s =? "source_facts"
                           | _ => false
                           end) l
      then None else Some item
  | JNull | JBool _ | JNum _ => None
  end.

Fixpoint traverse {A B : Type} (f : A -> option B) (l : list A)
  : option (list B) :=
  match l with
  | [] => Some []
  | x :: rest =>
      match f x with
      | Some y => option_map (cons y) (traverse f rest)
      | None => None
      end
  end.

(** The statements of the [try] block between the generator call and
    the repair: the to-dos as the constructor builds them from the
    cleaned and parsed response, before [_fix_common_issues] sees them;
    [None] when one of the statements raises. *)
Definition parsed_todos (response : string) : option (list ToDo.t) :=
  let content := _clean_json response in
  match loads content with
  | Some data =>
      match iterate data with
      | Some items =>
          match traverse dedupe_item items with
          | Some data' => traverse ToDo.of_json data'
          | None => None
          end
      | None => None
      end
  | None => None
  end.

(** The statements of the [try] block between the generator call and
    the validation: the repaired to-dos of a response, [None] when one
    of the statements raises. *)
Definition todos_of_response (response : string) : option (list ToDo.t) :=
  let content := _clean_json response in
  match loads content with
  | Some data =>
      match iterate data with
      | Some items =>
          match traverse dedupe_item items with
          | Some data' =>
              match traverse ToDo.of_json data' with
              | Some todos => Some (_fix_common_issues todos)
              | None => None
              end
          | None => None
          end
      | None => None
      end
  | None => None
  end.

(** [f"{i+1}. {x}"] for the entries of a list, [i] counting from
    [start]. *)
Fixpoint numbered (start : nat) (l : list string) : list string :=
  match l with
  | [] => []
  | x :: rest => (str_of_nat (start + 1) ++ ". " ++ x) :: numbered (S start) rest
  end.

Definition quoted (s : string) : string := dq ++ s ++ dq.

Definition todos_prompt (skill facts_text : string) : string :=
  "# SKILL INSTRUCTIONS
" ++ skill ++ "

# VALIDATED FACTS
" ++ facts_text ++ "

# OUTPUT FORMAT
Return ONLY a valid JSON array. Maximum 5 to-dos.
Match action items with deadlines where applicable.
Use JSON null for missing deadlines (NOT " ++ quoted "Not specified" ++ ").

[{" ++ quoted "task" ++ ": " ++ quoted "Specific task here" ++ ", "
  ++ quoted "deadline" ++ ": null, " ++ quoted "priority" ++ ": "
  ++ quoted "High" ++ ", " ++ quoted "source_facts" ++ ": ["
  ++ quoted "exact fact text" ++ "]}]

JSON array:".

Definition with_feedback (prompt feedback : string) : string :=
  if truthy feedback
  then prompt ++ nl ++ nl ++ "PREVIOUS ATTEMPT FEEDBACK:" ++ nl ++ feedback
       ++ nl ++ "FIX THESE ISSUES!"
  else prompt.

Section Node.

Variable load_skill : string -> option string.

(** [str(e)] of the exception caught after the generator calls of a
    log; the text is made by the library that raises. *)
Variable exn_text : Gen.Log -> string.

(** The retry loop of [generate_todos] over the attempt numbers still
    to come: the value of the [todos] key, [None] when the loop is left
    without a [return]. *)
Fixpoint todo_attempts (llm : Gen.generator) (prompt : string)
  (max_retries : nat) (attempts : list nat) (feedback : string)
  (log : Gen.Log) : option (list ToDo.t) * Gen.Log :=
  match attempts with
  | [] => (None, log)
  | attempt :: rest =>
      let prompt_with_feedback := with_feedback prompt feedback in
      let (response, log1) := Gen.invoke llm prompt_with_feedback log in
      match match response with
            | Some content => todos_of_response content
            | None => None
            end
      with
      | Some todos =>
          let issues := _validate_todos todos in
          match issues with
          | _ :: _ =>
              if (attempt <? max_retries)%nat
              then todo_attempts llm prompt max_retries rest
                     (join nl issues) log1
              else (Some todos, log1)
          | [] => (Some todos, log1)
          end
      | None =>
          if (attempt <? max_retries)%nat
          then todo_attempts llm prompt max_retries rest
                 ("JSON parsing error: " ++ exn_text log1) log1
          else (Some [], log1)
      end
  end.

(** [generate_todos(state, llm)]; [None] when no state is returned. *)
Definition generate_todos (state : State.t) (llm : Gen.generator)
  (log : Gen.Log) : option State.t * Gen.Log :=
  match State.validated_facts state, load_skill "GENERATE_TODOS" with
  | Some validated, Some skill =>
      let action_facts :=
        filter (fun f => ValidatedFact.fact_type f =? "action_item")
          (ValidatedFacts.facts validated) in
      let deadline_facts :=
        filter (fun f => ValidatedFact.fact_type f =? "deadline")
          (ValidatedFacts.facts validated) in
      match action_facts with
      | [] => (Some (State.set_todos [] state), log)
      | _ :: _ =>
          let facts_text :=
            "ACTION ITEMS:" ++ nl
            ++ join nl (numbered 0 (map ValidatedFact.content action_facts)) in
          let facts_text :=
            match deadline_facts with
            | _ :: _ =>
                facts_text ++ nl ++ nl ++ "DEADLINES:" ++ nl
                ++ join nl
                     (numbered 0 (map ValidatedFact.content deadline_facts))
            | [] => facts_text
            end in
          let prompt := todos_prompt skill facts_text in
          let max_retries := 3 in
          let (todos, log1) :=
            todo_attempts llm prompt max_retries (seq 1 max_retries) "" log in
          match todos with
          | Some tds => (Some (State.set_todos tds state), log1)
          | None => (None, log1)
          end
      end
  | _, _ => (None, log)
  end.

End Node.
End GenerateTodos.

(* ------------------------------------------------------------------- *)
(** *** nodes/generate_email.py *)

Module GenerateEmail.
Import Py Json Models.

Definition placeholders : list string :=
  [ "[your name]"; "[recipient]"; "[date]"; "[name]"; "[company]" ].

(** [_validate_email(email)]: the issues, in order. *)
Definition _validate_email (email : FollowUpEmail.t) : list string :=
  let body_lower := lower (FollowUpEmail.body email) in
  let placeholder_issues :=
    flat_map (fun ph =>
                if contains ph body_lower
                then [ "Contains placeholder: " ++ ph
                       ++ " - remove all placeholders" ]
                else [])
      placeholders in
  let conditional_issues :=
    if existsb (fun word => contains word body_lower)
         [ " if "; " might "; " may " ]
    then [ "Contains conditional language - remove conditionals" ]
    else [] in
  let word_count := List.length (words (FollowUpEmail.body email)) in
  let short_issues :=
    if (word_count <? 50)%nat
    then [ "Too short (" ++ str_of_nat word_count
           ++ " words) - need at least 50 words" ]
    else [] in
  let long_issues :=
    if (300 <? word_count)%nat
    then [ "Too long (" ++ str_of_nat word_count
           ++ " words) - keep under 200 words" ]
    else [] in
  (placeholder_issues ++ conditional_issues ++ short_issues ++ long_issues)%list.

(** [_clean_json(content)]. *)
Definition _clean_json (content : string) : string :=
  let content := strip content in
  (* Remove markdown code blocks *)
  let content :=
    if contains "```" content then
      let parts := split "```" content in
      if (2 <=? List.length parts)%nat then
        let content := nth 1 parts "" in
        let content :=
          if startswith "json" content then drop 4 content else content in
        strip content
      else content
    else content in
  (* Extract JSON object *)
  let content :=
    match find "{" content with
    | Some i => drop i content
    | None => content
    end in
  let content :=
    match rfind "}" content with
    | Some i => take (i + 1) content
    | None => content
    end in
  (* Remove comments *)
  let content := Re.sub_line_comments content in
  let content := Re.sub_block_comments content in
  (* Remove ALL control characters *)
  let content := Re.sub_control_space content in
  (* Fix common JSON issues *)
  let content := Re.sub_trailing_commas content in
  let content := Re.sub_spaces content in
  (* Fix unescaped newlines in strings *)
  let content := Re.fix_strings content in
  strip content.

(** The clean-up of the email body. *)
Definition clean_body (body : string) : string :=
  let body := Re.sub_newlines body in
  let body := Re.sub_blanks body in
  let body := replace " - " (nl ++ "- ") body in
  let body := replace "Best regards" (nl ++ nl ++ "Best regards") body in
  strip body.

(** The statements of the [try] block between the generator call and
    the validation: the email of a response, [None] when one of the
    statements raises. *)
Definition email_of_response (response : string) : option FollowUpEmail.t :=
  let content := _clean_json response in
  match loads content with
  | Some (JObj members) =>
      (* Clean up email body *)
      let cleaned :=
        match get "body" members with
        | Some (JStr body) => Some (set "body" (JStr (clean_body body)) members)
        | Some _ => None
        | None => Some members
        end in
      match cleaned with
      | Some members1 =>
          (* Remove duplicate source_facts *)
          let deduped :=
            match get "source_facts" members1 with
            | Some v =>
                match fromkeys_list v with
                | Some v' => Some (set "source_facts" v' members1)
                | None => None
                end
            | None => Some members1
            end in
          match deduped with
          | Some members2 => FollowUpEmail.of_json (JObj members2)
          | None => None
          end
      | None => None
      end
  | Some _ => None
  | None => None
  end.

(** [f"{i+1}. [{f.fact_type.upper()}] {f.content}"], [i] counting from
    [start]. *)
Fixpoint numbered_facts (start : nat) (l : list ValidatedFact.t) : list string :=
  match l with
  | [] => []
  | f :: rest =>
      (str_of_nat (start + 1) ++ ". [" ++ upper (ValidatedFact.fact_type f)
       ++ "] " ++ ValidatedFact.content f)
      :: numbered_facts (S start) rest
  end.

Definition quoted (s : string) : string := dq ++ s ++ dq.

Definition email_prompt (skill facts_text : string) : string :=
  "# SKILL INSTRUCTIONS
" ++ skill ++ "

# VALIDATED FACTS
" ++ facts_text ++ "

# OUTPUT FORMAT
Return a JSON object with subject, body, and source_facts.
Keep the body simple - no special characters or line breaks.
No placeholders like [Your Name].

Example format:
{" ++ quoted "subject" ++ ": " ++ quoted "Meeting Follow-Up" ++ ", "
  ++ quoted "body" ++ ": "
  ++ quoted "Following up on our meeting. Key items: Item 1. Item 2. Best regards"
  ++ ", " ++ quoted "source_facts" ++ ": [" ++ quoted "fact 1" ++ ", "
  ++ quoted "fact 2" ++ "]}

JSON:".

Definition with_feedback (prompt feedback : string) : string :=
  if truthy feedback
  then prompt ++ nl ++ nl ++ "PREVIOUS ATTEMPT FEEDBACK:" ++ nl ++ feedback
       ++ nl ++ "FIX THESE ISSUES!"
  else prompt.

(** The fallback email of the last [except] branch. *)
Definition fallback_email (relevant_facts : list ValidatedFact.t)
  : FollowUpEmail.t :=
  let facts_list := map ValidatedFact.content (firstn 5 relevant_facts) in
  let fallback_body :=
    "Following up on our meeting discussion:" ++ nl ++ nl
    ++ "Key items:" ++ nl in
  let fallback_body :=
    fold_left (fun acc fact => acc ++ "- " ++ fact ++ nl) facts_list
      fallback_body in
  let fallback_body :=
    fallback_body ++ nl ++ "Please let me know if you have any questions."
    ++ nl ++ nl ++ "Best regards" in
  FollowUpEmail.mk "Meeting Follow-Up - Action Items" fallback_body facts_list.

Section Node.

Variable load_skill : string -> option string.

(** [str(e)] of the exception caught after the generator calls of a
    log; the text is made by the library that raises. *)
Variable exn_text : Gen.Log -> string.

(** The retry loop of [generate_email] over the attempt numbers still
    to come: the value of the [follow_up_emails] key, [None] when the
    loop is left without a [return]. *)
Fixpoint email_attempts (llm : Gen.generator) (prompt : string)
  (relevant_facts : list ValidatedFact.t)
  (max_retries : nat) (attempts : list nat) (feedback : string)
  (log : Gen.Log) : option (list FollowUpEmail.t) * Gen.Log :=
  match attempts with
  | [] => (None, log)
  | attempt :: rest =>
      let prompt_with_feedback := with_feedback prompt feedback in
      let (response, log1) := Gen.invoke llm prompt_with_feedback log in
      match match response with
            | Some content => email_of_response content
            | None => None
            end
      with
      | Some email =>
          let issues := _validate_email email in
          match issues with
          | _ :: _ =>
              if (attempt <? max_retries)%nat
              then email_attempts llm prompt relevant_facts max_retries rest
                     (join nl issues) log1
              else (Some [email], log1)
          | [] => (Some [email], log1)
          end
      | None =>
          if (attempt <? max_retries)%nat
          then email_attempts llm prompt relevant_facts max_retries rest
                 ("JSON parsing error: " ++ exn_text log1) log1
          else (Some [fallback_email relevant_facts], log1)
      end
  end.

Definition relevant_types : list string :=
  [ "decision"; "action_item"; "deadline" ].

(** [generate_email(state, llm)]; [None] when no state is returned. *)
Definition generate_email (state : State.t) (llm : Gen.generator)
  (log : Gen.Log) : option State.t * Gen.Log :=
  match State.validated_facts state, load_skill "GENERATE_EMAIL" with
  | Some validated, Some skill =>
      let relevant_facts :=
        filter (fun f => mem (ValidatedFact.fact_type f) relevant_types)
          (ValidatedFacts.facts validated) in
      match relevant_facts with
      | [] => (Some (State.set_follow_up_emails [] state), log)
      | _ :: _ =>
          let facts_text := join nl (numbered_facts 0 relevant_facts) in
          let prompt := email_prompt skill facts_text in
          let max_retries := 3 in
          let (emails, log1) :=
            email_attempts llm prompt relevant_facts max_retries
              (seq 1 max_retries) "" log in
          match emails with
          | Some ems => (Some (State.set_follow_up_emails ems state), log1)
          | None => (None, log1)
          end
      end
  | _, _ => (None, log)
  end.

End Node.
End GenerateEmail.

(* ------------------------------------------------------------------- *)
(** *** nodes/normalize.py *)

Module Normalize.
Import Py Json Models.

(** The alternatives of the filler pattern. *)
Definition fillers : list string :=
  [ "um"; "uh"; "er"; "ah"; "like,"; "you know,"; "basically,";
    "actually,"; "literally," ].

(** The text that [normalize_transcript] makes of a transcript. *)
Definition normalize_text (transcript : string) : string :=
  (* Remove common filler words *)
  let normalized := ReWords.sub_words fillers transcript in
  let normalized := Re.sub_spaces normalized in
  (* Clean up any double spaces created *)
  let normalized := ReWords.sub_space_runs normalized in
  strip normalized.

(** [{**state, "normalized_transcript": v}]. *)
Definition set_normalized_transcript (v : string) (s : State.t) : State.t :=
  State.mk (State.raw_transcript s) (Some v) (State.extracted_facts s)
    (State.validated_facts s) (State.summary s) (State.action_points s)
    (State.todos s) (State.follow_up_emails s) (State.outputs s)
    (State.compliance_passed s) (State.compliance_issues s)
    (State.processing_started s) (State.processing_completed s).

(** [normalize_transcript(state)]; [None] when it raises. *)
Definition normalize_transcript (state : State.t) : option State.t :=
  match State.raw_transcript state with
  | Some transcript =>
      Some (set_normalized_transcript (normalize_text transcript) state)
  | None => None
  end.

End Normalize.

(* ------------------------------------------------------------------- *)
(** *** nodes/generate_summary.py *)

Module GenerateSummary.
Import Py Json Models.

Definition labels : list string :=
  [ "Summary:"; "SUMMARY:"; "summary:";
    "Here is the summary:"; "Here is a summary:";
    "Here is a 40-80 word summary:";
    "Here is a 2-4 sentence summary:";
    "Based on the facts:"; "Based on the validated facts:" ].

(** The loop of [_clean_summary] over the labels. *)
Fixpoint remove_labels (labels : list string) (text : string) : string :=
  match labels with
  | [] => text
  | label :: rest =>
      if startswith (lower label) (lower text)
      then remove_labels rest (strip (drop (String.length label) text))
      else remove_labels rest text
  end.

(** [_clean_summary(text)]. *)
Definition _clean_summary (text : string) : string :=
  let text := strip text in
  (* Remove common labels *)
  let text := remove_labels labels text in
  (* Normalize whitespace *)
  strip (Re.sub_spaces text).

(** [f"{i}. [{fact.fact_type.upper()}] {fact.content}"], [i] counting
    from [start]; [upper] is exact on the category names, which are the
    fact types that the validators write. *)
Fixpoint formatted (start : nat) (facts : list ValidatedFact.t) : list string :=
  match facts with
  | [] => []
  | fact :: rest =>
      (str_of_nat start ++ ". [" ++ upper (ValidatedFact.fact_type fact)
       ++ "] " ++ ValidatedFact.content fact)
      :: formatted (S start) rest
  end.

(** [_format_facts(facts)]. *)
Definition _format_facts (facts : list ValidatedFact.t) : string :=
  match facts with
  | [] => "No facts available"
  | _ :: _ => join nl (formatted 1 facts)
  end.

Definition quoted (s : string) : string := dq ++ s ++ dq.

Definition summary_prompt (skill facts_text : string) : string :=
  "# SKILL INSTRUCTIONS
" ++ skill ++ "

# VALIDATED FACTS TO SUMMARIZE
" ++ facts_text ++ "

# OUTPUT
Generate ONLY the summary text. No labels, no formatting, no "
  ++ quoted "Here is..." ++ ".
Target: 40-80 words, 2-4 sentences.

Summary:".

Definition with_feedback (prompt feedback : string) : string :=
  if truthy feedback
  then prompt ++ nl ++ nl ++ "PREVIOUS ATTEMPT FEEDBACK:" ++ nl ++ feedback
       ++ nl ++ "FIX THESE ISSUES!"
  else prompt.

(** The fallback summary of the last [except] branch. *)
Definition fallback_summary (facts : list ValidatedFact.t) : string :=
  let fact_summaries := map ValidatedFact.content (firstn 5 facts) in
  match fact_summaries with
  | [] => "No summary available."
  | _ :: _ => join ". " fact_summaries
  end.

(** The retry loop of [generate_summary] over the attempt numbers still
    to come: the value of the [summary] key, [None] when the loop is
    left without a [return]. *)
Fixpoint summary_attempts (llm : Gen.generator) (prompt : string)
  (facts : list ValidatedFact.t) (max_retries : nat) (attempts : list nat)
  (feedback : string) (log : Gen.Log) : option string * Gen.Log :=
  match attempts with
  | [] => (None, log)
  | attempt :: rest =>
      let prompt_with_feedback := with_feedback prompt feedback in
      let (response, log1) := Gen.invoke llm prompt_with_feedback log in
      match response with
      | Some content =>
          let summary := _clean_summary content in
          let word_count := List.length (words summary) in
          if (word_count <? 30)%nat && (attempt <? max_retries)%nat
          then summary_attempts llm prompt facts max_retries rest
                 ("Too short (" ++ str_of_nat word_count
                  ++ " words). Need at least 40 words.") log1
          else (Some summary, log1)
      | None =>
          if (attempt <? max_retries)%nat
          then summary_attempts llm prompt facts max_retries rest
                 feedback log1
          else (Some (fallback_summary facts), log1)
      end
  end.

(** [{**state, "summary": v}]. *)
Definition set_summary (v : string) (s : State.t) : State.t :=
  State.mk (State.raw_transcript s) (State.normalized_transcript s)
    (State.extracted_facts s) (State.validated_facts s) (Some v)
    (State.action_points s) (State.todos s) (State.follow_up_emails s)
    (State.outputs s) (State.compliance_passed s) (State.compliance_issues s)
    (State.processing_started s) (State.processing_completed s).

Section Node.

Variable load_skill : string -> option string.

(** [generate_summary(state, llm)]; [None] when no state is returned. *)
Definition generate_summary (state : State.t) (llm : Gen.generator)
  (log : Gen.Log) : option State.t * Gen.Log :=
  match State.validated_facts state, load_skill "GENERATE_SUMMARY" with
  | Some validated, Some skill =>
      let facts_text := _format_facts (ValidatedFacts.facts validated) in
      let prompt := summary_prompt skill facts_text in
      let max_retries := 3 in
      let (summary, log1) :=
        summary_attempts llm prompt (ValidatedFacts.facts validated)
          max_retries (seq 1 max_retries) "" log in
      match summary with
      | Some text => (Some (set_summary text state), log1)
      | None => (None, log1)
      end
  | _, _ => (None, log)
  end.

End Node.
End GenerateSummary.

(* ------------------------------------------------------------------- *)
(** *** nodes/generate_action_points.py *)

Module GenerateActionPoints.
Import Py Json Models.

(** The constructor call of [ActionPoint] on the unpacked [ap], which
    has to be a mapping: [description] is required, the other fields
    have defaults. *)
Definition action_point_of_json (ap : json) : option ActionPoint.t :=
  match ap with
  | JObj members =>
      match get "description" members with
      | Some ds =>
          match as_str ds,
                as_priority (get_default "priority" (JStr "Medium") members),
                as_list_str (get_default "source_facts" (JArr []) members)
          with
          | Some ds', Some pr, Some sf => Some (ActionPoint.mk ds' pr sf)
          | _, _, _ => None
          end
      | None => None
      end
  | _ => None
  end.

Definition conditional_issue (ap : ActionPoint.t) : list string :=
  if existsb (fun word => contains word (lower (ActionPoint.description ap)))
       [ " if "; " might "; " may " ]
  then [ "Contains conditional: '" ++ ActionPoint.description ap
         ++ "' - remove conditionals" ]
  else [].

Definition index_issue (sf : string) : list string :=
  if isdigit sf || mem sf [ "1"; "2"; "3"; "4"; "5" ]
  then [ "source_facts contains index '" ++ sf
         ++ "' - use actual fact text" ]
  else [].

(** [_validate_action_points(action_points)]: the issues, in order. *)
Definition _validate_action_points (action_points : list ActionPoint.t)
  : list string :=
  let descriptions :=
    map (fun ap => strip (lower (ActionPoint.description ap))) action_points in
  let duplicates :=
    if negb (List.length descriptions =? List.length (dedupe descriptions))%nat
    then [ "Contains duplicate action points - group related items" ]
    else [] in
  (duplicates
   ++ flat_map conditional_issue action_points
   ++ flat_map (fun ap => flat_map index_issue (ActionPoint.source_facts ap))
        action_points
  )%list.

(** [_clean_json(content)]. *)
Definition _clean_json (content : string) : string :=
  let content := strip content in
  let content :=
    if contains "```" content then
      let parts := split "```" content in
      if (2 <=? List.length parts)%nat then
        let content := nth 1 parts "" in
        if startswith "json" content then drop 4 content else content
      else content
    else content in
  let content :=
    match find "[" content with
    | Some i => drop i content
    | None => content
    end in
  let content :=
    match rfind "]" content with
    | Some i => take (i + 1) content
    | None => content
    end in
  let content := Re.sub_line_comments content in
  let content := Re.sub_block_comments content in
  let content := Re.sub_control content in
  let content := Re.sub_trailing_commas content in
  strip content.

(** The statements of the [try] block between the generator call and
    the validation: the action points of a response, [None] when one of
    the statements raises. *)
Definition action_points_of_response (response : string)
  : option (list ActionPoint.t) :=
  let content := _clean_json response in
  match loads content with
  | Some data =>
      match iterate data with
      | Some items =>
          match GenerateTodos.traverse GenerateTodos.dedupe_item items with
          | Some data' => GenerateTodos.traverse action_point_of_json data'
          | None => None
          end
      | None => None
      end
  | None => None
  end.

Definition quoted (s : string) : string := dq ++ s ++ dq.

Definition action_points_prompt (skill facts_text : string) : string :=
  "# SKILL INSTRUCTIONS
" ++ skill ++ "

# VALIDATED FACTS
" ++ facts_text ++ "

# OUTPUT FORMAT
Return ONLY a valid JSON array. Maximum 4 action points.
Group related facts into single action points.

[{" ++ quoted "description" ++ ": " ++ quoted "Strategic goal here" ++ ", "
  ++ quoted "priority" ++ ": " ++ quoted "High" ++ ", "
  ++ quoted "source_facts" ++ ": [" ++ quoted "exact fact text 1" ++ ", "
  ++ quoted "exact fact text 2" ++ "]}]

JSON array:".

Definition with_feedback (prompt feedback : string) : string :=
  if truthy feedback
  then prompt ++ nl ++ nl ++ "PREVIOUS ATTEMPT FEEDBACK:" ++ nl ++ feedback
       ++ nl ++ "FIX THESE ISSUES!"
  else prompt.

(** [{**state, "action_points": v}]. *)
Definition set_action_points (v : list ActionPoint.t) (s : State.t) : State.t :=
  State.mk (State.raw_transcript s) (State.normalized_transcript s)
    (State.extracted_facts s) (State.validated_facts s) (State.summary s)
    (Some v) (State.todos s) (State.follow_up_emails s)
    (State.outputs s) (State.compliance_passed s) (State.compliance_issues s)
    (State.processing_started s) (State.processing_completed s).

Definition relevant_types : list string := [ "decision"; "action_item" ].

Section Node.

Variable load_skill : string -> option string.

(** [str(e)] of the exception caught after the generator calls of a
    log; the text is made by the library that raises. *)
Variable exn_text : Gen.Log -> string.

(** The retry loop of [generate_action_points] over the attempt numbers
    still to come: the value of the [action_points] key, [None] when
    the loop is left without a [return]. *)
Fixpoint action_point_attempts (llm : Gen.generator) (prompt : string)
  (max_retries : nat) (attempts : list nat) (feedback : string)
  (log : Gen.Log) : option (list ActionPoint.t) * Gen.Log :=
  match attempts with
  | [] => (None, log)
  | attempt :: rest =>
      let prompt_with_feedback := with_feedback prompt feedback in
      let (response, log1) := Gen.invoke llm prompt_with_feedback log in
      match match response with
            | Some content => action_points_of_response content
            | None => None
            end
      with
      | Some action_points =>
          let issues := _validate_action_points action_points in
          match issues with
          | _ :: _ =>
              if (attempt <? max_retries)%nat
              then action_point_attempts llm prompt max_retries rest
                     (join nl issues) log1
              else (Some action_points, log1)
          | [] => (Some action_points, log1)
          end
      | None =>
          if (attempt <? max_retries)%nat
          then action_point_attempts llm prompt max_retries rest
                 ("JSON parsing error: " ++ exn_text log1) log1
          else (Some [], log1)
      end
  end.

(** [generate_action_points(state, llm)]; [None] when no state is
    returned. *)
Definition generate_action_points (state : State.t) (llm : Gen.generator)
  (log : Gen.Log) : option State.t * Gen.Log :=
  match State.validated_facts state,
        load_skill "GENERATE_ACTION_POINTS" with
  | Some validated, Some skill =>
      let relevant_facts :=
        filter (fun f => mem (ValidatedFact.fact_type f) relevant_types)
          (ValidatedFacts.facts validated) in
      match relevant_facts with
      | [] => (Some (set_action_points [] state), log)
      | _ :: _ =>
          let facts_text :=
            join nl (GenerateTodos.numbered 0
                       (map ValidatedFact.content relevant_facts)) in
          let prompt := action_points_prompt skill facts_text in
          let max_retries := 3 in
          let (action_points, log1) :=
            action_point_attempts llm prompt max_retries (seq 1 max_retries)
              "" log in
          match action_points with
          | Some aps => (Some (set_action_points aps state), log1)
          | None => (None, log1)
          end
      end
  | _, _ => (None, log)
  end.

End Node.
End GenerateActionPoints.

End Src3.

(* ===================================================================== *)
(** ** src2: the fact-first pipeline (V8) *)
(* ===================================================================== *)

Module Src2.

(* ------------------------------------------------------------------- *)
(** *** nodes/validate_facts.py *)

Module ValidateFacts.
Import Py Json Models.

Definition generic_phrases : list string :=
  [ "discuss"; "talk about"; "look into"; "follow up" ].

Definition commitment_words : list string :=
  [ "will"; "going to"; "need to"; "must"; "should"; "please"; "send me" ].

Definition imperative_verbs : list string :=
  [ "send"; "run"; "reach"; "ensure"; "schedule"; "set up"; "get"; "provide" ].

(** The body of the loop of [validate_facts] on one fact: the reason
    that is appended to [discarded] when a rule sends the loop on to the
    next fact, [None] when the fact reaches the end of the body. *)
Definition discard_reason (fact : ExtractedFact.t) : option string :=
  (* Rule 1: Discard low-confidence facts without clear commitment *)
  if (confidence_name (ExtractedFact.confidence fact) =? "low")
     && mem (fact_type_name (ExtractedFact.fact_type fact))
          [ "decision"; "action_item" ]
  then Some ("Low confidence "
             ++ fact_type_name (ExtractedFact.fact_type fact) ++ ": "
             ++ take 50 (ExtractedFact.content fact))
  (* Rule 2: Discard facts with very short source quotes *)
  else if (List.length (words (ExtractedFact.source_quote fact)) <? 3)%nat
  then Some ("Vague source quote: " ++ take 50 (ExtractedFact.content fact))
  (* Rule 3: Discard facts with generic content *)
  else if existsb (fun phrase =>
                     contains phrase (lower (ExtractedFact.content fact)))
            generic_phrases
          && negb (confidence_name (ExtractedFact.confidence fact) =? "high")
  then Some ("Generic content: " ++ take 50 (ExtractedFact.content fact))
  (* Rule 4: Validate action items have clear commitment *)
  else if (fact_type_name (ExtractedFact.fact_type fact) =? "action_item")
          && (let source_lower := lower (ExtractedFact.source_quote fact) in
              negb (existsb (fun word => contains word source_lower)
                      commitment_words)
              && negb (existsb (fun verb => contains verb source_lower)
                         imperative_verbs))
  then Some ("No clear commitment: " ++ take 50 (ExtractedFact.content fact))
  else None.

(** The record appended to [validated_list] for a fact that passed. *)
Definition validated_of (fact : ExtractedFact.t) : ValidatedFact.t :=
  ValidatedFact.mk
    (fact_type_name (ExtractedFact.fact_type fact))
    (ExtractedFact.content fact)
    (ExtractedFact.source_quote fact)
    (confidence_name (ExtractedFact.confidence fact))
    true
    (Some "Passed all validation rules").

(** The loop of [validate_facts]: [validated_list] and [discarded]
    after all facts. *)
Fixpoint validate_loop (all_facts : list ExtractedFact.t)
  : list ValidatedFact.t * list string :=
  match all_facts with
  | [] => ([], [])
  | fact :: rest =>
      let (validated_list, discarded) := validate_loop rest in
      match discard_reason fact with
      | Some reason => (validated_list, reason :: discarded)
      | None => (validated_of fact :: validated_list, discarded)
      end
  end.

(** [validate_facts(state)]; [None] when it raises. *)
Definition validate_facts (state : State.t) : option State.t :=
  match State.extracted_facts state with
  | Some extracted =>
      let all_facts :=
        (ExtractedFacts.decisions extracted
         ++ ExtractedFacts.action_items extracted
         ++ ExtractedFacts.open_questions extracted
         ++ ExtractedFacts.deadlines extracted
         ++ ExtractedFacts.metrics extracted)%list in
      let (validated_list, discarded) := validate_loop all_facts in
      let validated :=
        ValidatedFacts.mk validated_list (List.length discarded) discarded in
      Some (State.set_validated_facts validated state)
  | None => None
  end.

End ValidateFacts.

(* ------------------------------------------------------------------- *)
(** *** nodes/compliance_check.py *)

Module ComplianceCheck.
Import Py Json Models.

(** The issues of a loop over [enumerate(l)]: [check] gets the number
    [i+1] and the item. *)
Fixpoint enumerate_issues {A : Type} (check : nat -> A -> list string)
  (i : nat) (l : list A) : list string :=
  match l with
  | [] => []
  | x :: rest => (check (i + 1) x ++ enumerate_issues check (S i) rest)%list
  end.

Definition action_point_issues (n : nat) (ap : ActionPoint.t) : list string :=
  match ActionPoint.source_facts ap with
  | [] => [ "Action point " ++ str_of_nat n ++ " has no source facts" ]
  | _ => []
  end.

Definition todo_issues (n : nat) (td : ToDo.t) : list string :=
  match ToDo.source_facts td with
  | [] => [ "Todo " ++ str_of_nat n ++ " has no source facts" ]
  | _ => []
  end.

Definition email_issues (n : nat) (em : FollowUpEmail.t) : list string :=
  let missing :=
    match FollowUpEmail.source_facts em with
    | [] => [ "Email " ++ str_of_nat n ++ " has no source facts" ]
    | _ => []
    end in
  let placeholder :=
    if contains "[Your Name]" (FollowUpEmail.body em)
       || contains "[Date]" (FollowUpEmail.body em)
       || contains "[Name]" (FollowUpEmail.body em)
    then [ "Email " ++ str_of_nat n ++ " contains placeholder text" ]
    else [] in
  (missing ++ placeholder)%list.

(** [compliance_check(state)]; [None] when it raises. *)
Definition compliance_check (state : State.t) : option State.t :=
  match State.outputs state, State.validated_facts state with
  | Some outputs, Some validated =>
      let summary_issues :=
        if contains "[" (MeetingOutputs.summary outputs)
           && contains "]" (MeetingOutputs.summary outputs)
        then [ "Summary contains placeholder text" ]
        else [] in
      let issues :=
        (enumerate_issues action_point_issues 0
           (MeetingOutputs.action_points outputs)
         ++ enumerate_issues todo_issues 0 (MeetingOutputs.todos outputs)
         ++ enumerate_issues email_issues 0
              (MeetingOutputs.follow_up_emails outputs)
         ++ summary_issues)%list in
      let passed := (List.length issues =? 0)%nat in
      Some (State.set_compliance passed issues state)
  | _, _ => None
  end.

End ComplianceCheck.

End Src2.

(* ===================================================================== *)
(** ** The workflow wiring of the rule-only stages *)
(* ===================================================================== *)

Module Graph.
Import Models.

(** A node of the workflow as [create_workflow(llm)] adds it: it has
    the generator of the workflow at hand, gets the state and the log of
    the generator calls so far, and leaves a state, if any, and the
    log. *)
Definition node : Type :=
  Gen.generator -> State.t -> Gen.Log -> option State.t * Gen.Log.

(** [workflow.add_node("validate_facts", validate_facts)] of
    [src3/graph.py]: the node is the function itself, which is not
    given the generator. *)
Definition validate_facts_node (load_skill : string -> option string) : node :=
  fun _ state log => (Src3.ValidateFacts.validate_facts load_skill state, log).

(** [assemble_outputs(state)] of [src3/graph.py]; [None] when it
    raises.  A key that is not set gives the default of [state.get]. *)
Definition assemble_outputs (state : State.t) : option State.t :=
  match State.extracted_facts state, State.validated_facts state with
  | Some extracted, Some validated =>
      let outputs :=
        MeetingOutputs.mk
          (match State.summary state with
           | Some text => text
           | None => "No summary generated"
           end)
          (match State.action_points state with
           | Some aps => aps
           | None => []
           end)
          (match State.todos state with
           | Some tds => tds
           | None => []
           end)
          (match State.follow_up_emails state with
           | Some ems => ems
           | None => []
           end)
          (List.length (ExtractedFacts.decisions extracted)
           + List.length (ExtractedFacts.action_items extracted)
           + List.length (ExtractedFacts.open_questions extracted)
           + List.length (ExtractedFacts.deadlines extracted)
           + List.length (ExtractedFacts.metrics extracted))
          (List.length (ValidatedFacts.facts validated))
          (ValidatedFacts.discarded_count validated) in
      Some (State.set_outputs outputs state)
  | _, _ => None
  end.

(** A node that is not given the generator. *)
Definition plain (f : State.t -> option State.t) : node :=
  fun _ state log => (f state, log).

(** The nodes of [create_workflow(llm)] in the order of the edges from
    the entry point to [END]. *)
Definition workflow (load_skill : string -> option string)
  (exn_text : Gen.Log -> string) : list node :=
  [ plain Src3.Normalize.normalize_transcript;
    (fun llm state => Src3.ExtractFacts.extract_facts load_skill state llm);
    validate_facts_node load_skill;
    (fun llm state =>
       Src3.GenerateSummary.generate_summary load_skill state llm);
    (fun llm state =>
       Src3.GenerateActionPoints.generate_action_points load_skill exn_text
         state llm);
    (fun llm state =>
       Src3.GenerateTodos.generate_todos load_skill exn_text state llm);
    (fun llm state =>
       Src3.GenerateEmail.generate_email load_skill exn_text state llm);
    plain assemble_outputs;
    plain (fun state => Some (Src3.ComplianceCheck.compliance_check state)) ].

(** [app.invoke(state)] on a path of nodes: each node gets the state
    that the one before it returned; an exception of a node ends the
    run. *)
Fixpoint invoke (nodes : list node) (llm : Gen.generator) (state : State.t)
  (log : Gen.Log) : option State.t * Gen.Log :=
  match nodes with
  | [] => (Some state, log)
  | n :: rest =>
      match n llm state log with
      | (Some state', log') => invoke rest llm state' log'
      | (None, log') => (None, log')
      end
  end.

(** [final_state["processing_completed"] = v]. *)
Definition set_processing_completed (v : string) (s : State.t) : State.t :=
  State.mk (State.raw_transcript s) (State.normalized_transcript s)
    (State.extracted_facts s) (State.validated_facts s) (State.summary s)
    (State.action_points s) (State.todos s) (State.follow_up_emails s)
    (State.outputs s) (State.compliance_passed s) (State.compliance_issues s)
    (State.processing_started s) (Some v).

(** [process_meeting_v9(transcript, llm)]; [started] and [completed]
    are the two readings of the clock.  [None] when it raises. *)
Definition process_meeting_v9 (load_skill : string -> option string)
  (exn_text : Gen.Log -> string) (started completed : string)
  (transcript : string) (llm : Gen.generator) (log : Gen.Log)
  : option State.t * Gen.Log :=
  let initial_state :=
    State.mk (Some transcript) None None None None None None None None None
      None (Some started) None in
  match invoke (workflow load_skill exn_text) llm initial_state log with
  | (Some final_state, log') =>
      match State.outputs final_state, State.compliance_passed final_state with
      | Some _, Some _ =>
          (Some (set_processing_completed completed final_state), log')
      | _, _ => (None, log')
      end
  | (None, log') => (None, log')
  end.

End Graph.

(* ===================================================================== *)
(** ** The persisted document *)
(* ===================================================================== *)

Module Encoder.
Import Py Json.

Definition hex_char (n : nat) : ascii :=
  if (n <? 10)%nat then ascii_of_nat (48 + n) else ascii_of_nat (87 + n).

(** What [encode_basestring] writes for one character: the short
    escapes, a [\u00xx] escape for the other characters below the
    space, and the character itself otherwise. *)
Definition escape_char (c : ascii) : string :=
  if Re.is_char dquote c then String backslash (String dquote "")
  else if Re.is_char backslash c then String backslash (String backslash "")
  else if Re.is_char LF c then String backslash "n"
  else if Re.is_char "013" c then String backslash "r"
  else if Re.is_char "009" c then String backslash "t"
  else if Re.is_char "008" c then String backslash "b"
  else if Re.is_char "012" c then String backslash "f"
  else if (code c <? 32)%nat
  then String backslash
         (String "u" (String "0" (String "0"
            (String (hex_char (code c / 16))
               (String (hex_char (code c mod 16)) "")))))
  else String c "".

Fixpoint escape (s : string) : string :=
  match s with
  | "" => ""
  | String c s' => escape_char c ++ escape s'
  end.

(** [encode_basestring(s)], the encoder of strings under
    [ensure_ascii=False]. *)
Definition encode_basestring (s : string) : string :=
  String dquote (escape s) ++ dq.

Fixpoint spaces (n : nat) : string :=
  match n with
  | 0 => ""
  | S k => String " " (spaces k)
  end.

(** The line break and the indentation of a level under [indent=2]. *)
Definition newline_indent (level : nat) : string :=
  String LF (spaces (2 * level)).

(** The items of a list after the first, each after a comma and the
    line break [sep]; [enc] writes an item. *)
Fixpoint items_text (enc : json -> string) (sep : string) (l : list json)
  : string :=
  match l with
  | [] => ""
  | y :: l' => "," ++ sep ++ enc y ++ items_text enc sep l'
  end.

(** The members of a dict after the first. *)
Fixpoint members_text (enc : json -> string) (sep : string)
  (l : list (string * json)) : string :=
  match l with
  | [] => ""
  | (k, y) :: l' =>
      "," ++ sep ++ encode_basestring k ++ ": " ++ enc y
      ++ members_text enc sep l'
  end.

(** [json.dumps(v, indent=2, ensure_ascii=False)] at a nesting level:
    an empty list or dict on one line, the items of the others one for
    each line. *)
Fixpoint encode (level : nat) (v : json) {struct v} : string :=
  match v with
  | JNull => "null"
  | JBool true => "true"
  | JBool false => "false"
  | JNum literal => literal
  | JStr s => encode_basestring s
  | JArr [] => "[]"
  | JArr (x :: xs) =>
      "[" ++ newline_indent (S level) ++ encode (S level) x
      ++ items_text (encode (S level)) (newline_indent (S level)) xs
      ++ newline_indent level ++ "]"
  | JObj [] => "{}"
  | JObj ((k, x) :: ms) =>
      "{" ++ newline_indent (S level) ++ encode_basestring k ++ ": "
      ++ encode (S level) x
      ++ members_text (encode (S level)) (newline_indent (S level)) ms
      ++ newline_indent level ++ "}"
  end.

Definition dumps (v : json) : string := encode 0 v.

Fixpoint every {A : Type} (P : A -> Prop) (l : list A) : Prop :=
  match l with
  | [] => True
  | x :: l' => P x /\ every P l'
  end.

(** The values whose numbers are natural numbers in decimal, as the
    counts of the outputs are. *)
Fixpoint plain_numbers (v : json) : Prop :=
  match v with
  | JNum literal => exists n, literal = str_of_nat n
  | JArr items => every plain_numbers items
  | JObj members => every (fun kv => plain_numbers (snd kv)) members
  | JNull | JBool _ | JStr _ => True
  end.

(** A text that cannot carry on a number before it. *)
Definition delimited (s : string) : bool :=
  match s with
  | "" => true
  | String c _ =>
      negb (is_digit c || Re.is_char "." c || Re.is_char "e" c
            || Re.is_char "E" c)
  end.

(** A value reads back: at every nesting level and before every text
    that cannot carry on a number, the scanner with enough fuel finds
    the value in what the encoder wrote and stops at that text. *)
Definition reads_back (v : json) : Prop :=
  forall level rest,
    delimited rest = true ->
    exists N, forall f, N <= f ->
      scan_once f (encode level v ++ rest) = Some (v, rest).

End Encoder.

(* ===================================================================== *)
(** ** src3/processor.py *)
(* ===================================================================== *)

Module Processor.
Import Py Json Models.

Definition of_strings (l : list string) : json := JArr (map JStr l).

Definition of_optional (o : option string) : json :=
  match o with
  | Some s => JStr s
  | None => JNull
  end.

Definition of_nat (n : nat) : json := JNum (str_of_nat n).

Definition of_action_point (ap : ActionPoint.t) : json :=
  JObj [ ("description", JStr (ActionPoint.description ap));
         ("priority", JStr (priority_name (ActionPoint.priority ap)));
         ("source_facts", of_strings (ActionPoint.source_facts ap)) ].

Definition of_todo (td : ToDo.t) : json :=
  JObj [ ("task", JStr (ToDo.task td));
         ("deadline", of_optional (ToDo.deadline td));
         ("priority", JStr (priority_name (ToDo.priority td)));
         ("source_facts", of_strings (ToDo.source_facts td)) ].

Definition of_email (em : FollowUpEmail.t) : json :=
  JObj [ ("subject", JStr (FollowUpEmail.subject em));
         ("body", JStr (FollowUpEmail.body em));
         ("source_facts", of_strings (FollowUpEmail.source_facts em)) ].

(** The [output_data] of [save_outputs(result)]; [None] when
    [result["outputs"]] raises. *)
Definition output_data (result : State.t) : option json :=
  match State.outputs result with
  | Some outputs =>
      Some
        (JObj
           [ ("summary", JStr (MeetingOutputs.summary outputs));
             ("action_points",
              JArr (map of_action_point (MeetingOutputs.action_points outputs)));
             ("todos", JArr (map of_todo (MeetingOutputs.todos outputs)));
             ("follow_up_emails",
              JArr (map of_email (MeetingOutputs.follow_up_emails outputs)));
             ("metadata",
              JObj
                [ ("total_facts_extracted",
                   of_nat (MeetingOutputs.total_facts_extracted outputs));
                  ("total_facts_validated",
                   of_nat (MeetingOutputs.total_facts_validated outputs));
                  ("facts_discarded",
                   of_nat (MeetingOutputs.facts_discarded outputs));
                  ("compliance_passed",
                   JBool (match State.compliance_passed result with
                          | Some b => b
                          | None => false
                          end));
                  ("compliance_issues",
                   of_strings (match State.compliance_issues result with
                               | Some issues => issues
                               | None => []
                               end));
                  ("processing_started",
                   of_optional (State.processing_started result));
                  ("processing_completed",
                   of_optional (State.processing_completed result)) ]) ])
  | None => None
  end.

(** The text that [save_outputs(result)] writes to the output file. *)
Definition saved_text (result : State.t) : option string :=
  option_map Encoder.dumps (output_data result).

End Processor.

(* ===================================================================== *)
(** ** Vocabulary of the statements *)
(* ===================================================================== *)

Module Terms.
Import Py Json Models.

(** The number of words of a source quote. *)
Definition quote_words (q : string) : nat := List.length (words q).

(** The facts that a validator goes through, in its order. *)
Definition all_facts_v8 (extracted : ExtractedFacts.t) : list ExtractedFact.t :=
  (ExtractedFacts.decisions extracted
   ++ ExtractedFacts.action_items extracted
   ++ ExtractedFacts.open_questions extracted
   ++ ExtractedFacts.deadlines extracted
   ++ ExtractedFacts.metrics extracted)%list.

Definition all_facts_v9 (extracted : ExtractedFacts.t) : list ExtractedFact.t :=
  (ExtractedFacts.decisions extracted
   ++ ExtractedFacts.action_items extracted
   ++ ExtractedFacts.deadlines extracted
   ++ ExtractedFacts.metrics extracted)%list.

(** The verdict of each validator on one fact, and the entry that it
    adds to the discard ledger. *)
Definition accepted_v8 (fact : ExtractedFact.t) : bool :=
  match Src2.ValidateFacts.discard_reason fact with
  | None => true
  | Some _ => false
  end.

Definition rejection_v8 (fact : ExtractedFact.t) : list string :=
  match Src2.ValidateFacts.discard_reason fact with
  | None => []
  | Some reason => [reason]
  end.

Definition accepted_v9 (fact : ExtractedFact.t) : bool :=
  fst (Src3.ValidateFacts._validate_single_fact fact).

Definition rejection_v9 (fact : ExtractedFact.t) : list string :=
  match Src3.ValidateFacts._validate_single_fact fact with
  | (false, Some reason) => [reason]
  | _ => []
  end.

(** A source quote has a commitment marker, for each validator: one of
    its marker words occurs in the lower-cased quote. *)
Definition has_marker_v8 (q : string) : bool :=
  existsb (fun word => contains word (lower q))
    Src2.ValidateFacts.commitment_words
  || existsb (fun verb => contains verb (lower q))
       Src2.ValidateFacts.imperative_verbs.

Definition has_marker_v9 (q : string) : bool :=
  existsb (fun word => contains word (lower q))
    Src3.ValidateFacts.commitment_words.

(** The rules that each validator applies before its commitment rule
    let the fact through. *)
Definition reaches_commitment_rule_v8 (fact : ExtractedFact.t) : bool :=
  negb (confidence_name (ExtractedFact.confidence fact) =? "low")
  && (3 <=? quote_words (ExtractedFact.source_quote fact))%nat
  && negb (existsb (fun phrase =>
                      contains phrase (lower (ExtractedFact.content fact)))
             Src2.ValidateFacts.generic_phrases
           && negb (confidence_name (ExtractedFact.confidence fact) =? "high")).

Definition reaches_commitment_rule_v9 (fact : ExtractedFact.t) : bool :=
  (5 <=? String.length (ExtractedFact.source_quote fact))%nat
  && negb (existsb (fun pattern =>
                      contains pattern (lower (ExtractedFact.content fact))
                      || contains pattern
                           (lower (ExtractedFact.source_quote fact)))
             Src3.ValidateFacts.conditional_patterns).

End Terms.

(* ===================================================================== *)
(** ** Sample inputs *)
(* ===================================================================== *)

Module Samples.
Import Py Json Models.

Definition quoted (s : string) : string := dq ++ s ++ dq.

(** A JSON member [key: text] with both sides quoted. *)
Definition member (key text : string) : string :=
  quoted key ++ ":" ++ quoted text.

Definition fence : string := "```".

(** The fenced array with trailing commas of the scenario of section 8,
    the two line breaks being line feeds. *)
Definition fenced_metric_response : string :=
  fence ++ "json" ++ nl
  ++ "[{" ++ member "fact_type" "metric" ++ ","
  ++ member "content" "$3.5M raised" ++ ","
  ++ member "source_quote" "we raised $3.5M" ++ ",},]"
  ++ nl ++ fence.

(** The same text with each line break spelled as a backslash and the
    letter n. *)
Definition fenced_metric_response_spelled : string :=
  fence ++ "json" ++ "\n"
  ++ "[{" ++ member "fact_type" "metric" ++ ","
  ++ member "content" "$3.5M raised" ++ ","
  ++ member "source_quote" "we raised $3.5M" ++ ",},]"
  ++ "\n" ++ fence.

Definition raised_fact : ExtractedFact.t :=
  ExtractedFact.mk metric "$3.5M raised" "we raised $3.5M" high None.

(** An answer to the metric prompt whose only item calls itself a
    decision. *)
Definition mislabelled_response : string :=
  "[{" ++ member "fact_type" "decision" ++ ","
  ++ member "content" "Budget approved" ++ ","
  ++ member "source_quote" "we approved the budget" ++ "}]".

Definition mislabelled_fact : ExtractedFact.t :=
  ExtractedFact.mk decision "Budget approved" "we approved the budget"
    high None.

(** An answer whose only item carries no label. *)
Definition unlabelled_response : string :=
  "[{" ++ member "content" "12 clients" ++ ","
  ++ member "source_quote" "we have 12 clients" ++ "}]".

Definition unlabelled_fact : ExtractedFact.t :=
  ExtractedFact.mk metric "12 clients" "we have 12 clients" high None.

(** A generator that raises on its first call and answers with prose
    afterwards. *)
Definition failing_generator : Gen.generator :=
  fun log _ =>
    match log with
    | [] => None
    | _ :: _ => Some "I could not find any items."
    end.

(** A decision whose source quote has two words and nine characters. *)
Definition two_word_decision : ExtractedFact.t :=
  ExtractedFact.mk decision "Budget approved" "we agreed" high None.

(** An action item of low confidence whose quote has no marker. *)
Definition unsure_action : ExtractedFact.t :=
  ExtractedFact.mk action_item "Update the docs" "docs are out of date" low
    None.

(** An action item whose quote has no marker and three characters. *)
Definition terse_action : ExtractedFact.t :=
  ExtractedFact.mk action_item "Update the docs" "doc" high None.

(** An action item whose quote has no marker but passes the rules
    before the commitment rule of either validator. *)
Definition markerless_action : ExtractedFact.t :=
  ExtractedFact.mk action_item "Update the docs" "docs are out of date" high
    None.

(** An action item with a commitment. *)
Definition committed_action : ExtractedFact.t :=
  ExtractedFact.mk action_item "Run manual test Thursday"
    "I will run a manual test this Thursday" high None.

Definition extracted_sample : ExtractedFacts.t :=
  ExtractedFacts.mk [two_word_decision]
    [unsure_action; committed_action; markerless_action] [] [] [raised_fact].

(** The state that reaches the validator with the sample facts. *)
Definition extracted_state : State.t :=
  State.set_extracted_facts extracted_sample
    (State.mk (Some "raw") (Some "normalized") None None None None None None
       None None None (Some "2026-01-01T00:00:00") None).

(** A skill store in which every skill file exists and is empty. *)
Definition empty_skills : string -> option string := fun _ => Some "".

(** The sample state after each validator, and the validated facts in
    it. *)
Definition validated_state_v8 : State.t :=
  Eval vm_compute in
    match Src2.ValidateFacts.validate_facts extracted_state with
    | Some s => s
    | None => extracted_state
    end.

Definition validated_state_v9 : State.t :=
  Eval vm_compute in
    match Src3.ValidateFacts.validate_facts empty_skills extracted_state with
    | Some s => s
    | None => extracted_state
    end.

Definition no_facts : ValidatedFacts.t := ValidatedFacts.mk [] 0 [].

Definition validated_sample_v8 : ValidatedFacts.t :=
  Eval vm_compute in
    match State.validated_facts validated_state_v8 with
    | Some v => v
    | None => no_facts
    end.

Definition validated_sample_v9 : ValidatedFacts.t :=
  Eval vm_compute in
    match State.validated_facts validated_state_v9 with
    | Some v => v
    | None => no_facts
    end.

(** An email that names no source fact, in a bundle with nothing
    else to object to. *)
Definition unsourced_email : FollowUpEmail.t :=
  FollowUpEmail.mk "Meeting Follow-Up"
    "Thanks everyone for joining. Best regards" [].

Definition unsourced_outputs : MeetingOutputs.t :=
  MeetingOutputs.mk "The team approved the budget." [] [] [unsourced_email]
    5 3 2.

Definition unsourced_state : State.t :=
  State.set_outputs unsourced_outputs validated_state_v9.

(** A to-do whose deadline is a time expression that mentions a
    review, and one whose deadline is a sentinel in capitals. *)
Definition review_todo : ToDo.t :=
  ToDo.mk "Send the Services copy" (Some "before the design review") High
    ["Send Services copy by noon"].

Definition unspecified_todo : ToDo.t :=
  ToDo.mk "Obtain the assets" (Some "Not Specified") Medium
    ["Reach out to Chloe for assets"].

(** An answer to the to-do prompt with those two to-dos. *)
Definition todos_response : string :=
  "[{" ++ member "task" "Send the Services copy" ++ ","
  ++ member "deadline" "before the design review" ++ ","
  ++ member "priority" "High" ++ ","
  ++ quoted "source_facts" ++ ":[" ++ quoted "Send Services copy by noon"
  ++ "]},{" ++ member "task" "Obtain the assets" ++ ","
  ++ member "deadline" "Not Specified" ++ ","
  ++ quoted "source_facts" ++ ":[" ++ quoted "Reach out to Chloe for assets"
  ++ "]}]".

(** A generator that always gives that answer. *)
Definition todos_generator : Gen.generator := fun _ _ => Some todos_response.

(** A text for every caught exception. *)
Definition some_text : Gen.Log -> string := fun _ => "Expecting value".

(** The state after the to-do stage with that generator, and the
    to-dos in it. *)
Definition todos_state : State.t :=
  Eval vm_compute in
    match fst (Src3.GenerateTodos.generate_todos empty_skills some_text
                 validated_state_v9 todos_generator [])
    with
    | Some s => s
    | None => validated_state_v9
    end.

Definition generated_todos : list ToDo.t :=
  Eval vm_compute in
    match State.todos todos_state with
    | Some tds => tds
    | None => []
    end.

(** The facts of a fact set that the email stage works from. *)
Definition relevant_facts (validated : ValidatedFacts.t)
  : list ValidatedFact.t :=
  filter (fun f => mem (ValidatedFact.fact_type f)
                     Src3.GenerateEmail.relevant_types)
    (ValidatedFacts.facts validated).

(** The validated facts without any decision, action item or deadline. *)
Definition metrics_only : ValidatedFacts.t :=
  ValidatedFacts.mk
    [ValidatedFact.mk "metric" "$3.5M raised" "we raised $3.5M" "high" true
       None]
    0 [].

Definition metrics_only_state : State.t :=
  State.set_validated_facts metrics_only extracted_state.

End Samples.

(* ===================================================================== *)
(** ** src2: the parse of the extraction answers (V8) *)
(* ===================================================================== *)

Module Src2Extract.
Import Py Json Models.

(** The text that [_parse_fact_array] of [src2/nodes/extract_facts.py]
    hands to [json.loads]; [None] when taking the second part of the
    split raises. *)
Definition clean_fact_array (content : string) : option string :=
  (* Clean JSON *)
  let content := strip content in
  (* Remove markdown *)
  let unfenced :=
    if contains "```" content then
      match nth_error (split "```" content) 1 with
      | Some content =>
          Some (if startswith "json" content then drop 4 content else content)
      | None => None
      end
    else Some content in
  match unfenced with
  | Some content =>
      (* Extract array *)
      let content :=
        match find "[" content with
        | Some i => drop i content
        | None => content
        end in
      let content :=
        match rfind "]" content with
        | Some i => take (i + 1) content
        | None => content
        end in
      (* Remove comments *)
      let content := Re.sub_line_comments content in
      let content := Re.sub_block_comments content in
      (* Remove control chars *)
      let content := Re.sub_control content in
      (* Fix trailing commas *)
      let content := Re.sub_trailing_commas content in
      Some (strip content)
  | None => None
  end.

(** The [for item in data] loop: an item that is not a dict is passed
    over; the constructor call is not guarded, so that an item that it
    refuses ends the loop with its exception. *)
Fixpoint facts_of_items (fact_type : string) (data : list json)
  : option (list ExtractedFact.t) :=
  match data with
  | [] => Some []
  | item :: rest =>
      match item with
      | JObj members =>
          match ExtractedFact.new
                  (get_default "fact_type" (JStr fact_type) members)
                  (get_default "content" (JStr "") members)
                  (get_default "source_quote" (JStr "") members)
                  (get_default "confidence" (JStr "high") members)
                  (get_default "context" JNull members)
          with
          | Some fact => option_map (cons fact) (facts_of_items fact_type rest)
          | None => None
          end
      | _ => facts_of_items fact_type rest
      end
  end.

(** [_parse_fact_array(content, fact_type)]; [None] when it raises. *)
Definition _parse_fact_array (content fact_type : string)
  : option (list ExtractedFact.t) :=
  match clean_fact_array content with
  | Some content =>
      (* Parse *)
      match loads content with
      | Some data =>
          (* Convert to ExtractedFact objects *)
          match iterate data with
          | Some items => facts_of_items fact_type items
          | None => None
          end
      | None => None
      end
  | None => None
  end.

End Src2Extract.

(* ===================================================================== *)
(** ** src2: the normalizer (V8) *)
(* ===================================================================== *)

Module Src2Normalize.
Import Py Models.

(** The number of characters at the start of [s] that are the letter
    [c] in either case. *)
Fixpoint run_length (c : ascii) (s : string) : nat :=
  match s with
  | String a s' =>
      if Ascii.eqb (lower_char c) (lower_char a) then S (run_length c s')
      else 0
  | "" => 0
  end.

(** The length of a match of a boundary, the letter [first], one or
    more of the letter [more] and a boundary, at the start of [s] under
    [re.IGNORECASE]; [prev] tells whether the character before [s] is a
    word character.  The run of [more] is taken whole: a shorter one
    is followed by the letter, which is no boundary. *)
Definition stretched_at (first more : ascii) (prev : bool) (s : string)
  : option nat :=
  match s with
  | String a s' =>
      if ReWords.boundary prev s
         && Ascii.eqb (lower_char first) (lower_char a)
      then
        let n := run_length more s' in
        if (1 <=? n)%nat && ReWords.boundary true (drop n s')
        then Some (S n) else None
      else None
  | "" => None
  end.

(** [re.sub(pattern, '', s, flags=re.IGNORECASE)] for a pattern whose
    matches are not empty: [matcher] gives the length of the match at
    a position, [skip] counts the characters of a match still to be
    passed over. *)
Fixpoint sub_from (matcher : bool -> string -> option nat) (prev : bool)
  (skip : nat) (s : string) : string :=
  match s with
  | "" => ""
  | String c s' =>
      match skip with
      | S k => sub_from matcher (ReWords.isword c) k s'
      | 0 =>
          match matcher prev s with
          | Some len => sub_from matcher (ReWords.isword c) (len - 1) s'
          | None => String c (sub_from matcher (ReWords.isword c) 0 s')
          end
      end
  end.

(** One filler pattern: a letter and a stretched letter, or a fixed
    text. *)
Inductive filler : Type :=
| Stretched (first more : ascii)
| Fixed (text : string).

Definition fillers : list filler :=
  [ Stretched "u" "m"; Stretched "u" "h"; Fixed "like"; Fixed "you know";
    Fixed "basically"; Fixed "actually"; Fixed "just"; Fixed "kind of";
    Fixed "sort of"; Fixed "I mean"; Fixed "I think"; Fixed "I guess" ].

Definition remove_filler (normalized : string) (f : filler) : string :=
  match f with
  | Stretched first more => sub_from (stretched_at first more) false 0 normalized
  | Fixed text => ReWords.sub_words [text] normalized
  end.

(** The number of white-space characters at the start of [s]. *)
Fixpoint space_run (s : string) : nat :=
  match s with
  | String c s' => if isspace c then S (space_run s') else 0
  | "" => 0
  end.

Definition ends_sentence (c : ascii) : bool :=
  Re.is_char "." c || Re.is_char "!" c || Re.is_char "?" c.

(** The longest prefix without a full stop, an exclamation mark or a
    question mark. *)
Fixpoint clause (s : string) : string :=
  match s with
  | String c s' => if ends_sentence c then "" else String c (clause s')
  | "" => ""
  end.

(** A match of a marker text, white space and a clause at the start of
    [s] under [re.IGNORECASE]: the clause and the length of the match.
    The white space is taken whole when a clause follows it; when none
    does, the last white-space character of two or more is the
    clause. *)
Definition uncertain_at (marker : string) (s : string)
  : option (string * nat) :=
  if ReWords.startswith_ci marker s then
    let r := drop (String.length marker) s in
    let n := space_run r in
    let group := clause (drop n r) in
    match n with
    | 0 => None
    | S k =>
        match group with
        | String _ _ =>
            Some (group, String.length marker + n + String.length group)
        | "" =>
            match k with
            | 0 => None
            | S _ => Some (take 1 (drop k r), String.length marker + n)
            end
        end
    end
  else None.

(** [re.sub(marker\s+(clause), '[label: \1]', s, flags=re.IGNORECASE)]. *)
Fixpoint mark_from (marker label : string) (skip : nat) (s : string)
  : string :=
  match s with
  | "" => ""
  | String c s' =>
      match skip with
      | S k => mark_from marker label k s'
      | 0 =>
          match uncertain_at marker s with
          | Some (group, len) =>
              "[" ++ label ++ ": " ++ group ++ "]"
              ++ mark_from marker label (len - 1) s'
          | None => String c (mark_from marker label 0 s')
          end
      end
  end.

Definition uncertainty_markers : list (string * string) :=
  [ ("maybe", "uncertain"); ("probably", "uncertain");
    ("I'm not sure", "uncertain"); ("might", "possible") ].

(** The text that [normalize_transcript] of [src2/nodes/normalize.py]
    makes of a transcript. *)
Definition normalize_text (transcript : string) : string :=
  let normalized := transcript in
  (* Remove fillers (case insensitive) *)
  let normalized := fold_left remove_filler fillers normalized in
  (* Mark uncertainty phrases *)
  let normalized :=
    fold_left (fun text m => mark_from (fst m) (snd m) 0 text)
      uncertainty_markers normalized in
  (* Clean up extra whitespace *)
  let normalized := Re.sub_spaces normalized in
  strip normalized.

(** [normalize_transcript(state)]; [None] when it raises. *)
Definition normalize_transcript (state : State.t) : option State.t :=
  match State.raw_transcript state with
  | Some transcript =>
      Some (Src3.Normalize.set_normalized_transcript
              (normalize_text transcript) state)
  | None => None
  end.

End Src2Normalize.

(* ===================================================================== *)
(** ** Notions used in the statements about the stages *)
(* ===================================================================== *)

Module Notions.
Import Py Json Models.

(** Does a text begin with a space? *)
Definition starts_with_space (s : string) : bool :=
  match s with
  | String c _ => Re.is_char " " c
  | "" => false
  end.

(** The test of the filter of [generate_todos] for the action items. *)
Definition is_action_item (f : ValidatedFact.t) : bool :=
  ValidatedFact.fact_type f =? "action_item".

(** The test of the filter of [generate_action_points]. *)
Definition is_relevant (f : ValidatedFact.t) : bool :=
  mem (ValidatedFact.fact_type f) Src3.GenerateActionPoints.relevant_types.

(** The words that the checks of the stages take for conditional
    language. *)
Definition conditional_words : list string := [ " if "; " might "; " may " ].

(** The number of occurrences of a character in a text. *)
Fixpoint count_char (c : ascii) (s : string) : nat :=
  match s with
  | String a s' => (if Ascii.eqb c a then 1 else 0) + count_char c s'
  | "" => 0
  end.

(** No character of the pattern text [p] is [c] in either case. *)
Fixpoint clear_of (c : ascii) (p : string) : bool :=
  match p with
  | String x p' =>
      negb (Ascii.eqb (lower_char x) (lower_char c)) && clear_of c p'
  | "" => true
  end.

Definition filler_clear_of (c : ascii) (f : Src2Normalize.filler) : bool :=
  match f with
  | Src2Normalize.Stretched first more =>
      negb (Ascii.eqb (lower_char first) (lower_char c))
      && negb (Ascii.eqb (lower_char more) (lower_char c))
  | Src2Normalize.Fixed text => clear_of c text
  end.

(** The characters that the V9 normalizer cannot take away: those
    that are not white space and occur in none of its fillers, in
    either case. *)
Definition kept_by_v9 (c : ascii) : bool :=
  negb (isspace c) && forallb (clear_of c) Src3.Normalize.fillers.

(** The characters that the V8 normalizer can neither take away nor
    add: those that are not white space and occur in none of its
    fillers, in none of its markers and in none of its marks. *)
Definition kept_by_v8 (c : ascii) : bool :=
  negb (isspace c)
  && forallb (filler_clear_of c) Src2Normalize.fillers
  && forallb (fun m =>
                clear_of c (fst m)
                && (count_char c ("[" ++ snd m ++ ": ]") =? 0)%nat)
       Src2Normalize.uncertainty_markers.

(** What [_extract_fact_type] takes from the answer to one call: the
    facts of the parse, none when the call or the parse raises. *)
Definition facts_of_call (llm : Gen.generator) (log : Gen.Log)
  (prompt fact_type : string) : list ExtractedFact.t :=
  match llm log prompt with
  | Some content =>
      match Src3.ExtractFacts._parse_fact_array content fact_type with
      | Some facts => facts
      | None => []
      end
  | None => []
  end.

(** The skill files that the nodes of the V9 workflow load. *)
Definition skill_names : list string :=
  [ "EXTRACT_FACTS"; "VALIDATE_FACTS"; "GENERATE_SUMMARY";
    "GENERATE_ACTION_POINTS"; "GENERATE_TODOS"; "GENERATE_EMAIL" ].

(** The facts that the V9 validator makes of the extracted ones. *)
Definition validated_v9 (extracted : ExtractedFacts.t) : ValidatedFacts.t :=
  ValidatedFacts.mk
    (map Src3.ValidateFacts.validated_of
       (filter Terms.accepted_v9 (Terms.all_facts_v9 extracted)))
    (List.length (flat_map Terms.rejection_v9 (Terms.all_facts_v9 extracted)))
    (flat_map Terms.rejection_v9 (Terms.all_facts_v9 extracted)).

(** The state that the V9 workflow leaves when its stages gave these
    values. *)
Definition final_state (started completed transcript : string)
  (extracted : ExtractedFacts.t) (text : string)
  (aps : list ActionPoint.t) (todos : list ToDo.t)
  (emails : list FollowUpEmail.t) : State.t :=
  let validated := validated_v9 extracted in
  let outputs :=
    MeetingOutputs.mk text aps todos emails
      (List.length (ExtractedFacts.decisions extracted)
       + List.length (ExtractedFacts.action_items extracted)
       + List.length (ExtractedFacts.open_questions extracted)
       + List.length (ExtractedFacts.deadlines extracted)
       + List.length (ExtractedFacts.metrics extracted))
      (List.length (ValidatedFacts.facts validated))
      (ValidatedFacts.discarded_count validated) in
  Graph.set_processing_completed completed
    (Src3.ComplianceCheck.compliance_check
       (State.mk (Some transcript)
          (Some (Src3.Normalize.normalize_text transcript))
          (Some extracted) (Some validated) (Some text) (Some aps)
          (Some todos) (Some emails) (Some outputs) None None
          (Some started) None)).

End Notions.

(* ===================================================================== *)
(** ** Further sample inputs *)
(* ===================================================================== *)

Module Scenarios.
Import Py Json Models Samples.

(** A generator that raises on every call. *)
Definition silent_generator : Gen.generator := fun _ _ => None.

(** A generator that answers every prompt with prose. *)
Definition prose_generator : Gen.generator :=
  fun _ _ => Some "I could not find any items.".

(** An answer to the action-point prompt with one action point that
    names a source fact twice. *)
Definition action_points_response : string :=
  "[{" ++ member "description" "Prepare the launch" ++ ","
  ++ member "priority" "High" ++ ","
  ++ quoted "source_facts" ++ ":[" ++ quoted "Run manual test Thursday"
  ++ "," ++ quoted "Run manual test Thursday" ++ "]}]".

Definition action_points_generator : Gen.generator :=
  fun _ _ => Some action_points_response.

(** The state after the action-point stage with that generator, and the
    action points in it. *)
Definition action_points_state : State.t :=
  Eval vm_compute in
    match fst (Src3.GenerateActionPoints.generate_action_points empty_skills
                 some_text validated_state_v9 action_points_generator [])
    with
    | Some s => s
    | None => validated_state_v9
    end.

Definition generated_action_points : list ActionPoint.t :=
  Eval vm_compute in
    match State.action_points action_points_state with
    | Some aps => aps
    | None => []
    end.

(** An answer that reads as one fact under every extraction prompt,
    and a generator that gives it to every prompt. *)
Definition fact_response : string :=
  "[{" ++ member "content" "Run manual test Thursday" ++ ","
  ++ member "source_quote" "I will run a manual test this Thursday" ++ "}]".

Definition fact_generator : Gen.generator := fun _ _ => Some fact_response.

(** A run of the V9 workflow with that generator, the state that it
    returns and the outputs, the issues and the log in it. *)
Definition sample_transcript : string :=
  "Um, I will run a manual test   this Thursday.".

Definition sample_run : option State.t * Gen.Log :=
  Eval vm_compute in
    Graph.process_meeting_v9 empty_skills some_text "2026-01-01T00:00:00"
      "2026-01-01T00:01:00" sample_transcript fact_generator [].

Definition sample_final : State.t :=
  Eval vm_compute in
    match fst sample_run with
    | Some s => s
    | None => extracted_state
    end.

Definition sample_outputs : MeetingOutputs.t :=
  Eval vm_compute in
    match State.outputs sample_final with
    | Some o => o
    | None => unsourced_outputs
    end.

Definition sample_issues : list string :=
  Eval vm_compute in
    match State.compliance_issues sample_final with
    | Some issues => issues
    | None => []
    end.

(** An answer with one item that the model refuses, for its label,
    after one that it takes. *)
Definition half_good_response : string :=
  "[{" ++ member "content" "12 clients" ++ ","
  ++ member "source_quote" "we have 12 clients" ++ "},{"
  ++ member "fact_type" "timeframe" ++ ","
  ++ member "content" "3 hours" ++ ","
  ++ member "source_quote" "it took 3 hours" ++ "}]".

(** A generator that raises on its first call, answers the prompt for
    the metrics with the fact of [unlabelled_response], the prompt for
    the deadlines with prose, and every other prompt with the fact of
    [fact_response]. *)
Definition category_generator : Gen.generator :=
  fun log prompt =>
    match log with
    | [] => None
    | _ :: _ =>
        if contains "Extract METRICS" prompt then Some unlabelled_response
        else if contains "Extract DEADLINES" prompt
             then Some "I could not find any items."
             else Some fact_response
    end.

(** An answer to the to-do prompt whose first to-do names one source
    fact three times and another one twice, and whose second to-do
    names two facts once each. *)
Definition repeating_todos_response : string :=
  "[{" ++ member "task" "Run the manual test" ++ ","
  ++ member "deadline" "Thursday" ++ ","
  ++ quoted "source_facts" ++ ":[" ++ quoted "Run manual test Thursday"
  ++ "," ++ quoted "Test before launch"
  ++ "," ++ quoted "Run manual test Thursday"
  ++ "," ++ quoted "Test before launch"
  ++ "," ++ quoted "Run manual test Thursday"
  ++ "]},{" ++ member "task" "Share the results" ++ ","
  ++ quoted "source_facts" ++ ":[" ++ quoted "Test before launch"
  ++ "," ++ quoted "Run manual test Thursday" ++ "]}]".

Definition repeating_todos_generator : Gen.generator :=
  fun _ _ => Some repeating_todos_response.

(** The to-dos of that answer as the constructor would build them
    without the pass over [source_facts], and the to-dos that the stage
    returns for it. *)
Definition repeating_todos : list ToDo.t :=
  [ ToDo.mk "Run the manual test" (Some "Thursday") Medium
      [ "Run manual test Thursday"; "Test before launch";
        "Run manual test Thursday"; "Test before launch";
        "Run manual test Thursday" ];
    ToDo.mk "Share the results" None Medium
      [ "Test before launch"; "Run manual test Thursday" ] ].

Definition repeating_todos_state : State.t :=
  Eval vm_compute in
    match fst (Src3.GenerateTodos.generate_todos empty_skills some_text
                 validated_state_v9 repeating_todos_generator [])
    with
    | Some s => s
    | None => validated_state_v9
    end.

Definition deduplicated_todos : list ToDo.t :=
  Eval vm_compute in
    match State.todos repeating_todos_state with
    | Some tds => tds
    | None => []
    end.

(** An answer to the to-do prompt with four to-dos: two whose deadlines
    are sentinels that the compliance check refuses, one whose deadline
    names a review, and one with a plain day. *)
Definition deadline_todos_response : string :=
  "[{" ++ member "task" "Run the manual test" ++ ","
  ++ member "deadline" "N/A" ++ ","
  ++ member "priority" "High" ++ ","
  ++ quoted "source_facts" ++ ":[" ++ quoted "Run manual test Thursday"
  ++ "]},{" ++ member "task" "Share the results" ++ ","
  ++ member "deadline" "Thursday" ++ ","
  ++ quoted "source_facts" ++ ":[" ++ quoted "Run manual test Thursday"
  ++ "]},{" ++ member "task" "Book the room" ++ ","
  ++ member "deadline" "Not specified" ++ ","
  ++ quoted "source_facts" ++ ":[" ++ quoted "Run manual test Thursday"
  ++ "]},{" ++ member "task" "Write the notes" ++ ","
  ++ member "deadline" "before the design review" ++ ","
  ++ member "priority" "Low" ++ ","
  ++ quoted "source_facts" ++ ":[" ++ quoted "Run manual test Thursday"
  ++ "]}]".

(** The to-dos of that answer before the repair. *)
Definition deadline_todos : list ToDo.t :=
  [ ToDo.mk "Run the manual test" (Some "N/A") High
      [ "Run manual test Thursday" ];
    ToDo.mk "Share the results" (Some "Thursday") Medium
      [ "Run manual test Thursday" ];
    ToDo.mk "Book the room" (Some "Not specified") Medium
      [ "Run manual test Thursday" ];
    ToDo.mk "Write the notes" (Some "before the design review") Low
      [ "Run manual test Thursday" ] ].

(** A generator that gives that answer to the to-do prompt, which it
    knows by a line of its output format, and the fact of
    [fact_response] to every other prompt. *)
Definition staged_generator : Gen.generator :=
  fun _ prompt =>
    if contains "Maximum 5 to-dos." prompt
    then Some deadline_todos_response
    else Some fact_response.

(** A run of the V9 workflow with that generator, the state that it
    returns and the outputs and the issues in it. *)
Definition staged_run : option State.t * Gen.Log :=
  Eval vm_compute in
    Graph.process_meeting_v9 empty_skills some_text "2026-01-01T00:00:00"
      "2026-01-01T00:01:00" sample_transcript staged_generator [].

Definition staged_final : State.t :=
  Eval vm_compute in
    match fst staged_run with
    | Some s => s
    | None => extracted_state
    end.

Definition staged_outputs : MeetingOutputs.t :=
  Eval vm_compute in
    match State.outputs staged_final with
    | Some o => o
    | None => unsourced_outputs
    end.

Definition staged_issues : list string :=
  Eval vm_compute in
    match State.compliance_issues staged_final with
    | Some issues => issues
    | None => []
    end.

End Scenarios.

(* ===================================================================== *)
(** ** Adequacy of the JSON scanner *)
(* ===================================================================== *)

Module JsonProps.
Import Py Json.
Local Open Scope list_scope.

Lemma skip_ws_length (s : string) : String.length (skip_ws s) <= String.length s.
Proof.
  induction s as [| c s IH]; cbn [skip_ws]; [lia |].
  destruct (is_ws c); cbn [String.length]; lia.
Qed.

Lemma cons_char_inv (c : ascii) (o : option (string * string)) (str r : string) :
  cons_char c o = Some (str, r) ->
  exists str', o = Some (str', r) /\ str = String c str'.
Proof.
  destruct o as [[str' r'] |]; cbn; [| discriminate].
  intros [= <- <-]. now exists str'.
Qed.

Lemma scanstring_length_bounded (n : nat) :
  forall s str r : string,
    String.length s <= n ->
    scanstring s = Some (str, r) -> String.length r < String.length s.
Proof.
  induction n as [| n IH]; intros s str r Hle.
  { destruct s; [discriminate | cbn in Hle; lia]. }
  destruct s as [| c s']; cbn [scanstring]; [discriminate |].
  cbn [String.length] in Hle.
  destruct (Re.is_char dquote c).
  { intros [= <- <-]. cbn. lia. }
  destruct (Re.is_char backslash c).
  - destruct s' as [| e s'']; [discriminate |].
    destruct (Re.is_char "u" e).
    + destruct s'' as [| h1 [| h2 [| h3 [| h4 t]]]]; try discriminate.
      destruct (hex4 h1 h2 h3 h4) as [cp |]; [| discriminate].
      destruct (cp <? 256)%nat; [| discriminate].
      intros H. apply cons_char_inv in H. destruct H as (str' & H & _).
      apply IH in H; cbn [String.length] in *; lia.
    + destruct (unescape e); [| discriminate].
      intros H. apply cons_char_inv in H. destruct H as (str' & H & _).
      apply IH in H; cbn [String.length] in *; lia.
  - destruct (code c <? 32)%nat; [discriminate |].
    intros H. apply cons_char_inv in H. destruct H as (str' & H & _).
    apply IH in H; cbn [String.length] in *; lia.
Qed.

Lemma scanstring_length (s str r : string) :
  scanstring s = Some (str, r) -> String.length r < String.length s.
Proof. apply (scanstring_length_bounded (String.length s)). lia. Qed.

Lemma drop_length (n : nat) (s : string) :
  String.length (drop n s) = String.length s - n.
Proof.
  revert s. induction n as [| n IH]; intros s; cbn [drop].
  - lia.
  - destruct s; cbn [String.length]; [reflexivity | apply IH].
Qed.

Lemma literal_length (w : string) (v v' : json) (s r : string) :
  0 < String.length w ->
  literal w v s = Some (v', r) ->
  0 < String.length s /\ String.length r < String.length s.
Proof.
  unfold literal. intros Hw.
  destruct (startswith w s) eqn:E; [| discriminate].
  intros [= _ <-]. rewrite drop_length.
  assert (0 < String.length s).
  { destruct s; [| cbn; lia]. destruct w; [cbn in Hw; lia | discriminate E]. }
  lia.
Qed.

Lemma span_digits_length (s d r : string) :
  span_digits s = (d, r) ->
  String.length r <= String.length s
  /\ (d <> ""%string -> String.length r < String.length s).
Proof.
  revert d r. induction s as [| c s IH]; intros d r; cbn [span_digits].
  - intros [= <- <-]. split; [lia | congruence].
  - destruct (is_digit c).
    + destruct (span_digits s) as [d' r'] eqn:E. intros [= <- <-].
      destruct (IH _ _ eq_refl). cbn [String.length]. split; lia.
    + intros [= <- <-]. split; [lia | congruence].
Qed.

Lemma match_int_length (s lit r : string) :
  match_int s = Some (lit, r) -> String.length r < String.length s.
Proof.
  unfold match_int.
  destruct s as [| c s']; [discriminate |].
  destruct (Re.is_char "-" c).
  - destruct s' as [| c1 s1]; [discriminate |].
    destruct (Re.is_char "0" c1).
    + intros [= _ <-]. cbn. lia.
    + destruct (is_digit c1); [| discriminate].
      destruct (span_digits (String c1 s1)) as [d r'] eqn:E.
      intros [= _ <-]. apply span_digits_length in E.
      cbn [String.length] in *. lia.
  - destruct (Re.is_char "0" c).
    + intros [= _ <-]. cbn. lia.
    + destruct (is_digit c) eqn:Hd; [| discriminate].
      destruct (span_digits (String c s')) as [d r'] eqn:E.
      intros [= _ <-]. pose proof E as E'. apply span_digits_length in E.
      cbn [span_digits] in E'. rewrite Hd in E'.
      destruct (span_digits s') as [d0 r0]. injection E' as <- <-.
      destruct E as [_ E]. apply E. discriminate.
Qed.

Lemma match_frac_length (s f r : string) :
  match_frac s = (f, r) -> String.length r <= String.length s.
Proof.
  unfold match_frac. destruct s as [| c s']; [intros [= <- <-]; lia |].
  destruct (Re.is_char "." c); [| intros [= <- <-]; lia].
  destruct (span_digits s') as [d r'] eqn:E.
  apply span_digits_length in E.
  destruct d; intros [= <- <-]; cbn [String.length] in *; lia.
Qed.

Lemma match_exp_length (s e r : string) :
  match_exp s = (e, r) -> String.length r <= String.length s.
Proof.
  unfold match_exp. destruct s as [| c s']; [intros [= <- <-]; lia |].
  destruct (_ || _); [| intros [= <- <-]; lia].
  destruct s' as [| g s''].
  - cbn [span_digits]. intros [= <- <-]. lia.
  - destruct (_ || _).
    + destruct (span_digits s'') as [d r'] eqn:E.
      apply span_digits_length in E.
      destruct d; intros [= <- <-]; cbn [String.length] in *; lia.
    + destruct (span_digits (String g s'')) as [d r'] eqn:E.
      apply span_digits_length in E.
      destruct d; intros [= <- <-]; cbn [String.length] in *; lia.
Qed.

Lemma match_number_length (s lit r : string) :
  match_number s = Some (lit, r) -> String.length r < String.length s.
Proof.
  unfold match_number.
  destruct (match_int s) as [[i r1] |] eqn:Ei; [| discriminate].
  destruct (match_frac r1) as [f r2] eqn:Ef.
  destruct (match_exp r2) as [e r3] eqn:Ee.
  intros [= _ <-].
  apply match_int_length in Ei. apply match_frac_length in Ef.
  apply match_exp_length in Ee. lia.
Qed.

(** Rewriting with the tests and the scans that an earlier run met. *)
Ltac replay :=
  repeat match goal with
         | H : ?x = _ |- context [?x] => rewrite H
         end.

Ltac more_fuel f Hf f0 :=
  intros f Hf; destruct f as [| f0];
  [cbn [String.length] in Hf; lia |];
  cbn [scan_once array_items object_members].

(** A value that some amount of fuel finds is found with the fuel of
    [loads], and what follows the value is shorter than the text. *)
Lemma scan_complete (fuel : nat) :
  (forall s v r,
      scan_once fuel s = Some (v, r) ->
      String.length r < String.length s
      /\ forall f, 2 * String.length s + 1 <= f ->
                   scan_once f s = Some (v, r))
  /\ (forall s vs r,
         array_items fuel s = Some (vs, r) ->
         String.length r < String.length s
         /\ forall f, 2 * String.length s + 2 <= f ->
                      array_items f s = Some (vs, r))
  /\ (forall s ms r,
         object_members fuel s = Some (ms, r) ->
         String.length r < String.length s
         /\ forall f, 2 * String.length s + 2 <= f ->
                      object_members f s = Some (ms, r)).
Proof.
  induction fuel as [| fuel (IHv & IHa & IHo)].
  { repeat split; discriminate. }
  split; [| split].
  - intros s v r. cbn [scan_once].
    destruct s as [| c rest]; [discriminate |].
    destruct (Re.is_char dquote c) eqn:E1.
    { destruct (scanstring rest) as [[str r0] |] eqn:Es; [| discriminate].
      intros [= <- <-]. apply scanstring_length in Es as Hlen.
      split; [cbn [String.length]; lia |].
      more_fuel f Hf f0. now replay. }
    destruct (Re.is_char "{" c) eqn:E2.
    { pose proof (skip_ws_length rest) as Hws.
      destruct (skip_ws rest) as [| c1 r1] eqn:Ews; [discriminate |].
      destruct (Re.is_char "}" c1) eqn:E3.
      - intros [= <- <-]. cbn [String.length] in *. split; [lia |].
        more_fuel f Hf f0. now replay.
      - destruct (object_members fuel (String c1 r1)) as [[ms r0] |] eqn:Eo;
          [| discriminate].
        intros [= <- <-]. destruct (IHo _ _ _ Eo) as [Hlen Hmore].
        cbn [String.length] in *. split; [lia |].
        more_fuel f Hf f0. replay. rewrite (Hmore f0); [reflexivity | lia]. }
    destruct (Re.is_char "[" c) eqn:E3.
    { pose proof (skip_ws_length rest) as Hws.
      destruct (skip_ws rest) as [| c1 r1] eqn:Ews; [discriminate |].
      destruct (Re.is_char "]" c1) eqn:E4.
      - intros [= <- <-]. cbn [String.length] in *. split; [lia |].
        more_fuel f Hf f0. now replay.
      - destruct (array_items fuel (String c1 r1)) as [[vs r0] |] eqn:Ea;
          [| discriminate].
        intros [= <- <-]. destruct (IHa _ _ _ Ea) as [Hlen Hmore].
        cbn [String.length] in *. split; [lia |].
        more_fuel f Hf f0. replay. rewrite (Hmore f0); [reflexivity | lia]. }
    destruct (Re.is_char "n" c) eqn:E4.
    { intros H. apply literal_length in H as Hlen; [| cbn; lia].
      split; [lia |]. more_fuel f Hf f0. now replay. }
    destruct (Re.is_char "t" c) eqn:E5.
    { intros H. apply literal_length in H as Hlen; [| cbn; lia].
      split; [lia |]. more_fuel f Hf f0. now replay. }
    destruct (Re.is_char "f" c) eqn:E6.
    { intros H. apply literal_length in H as Hlen; [| cbn; lia].
      split; [lia |]. more_fuel f Hf f0. now replay. }
    destruct (match_number (String c rest)) as [[lit r0] |] eqn:En.
    { intros [= <- <-]. apply match_number_length in En as Hlen.
      split; [lia |]. more_fuel f Hf f0. now replay. }
    destruct (Re.is_char "N" c) eqn:E7.
    { intros H. apply literal_length in H as Hlen; [| cbn; lia].
      split; [lia |]. more_fuel f Hf f0. now replay. }
    destruct (Re.is_char "I" c) eqn:E8.
    { intros H. apply literal_length in H as Hlen; [| cbn; lia].
      split; [lia |]. more_fuel f Hf f0. now replay. }
    destruct (Re.is_char "-" c) eqn:E9; [| discriminate].
    intros H. apply literal_length in H as Hlen; [| cbn; lia].
    split; [lia |]. more_fuel f Hf f0. now replay.
  - intros s vs r. cbn [array_items].
    destruct (scan_once fuel s) as [[v r0] |] eqn:Ev; [| discriminate].
    destruct (IHv _ _ _ Ev) as [Hlen Hmore].
    pose proof (skip_ws_length r0) as Hws.
    destruct (skip_ws r0) as [| c r1] eqn:Ews; [discriminate |].
    destruct (Re.is_char "]" c) eqn:E1.
    { intros [= <- <-]. cbn [String.length] in *. split; [lia |].
      more_fuel f Hf f0. rewrite (Hmore f0); [| lia]. now replay. }
    destruct (Re.is_char "," c) eqn:E2; [| discriminate].
    pose proof (skip_ws_length r1) as Hws1.
    destruct (array_items fuel (skip_ws r1)) as [[vs' r2] |] eqn:Ea;
      [| discriminate].
    intros [= <- <-]. destruct (IHa _ _ _ Ea) as [Hlen' Hmore'].
    cbn [String.length] in *. split; [lia |].
    more_fuel f Hf f0. rewrite (Hmore f0); [| lia]. replay.
    rewrite (Hmore' f0); [reflexivity | lia].
  - intros s ms r. cbn [object_members].
    destruct s as [| q r0]; [discriminate |].
    destruct (Re.is_char dquote q) eqn:E1; [| discriminate].
    destruct (scanstring r0) as [[key r1] |] eqn:Es; [| discriminate].
    apply scanstring_length in Es as Hkey.
    pose proof (skip_ws_length r1) as Hws1.
    destruct (skip_ws r1) as [| colon r2] eqn:Ews1; [discriminate |].
    destruct (Re.is_char ":" colon) eqn:E2; [| discriminate].
    pose proof (skip_ws_length r2) as Hws2.
    destruct (scan_once fuel (skip_ws r2)) as [[v r3] |] eqn:Ev;
      [| discriminate].
    destruct (IHv _ _ _ Ev) as [Hlen Hmore].
    pose proof (skip_ws_length r3) as Hws3.
    destruct (skip_ws r3) as [| c r4] eqn:Ews3; [discriminate |].
    destruct (Re.is_char "}" c) eqn:E3.
    { intros [= <- <-]. cbn [String.length] in *. split; [lia |].
      more_fuel f Hf f0. replay. rewrite (Hmore f0); [| lia]. now replay. }
    destruct (Re.is_char "," c) eqn:E4; [| discriminate].
    pose proof (skip_ws_length r4) as Hws4.
    destruct (object_members fuel (skip_ws r4)) as [[ms' r5] |] eqn:Eo;
      [| discriminate].
    intros [= <- <-]. destruct (IHo _ _ _ Eo) as [Hlen' Hmore'].
    cbn [String.length] in *. split; [lia |].
    more_fuel f Hf f0. replay. rewrite (Hmore f0); [| lia]. replay.
    rewrite (Hmore' f0); [reflexivity | lia].
Qed.

(** The fuel of [loads] is enough: a text that the scanner reads as one
    value up to white space, with whatever fuel, is what [loads]
    returns; so [loads] fails on a text only when no fuel reads it. *)
Lemma loads_fuel_is_enough (s : string) (fuel : nat) (v : json) (r : string) :
  scan_once fuel (skip_ws s) = Some (v, r) ->
  skip_ws r = ""%string ->
  loads s = Some v.
Proof.
  intros Hscan Hend. unfold loads.
  destruct (scan_complete fuel) as (Hv & _ & _).
  destruct (Hv _ _ _ Hscan) as [_ Hmore].
  rewrite (Hmore (2 * String.length s + 2)).
  - now rewrite Hend.
  - pose proof (skip_ws_length s). lia.
Qed.

End JsonProps.

(* ===================================================================== *)
(** ** The text primitives on small inputs *)
(* ===================================================================== *)

Module PrimitiveExamples.
Import Py Json.

Example strip_takes_wide_spaces :
  strip (String "160" (" a b " ++ String "133" "")) = "a b".
Proof. reflexivity. Qed.

Example words_of_padded_text :
  words ("  we  raised" ++ nl ++ "$3.5M ") = ["we"; "raised"; "$3.5M"].
Proof. reflexivity. Qed.

Example split_on_fences :
  split "```" "a```json[]```b" = ["a"; "json[]"; "b"].
Proof. reflexivity. Qed.

Example line_comment_goes_to_the_line_end :
  Re.sub_line_comments ("[1, // one" ++ nl ++ "2]") = "[1, " ++ nl ++ "2]".
Proof. reflexivity. Qed.

Example unclosed_block_comment_stays :
  Re.sub_block_comments "a/* b */c/*/d" = "ac/*/d".
Proof. reflexivity. Qed.

Example commas_before_closers_go :
  Re.sub_trailing_commas ("[1,, {2, " ++ nl ++ "},]")
  = "[1,, {2 " ++ nl ++ "}]".
Proof. reflexivity. Qed.

Example long_runs_of_line_feeds_shrink :
  Re.sub_newlines ("a" ++ nl ++ nl ++ nl ++ nl ++ "b" ++ nl ++ nl ++ "c")
  = "a" ++ nl ++ nl ++ "b" ++ nl ++ nl ++ "c".
Proof. reflexivity. Qed.

Example replace_is_not_overlapping :
  replace " - " (nl ++ "- ") "a - - b - c" = "a" ++ nl ++ "- - b" ++ nl ++ "- c".
Proof. reflexivity. Qed.

Example loads_reads_nested_values :
  loads " [1.5e3, {}, [null, true], -Infinity] "
  = Some (JArr [JNum "1.5e3"; JObj []; JArr [JNull; JBool true];
               JNum "-Infinity"]).
Proof. vm_compute. reflexivity. Qed.

Example loads_refuses_a_trailing_comma : loads "[1,]" = None.
Proof. vm_compute. reflexivity. Qed.

Example loads_refuses_a_leading_zero : loads "[01]" = None.
Proof. vm_compute. reflexivity. Qed.

Example loads_refuses_text_after_the_value : loads "[] []" = None.
Proof. vm_compute. reflexivity. Qed.

Example later_member_wins :
  get "a" [("a", JNum "1"); ("b", JNull); ("a", JNum "2")] = Some (JNum "2").
Proof. reflexivity. Qed.

End PrimitiveExamples.

(* ===================================================================== *)
(** ** Properties of the fact extractor *)
(* ===================================================================== *)

Module ExtractFactsProps.
Import Py Json Models Samples.
Import Src3.ExtractFacts.
Local Open Scope list_scope.

(** C5: the recovery parse of the markdown-fenced array with trailing
    commas, for the category metric, yields exactly one fact; its content
    is "$3.5M raised", its source quote "we raised $3.5M" and its
    category metric.  Both spellings of the line breaks give it. *)
Theorem fenced_trailing_comma_response_yields_one_fact :
  (exists f,
      _parse_fact_array fenced_metric_response "metric" = Some [f]
      /\ ExtractedFact.content f = "$3.5M raised"
      /\ ExtractedFact.source_quote f = "we raised $3.5M"
      /\ ExtractedFact.fact_type f = metric)
  /\ _parse_fact_array fenced_metric_response_spelled "metric"
     = _parse_fact_array fenced_metric_response "metric".
Proof.
  split.
  - exists raised_fact. repeat split; vm_compute; reflexivity.
  - vm_compute. reflexivity.
Qed.

Lemma as_fact_type_name (c : FactType) :
  as_fact_type (JStr (fact_type_name c)) = Some c.
Proof. destruct c; reflexivity. Qed.

Lemma of_name_sound {A : Type} (name : A -> string) (values : list A)
  (s : string) (v : A) :
  of_name name values s = Some v -> name v = s.
Proof.
  induction values as [| x rest IH]; simpl; [discriminate |].
  destruct (String.eqb_spec (name x) s) as [E | _].
  - intros [= <-]. exact E.
  - exact IH.
Qed.

Lemma as_fact_type_sound (v : json) (c : FactType) :
  as_fact_type v = Some c -> v = JStr (fact_type_name c).
Proof.
  destruct v as [| b | n | s | l | ms]; intros H; try discriminate H.
  change (of_name fact_type_name
            [decision; action_item; open_question; deadline; metric] s
          = Some c) in H.
  apply of_name_sound in H. now subst.
Qed.

(** What the constructor keeps of the label it is given. *)
Lemma new_fact_type (ft c q cf cx : json) (f : ExtractedFact.t) :
  ExtractedFact.new ft c q cf cx = Some f ->
  as_fact_type ft = Some (ExtractedFact.fact_type f).
Proof.
  unfold ExtractedFact.new.
  destruct (as_fact_type ft); [| discriminate].
  destruct (as_str c); [| discriminate].
  destruct (as_str q); [| discriminate].
  destruct (as_confidence cf); [| discriminate].
  destruct (as_optional_str cx); [| discriminate].
  now intros [= <-].
Qed.

(** Every fact of the loop comes from an item that is a dict, and is
    the one fact of that item. *)
Lemma facts_of_items_origin (fact_type : string) (items : list json)
  (f : ExtractedFact.t) :
  In f (facts_of_items fact_type items) ->
  exists members,
    In (JObj members) items
    /\ facts_of_items fact_type [JObj members] = [f].
Proof.
  induction items as [| item rest IH]; simpl; [contradiction |].
  intros H.
  assert (Hrest : In f (facts_of_items fact_type rest) ->
                  exists members,
                    (item = JObj members \/ In (JObj members) rest)
                    /\ facts_of_items fact_type [JObj members] = [f]).
  { intros Hin. destruct (IH Hin) as (m & Hm & Hf). exists m. auto. }
  destruct item as [| b | n | s | l | members]; auto.
  destruct (ExtractedFact.new _ _ _ _ _) as [g |] eqn:E; auto.
  destruct H as [<- | H]; auto.
  exists members. split; [now left |]. simpl. now rewrite E.
Qed.

Lemma single_item_fact (fact_type : string) (members : list (string * json))
  (f : ExtractedFact.t) :
  facts_of_items fact_type [JObj members] = [f] ->
  as_fact_type (get_default "fact_type" (JStr fact_type) members)
  = Some (ExtractedFact.fact_type f).
Proof.
  simpl.
  destruct (ExtractedFact.new _ _ _ _ _) as [g |] eqn:E; [| discriminate].
  intros [= <-]. exact (new_fact_type _ _ _ _ _ _ E).
Qed.

(** C1 (as amended): a fact parsed for the category [c] comes from an
    item of the parsed array and carries the category that the item's
    own [fact_type] member names; it carries [c] when the item has no
    such member.  An item whose [fact_type] member is not one of the five
    category names yields no fact. *)
Theorem parsed_category_is_the_item_label :
  (forall (c : FactType) (content : string)
          (facts : list ExtractedFact.t) (f : ExtractedFact.t),
      _parse_fact_array content (fact_type_name c) = Some facts ->
      In f facts ->
      exists data items members,
        loads (clean_fact_array content) = Some data
        /\ iterate data = Some items
        /\ In (JObj members) items
        /\ facts_of_items (fact_type_name c) [JObj members] = [f]
        /\ match get "fact_type" members with
           | None => ExtractedFact.fact_type f = c
           | Some v => v = JStr (fact_type_name (ExtractedFact.fact_type f))
           end)
  /\ (forall (c : FactType) (members : list (string * json)) (v : json),
         get "fact_type" members = Some v ->
         as_fact_type v = None ->
         facts_of_items (fact_type_name c) [JObj members] = []).
Proof.
  split.
  - intros c content facts f Hparse Hin.
    unfold _parse_fact_array in Hparse.
    destruct (_ || _).
    { injection Hparse as <-. contradiction. }
    destruct (loads (clean_fact_array content)) as [data |] eqn:Hloads;
      [| discriminate].
    destruct (iterate data) as [items |] eqn:Hiter; [| discriminate].
    injection Hparse as <-.
    destruct (facts_of_items_origin _ _ _ Hin) as (members & Hm & Hf).
    exists data, items, members. repeat split; auto.
    pose proof (single_item_fact _ _ _ Hf) as Hlabel.
    unfold get_default in Hlabel.
    destruct (get "fact_type" members) as [v |].
    + now apply as_fact_type_sound.
    + rewrite as_fact_type_name in Hlabel. now injection Hlabel.
  - intros c members v Hget Hbad. simpl.
    unfold get_default. rewrite Hget.
    unfold ExtractedFact.new. now rewrite Hbad.
Qed.

(** C1, witness: the unlabelled answer parsed for metric, and an item
    labelled with a word that is no category. *)
Lemma parsed_category_is_the_item_label_witness :
  (exists data items members,
      loads (clean_fact_array unlabelled_response) = Some data
      /\ iterate data = Some items
      /\ In (JObj members) items
      /\ facts_of_items (fact_type_name metric) [JObj members]
         = [unlabelled_fact]
      /\ match get "fact_type" members with
         | None => ExtractedFact.fact_type unlabelled_fact = metric
         | Some v =>
             v = JStr (fact_type_name (ExtractedFact.fact_type unlabelled_fact))
         end)
  /\ facts_of_items (fact_type_name metric)
       [JObj [("fact_type", JStr "timeframe"); ("content", JStr "3 hours")]]
     = [].
Proof.
  split.
  - apply (proj1 parsed_category_is_the_item_label
             metric unlabelled_response [unlabelled_fact] unlabelled_fact).
    + vm_compute. reflexivity.
    + simpl. left. reflexivity.
  - apply (proj2 parsed_category_is_the_item_label
             metric _ (JStr "timeframe")).
    + reflexivity.
    + reflexivity.
Defined.

(** C1, counterexample: parsed for the category metric, an answer whose
    item calls itself a decision yields a fact of category decision; so
    the category of a parsed fact is not always that of the call. *)
Lemma generator_label_overrides_the_category :
  ~ (forall (c : FactType) (content : string)
            (facts : list ExtractedFact.t) (f : ExtractedFact.t),
        _parse_fact_array content (fact_type_name c) = Some facts ->
        In f facts ->
        ExtractedFact.fact_type f = c).
Proof.
  intros H.
  assert (E : _parse_fact_array mislabelled_response (fact_type_name metric)
              = Some [mislabelled_fact]) by (vm_compute; reflexivity).
  specialize (H metric mislabelled_response [mislabelled_fact]
                mislabelled_fact E (or_introl eq_refl)).
  discriminate H.
Qed.

Lemma calls_app (log more : Gen.Log) :
  Gen.calls log (log ++ more) = List.length more.
Proof. unfold Gen.calls. rewrite length_app. lia. Qed.






End ExtractFactsProps.

(* ===================================================================== *)
(** ** Properties of the fact validators *)
(* ===================================================================== *)

Module ValidateFactsProps.
Import Py Json Models Samples Terms.
Local Open Scope list_scope.

(** Case analysis on the rules of a validator, in their order. *)
Ltac split_rules :=
  repeat match goal with
         | |- context [if ?b then _ else _] =>
             match type of b with
             | bool => destruct b eqn:?
             end
         end.

(* --------------------------------------------------------------------- *)
(** *** The loop of the V8 validator *)

Lemma v8_loop_validated (l : list ExtractedFact.t) :
  fst (Src2.ValidateFacts.validate_loop l)
  = map Src2.ValidateFacts.validated_of (filter accepted_v8 l).
Proof.
  induction l as [| fact rest IH]; [reflexivity |].
  cbn [Src2.ValidateFacts.validate_loop filter]. unfold accepted_v8 at 1.
  destruct (Src2.ValidateFacts.validate_loop rest) as [vs ds].
  cbn [fst] in IH.
  destruct (Src2.ValidateFacts.discard_reason fact);
    cbn [fst map]; now rewrite IH.
Qed.

Lemma v8_loop_discarded (l : list ExtractedFact.t) :
  snd (Src2.ValidateFacts.validate_loop l) = flat_map rejection_v8 l.
Proof.
  induction l as [| fact rest IH]; [reflexivity |].
  cbn [Src2.ValidateFacts.validate_loop flat_map]. unfold rejection_v8 at 1.
  destruct (Src2.ValidateFacts.validate_loop rest) as [vs ds].
  cbn [snd] in IH.
  destruct (Src2.ValidateFacts.discard_reason fact);
    cbn [snd app]; now rewrite IH.
Qed.

(** What [validate_facts] of V8 leaves in the state. *)
Lemma v8_validate_facts_spec (state state' : State.t) :
  Src2.ValidateFacts.validate_facts state = Some state' ->
  exists extracted,
    State.extracted_facts state = Some extracted
    /\ state'
       = State.set_validated_facts
           (ValidatedFacts.mk
              (map Src2.ValidateFacts.validated_of
                 (filter accepted_v8 (all_facts_v8 extracted)))
              (List.length (flat_map rejection_v8 (all_facts_v8 extracted)))
              (flat_map rejection_v8 (all_facts_v8 extracted)))
           state.
Proof.
  unfold Src2.ValidateFacts.validate_facts.
  destruct (State.extracted_facts state) as [extracted |]; [| discriminate].
  fold (all_facts_v8 extracted).
  pose proof (v8_loop_validated (all_facts_v8 extracted)) as Hv.
  pose proof (v8_loop_discarded (all_facts_v8 extracted)) as Hd.
  destruct (Src2.ValidateFacts.validate_loop (all_facts_v8 extracted))
    as [vs ds].
  cbn [fst snd] in Hv, Hd. subst vs ds.
  intros [= <-]. now exists extracted.
Qed.

(* --------------------------------------------------------------------- *)
(** *** The loop of the V9 validator *)

(** A fact that [_validate_single_fact] refuses comes with a reason. *)
Lemma v9_refusal_has_reason (fact : ExtractedFact.t) :
  accepted_v9 fact = false ->
  exists reason,
    Src3.ValidateFacts._validate_single_fact fact = (false, Some reason).
Proof.
  unfold accepted_v9, Src3.ValidateFacts._validate_single_fact.
  split_rules; cbn [fst]; intros H; try discriminate H; eexists; reflexivity.
Qed.

Lemma v9_acceptance (fact : ExtractedFact.t) :
  accepted_v9 fact = true ->
  Src3.ValidateFacts._validate_single_fact fact = (true, None).
Proof.
  unfold accepted_v9, Src3.ValidateFacts._validate_single_fact.
  split_rules; cbn [fst]; intros H; try discriminate H; reflexivity.
Qed.

Lemma v9_loop_spec (l : list ExtractedFact.t) :
  exists reasons,
    Src3.ValidateFacts.validate_loop l
    = (map Src3.ValidateFacts.validated_of (filter accepted_v9 l),
       filter (fun f => negb (accepted_v9 f)) l,
       reasons)
    /\ Src3.ValidateFacts.all_present reasons = Some (flat_map rejection_v9 l).
Proof.
  induction l as [| fact rest (reasons & IH & Hall)].
  - exists []. split; reflexivity.
  - cbn [Src3.ValidateFacts.validate_loop filter flat_map]. rewrite IH.
    destruct (accepted_v9 fact) eqn:Hacc.
    + rewrite (v9_acceptance _ Hacc). unfold rejection_v9 at 1.
      rewrite (v9_acceptance _ Hacc). exists reasons. split; [reflexivity |].
      exact Hall.
    + destruct (v9_refusal_has_reason _ Hacc) as (reason & E).
      rewrite E. unfold rejection_v9 at 1. rewrite E.
      exists (Some reason :: reasons). split; [reflexivity |].
      cbn [Src3.ValidateFacts.all_present]. now rewrite Hall.
Qed.

Lemma v9_rejections_count (l : list ExtractedFact.t) :
  List.length (flat_map rejection_v9 l)
  = List.length (filter (fun f => negb (accepted_v9 f)) l).
Proof.
  induction l as [| fact rest IH]; [reflexivity |].
  cbn [flat_map filter]. rewrite length_app, IH.
  destruct (accepted_v9 fact) eqn:Hacc.
  - unfold rejection_v9. now rewrite (v9_acceptance _ Hacc).
  - destruct (v9_refusal_has_reason _ Hacc) as (reason & E).
    unfold rejection_v9. now rewrite E.
Qed.

(** What [validate_facts] of V9 leaves in the state, and when it
    returns. *)
Lemma v9_validate_facts_spec (load_skill : string -> option string)
  (state : State.t) :
  Src3.ValidateFacts.validate_facts load_skill state
  = match State.extracted_facts state, load_skill "VALIDATE_FACTS" with
    | Some extracted, Some _ =>
        Some (State.set_validated_facts
                (ValidatedFacts.mk
                   (map Src3.ValidateFacts.validated_of
                      (filter accepted_v9 (all_facts_v9 extracted)))
                   (List.length (flat_map rejection_v9 (all_facts_v9 extracted)))
                   (flat_map rejection_v9 (all_facts_v9 extracted)))
                state)
    | _, _ => None
    end.
Proof.
  unfold Src3.ValidateFacts.validate_facts.
  destruct (State.extracted_facts state) as [extracted |]; [| reflexivity].
  destruct (load_skill "VALIDATE_FACTS"); [| reflexivity].
  fold (all_facts_v9 extracted).
  destruct (v9_loop_spec (all_facts_v9 extracted)) as (reasons & -> & ->).
  now rewrite v9_rejections_count.
Qed.

Lemma filter_length_split {A : Type} (p : A -> bool) (l : list A) :
  List.length (filter p l) + List.length (filter (fun x => negb (p x)) l)
  = List.length l.
Proof.
  induction l as [| x rest IH]; [reflexivity |].
  cbn [filter]. destruct (p x); cbn [negb length]; lia.
Qed.

(* --------------------------------------------------------------------- *)
(** *** Repeatability *)

Lemma extracted_facts_set_validated (v : ValidatedFacts.t) (s : State.t) :
  State.extracted_facts (State.set_validated_facts v s)
  = State.extracted_facts s.
Proof. reflexivity. Qed.

Lemma set_validated_twice (v w : ValidatedFacts.t) (s : State.t) :
  State.set_validated_facts v (State.set_validated_facts w s)
  = State.set_validated_facts v s.
Proof. reflexivity. Qed.

(** C7: the validator is a function of the extracted facts alone.  When
    [validate_facts] returns a record, running it again on that record
    returns the same record, so the same validated facts and the same
    discard ledger; running it on any record with the same extracted
    facts gives the same validated facts and ledger.  The validated
    facts are the accepted facts in extraction order, the ledger holds
    the reasons of the refused ones in that order, and the count is
    their number.  The workflow node of the validator does not get the
    generator: its result does not depend on it, and the log of
    generator calls is the one it started with. *)
Theorem validation_is_repeatable :
  forall (load_skill : string -> option string) (state state' : State.t),
    Src3.ValidateFacts.validate_facts load_skill state = Some state' ->
    Src3.ValidateFacts.validate_facts load_skill state' = Some state'
    /\ (forall other : State.t,
           State.extracted_facts other = State.extracted_facts state ->
           exists other',
             Src3.ValidateFacts.validate_facts load_skill other = Some other'
             /\ State.validated_facts other' = State.validated_facts state')
    /\ (exists extracted vf,
           State.extracted_facts state = Some extracted
           /\ State.validated_facts state' = Some vf
           /\ ValidatedFacts.facts vf
              = map Src3.ValidateFacts.validated_of
                  (filter accepted_v9 (all_facts_v9 extracted))
           /\ ValidatedFacts.discarded_reasons vf
              = flat_map rejection_v9 (all_facts_v9 extracted)
           /\ ValidatedFacts.discarded_count vf
              = List.length (ValidatedFacts.discarded_reasons vf)
           /\ List.length (ValidatedFacts.facts vf)
              + ValidatedFacts.discarded_count vf
              = List.length (all_facts_v9 extracted))
    /\ (forall (llm1 llm2 : Gen.generator) (log : Gen.Log),
           Graph.validate_facts_node load_skill llm1 state log
           = (Some state', log)
           /\ Graph.validate_facts_node load_skill llm2 state log
              = (Some state', log)).
Proof.
  intros load_skill state state' H.
  pose proof H as Hrun.
  rewrite v9_validate_facts_spec in H.
  destruct (State.extracted_facts state) as [extracted |] eqn:He;
    [| discriminate].
  destruct (load_skill "VALIDATE_FACTS") as [skill |] eqn:Hs; [| discriminate].
  injection H as <-.
  split; [| split; [| split]].
  - rewrite v9_validate_facts_spec, extracted_facts_set_validated, He, Hs.
    now rewrite set_validated_twice.
  - intros other Hother. rewrite v9_validate_facts_spec.
    rewrite Hother, Hs. eexists. split; reflexivity.
  - eexists. eexists. split; [reflexivity |]. split; [reflexivity |].
    cbn [ValidatedFacts.facts ValidatedFacts.discarded_reasons
           ValidatedFacts.discarded_count].
    repeat split.
    rewrite length_map, v9_rejections_count. apply filter_length_split.
  - intros llm1 llm2 log. unfold Graph.validate_facts_node.
    rewrite Hrun. split; reflexivity.
Qed.

(** C7, witness: the sample facts, validated with every skill file in
    place. *)
Lemma validation_is_repeatable_witness :
  exists state',
    Src3.ValidateFacts.validate_facts empty_skills extracted_state
    = Some state'
    /\ Src3.ValidateFacts.validate_facts empty_skills state' = Some state'
    /\ (forall (llm1 llm2 : Gen.generator) (log : Gen.Log),
           Graph.validate_facts_node empty_skills llm1 extracted_state log
           = (Some state', log)
           /\ Graph.validate_facts_node empty_skills llm2 extracted_state log
              = (Some state', log)).
Proof.
  eexists. split; [vm_compute; reflexivity |].
  split.
  - apply (validation_is_repeatable empty_skills extracted_state).
    vm_compute. reflexivity.
  - apply (validation_is_repeatable empty_skills extracted_state).
    vm_compute. reflexivity.
Defined.

(* --------------------------------------------------------------------- *)
(** *** Short source quotes *)

Lemma v8_accepted_quote (fact : ExtractedFact.t) :
  accepted_v8 fact = true ->
  3 <= quote_words (ExtractedFact.source_quote fact).
Proof.
  unfold accepted_v8, Src2.ValidateFacts.discard_reason, quote_words.
  split_rules; intros H; try discriminate H.
  match goal with
  | E : (_ <? 3)%nat = false |- _ => now apply Nat.ltb_ge in E
  end.
Qed.

Lemma v9_accepted_quote (fact : ExtractedFact.t) :
  accepted_v9 fact = true ->
  5 <= String.length (ExtractedFact.source_quote fact).
Proof.
  unfold accepted_v9, Src3.ValidateFacts._validate_single_fact.
  split_rules; cbn [fst]; intros H; try discriminate H.
  match goal with
  | E : _ || (_ <? 5)%nat = false |- _ =>
      apply orb_false_iff in E; destruct E as [_ E];
      now apply Nat.ltb_ge in E
  end.
Qed.

Lemma Forall_validated {A B : Type} (P : B -> Prop) (Q : A -> bool)
  (f : A -> B) (l : list A) :
  (forall x, Q x = true -> P (f x)) ->
  Forall P (map f (filter Q l)).
Proof.
  intros H. apply Forall_forall. intros y Hy.
  apply in_map_iff in Hy. destruct Hy as (x & <- & Hx).
  apply filter_In in Hx. apply H, Hx.
Qed.

(** C3 (as amended): the V8 validator discards every fact whose source
    quote has fewer than three words and enters a reason for it in the
    ledger, so no validated fact has such a quote.  The V9 validator
    measures the quote in characters instead: it discards every fact
    whose source quote has fewer than five characters, with the reason
    "Missing source quote", and no validated fact has such a quote. *)
Theorem short_quotes_are_discarded :
  (forall (state state' : State.t) (extracted : ExtractedFacts.t)
          (vf : ValidatedFacts.t),
      Src2.ValidateFacts.validate_facts state = Some state' ->
      State.extracted_facts state = Some extracted ->
      State.validated_facts state' = Some vf ->
      Forall (fun v => 3 <= quote_words (ValidatedFact.source_quote v))
        (ValidatedFacts.facts vf)
      /\ ValidatedFacts.discarded_count vf
         = List.length (ValidatedFacts.discarded_reasons vf)
      /\ forall fact,
           In fact (all_facts_v8 extracted) ->
           quote_words (ExtractedFact.source_quote fact) < 3 ->
           exists reason,
             Src2.ValidateFacts.discard_reason fact = Some reason
             /\ In reason (ValidatedFacts.discarded_reasons vf))
  /\ (forall (load_skill : string -> option string) (state state' : State.t)
             (extracted : ExtractedFacts.t) (vf : ValidatedFacts.t),
         Src3.ValidateFacts.validate_facts load_skill state = Some state' ->
         State.extracted_facts state = Some extracted ->
         State.validated_facts state' = Some vf ->
         Forall (fun v => 5 <= String.length (ValidatedFact.source_quote v))
           (ValidatedFacts.facts vf)
         /\ ValidatedFacts.discarded_count vf
            = List.length (ValidatedFacts.discarded_reasons vf)
         /\ forall fact,
              In fact (all_facts_v9 extracted) ->
              String.length (ExtractedFact.source_quote fact) < 5 ->
              Src3.ValidateFacts._validate_single_fact fact
              = (false, Some ("Missing source quote: "
                              ++ take 50 (ExtractedFact.content fact))%string)
              /\ In ("Missing source quote: "
                     ++ take 50 (ExtractedFact.content fact))%string
                   (ValidatedFacts.discarded_reasons vf)).
Proof.
  split.
  - intros state state' extracted vf Hrun He Hvf.
    destruct (v8_validate_facts_spec _ _ Hrun) as (ex & He' & ->).
    rewrite He in He'. injection He' as <-.
    cbn [State.set_validated_facts State.validated_facts] in Hvf.
    injection Hvf as <-.
    cbn [ValidatedFacts.facts ValidatedFacts.discarded_reasons
           ValidatedFacts.discarded_count].
    split; [| split; [reflexivity |]].
    + apply Forall_validated. intros fact Hacc.
      exact (v8_accepted_quote fact Hacc).
    + intros fact Hin Hshort.
      destruct (Src2.ValidateFacts.discard_reason fact) as [reason |] eqn:E.
      * exists reason. split; [reflexivity |].
        apply in_flat_map. exists fact. split; [exact Hin |].
        unfold rejection_v8. rewrite E. now left.
      * assert (Hacc : accepted_v8 fact = true)
          by (unfold accepted_v8; now rewrite E).
        apply v8_accepted_quote in Hacc. lia.
  - intros load_skill state state' extracted vf Hrun He Hvf.
    rewrite v9_validate_facts_spec, He in Hrun.
    destruct (load_skill "VALIDATE_FACTS"); [| discriminate].
    injection Hrun as <-.
    cbn [State.set_validated_facts State.validated_facts] in Hvf.
    injection Hvf as <-.
    cbn [ValidatedFacts.facts ValidatedFacts.discarded_reasons
           ValidatedFacts.discarded_count].
    split; [| split; [reflexivity |]].
    + apply Forall_validated. intros fact Hacc.
      exact (v9_accepted_quote fact Hacc).
    + intros fact Hin Hshort.
      assert (E : Src3.ValidateFacts._validate_single_fact fact
                  = (false, Some ("Missing source quote: "
                                  ++ take 50 (ExtractedFact.content fact))%string)).
      { unfold Src3.ValidateFacts._validate_single_fact.
        apply Nat.ltb_lt in Hshort. rewrite Hshort, orb_true_r. reflexivity. }
      split; [exact E |].
      apply in_flat_map. exists fact. split; [exact Hin |].
      unfold rejection_v9. rewrite E. now left.
Qed.

(** C3, witness: the sample facts under both validators; the first
    sample fact has a quote of two words, and no sample fact has a quote
    of fewer than five characters. *)
Lemma short_quotes_are_discarded_witness :
  (Forall (fun v => 3 <= quote_words (ValidatedFact.source_quote v))
     (ValidatedFacts.facts validated_sample_v8)
   /\ ValidatedFacts.discarded_count validated_sample_v8
      = List.length (ValidatedFacts.discarded_reasons validated_sample_v8)
   /\ forall fact,
        In fact (all_facts_v8 extracted_sample) ->
        quote_words (ExtractedFact.source_quote fact) < 3 ->
        exists reason,
          Src2.ValidateFacts.discard_reason fact = Some reason
          /\ In reason (ValidatedFacts.discarded_reasons validated_sample_v8))
  /\ (Forall (fun v => 5 <= String.length (ValidatedFact.source_quote v))
        (ValidatedFacts.facts validated_sample_v9)
      /\ ValidatedFacts.discarded_count validated_sample_v9
         = List.length (ValidatedFacts.discarded_reasons validated_sample_v9)
      /\ forall fact,
           In fact (all_facts_v9 extracted_sample) ->
           String.length (ExtractedFact.source_quote fact) < 5 ->
           Src3.ValidateFacts._validate_single_fact fact
           = (false, Some ("Missing source quote: "
                           ++ take 50 (ExtractedFact.content fact))%string)
           /\ In ("Missing source quote: "
                  ++ take 50 (ExtractedFact.content fact))%string
                (ValidatedFacts.discarded_reasons validated_sample_v9)).
Proof.
  split.
  - apply (proj1 short_quotes_are_discarded extracted_state
             validated_state_v8 extracted_sample validated_sample_v8).
    + vm_compute. reflexivity.
    + reflexivity.
    + reflexivity.
  - apply (proj2 short_quotes_are_discarded empty_skills extracted_state
             validated_state_v9 extracted_sample validated_sample_v9).
    + vm_compute. reflexivity.
    + reflexivity.
    + reflexivity.
Defined.

(** C3, counterexample: the V9 validator keeps a decision whose source
    quote, "we agreed", has two words; so a fact with a quote of fewer
    than three words can appear among the validated facts. *)
Lemma two_word_quote_survives_v9 :
  ~ (forall (load_skill : string -> option string) (state state' : State.t)
            (vf : ValidatedFacts.t),
        Src3.ValidateFacts.validate_facts load_skill state = Some state' ->
        State.validated_facts state' = Some vf ->
        Forall (fun v => 3 <= quote_words (ValidatedFact.source_quote v))
          (ValidatedFacts.facts vf)).
Proof.
  intros H.
  destruct (Src3.ValidateFacts.validate_facts empty_skills extracted_state)
    as [state' |] eqn:Hrun; [| vm_compute in Hrun; discriminate Hrun].
  destruct (State.validated_facts state') as [vf |] eqn:Hvf.
  - specialize (H empty_skills extracted_state state' vf Hrun Hvf).
    vm_compute in Hrun. injection Hrun as <-.
    vm_compute in Hvf. injection Hvf as <-.
    apply Forall_inv in H. vm_compute in H. lia.
  - vm_compute in Hrun. injection Hrun as <-. discriminate Hvf.
Qed.

(* --------------------------------------------------------------------- *)
(** *** Commitment markers of action items *)

Lemma validated_of_v8_fields (fact : ExtractedFact.t) :
  ValidatedFact.fact_type (Src2.ValidateFacts.validated_of fact)
  = fact_type_name (ExtractedFact.fact_type fact)
  /\ ValidatedFact.source_quote (Src2.ValidateFacts.validated_of fact)
     = ExtractedFact.source_quote fact.
Proof. split; reflexivity. Qed.

Lemma validated_of_v9_fields (fact : ExtractedFact.t) :
  ValidatedFact.fact_type (Src3.ValidateFacts.validated_of fact)
  = fact_type_name (ExtractedFact.fact_type fact)
  /\ ValidatedFact.source_quote (Src3.ValidateFacts.validated_of fact)
     = ExtractedFact.source_quote fact.
Proof. split; reflexivity. Qed.

Lemma action_item_name (t : FactType) :
  fact_type_name t = "action_item" -> t = action_item.
Proof. destruct t; simpl; intros H; try discriminate H; reflexivity. Qed.

(** The commitment rule of V8 on an action item without a marker. *)
Lemma v8_commitment_rule_fires (fact : ExtractedFact.t) :
  ExtractedFact.fact_type fact = action_item ->
  has_marker_v8 (ExtractedFact.source_quote fact) = false ->
  (fact_type_name (ExtractedFact.fact_type fact) =? "action_item")
  && (negb (existsb (fun word =>
                       contains word (lower (ExtractedFact.source_quote fact)))
              Src2.ValidateFacts.commitment_words)
      && negb (existsb (fun verb =>
                          contains verb
                            (lower (ExtractedFact.source_quote fact)))
                 Src2.ValidateFacts.imperative_verbs))
  = true.
Proof.
  intros Hft Hm. unfold has_marker_v8 in Hm.
  apply orb_false_iff in Hm. destruct Hm as [Ha Hb].
  rewrite Hft, Ha, Hb. reflexivity.
Qed.

Lemma v8_accepted_marker (fact : ExtractedFact.t) :
  accepted_v8 fact = true ->
  ExtractedFact.fact_type fact = action_item ->
  has_marker_v8 (ExtractedFact.source_quote fact) = true.
Proof.
  intros Hacc Hft.
  destruct (has_marker_v8 (ExtractedFact.source_quote fact)) eqn:Hm;
    [reflexivity |].
  pose proof (v8_commitment_rule_fires fact Hft Hm) as Hrule.
  unfold accepted_v8, Src2.ValidateFacts.discard_reason in Hacc.
  rewrite Hrule in Hacc.
  revert Hacc. split_rules; intros Hacc; discriminate Hacc.
Qed.

Lemma v8_markerless_refused (fact : ExtractedFact.t) :
  ExtractedFact.fact_type fact = action_item ->
  has_marker_v8 (ExtractedFact.source_quote fact) = false ->
  exists reason, Src2.ValidateFacts.discard_reason fact = Some reason.
Proof.
  intros Hft Hm.
  destruct (Src2.ValidateFacts.discard_reason fact) as [reason |] eqn:E;
    [now exists reason |].
  assert (Hacc : accepted_v8 fact = true)
    by (unfold accepted_v8; now rewrite E).
  rewrite (v8_accepted_marker fact Hacc Hft) in Hm. discriminate Hm.
Qed.

Lemma v8_reason_when_reached (fact : ExtractedFact.t) :
  ExtractedFact.fact_type fact = action_item ->
  has_marker_v8 (ExtractedFact.source_quote fact) = false ->
  reaches_commitment_rule_v8 fact = true ->
  Src2.ValidateFacts.discard_reason fact
  = Some ("No clear commitment: "
          ++ take 50 (ExtractedFact.content fact))%string.
Proof.
  intros Hft Hm Hr.
  pose proof (v8_commitment_rule_fires fact Hft Hm) as Hrule.
  unfold reaches_commitment_rule_v8, quote_words in Hr.
  apply andb_true_iff in Hr. destruct Hr as [Hr H3].
  apply andb_true_iff in Hr. destruct Hr as [H1 H2].
  apply negb_true_iff in H1. apply negb_true_iff in H3.
  apply Nat.leb_le in H2.
  unfold Src2.ValidateFacts.discard_reason.
  rewrite H1, H3, Hrule. cbn [andb].
  destruct (Nat.ltb_spec
              (List.length (words (ExtractedFact.source_quote fact))) 3);
    [lia | reflexivity].
Qed.

(** The commitment rule of V9 on an action item without a marker. *)
Lemma v9_commitment_rule_fires (fact : ExtractedFact.t) :
  ExtractedFact.fact_type fact = action_item ->
  has_marker_v9 (ExtractedFact.source_quote fact) = false ->
  (fact_type_name (ExtractedFact.fact_type fact) =? "action_item")
  && negb (existsb (fun word =>
                      contains word (lower (ExtractedFact.source_quote fact)))
             Src3.ValidateFacts.commitment_words)
  = true.
Proof.
  intros Hft Hm. unfold has_marker_v9 in Hm. rewrite Hft, Hm. reflexivity.
Qed.

Lemma v9_accepted_marker (fact : ExtractedFact.t) :
  accepted_v9 fact = true ->
  ExtractedFact.fact_type fact = action_item ->
  has_marker_v9 (ExtractedFact.source_quote fact) = true.
Proof.
  intros Hacc Hft.
  destruct (has_marker_v9 (ExtractedFact.source_quote fact)) eqn:Hm;
    [reflexivity |].
  pose proof (v9_commitment_rule_fires fact Hft Hm) as Hrule.
  unfold accepted_v9, Src3.ValidateFacts._validate_single_fact in Hacc.
  rewrite Hrule in Hacc.
  revert Hacc. split_rules; cbn [fst]; intros Hacc; discriminate Hacc.
Qed.

Lemma long_text_is_truthy (q : string) :
  5 <= String.length q -> truthy q = true.
Proof. destruct q; simpl; [lia | reflexivity]. Qed.

Lemma v9_reason_when_reached (fact : ExtractedFact.t) :
  ExtractedFact.fact_type fact = action_item ->
  has_marker_v9 (ExtractedFact.source_quote fact) = false ->
  reaches_commitment_rule_v9 fact = true ->
  Src3.ValidateFacts._validate_single_fact fact
  = (false, Some ("No clear commitment: "
                  ++ take 50 (ExtractedFact.content fact))%string).
Proof.
  intros Hft Hm Hr.
  pose proof (v9_commitment_rule_fires fact Hft Hm) as Hrule.
  unfold reaches_commitment_rule_v9 in Hr.
  apply andb_true_iff in Hr. destruct Hr as [H1 H2].
  apply negb_true_iff in H2. apply Nat.leb_le in H1.
  unfold Src3.ValidateFacts._validate_single_fact.
  rewrite (long_text_is_truthy _ H1), H2, Hrule. cbn [negb orb].
  destruct (Nat.ltb_spec (String.length (ExtractedFact.source_quote fact)) 5);
    [lia | reflexivity].
Qed.

(** C6 (as amended): under either validator, every validated fact of
    category action_item has a source quote that, in lower case,
    contains one of the commitment markers of that validator.  An action
    item whose quote has no marker is always discarded with a reason;
    the reason is "No clear commitment: " followed by the first fifty
    characters of the content when the rules that come before the
    commitment rule let the fact through. *)
Theorem validated_action_items_have_markers :
  (forall (state state' : State.t) (vf : ValidatedFacts.t),
      Src2.ValidateFacts.validate_facts state = Some state' ->
      State.validated_facts state' = Some vf ->
      Forall (fun v =>
                ValidatedFact.fact_type v = "action_item" ->
                has_marker_v8 (ValidatedFact.source_quote v) = true)
        (ValidatedFacts.facts vf))
  /\ (forall fact : ExtractedFact.t,
         ExtractedFact.fact_type fact = action_item ->
         has_marker_v8 (ExtractedFact.source_quote fact) = false ->
         (exists reason, Src2.ValidateFacts.discard_reason fact = Some reason)
         /\ (reaches_commitment_rule_v8 fact = true ->
             Src2.ValidateFacts.discard_reason fact
             = Some ("No clear commitment: "
                     ++ take 50 (ExtractedFact.content fact))%string))
  /\ (forall (load_skill : string -> option string) (state state' : State.t)
             (vf : ValidatedFacts.t),
         Src3.ValidateFacts.validate_facts load_skill state = Some state' ->
         State.validated_facts state' = Some vf ->
         Forall (fun v =>
                   ValidatedFact.fact_type v = "action_item" ->
                   has_marker_v9 (ValidatedFact.source_quote v) = true)
           (ValidatedFacts.facts vf))
  /\ (forall fact : ExtractedFact.t,
         ExtractedFact.fact_type fact = action_item ->
         has_marker_v9 (ExtractedFact.source_quote fact) = false ->
         (exists reason,
             Src3.ValidateFacts._validate_single_fact fact
             = (false, Some reason))
         /\ (reaches_commitment_rule_v9 fact = true ->
             Src3.ValidateFacts._validate_single_fact fact
             = (false, Some ("No clear commitment: "
                             ++ take 50 (ExtractedFact.content fact))%string))).
Proof.
  split; [| split; [| split]].
  - intros state state' vf Hrun Hvf.
    destruct (v8_validate_facts_spec _ _ Hrun) as (ex & _ & ->).
    cbn [State.set_validated_facts State.validated_facts] in Hvf.
    injection Hvf as <-. cbn [ValidatedFacts.facts].
    apply Forall_validated. intros fact Hacc Hft.
    destruct (validated_of_v8_fields fact) as [Et Eq].
    rewrite Eq. rewrite Et in Hft.
    exact (v8_accepted_marker fact Hacc (action_item_name _ Hft)).
  - intros fact Hft Hm. split.
    + exact (v8_markerless_refused fact Hft Hm).
    + exact (v8_reason_when_reached fact Hft Hm).
  - intros load_skill state state' vf Hrun Hvf.
    rewrite v9_validate_facts_spec in Hrun.
    destruct (State.extracted_facts state); [| discriminate].
    destruct (load_skill "VALIDATE_FACTS"); [| discriminate].
    injection Hrun as <-.
    cbn [State.set_validated_facts State.validated_facts] in Hvf.
    injection Hvf as <-. cbn [ValidatedFacts.facts].
    apply Forall_validated. intros fact Hacc Hft.
    destruct (validated_of_v9_fields fact) as [Et Eq].
    rewrite Eq. rewrite Et in Hft.
    exact (v9_accepted_marker fact Hacc (action_item_name _ Hft)).
  - intros fact Hft Hm. split.
    + apply v9_refusal_has_reason.
      destruct (accepted_v9 fact) eqn:Hacc; [| reflexivity].
      rewrite (v9_accepted_marker fact Hacc Hft) in Hm. discriminate Hm.
    + exact (v9_reason_when_reached fact Hft Hm).
Qed.

(** C6, witness: the sample facts under both validators, and the sample
    action item without a marker that passes the earlier rules. *)
Lemma validated_action_items_have_markers_witness :
  Forall (fun v =>
            ValidatedFact.fact_type v = "action_item" ->
            has_marker_v8 (ValidatedFact.source_quote v) = true)
    (ValidatedFacts.facts validated_sample_v8)
  /\ Src2.ValidateFacts.discard_reason markerless_action
     = Some "No clear commitment: Update the docs"
  /\ Forall (fun v =>
               ValidatedFact.fact_type v = "action_item" ->
               has_marker_v9 (ValidatedFact.source_quote v) = true)
       (ValidatedFacts.facts validated_sample_v9)
  /\ Src3.ValidateFacts._validate_single_fact markerless_action
     = (false, Some "No clear commitment: Update the docs").
Proof.
  split; [| split; [| split]].
  - apply (proj1 validated_action_items_have_markers extracted_state
             validated_state_v8 validated_sample_v8).
    + vm_compute. reflexivity.
    + reflexivity.
  - apply (proj1 (proj2 validated_action_items_have_markers)
             markerless_action).
    + reflexivity.
    + vm_compute. reflexivity.
    + vm_compute. reflexivity.
  - apply (proj1 (proj2 (proj2 validated_action_items_have_markers))
             empty_skills extracted_state validated_state_v9
             validated_sample_v9).
    + vm_compute. reflexivity.
    + reflexivity.
  - apply (proj2 (proj2 (proj2 validated_action_items_have_markers))
             markerless_action).
    + reflexivity.
    + vm_compute. reflexivity.
    + vm_compute. reflexivity.
Defined.

(** Under V9, the rule on the length of the quote comes before the
    commitment rule and gives the reason of an action item whose quote
    is "doc". *)
Lemma terse_action_reason_v9 :
  has_marker_v9 (ExtractedFact.source_quote terse_action) = false
  /\ Src3.ValidateFacts._validate_single_fact terse_action
     = (false, Some "Missing source quote: Update the docs").
Proof. split; vm_compute; reflexivity. Qed.

(** C6, counterexample: an action item of low confidence whose quote has
    no marker is discarded by the V8 validator with the reason
    "Low confidence action_item: Update the docs", which does not speak
    of a commitment; so an action item without a marker is not always
    rejected for the reason "no clear commitment". *)
Lemma markerless_action_with_other_reason :
  ~ (forall fact : ExtractedFact.t,
        ExtractedFact.fact_type fact = action_item ->
        has_marker_v8 (ExtractedFact.source_quote fact) = false ->
        exists reason,
          Src2.ValidateFacts.discard_reason fact = Some reason
          /\ contains "no clear commitment" (lower reason) = true).
Proof.
  intros H.
  destruct (H unsure_action) as (reason & E & Hc).
  - reflexivity.
  - vm_compute. reflexivity.
  - vm_compute in E. injection E as <-. vm_compute in Hc. discriminate Hc.
Qed.

End ValidateFactsProps.

(* ===================================================================== *)
(** ** Properties of the compliance checker *)
(* ===================================================================== *)

Module ComplianceProps.
Import Py Json Models Samples Terms.
Local Open Scope list_scope.

(** What the V9 checker does with an action point or a to-do that names
    no source fact: it enters an issue and the verdict is failed. *)
Lemma unsourced_action_point_or_todo_fails (state : State.t)
  (outputs : MeetingOutputs.t) (validated : ValidatedFacts.t) :
  State.outputs state = Some outputs ->
  State.validated_facts state = Some validated ->
  (exists ap, In ap (MeetingOutputs.action_points outputs)
              /\ ActionPoint.source_facts ap = [])
  \/ (exists td, In td (MeetingOutputs.todos outputs)
                 /\ ToDo.source_facts td = []) ->
  exists issue issues,
    State.compliance_issues (Src3.ComplianceCheck.compliance_check state)
    = Some issues
    /\ In issue issues
    /\ State.compliance_passed (Src3.ComplianceCheck.compliance_check state)
       = Some false.
Proof.
  intros Ho Hv Hmissing.
  unfold Src3.ComplianceCheck.compliance_check. rewrite Ho, Hv.
  cbn [State.set_compliance State.compliance_issues State.compliance_passed].
  set (issues := flat_map Src3.ComplianceCheck.action_point_issues _
                 ++ flat_map Src3.ComplianceCheck.todo_issues _
                 ++ flat_map Src3.ComplianceCheck.email_issues _).
  assert (Hin : exists issue, In issue issues).
  { destruct Hmissing as [(ap & Hap & Hnil) | (td & Htd & Hnil)].
    - eexists. apply in_or_app. left. apply in_flat_map.
      exists ap. split; [exact Hap |].
      unfold Src3.ComplianceCheck.action_point_issues. rewrite Hnil.
      now left.
    - eexists. apply in_or_app. right. apply in_or_app. left.
      apply in_flat_map. exists td. split; [exact Htd |].
      unfold Src3.ComplianceCheck.todo_issues. rewrite Hnil.
      apply in_or_app. left. now left. }
  destruct Hin as (issue & Hin).
  exists issue, issues. repeat split; auto.
  destruct issues; [contradiction | reflexivity].
Qed.

(** C2 (the code departs from it): a bundle whose only artifact is an
    email without source facts passes the V9 compliance check with no
    issue, although the check is documented to verify that all outputs
    trace back to validated facts; the V8 check of the same bundle
    fails with the issue "Email 1 has no source facts". *)
Theorem unsourced_email_passes_compliance_v9 :
  FollowUpEmail.source_facts unsourced_email = []
  /\ State.compliance_passed
       (Src3.ComplianceCheck.compliance_check unsourced_state)
     = Some true
  /\ State.compliance_issues
       (Src3.ComplianceCheck.compliance_check unsourced_state)
     = Some []
  /\ option_map State.compliance_passed
       (Src2.ComplianceCheck.compliance_check unsourced_state)
     = Some (Some false)
  /\ option_map State.compliance_issues
       (Src2.ComplianceCheck.compliance_check unsourced_state)
     = Some (Some ["Email 1 has no source facts"]).
Proof. repeat split; vm_compute; reflexivity. Qed.

End ComplianceProps.

(* ===================================================================== *)
(** ** Properties of the to-do generator *)
(* ===================================================================== *)

Module GenerateTodosProps.
Import Py Json Models Samples Terms.
Import Src3.GenerateTodos.
Local Open Scope list_scope.

Lemma not_truthy_is_empty (d : string) : truthy d = false -> d = ""%string.
Proof.
  unfold truthy. intros H. apply negb_false_iff in H.
  now apply String.eqb_eq in H.
Qed.

(** The repair leaves the task, the priority and the source facts. *)
Lemma fix_todo_keeps_fields (todo : ToDo.t) :
  ToDo.task (fix_todo todo) = ToDo.task todo
  /\ ToDo.priority (fix_todo todo) = ToDo.priority todo
  /\ ToDo.source_facts (fix_todo todo) = ToDo.source_facts todo.
Proof.
  unfold fix_todo.
  destruct (ToDo.deadline todo) as [d |] eqn:Hd.
  - destruct (truthy d && mem (lower d) absent_deadlines).
    + cbn [ToDo.deadline]. repeat split.
    + rewrite Hd. destruct (truthy d); [| repeat split].
      destruct (existsb _ task_verbs); repeat split.
  - rewrite Hd. repeat split.
Qed.

(** A deadline that is a sentinel becomes absent. *)
Lemma fix_todo_nulls_sentinel (todo : ToDo.t) (d : string) :
  ToDo.deadline todo = Some d ->
  mem (lower d) absent_deadlines = true ->
  ToDo.deadline (fix_todo todo) = None.
Proof.
  intros Hd Hm. unfold fix_todo. rewrite Hd.
  destruct (truthy d) eqn:Ht.
  - rewrite Hm. reflexivity.
  - apply not_truthy_is_empty in Ht. subst d.
    vm_compute in Hm. discriminate Hm.
Qed.

(** No deadline is a sentinel after the repair. *)
Lemma fix_todo_no_sentinel (todo : ToDo.t) (d : string) :
  ToDo.deadline (fix_todo todo) = Some d ->
  mem (lower d) absent_deadlines = false.
Proof.
  unfold fix_todo.
  destruct (ToDo.deadline todo) as [d0 |] eqn:Hd.
  - destruct (truthy d0 && mem (lower d0) absent_deadlines) eqn:E.
    + lazy beta iota zeta delta [ToDo.deadline]. intros H. discriminate H.
    + lazy zeta. rewrite Hd. destruct (truthy d0) eqn:Ht.
      * destruct (existsb _ task_verbs).
        { lazy beta iota zeta delta [ToDo.deadline]. intros H. discriminate H. }
        rewrite Hd. intros [= <-]. exact E.
      * rewrite Hd. intros [= <-].
        apply not_truthy_is_empty in Ht. subst d0. reflexivity.
  - lazy zeta. rewrite Hd. lazy beta iota. rewrite Hd.
    intros H. discriminate H.
Qed.

(** The sentinels of the compliance check are among those of the
    repair. *)
Lemma compliance_sentinels_are_repaired (x : string) :
  mem x absent_deadlines = false ->
  mem x Src3.ComplianceCheck.unspecified_deadlines = false.
Proof.
  unfold mem, absent_deadlines, Src3.ComplianceCheck.unspecified_deadlines.
  cbn [existsb]. intros H.
  repeat (apply orb_false_iff in H; destruct H as [? H]).
  repeat (apply orb_false_iff; split); auto.
Qed.

(** The to-dos of a parsed response went through the repair. *)
Lemma todos_of_response_repaired (response : string) (tds : list ToDo.t) :
  todos_of_response response = Some tds ->
  exists raw, tds = _fix_common_issues raw.
Proof.
  unfold todos_of_response.
  destruct (loads _) as [data |]; [| discriminate].
  destruct (iterate data) as [items |]; [| discriminate].
  destruct (traverse dedupe_item items) as [data' |]; [| discriminate].
  destruct (traverse ToDo.of_json data') as [raw |]; [| discriminate].
  intros [= <-]. now exists raw.
Qed.

Section Loop.

Variable load_skill : string -> option string.
Variable exn_text : Gen.Log -> string.

(** Whatever the loop returns is empty or went through the repair. *)
Lemma todo_attempts_repaired (llm : Gen.generator) (prompt : string)
  (max_retries : nat) (attempts : list nat) :
  forall (feedback : string) (log log' : Gen.Log) (tds : list ToDo.t),
    todo_attempts exn_text llm prompt max_retries attempts feedback log
    = (Some tds, log') ->
    exists raw, tds = _fix_common_issues raw.
Proof.
  induction attempts as [| attempt rest IH]; intros feedback log log' tds.
  - discriminate.
  - cbn [todo_attempts Gen.invoke].
    destruct (llm log (with_feedback prompt feedback)) as [content |].
    + destruct (todos_of_response content) as [todos |] eqn:E.
      * apply todos_of_response_repaired in E.
        destruct (_validate_todos todos).
        { now intros [= <- _]. }
        destruct (attempt <? max_retries)%nat; [apply IH |].
        now intros [= <- _].
      * destruct (attempt <? max_retries)%nat; [apply IH |].
        intros [= <- _]. now exists [].
    + destruct (attempt <? max_retries)%nat; [apply IH |].
      intros [= <- _]. now exists [].
Qed.

Lemma generate_todos_repaired (state state' : State.t) (llm : Gen.generator)
  (log log' : Gen.Log) (tds : list ToDo.t) :
  generate_todos load_skill exn_text state llm log = (Some state', log') ->
  State.todos state' = Some tds ->
  exists raw, tds = _fix_common_issues raw.
Proof.
  unfold generate_todos.
  destruct (State.validated_facts state) as [validated |]; [| discriminate].
  destruct (load_skill "GENERATE_TODOS") as [skill |]; [| discriminate].
  destruct (filter _ (ValidatedFacts.facts validated)) as [| a rest].
  - intros [= <- _]. cbn [State.set_todos State.todos].
    intros [= <-]. now exists [].
  - destruct (todo_attempts _ _ _ _ _ _ _) as [[todos |] log1] eqn:E;
      [| discriminate].
    intros [= <- _]. cbn [State.set_todos State.todos]. intros [= <-].
    exact (todo_attempts_repaired _ _ _ _ _ _ _ _ E).
Qed.

End Loop.

(** The stage's reading of a response is the repair of its parse. *)
Lemma todos_of_response_parsed (response : string) :
  todos_of_response response
  = option_map _fix_common_issues (parsed_todos response).
Proof.
  unfold todos_of_response, parsed_todos.
  destruct (loads _) as [data |]; [| reflexivity].
  destruct (iterate data) as [items |]; [| reflexivity].
  destruct (traverse dedupe_item items) as [data' |]; [| reflexivity].
  destruct (traverse ToDo.of_json data') as [raw |]; reflexivity.
Qed.

Lemma fix_todo_nulls_verb (todo : ToDo.t) (d : string) :
  ToDo.deadline todo = Some d ->
  existsb (fun verb => contains verb (lower d)) task_verbs = true ->
  fix_todo todo
  = ToDo.mk (ToDo.task todo) None (ToDo.priority todo)
      (ToDo.source_facts todo).
Proof.
  intros Hd Hverb.
  assert (Ht : truthy d = true).
  { destruct (truthy d) eqn:Ht; [reflexivity |].
    apply not_truthy_is_empty in Ht. subst d.
    vm_compute in Hverb. discriminate Hverb. }
  unfold fix_todo. rewrite Hd, Ht. cbn [andb].
  destruct (mem (lower d) absent_deadlines).
  - reflexivity.
  - rewrite Hd, Ht, Hverb. reflexivity.
Qed.

Lemma fix_todo_nulls_sentinel_fields (todo : ToDo.t) (d : string) :
  ToDo.deadline todo = Some d ->
  mem (lower d) absent_deadlines = true ->
  fix_todo todo
  = ToDo.mk (ToDo.task todo) None (ToDo.priority todo)
      (ToDo.source_facts todo).
Proof.
  intros Hd Hm.
  pose proof (fix_todo_nulls_sentinel todo d Hd Hm) as Hnone.
  destruct (fix_todo_keeps_fields todo) as (Ht & Hp & Hs).
  destruct (fix_todo todo) as [t dl p sf].
  cbn [ToDo.task ToDo.deadline ToDo.priority ToDo.source_facts] in *.
  now subst.
Qed.

(** A deadline that is neither a sentinel nor names a task verb is
    kept, with the whole to-do. *)
Lemma fix_todo_keeps_other (todo : ToDo.t) (d : string) :
  ToDo.deadline todo = Some d ->
  mem (lower d) absent_deadlines = false ->
  existsb (fun verb => contains verb (lower d)) task_verbs = false ->
  fix_todo todo = todo.
Proof.
  intros Hd Hm Hv. unfold fix_todo. rewrite Hd, Hm, andb_false_r, Hd, Hv.
  now destruct (truthy d).
Qed.

Lemma nth_error_repaired (raw : list ToDo.t) (i : nat) (todo : ToDo.t) :
  nth_error raw i = Some todo ->
  nth_error (_fix_common_issues raw) i = Some (fix_todo todo).
Proof.
  intros H. unfold _fix_common_issues. now apply map_nth_error.
Qed.

Section Path.

Variable load_skill : string -> option string.
Variable exn_text : Gen.Log -> string.

(** What the loop returns is what it reads from the answer to its last
    call: the repaired to-dos of that answer, or none when the call
    raised or the answer could not be read. *)
Lemma todo_attempts_last_call (llm : Gen.generator) (prompt : string)
  (max_retries : nat) (attempts : list nat) :
  forall (feedback : string) (log log' : Gen.Log) (tds : list ToDo.t),
    todo_attempts exn_text llm prompt max_retries attempts feedback log
    = (Some tds, log') ->
    exists front p,
      log' = log ++ front ++ [p]
      /\ List.length front < List.length attempts
      /\ tds = match llm (log ++ front) p with
               | Some response =>
                   match todos_of_response response with
                   | Some todos => todos
                   | None => []
                   end
               | None => []
               end.
Proof.
  induction attempts as [| attempt rest IH]; intros feedback log log' tds.
  - discriminate.
  - cbn [todo_attempts Gen.invoke].
    assert (Hnext : forall fb,
               todo_attempts exn_text llm prompt max_retries rest fb
                 (log ++ [with_feedback prompt feedback]) = (Some tds, log') ->
               exists front p,
                 log' = log ++ front ++ [p]
                 /\ List.length front < List.length (attempt :: rest)
                 /\ tds = match llm (log ++ front) p with
                          | Some response =>
                              match todos_of_response response with
                              | Some todos => todos
                              | None => []
                              end
                          | None => []
                          end).
    { intros fb E. destruct (IH fb _ _ _ E) as (front & p & -> & Hlen & ->).
      exists (with_feedback prompt feedback :: front), p.
      split; [now rewrite <- app_assoc |].
      split; [cbn [length]; lia |].
      now rewrite <- app_assoc. }
    assert (Hnow : forall todos : list ToDo.t,
               todos = match llm log (with_feedback prompt feedback) with
                       | Some response =>
                           match todos_of_response response with
                           | Some todos => todos
                           | None => []
                           end
                       | None => []
                       end ->
               (Some todos, log ++ [with_feedback prompt feedback])
               = (Some tds, log') ->
               exists front p,
                 log' = log ++ front ++ [p]
                 /\ List.length front < List.length (attempt :: rest)
                 /\ tds = match llm (log ++ front) p with
                          | Some response =>
                              match todos_of_response response with
                              | Some todos => todos
                              | None => []
                              end
                          | None => []
                          end).
    { intros todos Ht [= <- <-]. exists [], (with_feedback prompt feedback).
      split; [reflexivity |]. split; [cbn [length]; lia |].
      now rewrite app_nil_r. }
    destruct (llm log (with_feedback prompt feedback)) as [content |] eqn:El.
    + destruct (todos_of_response content) as [todos |] eqn:Et.
      * destruct (_validate_todos todos) as [| issue issues];
          [now apply Hnow |].
        destruct (attempt <? max_retries)%nat; [apply Hnext | now apply Hnow].
      * destruct (attempt <? max_retries)%nat; [apply Hnext | now apply Hnow].
    + destruct (attempt <? max_retries)%nat; [apply Hnext | now apply Hnow].
Qed.

(** The to-dos that the stage returns: none, without a call, when no
    action item is validated; otherwise what it reads from the answer
    to its last call, the repair of the parsed to-dos. *)
Lemma generate_todos_last_call (state state' : State.t)
  (llm : Gen.generator) (log log' : Gen.Log) (tds : list ToDo.t) :
  generate_todos load_skill exn_text state llm log = (Some state', log') ->
  State.todos state' = Some tds ->
  (tds = [] /\ log' = log)
  \/ exists front p,
       log' = log ++ front ++ [p]
       /\ List.length front <= 2
       /\ tds = match llm (log ++ front) p with
                | Some response =>
                    match parsed_todos response with
                    | Some raw => _fix_common_issues raw
                    | None => []
                    end
                | None => []
                end.
Proof.
  unfold generate_todos.
  destruct (State.validated_facts state) as [validated |]; [| discriminate].
  destruct (load_skill "GENERATE_TODOS") as [skill |]; [| discriminate].
  destruct (filter _ (ValidatedFacts.facts validated)) as [| a rest].
  - intros [= <- <-]. cbn [State.set_todos State.todos].
    intros [= <-]. now left.
  - destruct (todo_attempts _ _ _ _ _ _ _) as [[todos |] log1] eqn:E;
      [| discriminate].
    intros [= <- <-]. cbn [State.set_todos State.todos]. intros [= <-].
    right.
    destruct (todo_attempts_last_call _ _ _ _ _ _ _ _ E)
      as (front & p & -> & Hlen & ->).
    exists front, p. split; [reflexivity |].
    split; [cbn [seq length] in Hlen; lia |].
    destruct (llm (log ++ front) p) as [response |]; [| reflexivity].
    rewrite todos_of_response_parsed.
    now destruct (parsed_todos response).
Qed.

(** When the answer to the last call of the stage parses, the stage
    returns the repair of the parsed to-dos. *)
Lemma generate_todos_returns_repair (state state' : State.t)
  (llm : Gen.generator) (log log' front : Gen.Log) (p response : string)
  (tds raw : list ToDo.t) :
  generate_todos load_skill exn_text state llm log = (Some state', log') ->
  State.todos state' = Some tds ->
  log' = log ++ front ++ [p] ->
  llm (log ++ front) p = Some response ->
  parsed_todos response = Some raw ->
  tds = _fix_common_issues raw.
Proof.
  intros Hrun Htds Hlog Hllm Hraw.
  destruct (generate_todos_last_call _ _ _ _ _ _ Hrun Htds)
    as [[_ E] | (front' & p' & E & _ & ->)].
  - rewrite E in Hlog. apply (f_equal (@List.length _)) in Hlog.
    rewrite !length_app in Hlog. cbn [length] in Hlog. lia.
  - rewrite E in Hlog. apply app_inv_head in Hlog.
    apply app_inj_tail in Hlog as [-> ->].
    now rewrite Hllm, Hraw.
Qed.

End Path.

(** C4: no to-do that the to-do generator returns has a deadline that
    equals, letter case apart, one of the sentinels "not specified",
    "none", "n/a", "tbd", "null", nor one that the compliance check
    objects to.  The repair step turns a deadline that is such a
    sentinel into an absent one, and it leaves the task, the priority
    and the source facts of every to-do as they were.  The path from
    the response to the output is this one: what the stage reads from
    a response is the repair of the to-dos parsed from it; when the
    answer to the last call of a run parses, the returned list is the
    repair of the parsed to-dos, of the same length, and at each
    position where the parsed to-do carries a sentinel the returned
    to-do has no deadline and the other fields of the parsed one; and
    every returned list is empty or comes about in this way.  The
    sentinels are the five texts of the code: a deadline that is none
    of them and names no task verb, such as "Unspecified", is kept. *)
Theorem todo_deadlines_are_never_sentinels :
  (forall (load_skill : string -> option string)
          (exn_text : Gen.Log -> string) (state state' : State.t)
          (llm : Gen.generator) (log log' : Gen.Log) (tds : list ToDo.t),
      generate_todos load_skill exn_text state llm log = (Some state', log') ->
      State.todos state' = Some tds ->
      Forall (fun td =>
                forall d, ToDo.deadline td = Some d ->
                          mem (lower d) absent_deadlines = false
                          /\ mem (lower d)
                               Src3.ComplianceCheck.unspecified_deadlines
                             = false)
        tds)
  /\ (forall (todo : ToDo.t) (d : string),
         ToDo.deadline todo = Some d ->
         mem (lower d) absent_deadlines = true ->
         fix_todo todo
         = ToDo.mk (ToDo.task todo) None (ToDo.priority todo)
             (ToDo.source_facts todo))
  /\ (forall todos : list ToDo.t,
         map ToDo.task (_fix_common_issues todos) = map ToDo.task todos
         /\ map ToDo.priority (_fix_common_issues todos)
            = map ToDo.priority todos
         /\ map ToDo.source_facts (_fix_common_issues todos)
            = map ToDo.source_facts todos)
  /\ (forall response : string,
         todos_of_response response
         = option_map _fix_common_issues (parsed_todos response))
  /\ (forall (load_skill : string -> option string)
             (exn_text : Gen.Log -> string) (state state' : State.t)
             (llm : Gen.generator) (log log' front : Gen.Log)
             (p response : string) (tds raw : list ToDo.t),
         generate_todos load_skill exn_text state llm log
         = (Some state', log') ->
         State.todos state' = Some tds ->
         log' = log ++ front ++ [p] ->
         llm (log ++ front) p = Some response ->
         parsed_todos response = Some raw ->
         tds = _fix_common_issues raw
         /\ List.length tds = List.length raw
         /\ forall (i : nat) (todo : ToDo.t) (d : string),
              nth_error raw i = Some todo ->
              ToDo.deadline todo = Some d ->
              mem (lower d) absent_deadlines = true ->
              nth_error tds i
              = Some (ToDo.mk (ToDo.task todo) None (ToDo.priority todo)
                        (ToDo.source_facts todo)))
  /\ (forall (load_skill : string -> option string)
             (exn_text : Gen.Log -> string) (state state' : State.t)
             (llm : Gen.generator) (log log' : Gen.Log) (tds : list ToDo.t),
         generate_todos load_skill exn_text state llm log
         = (Some state', log') ->
         State.todos state' = Some tds ->
         tds = []
         \/ exists front p response raw,
              log' = log ++ front ++ [p]
              /\ llm (log ++ front) p = Some response
              /\ parsed_todos response = Some raw
              /\ tds = _fix_common_issues raw)
  /\ (forall (todo : ToDo.t) (d : string),
         ToDo.deadline todo = Some d ->
         mem (lower d) absent_deadlines = false ->
         existsb (fun verb => contains verb (lower d)) task_verbs = false ->
         fix_todo todo = todo).
Proof.
  split; [| split; [| split; [| split; [| split; [| split]]]]].
  - intros load_skill exn_text state state' llm log log' tds Hrun Htds.
    destruct (generate_todos_repaired _ _ _ _ _ _ _ _ Hrun Htds) as (raw & ->).
    unfold _fix_common_issues. apply Forall_forall. intros td Hin d Hd.
    apply in_map_iff in Hin. destruct Hin as (todo & <- & _).
    pose proof (fix_todo_no_sentinel todo d Hd) as Hno.
    split; [exact Hno | now apply compliance_sentinels_are_repaired].
  - exact fix_todo_nulls_sentinel_fields.
  - intros todos. unfold _fix_common_issues. rewrite !map_map.
    repeat split; apply map_ext; intros todo;
      destruct (fix_todo_keeps_fields todo) as (Ht & Hp & Hs); assumption.
  - exact todos_of_response_parsed.
  - intros load_skill exn_text state state' llm log log' front p response
      tds raw Hrun Htds Hlog Hllm Hraw.
    pose proof (generate_todos_returns_repair load_skill exn_text state
                  state' llm log log' front p response tds raw Hrun Htds
                  Hlog Hllm Hraw) as ->.
    split; [reflexivity |].
    split; [unfold _fix_common_issues; apply length_map |].
    intros i todo d Hi Hd Hm.
    rewrite (nth_error_repaired raw i todo Hi).
    now rewrite (fix_todo_nulls_sentinel_fields todo d Hd Hm).
  - intros load_skill exn_text state state' llm log log' tds Hrun Htds.
    destruct (generate_todos_last_call _ _ _ _ _ _ _ _ Hrun Htds)
      as [[-> _] | (front & p & E & _ & ->)]; [now left |].
    destruct (llm (log ++ front) p) as [response |] eqn:El; [| now left].
    destruct (parsed_todos response) as [raw |] eqn:Er; [| now left].
    right. now exists front, p, response, raw.
  - exact fix_todo_keeps_other.
Qed.

(** C4, witness: the state after the to-do stage on the sample facts,
    with a generator whose answer has one sentinel deadline; the repair
    of the to-do with that deadline; the path from that answer to the
    returned list; and a to-do due "Unspecified", which is kept. *)
Lemma todo_deadlines_are_never_sentinels_witness :
  Forall (fun td =>
            forall d, ToDo.deadline td = Some d ->
                      mem (lower d) absent_deadlines = false
                      /\ mem (lower d)
                           Src3.ComplianceCheck.unspecified_deadlines
                         = false)
    generated_todos
  /\ fix_todo unspecified_todo
     = ToDo.mk "Obtain the assets" None Medium
         ["Reach out to Chloe for assets"%string]
  /\ (generated_todos = _fix_common_issues [review_todo; unspecified_todo]
      /\ List.length generated_todos = 2
      /\ forall (i : nat) (todo : ToDo.t) (d : string),
           nth_error [review_todo; unspecified_todo] i = Some todo ->
           ToDo.deadline todo = Some d ->
           mem (lower d) absent_deadlines = true ->
           nth_error generated_todos i
           = Some (ToDo.mk (ToDo.task todo) None (ToDo.priority todo)
                     (ToDo.source_facts todo)))
  /\ fix_todo (ToDo.mk "Obtain the assets" (Some "Unspecified") Medium [])
     = ToDo.mk "Obtain the assets" (Some "Unspecified") Medium [].
Proof.
  split; [| split; [| split]].
  - apply (proj1 todo_deadlines_are_never_sentinels empty_skills some_text
             validated_state_v9 todos_state todos_generator []
             [Src3.GenerateTodos.todos_prompt ""
                (("ACTION ITEMS:" ++ nl)
                 ++ "1. Run manual test Thursday")%string]).
    + vm_compute. reflexivity.
    + reflexivity.
  - apply (proj1 (proj2 todo_deadlines_are_never_sentinels)
             unspecified_todo "Not Specified").
    + reflexivity.
    + vm_compute. reflexivity.
  - apply (proj1 (proj2 (proj2 (proj2 (proj2
             todo_deadlines_are_never_sentinels))))
             empty_skills some_text validated_state_v9 todos_state
             todos_generator []
             [Src3.GenerateTodos.todos_prompt ""
                (("ACTION ITEMS:" ++ nl)
                 ++ "1. Run manual test Thursday")%string]
             []
             (Src3.GenerateTodos.todos_prompt ""
                (("ACTION ITEMS:" ++ nl)
                 ++ "1. Run manual test Thursday")%string)
             todos_response generated_todos
             [review_todo; unspecified_todo]).
    + vm_compute. reflexivity.
    + reflexivity.
    + reflexivity.
    + reflexivity.
    + vm_compute. reflexivity.
  - apply (proj2 (proj2 (proj2 (proj2 (proj2 (proj2
             todo_deadlines_are_never_sentinels)))))
             (ToDo.mk "Obtain the assets" (Some "Unspecified") Medium [])
             "Unspecified").
    + reflexivity.
    + vm_compute. reflexivity.
    + vm_compute. reflexivity.
Defined.

(** C9: a to-do that goes through the repair step [_fix_common_issues]
    with a deadline that is present and, in lower case, contains one of
    "run", "send", "schedule", "reach", "upload", "complete", "review"
    leaves it, at the same position of a list of the same length, with
    an absent deadline and with its task, priority and source facts
    unchanged; a time expression that only mentions such a word, as
    "before the design review" does, is not spared.  So it is in the
    stage: what the stage reads from a response with such a to-do is
    the repaired list, and when the answer to the last call of a run
    parses to a list with such a to-do, the list that the stage returns
    has it without its deadline. *)
Theorem deadline_naming_a_task_verb_is_nulled :
  forall (todos : list ToDo.t) (i : nat) (todo : ToDo.t) (d : string),
    nth_error todos i = Some todo ->
    ToDo.deadline todo = Some d ->
    existsb (fun verb => contains verb (lower d)) task_verbs = true ->
    nth_error (_fix_common_issues todos) i
    = Some (ToDo.mk (ToDo.task todo) None (ToDo.priority todo)
              (ToDo.source_facts todo))
    /\ List.length (_fix_common_issues todos) = List.length todos
    /\ fix_todo todo
       = ToDo.mk (ToDo.task todo) None (ToDo.priority todo)
           (ToDo.source_facts todo)
    /\ (forall response : string,
           parsed_todos response = Some todos ->
           todos_of_response response = Some (_fix_common_issues todos))
    /\ (forall (load_skill : string -> option string)
               (exn_text : Gen.Log -> string) (state state' : State.t)
               (llm : Gen.generator) (log log' front : Gen.Log)
               (p response : string) (tds : list ToDo.t),
           generate_todos load_skill exn_text state llm log
           = (Some state', log') ->
           State.todos state' = Some tds ->
           log' = log ++ front ++ [p] ->
           llm (log ++ front) p = Some response ->
           parsed_todos response = Some todos ->
           nth_error tds i
           = Some (ToDo.mk (ToDo.task todo) None (ToDo.priority todo)
                     (ToDo.source_facts todo))).
Proof.
  intros todos i todo d Hi Hd Hverb.
  pose proof (fix_todo_nulls_verb todo d Hd Hverb) as Hfix.
  assert (Hnth : nth_error (_fix_common_issues todos) i
                 = Some (ToDo.mk (ToDo.task todo) None (ToDo.priority todo)
                           (ToDo.source_facts todo))).
  { rewrite (nth_error_repaired todos i todo Hi). now rewrite Hfix. }
  split; [exact Hnth |].
  split; [unfold _fix_common_issues; apply length_map |].
  split; [exact Hfix |].
  split.
  - intros response Hraw. rewrite todos_of_response_parsed, Hraw. reflexivity.
  - intros load_skill exn_text state state' llm log log' front p response
      tds Hrun Htds Hlog Hllm Hraw.
    now rewrite (generate_todos_returns_repair load_skill exn_text state
                   state' llm log log' front p response tds todos Hrun Htds
                   Hlog Hllm Hraw).
Qed.

(** C9, witness: the to-do due "before the design review", second in
    a list that goes through the repair, and first in the answer of the
    sample run of the stage. *)
Lemma deadline_naming_a_task_verb_is_nulled_witness :
  nth_error (_fix_common_issues [unspecified_todo; review_todo]) 1
  = Some (ToDo.mk "Send the Services copy" None High
            ["Send Services copy by noon"%string])
  /\ nth_error generated_todos 0
     = Some (ToDo.mk "Send the Services copy" None High
               ["Send Services copy by noon"%string]).
Proof.
  split.
  - apply (deadline_naming_a_task_verb_is_nulled
             [unspecified_todo; review_todo] 1 review_todo
             "before the design review").
    + reflexivity.
    + reflexivity.
    + vm_compute. reflexivity.
  - apply (proj2 (proj2 (proj2 (proj2
             (deadline_naming_a_task_verb_is_nulled
                [review_todo; unspecified_todo] 0 review_todo
                "before the design review" eq_refl eq_refl eq_refl))))
             empty_skills some_text validated_state_v9 todos_state
             todos_generator []
             [Src3.GenerateTodos.todos_prompt ""
                (("ACTION ITEMS:" ++ nl)
                 ++ "1. Run manual test Thursday")%string]
             []
             (Src3.GenerateTodos.todos_prompt ""
                (("ACTION ITEMS:" ++ nl)
                 ++ "1. Run manual test Thursday")%string)
             todos_response generated_todos).
    + vm_compute. reflexivity.
    + reflexivity.
    + reflexivity.
    + reflexivity.
    + vm_compute. reflexivity.
Defined.

End GenerateTodosProps.

(* ===================================================================== *)
(** ** Properties of the email generator *)
(* ===================================================================== *)

Module GenerateEmailProps.
Import Py Json Models Samples Terms.
Import Src3.GenerateEmail.
Local Open Scope list_scope.

Section Loop.

Variable exn_text : Gen.Log -> string.

(** A loop whose last attempt number is not below [max_retries] always
    ends in a [return] of one email, after at least one generator call
    and at most one call for each attempt. *)
Lemma email_attempts_returns (llm : Gen.generator) (prompt : string)
  (relevant : list ValidatedFact.t) (max_retries : nat)
  (attempts : list nat) :
  attempts <> [] ->
  (last attempts 0 <? max_retries)%nat = false ->
  forall (feedback : string) (log : Gen.Log),
  exists email more,
    email_attempts exn_text llm prompt relevant max_retries attempts
      feedback log
    = (Some [email], log ++ more)
    /\ 1 <= List.length more <= List.length attempts.
Proof.
  induction attempts as [| attempt rest IH]; [contradiction |].
  intros _ Hlast feedback log.
  assert (Hrest : rest <> [] ->
                  forall fb lg,
                  exists email more,
                    email_attempts exn_text llm prompt relevant max_retries
                      rest fb lg
                    = (Some [email], lg ++ more)
                    /\ 1 <= List.length more <= List.length rest).
  { intros Hne. apply IH; [exact Hne |].
    destruct rest; [contradiction | exact Hlast]. }
  assert (Hnext : forall fb,
             (attempt <? max_retries)%nat = true ->
             exists email more,
               email_attempts exn_text llm prompt relevant max_retries rest
                 fb (log ++ [with_feedback prompt feedback])
               = (Some [email], log ++ more)
               /\ 1 <= List.length more <= List.length (attempt :: rest)).
  { intros fb Hlt.
    assert (Hne : rest <> []).
    { intros ->. cbn [last] in Hlast. congruence. }
    destruct (Hrest Hne fb (log ++ [with_feedback prompt feedback]))
      as (email & more & E & Hlen).
    exists email, ([with_feedback prompt feedback] ++ more).
    rewrite app_assoc. split; [exact E |].
    rewrite length_app. cbn [length]. lia. }
  assert (Hnow : forall email : FollowUpEmail.t,
             exists (e : FollowUpEmail.t) (more : Gen.Log),
               (Some [email], log ++ [with_feedback prompt feedback])
               = (Some [e], log ++ more)
               /\ 1 <= List.length more <= List.length (attempt :: rest)).
  { intros email. exists email, [with_feedback prompt feedback].
    split; [reflexivity |]. cbn [length]. lia. }
  cbn [email_attempts Gen.invoke].
  destruct (match llm log (with_feedback prompt feedback) with
            | Some content => email_of_response content
            | None => None
            end) as [email |].
  - destruct (_validate_email email) as [| issue issues]; [apply Hnow |].
    destruct (attempt <? max_retries)%nat eqn:Hlt;
      [now apply Hnext | apply Hnow].
  - destruct (attempt <? max_retries)%nat eqn:Hlt;
      [now apply Hnext | apply Hnow].
Qed.

(** When no answer of the generator gives an email, the loop of three
    attempts calls the generator three times and returns the fallback
    email. *)
Lemma email_attempts_fallback (llm : Gen.generator) (prompt : string)
  (relevant : list ValidatedFact.t) (feedback : string) (log : Gen.Log) :
  (forall log' p,
      match llm log' p with
      | Some response => email_of_response response = None
      | None => True
      end) ->
  exists more,
    email_attempts exn_text llm prompt relevant 3 [1; 2; 3] feedback log
    = (Some [fallback_email relevant], log ++ more)
    /\ List.length more = 3.
Proof.
  intros Hfail.
  assert (Hnone : forall l p,
             match llm l p with
             | Some content => email_of_response content
             | None => None
             end = None).
  { intros l p. specialize (Hfail l p). now destruct (llm l p). }
  cbn [email_attempts Gen.invoke]. rewrite !Hnone.
  change (1 <? 3)%nat with true. change (2 <? 3)%nat with true.
  change (3 <? 3)%nat with false. cbv iota.
  eexists. rewrite <- !app_assoc. split; reflexivity.
Qed.

(** The email that the loop returns was read from an answer of the
    generator, or is the fallback email. *)
Lemma email_attempts_origin (llm : Gen.generator) (prompt : string)
  (relevant : list ValidatedFact.t) (max_retries : nat)
  (attempts : list nat) :
  forall (feedback : string) (log log' : Gen.Log)
         (emails : list FollowUpEmail.t) (email : FollowUpEmail.t),
    email_attempts exn_text llm prompt relevant max_retries attempts
      feedback log
    = (Some emails, log') ->
    In email emails ->
    (exists l p response,
        llm l p = Some response
        /\ email_of_response response = Some email)
    \/ email = fallback_email relevant.
Proof.
  induction attempts as [| attempt rest IH];
    intros feedback log log' emails email.
  - discriminate.
  - cbn [email_attempts Gen.invoke].
    destruct (llm log (with_feedback prompt feedback)) as [content |] eqn:El.
    + destruct (email_of_response content) as [e |] eqn:Ee.
      * assert (Hhere : (Some [e], log ++ [with_feedback prompt feedback])
                        = (Some emails, log') ->
                        In email emails ->
                        (exists l p response,
                            llm l p = Some response
                            /\ email_of_response response = Some email)
                        \/ email = fallback_email relevant).
        { intros [= <- _] [<- | []]. left. eauto. }
        destruct (_validate_email e); [exact Hhere |].
        destruct (attempt <? max_retries)%nat; [apply IH | exact Hhere].
      * destruct (attempt <? max_retries)%nat; [apply IH |].
        intros [= <- _] [<- | []]. now right.
    + destruct (attempt <? max_retries)%nat; [apply IH |].
      intros [= <- _] [<- | []]. now right.
Qed.

End Loop.

Lemma mem_In (x : string) (l : list string) : mem x l = true <-> In x l.
Proof.
  unfold mem. rewrite existsb_exists. split.
  - intros (y & Hy & E). apply String.eqb_eq in E. now subst.
  - intros H. exists x. split; [exact H | apply String.eqb_refl].
Qed.

Lemma filter_nil_iff {A : Type} (p : A -> bool) (l : list A) :
  filter p l = [] <-> forall x, In x l -> p x = false.
Proof.
  induction l as [| a rest IH]; cbn [filter].
  - split; [intros _ x [] | reflexivity].
  - destruct (p a) eqn:E.
    + split; [discriminate |].
      intros H. specialize (H a (or_introl eq_refl)). congruence.
    + rewrite IH. split.
      * intros H x [<- | Hx]; [exact E | now apply H].
      * intros H x Hx. apply H. now right.
Qed.

(** The fallback email names the contents of the first five relevant
    facts. *)
Lemma fallback_names_five (relevant : list ValidatedFact.t) :
  FollowUpEmail.source_facts (fallback_email relevant)
  = map ValidatedFact.content (firstn 5 relevant)
  /\ List.length (FollowUpEmail.source_facts (fallback_email relevant)) <= 5.
Proof.
  unfold fallback_email. cbn [FollowUpEmail.source_facts].
  split; [reflexivity |].
  rewrite length_map. apply firstn_le_length.
Qed.

(** C10: with the validated facts and the skill at hand, the email
    stage returns the state with a list of at most one email under
    [follow_up_emails].  The list is empty exactly when no validated
    fact has the category decision, action_item or deadline, and then
    the generator is not called.  Otherwise the list has exactly one
    email, after one to three generator calls: an email read from an
    answer of the generator, or the fallback email.  When no answer of
    the generator gives an email, it is the fallback email, after three
    calls; the source facts of the fallback email are the contents of
    the first five relevant facts at most. *)
Theorem email_stage_yields_at_most_one_email :
  forall (load_skill : string -> option string)
         (exn_text : Gen.Log -> string) (state : State.t)
         (validated : ValidatedFacts.t) (skill : string)
         (llm : Gen.generator) (log : Gen.Log),
    State.validated_facts state = Some validated ->
    load_skill "GENERATE_EMAIL" = Some skill ->
    exists emails log',
      generate_email load_skill exn_text state llm log
      = (Some (State.set_follow_up_emails emails state), log')
      /\ List.length emails <= 1
      /\ (emails = [] <->
          forall f, In f (ValidatedFacts.facts validated) ->
                    ~ In (ValidatedFact.fact_type f)
                        ["decision"; "action_item"; "deadline"]%string)
      /\ (emails = [] -> log' = log)
      /\ (emails <> [] ->
          List.length emails = 1 /\ 1 <= Gen.calls log log' <= 3)
      /\ (forall email,
             In email emails ->
             (exists l p response,
                 llm l p = Some response
                 /\ email_of_response response = Some email)
             \/ email = fallback_email (relevant_facts validated))
      /\ ((forall l p,
              match llm l p with
              | Some response => email_of_response response = None
              | None => True
              end) ->
          emails <> [] ->
          emails = [fallback_email (relevant_facts validated)]
          /\ Gen.calls log log' = 3
          /\ FollowUpEmail.source_facts
               (fallback_email (relevant_facts validated))
             = map ValidatedFact.content
                 (firstn 5 (relevant_facts validated))
          /\ List.length
               (FollowUpEmail.source_facts
                  (fallback_email (relevant_facts validated))) <= 5).
Proof.
  intros load_skill exn_text state validated skill llm log Hv Hs.
  unfold generate_email. rewrite Hv, Hs. fold (relevant_facts validated).
  assert (Hrel : relevant_facts validated = [] <->
                 forall f, In f (ValidatedFacts.facts validated) ->
                           ~ In (ValidatedFact.fact_type f)
                               ["decision"; "action_item"; "deadline"]%string).
  { unfold relevant_facts. rewrite filter_nil_iff. split.
    - intros H f Hf Hin. apply mem_In in Hin.
      specialize (H f Hf). unfold relevant_types in H. congruence.
    - intros H f Hf.
      destruct (mem (ValidatedFact.fact_type f) relevant_types) eqn:E;
        [| reflexivity].
      apply mem_In in E. exfalso. exact (H f Hf E). }
  destruct (relevant_facts validated) as [| a rest] eqn:Erel.
  - exists [], log. split; [reflexivity |].
    split; [cbn; lia |]. split; [| split; [| split; [| split]]].
    + split; [intros _; now apply Hrel | reflexivity].
    + reflexivity.
    + intros H. now contradiction H.
    + intros email [].
    + intros _ H. now contradiction H.
  - set (prompt := email_prompt skill _).
    destruct (email_attempts_returns exn_text llm prompt (a :: rest) 3
                [1; 2; 3] ltac:(discriminate) eq_refl ""%string log)
      as (email & more & E & Hlen).
    cbn [seq]. rewrite E.
    exists [email], (log ++ more). split; [reflexivity |].
    split; [cbn; lia |]. split; [| split; [| split; [| split]]].
    + split; [discriminate |].
      intros H. apply Hrel in H. discriminate H.
    + discriminate.
    + intros _. rewrite ExtractFactsProps.calls_app. cbn [length] in *.
      split; [reflexivity | lia].
    + intros e He.
      exact (email_attempts_origin exn_text llm prompt (a :: rest) 3
               [1; 2; 3] ""%string log (log ++ more) [email] e E He).
    + intros Hfail _.
      destruct (email_attempts_fallback exn_text llm prompt (a :: rest)
                  ""%string log Hfail) as (more' & E' & Hlen').
      rewrite E in E'. injection E' as -> Hmore.
      apply app_inv_head in Hmore. subst more'.
      rewrite ExtractFactsProps.calls_app.
      destruct (fallback_names_five (a :: rest)) as [Hsf Hfive].
      repeat split; assumption.
Qed.

(** C10, witness: the email stage on the sample facts with a generator
    that never gives JSON, and on facts that are all metrics. *)
Lemma email_stage_yields_at_most_one_email_witness :
  (exists emails log',
      generate_email empty_skills some_text validated_state_v9
        failing_generator []
      = (Some (State.set_follow_up_emails emails validated_state_v9), log')
      /\ emails = [fallback_email (relevant_facts validated_sample_v9)]
      /\ Gen.calls [] log' = 3)
  /\ (exists emails log',
         generate_email empty_skills some_text metrics_only_state
           failing_generator []
         = (Some (State.set_follow_up_emails emails metrics_only_state), log')
         /\ emails = []
         /\ log' = []).
Proof.
  split.
  - destruct (email_stage_yields_at_most_one_email empty_skills some_text
                validated_state_v9 validated_sample_v9 ""%string
                failing_generator [] eq_refl eq_refl)
      as (emails & log' & E & _ & _ & _ & Hone & _ & Hfall).
    exists emails, log'. split; [exact E |].
    assert (Hne : emails <> []).
    { intros ->. vm_compute in E. discriminate E. }
    destruct Hfall as (Hf & Hc & _); [| exact Hne | now split].
    intros l p. destruct l; [exact I | vm_compute; reflexivity].
  - destruct (email_stage_yields_at_most_one_email empty_skills some_text
                metrics_only_state metrics_only ""%string
                failing_generator [] eq_refl eq_refl)
      as (emails & log' & E & _ & Hiff & Hlog & _).
    assert (Hnil : emails = []).
    { apply Hiff. intros f Hf Hin. cbn in Hf.
      destruct Hf as [<- | []]. cbn in Hin.
      repeat (destruct Hin as [Hin | Hin]; [discriminate Hin |]).
      exact Hin. }
    exists emails, log'. split; [exact E |]. split; [exact Hnil |].
    now apply Hlog.
Defined.

End GenerateEmailProps.

(* ===================================================================== *)
(** ** Facts about the text primitives *)
(* ===================================================================== *)

Module TextProps.
Import Py Notions.
Local Open Scope list_scope.

Lemma lstrip_suffix (s : string) : exists p, s = (p ++ lstrip s)%string.
Proof.
  induction s as [| c s [p IH]]; [now exists ""%string |].
  cbn [lstrip]. destruct (isspace c).
  - exists (String c p). cbn. now rewrite <- IH.
  - now exists ""%string.
Qed.

Lemma rstrip_prefix (s : string) : exists q, s = (rstrip s ++ q)%string.
Proof.
  induction s as [| c s [q IH]]; [now exists ""%string |].
  cbn [rstrip]. destruct (rstrip s) as [| d r] eqn:E.
  - destruct (isspace c).
    + exists (String c s). reflexivity.
    + exists q. cbn. cbn in IH. now rewrite <- IH.
  - exists q. cbn. cbn in IH. now rewrite <- IH.
Qed.

Lemma strip_middle (s : string) : exists p q, s = (p ++ strip s ++ q)%string.
Proof.
  destruct (lstrip_suffix s) as [p Hp].
  destruct (rstrip_prefix (lstrip s)) as [q Hq].
  exists p, q. unfold strip. now rewrite <- Hq.
Qed.

Lemma lstrip_fixed (s : string) :
  match s with
  | ""%string => True
  | String c _ => isspace c = false
  end -> lstrip s = s.
Proof.
  destruct s as [| c s]; [reflexivity |]. cbn [lstrip]. now intros ->.
Qed.

Lemma rstrip_head (s : string) :
  match rstrip s with
  | ""%string => True
  | String c _ => exists s', s = String c s'
  end.
Proof.
  destruct s as [| c s]; [exact I |]. cbn [rstrip].
  destruct (rstrip s) as [| d r].
  - destruct (isspace c); [exact I | now exists s].
  - now exists s.
Qed.

Lemma rstrip_idempotent (s : string) : rstrip (rstrip s) = rstrip s.
Proof.
  induction s as [| c s IH]; [reflexivity |].
  cbn [rstrip]. destruct (rstrip s) as [| d r] eqn:E.
  - destruct (isspace c) eqn:Ec; [reflexivity |].
    cbn [rstrip]. now rewrite Ec.
  - change (rstrip (String c (String d r))) with
      (match rstrip (String d r) with
       | ""%string => if isspace c then ""%string else String c ""
       | r' => String c r'
       end).
    rewrite IH. reflexivity.
Qed.

Lemma lstrip_head (s : string) :
  match lstrip s with
  | ""%string => True
  | String c _ => isspace c = false
  end.
Proof.
  induction s as [| c s IH]; [exact I |].
  cbn [lstrip]. destruct (isspace c) eqn:E; [exact IH | exact E].
Qed.

(** [strip] leaves nothing to strip. *)
Lemma strip_idempotent (s : string) : strip (strip s) = strip s.
Proof.
  unfold strip.
  assert (H : lstrip (rstrip (lstrip s)) = rstrip (lstrip s)).
  { apply lstrip_fixed.
    pose proof (rstrip_head (lstrip s)) as Hh.
    pose proof (lstrip_head s) as Hl.
    destruct (rstrip (lstrip s)) as [| c r]; [exact I |].
    destruct Hh as [s' Hs']. rewrite Hs' in Hl. exact Hl. }
  rewrite H. apply rstrip_idempotent.
Qed.

Lemma startswith_app (p s q : string) :
  startswith p s = true -> startswith p (s ++ q) = true.
Proof.
  revert s. induction p as [| a p IH]; intros s H; [reflexivity |].
  destruct s as [| b s]; [discriminate H |].
  cbn in *. apply andb_true_iff in H as [H1 H2].
  rewrite H1. cbn. now apply IH.
Qed.

Lemma contains_app_l (sub s q : string) :
  contains sub s = true -> contains sub (s ++ q) = true.
Proof.
  induction s as [| c s IH]; intros H.
  - cbn in H. rewrite orb_false_r in H.
    destruct sub; [| discriminate H].
    destruct q; reflexivity.
  - cbn [contains] in H. apply orb_true_iff in H as [H | H].
    + change (String c s ++ q)%string with (String c (s ++ q)).
      cbn [contains]. apply orb_true_iff. left.
      now apply (startswith_app sub (String c s) q).
    + change (String c s ++ q)%string with (String c (s ++ q)).
      cbn [contains]. apply orb_true_iff. right. now apply IH.
Qed.

Lemma contains_app_r (sub p s : string) :
  contains sub s = true -> contains sub (p ++ s) = true.
Proof.
  intros H. induction p as [| c p IH]; [exact H |].
  change (String c p ++ s)%string with (String c (p ++ s)).
  cbn [contains]. apply orb_true_iff. now right.
Qed.

Lemma contains_middle (sub p s q : string) :
  contains sub (p ++ s ++ q) = false -> contains sub s = false.
Proof.
  intros H. destruct (contains sub s) eqn:E; [| reflexivity].
  rewrite (contains_app_r sub p (s ++ q) (contains_app_l sub s q E)) in H.
  discriminate H.
Qed.

Lemma append_assoc (a b c : string) :
  ((a ++ b) ++ c)%string = (a ++ b ++ c)%string.
Proof. induction a as [| x a IH]; cbn; [reflexivity | now rewrite IH]. Qed.

Lemma append_nil_r (a : string) : (a ++ "")%string = a.
Proof. induction a as [| x a IH]; cbn; [reflexivity | now rewrite IH]. Qed.

Lemma lower_app (a b : string) : lower (a ++ b) = (lower a ++ lower b)%string.
Proof.
  unfold lower. induction a as [| c a IH]; [reflexivity |].
  cbn. now rewrite IH.
Qed.

Lemma In_app_string (c : ascii) (a b : string) :
  In c (list_ascii_of_string (a ++ b))
  <-> In c (list_ascii_of_string a) \/ In c (list_ascii_of_string b).
Proof.
  induction a as [| d a IH]; cbn; [tauto |]. rewrite IH. tauto.
Qed.

(** The characters of a text between which a substitution of runs puts
    its spaces. *)
Lemma sub_runs_chars (cls : ascii -> bool) (s : string) :
  forall (in_run : bool) (c : ascii),
    In c (list_ascii_of_string (Re.sub_runs_from cls in_run s)) ->
    c = " "%char \/ (cls c = false /\ In c (list_ascii_of_string s)).
Proof.
  induction s as [| d s IH]; intros in_run c H; [destruct H |].
  cbn [Re.sub_runs_from] in H. destruct (cls d) eqn:Ed.
  - destruct in_run.
    + destruct (IH _ _ H) as [-> | [H1 H2]]; [now left |].
      right. split; [exact H1 | now right].
    + destruct H as [<- | H]; [now left |].
      destruct (IH _ _ H) as [-> | [H1 H2]]; [now left |].
      right. split; [exact H1 | now right].
  - destruct H as [<- | H].
    + right. split; [exact Ed | now left].
    + destruct (IH _ _ H) as [-> | [H1 H2]]; [now left |].
      right. split; [exact H1 | now right].
Qed.

Lemma double_space_step (c : ascii) (s : string) :
  contains "  " (String c s)
  = (Re.is_char " " c && starts_with_space s) || contains "  " s.
Proof.
  cbn [contains]. f_equal.
  destruct s as [| d s]; cbn [startswith starts_with_space]; unfold Re.is_char.
  - reflexivity.
  - now rewrite andb_true_r.
Qed.

(** A substitution of the runs of a class that holds the space leaves
    no two spaces in a row. *)
Lemma sub_runs_single (cls : ascii -> bool) (s : string) :
  cls " "%char = true ->
  forall in_run : bool,
    contains "  " (Re.sub_runs_from cls in_run s) = false
    /\ (in_run = true ->
        starts_with_space (Re.sub_runs_from cls in_run s) = false).
Proof.
  intros Hsp. induction s as [| d s IH]; intros in_run; [now split |].
  cbn [Re.sub_runs_from]. destruct (cls d) eqn:Ed.
  - destruct in_run.
    + apply IH.
    + split; [| discriminate].
      rewrite double_space_step.
      destruct (IH true) as [H1 H2]. rewrite H1, (H2 eq_refl).
      now rewrite andb_false_r.
  - assert (Hd : Re.is_char " " d = false).
    { unfold Re.is_char. destruct (Ascii.eqb_spec " " d) as [<- |]; [| easy].
      congruence. }
    split.
    + rewrite double_space_step, Hd. cbn. apply IH.
    + intros _. exact Hd.
Qed.

Lemma dedupe_aux_spec (l : list string) :
  forall seen,
    NoDup (dedupe_aux seen l)
    /\ (forall x, In x (dedupe_aux seen l) <-> In x l /\ ~ In x seen).
Proof.
  assert (Hmem : forall x l0, mem x l0 = true <-> In x l0).
  { intros x l0. unfold mem. rewrite existsb_exists. split.
    - intros (y & Hy & E). apply String.eqb_eq in E. now subst.
    - intros H. exists x. split; [exact H | apply String.eqb_refl]. }
  induction l as [| a l IH]; intros seen.
  - split; [constructor | cbn; tauto].
  - cbn [dedupe_aux]. destruct (mem a seen) eqn:E.
    + destruct (IH seen) as [H1 H2]. split; [exact H1 |].
      intros x. rewrite H2. cbn. apply Hmem in E.
      split; [tauto |]. intros [[<- | H] Hn]; [contradiction | tauto].
    + destruct (IH (a :: seen)) as [H1 H2].
      assert (Ha : ~ In a seen).
      { intros H. apply Hmem in H. congruence. }
      split.
      * constructor; [| exact H1]. rewrite H2. cbn. tauto.
      * intros x. cbn. rewrite H2. cbn.
        destruct (string_dec a x) as [-> | Hax]; [tauto |]. tauto.
Qed.

(** [dedupe] keeps one of each entry. *)
Lemma dedupe_NoDup (l : list string) : NoDup (dedupe l).
Proof. apply dedupe_aux_spec. Qed.

Lemma dedupe_In (l : list string) (x : string) : In x (dedupe l) <-> In x l.
Proof.
  unfold dedupe. destruct (dedupe_aux_spec l []) as [_ H].
  rewrite H. cbn. tauto.
Qed.

Lemma dedupe_aux_fixed (l : list string) :
  forall seen,
    NoDup l -> (forall x, In x l -> ~ In x seen) -> dedupe_aux seen l = l.
Proof.
  induction l as [| a l IH]; intros seen Hnd Hdis; [reflexivity |].
  cbn [dedupe_aux]. destruct (mem a seen) eqn:E.
  - exfalso. unfold mem in E. apply existsb_exists in E as (y & Hy & E).
    apply String.eqb_eq in E. subst y. apply (Hdis a); [now left | exact Hy].
  - f_equal. inversion Hnd as [| ? ? Hna Hnd']; subst.
    apply IH; [exact Hnd' |].
    intros x Hx [<- | Hs]; [contradiction |].
    apply (Hdis x); [now right | exact Hs].
Qed.

Lemma dedupe_aux_length (l : list string) :
  forall seen, List.length (dedupe_aux seen l) <= List.length l.
Proof.
  induction l as [| a l IH]; intros seen; [apply le_n |].
  cbn [dedupe_aux]. destruct (mem a seen); cbn [List.length].
  - specialize (IH seen). lia.
  - specialize (IH (a :: seen)). lia.
Qed.

Lemma dedupe_aux_short (l : list string) :
  forall seen,
    List.length (dedupe_aux seen l) = List.length l ->
    dedupe_aux seen l = l.
Proof.
  induction l as [| a l IH]; intros seen H; [reflexivity |].
  cbn [dedupe_aux] in *. destruct (mem a seen).
  - pose proof (dedupe_aux_length l seen). cbn [List.length] in H. lia.
  - cbn [List.length] in H. f_equal. apply IH. lia.
Qed.

(** The test that Python writes [len(l) != len(set(l))]: the lengths
    agree exactly when no entry is repeated. *)
Lemma dedupe_length_iff (l : list string) :
  List.length (dedupe l) = List.length l <-> NoDup l.
Proof.
  split.
  - intros H. rewrite <- (dedupe_aux_short l [] H). apply dedupe_NoDup.
  - intros H. unfold dedupe. rewrite dedupe_aux_fixed; auto.
Qed.

End TextProps.

(* ===================================================================== *)
(** ** The normalizer and the summary cleaner *)
(* ===================================================================== *)

Module NormalizeProps.
Import Py Models TextProps.
Local Open Scope list_scope.

Lemma app_length_string (a b : string) :
  String.length (a ++ b) = String.length a + String.length b.
Proof. induction a as [| c a IH]; cbn; [reflexivity | now rewrite IH]. Qed.

Lemma strip_length (s : string) : String.length (strip s) <= String.length s.
Proof.
  destruct (strip_middle s) as (p & q & E).
  rewrite E at 2. rewrite !app_length_string. lia.
Qed.

Lemma sub_runs_length (cls : ascii -> bool) (s : string) :
  forall in_run,
    String.length (Re.sub_runs_from cls in_run s) <= String.length s.
Proof.
  induction s as [| c s IH]; intros in_run; [apply le_n |].
  cbn [Re.sub_runs_from]. destruct (cls c).
  - destruct in_run; cbn [String.length].
    + specialize (IH true). lia.
    + specialize (IH true). lia.
  - cbn [String.length]. specialize (IH false). lia.
Qed.

Lemma sub_words_length (alternatives : list string) (s : string) :
  forall prev skip,
    String.length (ReWords.sub_words_from alternatives prev skip s)
    <= String.length s.
Proof.
  induction s as [| c s IH]; intros prev skip; [apply le_n |].
  cbn [ReWords.sub_words_from]. destruct skip as [| k].
  - destruct (if ReWords.boundary prev (String c s)
              then ReWords.alternative_at alternatives (String c s)
              else None) as [len |]; cbn [String.length].
    + specialize (IH (ReWords.isword c) (len - 1)). lia.
    + specialize (IH (ReWords.isword c) 0). lia.
  - cbn [String.length]. specialize (IH (ReWords.isword c) k). lia.
Qed.

(** The shape of a text that ends in [strip] after the runs of white
    space became single spaces. *)
Lemma stripped_runs_shape (cls : ascii -> bool) (s : string) :
  cls " "%char = true ->
  (forall c, In c (list_ascii_of_string s) -> isspace c = true -> cls c = true) ->
  let text := strip (Re.sub_runs_from cls false s) in
  (forall c, In c (list_ascii_of_string text) ->
             isspace c = true -> c = " "%char)
  /\ contains "  " text = false
  /\ strip text = text.
Proof.
  intros Hsp Hcls text. subst text.
  destruct (strip_middle (Re.sub_runs_from cls false s)) as (p & q & E).
  repeat split.
  - intros c Hin Hc.
    assert (Hin' : In c (list_ascii_of_string (Re.sub_runs_from cls false s))).
    { rewrite E. apply In_app_string. right. apply In_app_string. now left. }
    destruct (sub_runs_chars cls s false c Hin') as [-> | [Hn Hs]];
      [reflexivity |].
    rewrite (Hcls c Hs Hc) in Hn. discriminate Hn.
  - apply (contains_middle "  " p _ q). rewrite <- E.
    apply (sub_runs_single cls s Hsp false).
  - apply strip_idempotent.
Qed.

(** X1.  Whatever the transcript, the normalized text has no white
    space other than the space, no two spaces in a row, no white space
    at either end, and is not longer than the transcript. *)
Theorem normalized_text_is_single_spaced (transcript : string) :
  let text := Src3.Normalize.normalize_text transcript in
  (forall c, In c (list_ascii_of_string text) ->
             isspace c = true -> c = " "%char)
  /\ contains "  " text = false
  /\ strip text = text
  /\ String.length text <= String.length transcript.
Proof.
  intros text. subst text. unfold Src3.Normalize.normalize_text.
  set (t0 := ReWords.sub_words Src3.Normalize.fillers transcript).
  set (t1 := Re.sub_spaces t0).
  unfold ReWords.sub_space_runs.
  destruct (stripped_runs_shape (fun c => Re.is_char " " c) t1 eq_refl)
    as (Ha & Hb & Hc).
  - intros c Hin Hc. unfold t1, Re.sub_spaces in Hin.
    destruct (sub_runs_chars isspace t0 false c Hin) as [-> | [Hn _]];
      [reflexivity | congruence].
  - repeat split; [exact Ha | exact Hb | exact Hc |].
    eapply Nat.le_trans; [apply strip_length |].
    eapply Nat.le_trans; [apply sub_runs_length |].
    unfold t1, Re.sub_spaces.
    eapply Nat.le_trans; [apply sub_runs_length |].
    apply sub_words_length.
Qed.

(** X2.  Whatever the generator answers, the cleaned summary has no
    white space other than the space, no two spaces in a row and no
    white space at either end. *)
Theorem cleaned_summary_is_single_spaced (response : string) :
  let text := Src3.GenerateSummary._clean_summary response in
  (forall c, In c (list_ascii_of_string text) ->
             isspace c = true -> c = " "%char)
  /\ contains "  " text = false
  /\ strip text = text.
Proof.
  intros text. subst text. unfold Src3.GenerateSummary._clean_summary.
  apply (stripped_runs_shape isspace); [reflexivity | auto].
Qed.

End NormalizeProps.

(* ===================================================================== *)
(** ** The summary stage *)
(* ===================================================================== *)

Module SummaryProps.
Import Py Models Src3.GenerateSummary Samples Scenarios.
Local Open Scope list_scope.

(** A loop whose last attempt number is not below [max_retries] always
    ends in a [return] of a text, after at least one generator call and
    at most one call for each attempt; the text is the cleaned form of
    an answer of the generator, or the fallback summary. *)
Lemma summary_attempts_returns (llm : Gen.generator) (prompt : string)
  (facts : list ValidatedFact.t) (max_retries : nat) (attempts : list nat) :
  attempts <> [] ->
  (last attempts 0 <? max_retries)%nat = false ->
  forall (feedback : string) (log : Gen.Log),
  exists text more,
    summary_attempts llm prompt facts max_retries attempts feedback log
    = (Some text, log ++ more)
    /\ 1 <= List.length more <= List.length attempts
    /\ ((exists l p response,
            llm l p = Some response /\ text = _clean_summary response)
        \/ text = fallback_summary facts).
Proof.
  induction attempts as [| attempt rest IH]; [contradiction |].
  intros _ Hlast feedback log.
  assert (Hnext : forall fb,
             (attempt <? max_retries)%nat = true ->
             exists text more,
               summary_attempts llm prompt facts max_retries rest fb
                 (log ++ [with_feedback prompt feedback])
               = (Some text, log ++ more)
               /\ 1 <= List.length more <= List.length (attempt :: rest)
               /\ ((exists l p response,
                       llm l p = Some response
                       /\ text = _clean_summary response)
                   \/ text = fallback_summary facts)).
  { intros fb Hlt.
    assert (Hne : rest <> []).
    { intros ->. cbn [last] in Hlast. congruence. }
    assert (Hlast' : (last rest 0 <? max_retries)%nat = false).
    { destruct rest; [contradiction | exact Hlast]. }
    destruct (IH Hne Hlast' fb (log ++ [with_feedback prompt feedback]))
      as (text & more & E & Hlen & Ho).
    exists text, ([with_feedback prompt feedback] ++ more).
    rewrite app_assoc. split; [exact E |]. split; [| exact Ho].
    rewrite length_app. cbn [length]. lia. }
  cbn [summary_attempts Gen.invoke].
  destruct (llm log (with_feedback prompt feedback)) as [content |] eqn:El.
  - destruct ((List.length (words (_clean_summary content)) <? 30)%nat
              && (attempt <? max_retries)%nat) eqn:Hc.
    + apply andb_true_iff in Hc as [_ Hlt]. now apply Hnext.
    + exists (_clean_summary content), [with_feedback prompt feedback].
      split; [reflexivity |]. split; [cbn [length]; lia |].
      left. eauto.
  - destruct (attempt <? max_retries)%nat eqn:Hlt; [now apply Hnext |].
    exists (fallback_summary facts), [with_feedback prompt feedback].
    split; [reflexivity |]. split; [cbn [length]; lia |]. now right.
Qed.

Lemma generate_summary_runs :
  forall (load_skill : string -> option string) (state : State.t)
         (validated : ValidatedFacts.t) (skill : string)
         (llm : Gen.generator) (log : Gen.Log),
    State.validated_facts state = Some validated ->
    load_skill "GENERATE_SUMMARY"%string = Some skill ->
    exists text more,
      generate_summary load_skill state llm log
      = (Some (set_summary text state), log ++ more)
      /\ 1 <= List.length more <= 3
      /\ ((exists l p response,
              llm l p = Some response /\ text = _clean_summary response)
          \/ text = fallback_summary (ValidatedFacts.facts validated)).
Proof.
  intros load_skill state validated skill llm log Hv Hs.
  unfold generate_summary. rewrite Hv, Hs.
  destruct (summary_attempts_returns llm
              (summary_prompt skill
                 (_format_facts (ValidatedFacts.facts validated)))
              (ValidatedFacts.facts validated) 3 (seq 1 3)
              ltac:(discriminate) eq_refl ""%string log)
    as (text & more & E & Hlen & Ho).
  rewrite E. exists text, more. split; [reflexivity |].
  split; [exact Hlen | exact Ho].
Qed.

(** A first answer of thirty words or more ends the loop. *)
Lemma summary_attempts_first (llm : Gen.generator) (prompt : string)
  (facts : list ValidatedFact.t) (max_retries attempt : nat)
  (rest : list nat) (feedback : string) (log : Gen.Log) (response : string) :
  llm log (with_feedback prompt feedback) = Some response ->
  30 <= List.length (words (_clean_summary response)) ->
  summary_attempts llm prompt facts max_retries (attempt :: rest) feedback log
  = (Some (_clean_summary response), log ++ [with_feedback prompt feedback]).
Proof.
  intros Hr Hwc. cbn [summary_attempts Gen.invoke]. rewrite Hr.
  apply Nat.ltb_ge in Hwc. now rewrite Hwc.
Qed.

(** X3.  With the validated facts and the skill at hand, the summary
    stage always returns the state with a summary, after one to three
    generator calls, also when there is no validated fact at all.  The
    summary is the cleaned form of an answer of the generator, however
    short, or the fallback summary.  A first answer that has thirty
    words or more after cleaning is returned after that one call. *)
Theorem summary_stage_always_returns :
  forall (load_skill : string -> option string) (state : State.t)
         (validated : ValidatedFacts.t) (skill : string)
         (llm : Gen.generator) (log : Gen.Log),
    State.validated_facts state = Some validated ->
    load_skill "GENERATE_SUMMARY"%string = Some skill ->
    exists text more,
      generate_summary load_skill state llm log
      = (Some (set_summary text state), log ++ more)
      /\ 1 <= List.length more <= 3
      /\ ((exists l p response,
              llm l p = Some response /\ text = _clean_summary response)
          \/ text = fallback_summary (ValidatedFacts.facts validated))
      /\ (forall response,
             llm log (summary_prompt skill
                        (_format_facts (ValidatedFacts.facts validated)))
             = Some response ->
             30 <= List.length (words (_clean_summary response)) ->
             text = _clean_summary response /\ List.length more = 1).
Proof.
  intros load_skill state validated skill llm log Hv Hs.
  destruct (generate_summary_runs load_skill state validated skill llm log
              Hv Hs) as (text & more & E & Hlen & Ho).
  exists text, more.
  split; [exact E |]. split; [exact Hlen |]. split; [exact Ho |].
  intros response Hr Hwc. split.
  - unfold generate_summary in E. rewrite Hv, Hs in E. cbn [seq] in E.
    rewrite (summary_attempts_first llm _ _ 3 1 _ ""%string log response)
      in E; [| assumption | assumption].
    injection E as E1 _. unfold set_summary in E1. congruence.
  - unfold generate_summary in E. rewrite Hv, Hs in E. cbn [seq] in E.
    rewrite (summary_attempts_first llm _ _ 3 1 _ ""%string log response)
      in E; [| assumption | assumption].
    injection E as _ E2. apply app_inv_head in E2. now subst more.
Qed.

Lemma summary_stage_always_returns_witness :
  exists text more,
    generate_summary empty_skills metrics_only_state prose_generator []
    = (Some (set_summary text metrics_only_state), [] ++ more)
    /\ 1 <= List.length more <= 3
    /\ ((exists l p response,
            prose_generator l p = Some response
            /\ text = _clean_summary response)
        \/ text = fallback_summary (ValidatedFacts.facts metrics_only))
    /\ (forall response,
           prose_generator []
             (summary_prompt ""%string
                (_format_facts (ValidatedFacts.facts metrics_only)))
           = Some response ->
           30 <= List.length (words (_clean_summary response)) ->
           text = _clean_summary response /\ List.length more = 1).
Proof.
  apply (summary_stage_always_returns empty_skills metrics_only_state
           metrics_only ""%string prose_generator []); reflexivity.
Defined.

(** X4.  When every generator call raises, the summary stage calls the
    generator three times and returns the fallback summary: the
    contents of the first five validated facts joined by a full stop
    and a space, or the text [No summary available.] when there is no
    validated fact. *)
Theorem summary_falls_back_when_the_generator_fails :
  forall (load_skill : string -> option string) (state : State.t)
         (validated : ValidatedFacts.t) (skill : string)
         (llm : Gen.generator) (log : Gen.Log),
    State.validated_facts state = Some validated ->
    load_skill "GENERATE_SUMMARY"%string = Some skill ->
    (forall l p, llm l p = None) ->
    exists text more,
      generate_summary load_skill state llm log
      = (Some (set_summary text state), log ++ more)
      /\ List.length more = 3
      /\ (ValidatedFacts.facts validated = [] ->
          text = "No summary available."%string)
      /\ (ValidatedFacts.facts validated <> [] ->
          text = join ". " (map ValidatedFact.content
                              (firstn 5 (ValidatedFacts.facts validated)))).
Proof.
  intros load_skill state validated skill llm log Hv Hs Hfail.
  unfold generate_summary. rewrite Hv, Hs.
  cbn [seq summary_attempts Gen.invoke]. rewrite !Hfail.
  change (1 <? 3)%nat with true. change (2 <? 3)%nat with true.
  change (3 <? 3)%nat with false. cbv iota.
  eexists. eexists. rewrite <- !app_assoc. split; [reflexivity |].
  split; [reflexivity |]. unfold fallback_summary.
  destruct (ValidatedFacts.facts validated) as [| f fs].
  - split; [reflexivity | congruence].
  - split; [discriminate | reflexivity].
Qed.

Lemma summary_falls_back_when_the_generator_fails_witness :
  exists text more,
    generate_summary empty_skills metrics_only_state silent_generator []
    = (Some (set_summary text metrics_only_state), [] ++ more)
    /\ List.length more = 3
    /\ (ValidatedFacts.facts metrics_only = [] ->
        text = "No summary available."%string)
    /\ (ValidatedFacts.facts metrics_only <> [] ->
        text = join ". " (map ValidatedFact.content
                            (firstn 5 (ValidatedFacts.facts metrics_only)))).
Proof.
  apply (summary_falls_back_when_the_generator_fails empty_skills
           metrics_only_state metrics_only ""%string silent_generator []);
    reflexivity.
Defined.

End SummaryProps.

(* ===================================================================== *)
(** ** The items of a parsed array *)
(* ===================================================================== *)

Module ItemProps.
Import Py Json Models TextProps.
Import Src3.GenerateTodos.
Local Open Scope list_scope.

Lemma get_set (key : string) (v : json) (members : list (string * json)) :
  get key (set key v members) = Some v.
Proof.
  unfold set. induction members as [| [k w] rest IH].
  - cbn. now rewrite String.eqb_refl.
  - cbn [app get]. now rewrite IH.
Qed.

Lemma strings_of_map (l : list string) : strings_of (map JStr l) = Some l.
Proof.
  induction l as [| x l IH]; [reflexivity |]. cbn. now rewrite IH.
Qed.

(** What [fromkeys_list] leaves is, read as a list of texts, free of
    repeated entries. *)
Lemma fromkeys_list_NoDup (v v' : json) (sf : list string) :
  fromkeys_list v = Some v' -> as_list_str v' = Some sf -> NoDup sf.
Proof.
  destruct v as [| b | n | s | items | members]; cbn [fromkeys_list];
    try discriminate.
  - intros [= <-]. cbn [as_list_str]. rewrite strings_of_map.
    intros [= <-]. apply dedupe_NoDup.
  - destruct (forallb hashable items); [| discriminate].
    destruct (strings_of items) as [ss |] eqn:E.
    + intros [= <-]. cbn [as_list_str]. rewrite strings_of_map.
      intros [= <-]. apply dedupe_NoDup.
    + intros [= <-]. cbn [as_list_str]. rewrite E. discriminate.
  - intros [= <-]. cbn [as_list_str]. rewrite strings_of_map.
    intros [= <-]. apply dedupe_NoDup.
Qed.

(** After the pass that removes repeated source facts, the source
    facts that a model reads from a mapping are free of repeated
    entries. *)
Lemma dedupe_item_members (item : json) (members : list (string * json))
  (sf : list string) :
  dedupe_item item = Some (JObj members) ->
  as_list_str (get_default "source_facts" (JArr []) members) = Some sf ->
  NoDup sf.
Proof.
  destruct item as [| b | n | s | items | ms]; cbn [dedupe_item];
    try discriminate.
  - destruct (contains "source_facts" s); discriminate.
  - destruct (existsb _ items); discriminate.
  - destruct (get "source_facts" ms) as [v |] eqn:Eg.
    + destruct (fromkeys_list v) as [v' |] eqn:Ef; [| discriminate].
      intros [= <-]. unfold get_default. rewrite get_set.
      now apply (fromkeys_list_NoDup v v').
    + intros [= <-]. unfold get_default. rewrite Eg.
      intros [= <-]. constructor.
Qed.

Lemma traverse_Forall2 {A B : Type} (f : A -> option B) (l : list A) :
  forall l', traverse f l = Some l' -> Forall2 (fun x y => f x = Some y) l l'.
Proof.
  induction l as [| x l IH]; intros l'.
  - intros [= <-]. constructor.
  - cbn [traverse]. destruct (f x) as [y |] eqn:E; [| discriminate].
    destruct (traverse f l) as [ys |]; [| discriminate].
    intros [= <-]. constructor; [exact E | now apply IH].
Qed.

(** The items read by a model after the pass over the source facts. *)
Lemma traverse_twice {B : Type} (read : json -> option B) (P : B -> Prop) :
  (forall item item' y,
      dedupe_item item = Some item' -> read item' = Some y -> P y) ->
  forall items data' ys,
    traverse dedupe_item items = Some data' ->
    traverse read data' = Some ys ->
    Forall P ys.
Proof.
  intros Hread items data' ys H1 H2.
  apply traverse_Forall2 in H1. apply traverse_Forall2 in H2.
  revert ys H2. induction H1 as [| x y l l' Hxy _ IH]; intros ys H2.
  - inversion H2. constructor.
  - inversion H2 as [| ? z ? zs Hyz Hrest]; subst.
    constructor; [now apply (Hread x y) | now apply IH].
Qed.

Lemma todo_of_json_NoDup (item item' : json) (td : ToDo.t) :
  dedupe_item item = Some item' ->
  ToDo.of_json item' = Some td ->
  NoDup (ToDo.source_facts td).
Proof.
  intros Hd Hr. destruct item' as [| | | | | members]; try discriminate Hr.
  cbn [ToDo.of_json] in Hr.
  destruct (get "task" members) as [tk |]; [| discriminate Hr].
  destruct (as_str tk); [| discriminate Hr].
  destruct (as_optional_str _); [| discriminate Hr].
  destruct (as_priority _); [| discriminate Hr].
  destruct (as_list_str _) as [sf |] eqn:Es; [| discriminate Hr].
  injection Hr as <-. cbn [ToDo.source_facts].
  now apply (dedupe_item_members item members).
Qed.

Lemma action_point_of_json_NoDup (item item' : json) (ap : ActionPoint.t) :
  dedupe_item item = Some item' ->
  Src3.GenerateActionPoints.action_point_of_json item' = Some ap ->
  NoDup (ActionPoint.source_facts ap).
Proof.
  intros Hd Hr. destruct item' as [| | | | | members]; try discriminate Hr.
  cbn [Src3.GenerateActionPoints.action_point_of_json] in Hr.
  destruct (get "description" members) as [ds |]; [| discriminate Hr].
  destruct (as_str ds); [| discriminate Hr].
  destruct (as_priority _); [| discriminate Hr].
  destruct (as_list_str _) as [sf |] eqn:Es; [| discriminate Hr].
  injection Hr as <-. cbn [ActionPoint.source_facts].
  now apply (dedupe_item_members item members).
Qed.

End ItemProps.

(* ===================================================================== *)
(** ** The to-do stage *)
(* ===================================================================== *)

Module TodoStageProps.
Import Py Json Models Samples Scenarios Notions TextProps ItemProps.
Import Src3.GenerateTodos.
Local Open Scope list_scope.

Section Loop.

Variable exn_text : Gen.Log -> string.

(** A loop whose last attempt number is not below [max_retries] always
    ends in a [return], after at least one generator call and at most
    one call for each attempt; the to-dos are those of an answer of the
    generator, or none. *)
Lemma todo_attempts_returns (llm : Gen.generator) (prompt : string)
  (max_retries : nat) (attempts : list nat) :
  attempts <> [] ->
  (last attempts 0 <? max_retries)%nat = false ->
  forall (feedback : string) (log : Gen.Log),
  exists todos more,
    todo_attempts exn_text llm prompt max_retries attempts feedback log
    = (Some todos, log ++ more)
    /\ 1 <= List.length more <= List.length attempts
    /\ (todos = []
        \/ exists l p response,
             llm l p = Some response
             /\ todos_of_response response = Some todos).
Proof.
  induction attempts as [| attempt rest IH]; [contradiction |].
  intros _ Hlast feedback log.
  assert (Hnext : forall fb,
             (attempt <? max_retries)%nat = true ->
             exists todos more,
               todo_attempts exn_text llm prompt max_retries rest fb
                 (log ++ [with_feedback prompt feedback])
               = (Some todos, log ++ more)
               /\ 1 <= List.length more <= List.length (attempt :: rest)
               /\ (todos = []
                   \/ exists l p response,
                        llm l p = Some response
                        /\ todos_of_response response = Some todos)).
  { intros fb Hlt.
    assert (Hne : rest <> []).
    { intros ->. cbn [last] in Hlast. congruence. }
    assert (Hlast' : (last rest 0 <? max_retries)%nat = false).
    { destruct rest; [contradiction | exact Hlast]. }
    destruct (IH Hne Hlast' fb (log ++ [with_feedback prompt feedback]))
      as (todos & more & E & Hlen & Ho).
    exists todos, ([with_feedback prompt feedback] ++ more).
    rewrite app_assoc. split; [exact E |]. split; [| exact Ho].
    rewrite length_app. cbn [length]. lia. }
  assert (Hnow : forall todos : list ToDo.t,
             (todos = []
              \/ exists l p response,
                   llm l p = Some response
                   /\ todos_of_response response = Some todos) ->
             exists (tds : list ToDo.t) (more : Gen.Log),
               (Some todos, log ++ [with_feedback prompt feedback])
               = (Some tds, log ++ more)
               /\ 1 <= List.length more <= List.length (attempt :: rest)
               /\ (tds = []
                   \/ exists l p response,
                        llm l p = Some response
                        /\ todos_of_response response = Some tds)).
  { intros todos Ho. exists todos, [with_feedback prompt feedback].
    split; [reflexivity |]. split; [cbn [length]; lia | exact Ho]. }
  cbn [todo_attempts Gen.invoke].
  destruct (llm log (with_feedback prompt feedback)) as [content |] eqn:El.
  - destruct (todos_of_response content) as [todos |] eqn:Et.
    + assert (Ho : todos = []
                   \/ exists l p response,
                        llm l p = Some response
                        /\ todos_of_response response = Some todos).
      { right. eauto. }
      destruct (_validate_todos todos) as [| issue issues];
        [now apply Hnow |].
      destruct (attempt <? max_retries)%nat eqn:Hlt;
        [now apply Hnext | now apply Hnow].
    + destruct (attempt <? max_retries)%nat eqn:Hlt;
        [now apply Hnext | apply Hnow; now left].
  - destruct (attempt <? max_retries)%nat eqn:Hlt;
      [now apply Hnext | apply Hnow; now left].
Qed.

(** When no answer of the generator gives to-dos, the loop of three
    attempts calls the generator three times and returns none. *)
Lemma todo_attempts_give_up (llm : Gen.generator) (prompt : string)
  (feedback : string) (log : Gen.Log) :
  (forall l p,
      match llm l p with
      | Some response => todos_of_response response = None
      | None => True
      end) ->
  exists more,
    todo_attempts exn_text llm prompt 3 [1; 2; 3] feedback log
    = (Some [], log ++ more)
    /\ List.length more = 3.
Proof.
  intros Hfail.
  assert (Hnone : forall l p,
             match llm l p with
             | Some content => todos_of_response content
             | None => None
             end = None).
  { intros l p. specialize (Hfail l p). now destruct (llm l p). }
  cbn [todo_attempts Gen.invoke]. rewrite !Hnone.
  change (1 <? 3)%nat with true. change (2 <? 3)%nat with true.
  change (3 <? 3)%nat with false. cbv iota.
  eexists. rewrite <- !app_assoc. split; reflexivity.
Qed.

End Loop.

Lemma todos_of_response_NoDup (response : string) (tds : list ToDo.t) :
  todos_of_response response = Some tds ->
  Forall (fun td => NoDup (ToDo.source_facts td)) tds.
Proof.
  unfold todos_of_response.
  destruct (loads (_clean_json response)) as [data |]; [| discriminate].
  destruct (iterate data) as [items |]; [| discriminate].
  destruct (traverse dedupe_item items) as [data' |] eqn:E1; [| discriminate].
  destruct (traverse ToDo.of_json data') as [todos |] eqn:E2; [| discriminate].
  intros [= <-].
  pose proof (traverse_twice ToDo.of_json
                (fun td => NoDup (ToDo.source_facts td))
                todo_of_json_NoDup items data' todos E1 E2) as H.
  unfold _fix_common_issues. apply Forall_map.
  revert H. apply Forall_impl. intros td Hnd.
  destruct (GenerateTodosProps.fix_todo_keeps_fields td) as (_ & _ & ->).
  exact Hnd.
Qed.

Lemma generate_todos_runs :
  forall (load_skill : string -> option string)
         (exn_text : Gen.Log -> string) (state : State.t)
         (validated : ValidatedFacts.t) (skill : string)
         (llm : Gen.generator) (log : Gen.Log),
    State.validated_facts state = Some validated ->
    load_skill "GENERATE_TODOS"%string = Some skill ->
    exists todos more,
      generate_todos load_skill exn_text state llm log
      = (Some (State.set_todos todos state), log ++ more)
      /\ List.length more <= 3
      /\ (filter is_action_item (ValidatedFacts.facts validated) = [] ->
          todos = [] /\ more = [])
      /\ (filter is_action_item (ValidatedFacts.facts validated) <> [] ->
          1 <= List.length more)
      /\ (todos = []
          \/ exists l p response,
               llm l p = Some response
               /\ todos_of_response response = Some todos).
Proof.
  intros load_skill exn_text state validated skill llm log Hv Hs.
  unfold generate_todos. rewrite Hv, Hs.
  fold is_action_item.
  destruct (filter is_action_item (ValidatedFacts.facts validated))
    as [| f fs] eqn:Ef.
  - exists [], []. rewrite app_nil_r. split; [reflexivity |].
    split; [cbn; lia |]. split; [now split |].
    split; [congruence | now left].
  - match goal with
    | |- context [todo_attempts exn_text llm ?p 3 (seq 1 3) ?fb log] =>
        destruct (todo_attempts_returns exn_text llm p 3 (seq 1 3)
                    ltac:(discriminate) eq_refl fb log)
          as (todos & more & E & Hlen & Ho)
    end.
    rewrite E. exists todos, more. split; [reflexivity |].
    split; [apply Hlen |]. split; [discriminate |].
    split; [intros _; apply Hlen | exact Ho].
Qed.

(** X5.  With the validated facts and the skill at hand, the to-do stage
    always returns the state with a list of to-dos, after three
    generator calls at most.  Without a validated action item the list
    is empty and the generator is not called, whatever deadlines there
    are; with one the generator is called at least once.  The to-dos
    are those read from one answer of the generator, or none.  When no
    answer can be read as to-dos (the call raises, or the cleaned
    answer is not a JSON array of to-do mappings), the stage does not
    raise: the list is empty, after exactly three calls when there is
    an action item. *)
Theorem todo_stage_always_returns :
  forall (load_skill : string -> option string)
         (exn_text : Gen.Log -> string) (state : State.t)
         (validated : ValidatedFacts.t) (skill : string)
         (llm : Gen.generator) (log : Gen.Log),
    State.validated_facts state = Some validated ->
    load_skill "GENERATE_TODOS"%string = Some skill ->
    exists todos more,
      generate_todos load_skill exn_text state llm log
      = (Some (State.set_todos todos state), log ++ more)
      /\ List.length more <= 3
      /\ (filter is_action_item (ValidatedFacts.facts validated) = [] ->
          todos = [] /\ more = [])
      /\ (filter is_action_item (ValidatedFacts.facts validated) <> [] ->
          1 <= List.length more)
      /\ (todos = []
          \/ exists l p response,
               llm l p = Some response
               /\ todos_of_response response = Some todos)
      /\ ((forall l p,
              match llm l p with
              | Some response => todos_of_response response = None
              | None => True
              end) ->
          todos = []
          /\ (filter is_action_item (ValidatedFacts.facts validated) <> [] ->
              List.length more = 3)).
Proof.
  intros load_skill exn_text state validated skill llm log Hv Hs.
  destruct (generate_todos_runs load_skill exn_text state validated skill
              llm log Hv Hs) as (todos & more & E & Hlen & Hnil & Hpos & Ho).
  exists todos, more.
  split; [exact E |]. split; [exact Hlen |]. split; [exact Hnil |].
  split; [exact Hpos |]. split; [exact Ho |].
  intros H. split.
  - destruct Ho as [-> | (l & p & response & Hr & Hp)]; [reflexivity |].
    specialize (H l p). rewrite Hr in H. congruence.
  - intros Hne. unfold generate_todos in E. rewrite Hv, Hs in E.
    fold is_action_item in E.
    destruct (filter is_action_item (ValidatedFacts.facts validated))
      as [| f fs]; [contradiction |].
    match type of E with
    | context [todo_attempts exn_text llm ?p 3 (seq 1 3) ?fb log] =>
        destruct (todo_attempts_give_up exn_text llm p fb log H)
          as (more' & E' & Hlen')
    end.
    cbn [seq] in E. rewrite E' in E. injection E as _ E2.
    apply app_inv_head in E2. now subst more'.
Qed.

Lemma todo_stage_always_returns_witness :
  exists todos more,
    generate_todos empty_skills some_text validated_state_v9
      prose_generator []
    = (Some (State.set_todos todos validated_state_v9), [] ++ more)
    /\ List.length more <= 3
    /\ (filter is_action_item (ValidatedFacts.facts validated_sample_v9) = [] ->
        todos = [] /\ more = [])
    /\ (filter is_action_item (ValidatedFacts.facts validated_sample_v9) <> [] ->
        1 <= List.length more)
    /\ (todos = []
        \/ exists l p response,
             prose_generator l p = Some response
             /\ todos_of_response response = Some todos)
    /\ ((forall l p,
            match prose_generator l p with
            | Some response => todos_of_response response = None
            | None => True
            end) ->
        todos = []
        /\ (filter is_action_item (ValidatedFacts.facts validated_sample_v9)
            <> [] ->
            List.length more = 3)).
Proof.
  apply (todo_stage_always_returns empty_skills some_text validated_state_v9
           validated_sample_v9 ""%string prose_generator []); reflexivity.
Defined.

(** X6.  No to-do that the stage returns names a source fact twice. *)
Theorem todo_source_facts_are_not_repeated :
  forall (load_skill : string -> option string)
         (exn_text : Gen.Log -> string) (state state' : State.t)
         (llm : Gen.generator) (log log' : Gen.Log) (tds : list ToDo.t),
    generate_todos load_skill exn_text state llm log = (Some state', log') ->
    State.todos state' = Some tds ->
    Forall (fun td => NoDup (ToDo.source_facts td)) tds.
Proof.
  intros load_skill exn_text state state' llm log log' tds Hg Ht.
  destruct (State.validated_facts state) as [validated |] eqn:Ev;
    [| unfold generate_todos in Hg; rewrite Ev in Hg; discriminate Hg].
  destruct (load_skill "GENERATE_TODOS"%string) as [skill |] eqn:Es.
  - destruct (generate_todos_runs load_skill exn_text state validated
                skill llm log Ev Es)
      as (todos & more & E & _ & _ & _ & Ho).
    rewrite E in Hg. injection Hg as <- _.
    cbn in Ht. injection Ht as <-.
    destruct Ho as [-> | (l & p & response & _ & Hr)]; [constructor |].
    now apply (todos_of_response_NoDup response).
  - unfold generate_todos in Hg. rewrite Ev, Es in Hg. discriminate Hg.
Qed.

(** X6, witness: a run of the stage on an answer whose first to-do
    names one source fact three times and another one twice.  Read
    without the pass over [source_facts] the answer gives the to-dos
    with the repetitions; the stage returns each fact once, in the
    order of first mention. *)
Lemma todo_source_facts_are_not_repeated_witness :
  match loads (_clean_json repeating_todos_response) with
  | Some data =>
      match iterate data with
      | Some items => traverse ToDo.of_json items
      | None => None
      end
  | None => None
  end = Some repeating_todos
  /\ deduplicated_todos
     = [ ToDo.mk "Run the manual test" (Some "Thursday"%string) Medium
           [ "Run manual test Thursday"%string; "Test before launch"%string ];
         ToDo.mk "Share the results" None Medium
           [ "Test before launch"%string; "Run manual test Thursday"%string ] ]
  /\ Forall (fun td => NoDup (ToDo.source_facts td)) deduplicated_todos.
Proof.
  split; [vm_compute; reflexivity |].
  split; [reflexivity |].
  apply (todo_source_facts_are_not_repeated empty_skills some_text
           validated_state_v9 repeating_todos_state repeating_todos_generator
           []
           (snd (generate_todos empty_skills some_text validated_state_v9
                   repeating_todos_generator []))
           deduplicated_todos).
  - vm_compute. reflexivity.
  - reflexivity.
Defined.

End TodoStageProps.

(* ===================================================================== *)
(** ** The action-point stage *)
(* ===================================================================== *)

Module ActionPointStageProps.
Import Py Json Models Samples Scenarios Notions TextProps ItemProps.
Import Src3.GenerateActionPoints.
Local Open Scope list_scope.

Section Loop.

Variable exn_text : Gen.Log -> string.

(** A loop whose last attempt number is not below [max_retries] always
    ends in a [return], after at least one generator call and at most
    one call for each attempt; the action points are those of an answer
    of the generator, or none. *)
Lemma action_point_attempts_returns (llm : Gen.generator) (prompt : string)
  (max_retries : nat) (attempts : list nat) :
  attempts <> [] ->
  (last attempts 0 <? max_retries)%nat = false ->
  forall (feedback : string) (log : Gen.Log),
  exists aps more,
    action_point_attempts exn_text llm prompt max_retries attempts feedback
      log
    = (Some aps, log ++ more)
    /\ 1 <= List.length more <= List.length attempts
    /\ (aps = []
        \/ exists l p response,
             llm l p = Some response
             /\ action_points_of_response response = Some aps).
Proof.
  induction attempts as [| attempt rest IH]; [contradiction |].
  intros _ Hlast feedback log.
  assert (Hnext : forall fb,
             (attempt <? max_retries)%nat = true ->
             exists aps more,
               action_point_attempts exn_text llm prompt max_retries rest fb
                 (log ++ [with_feedback prompt feedback])
               = (Some aps, log ++ more)
               /\ 1 <= List.length more <= List.length (attempt :: rest)
               /\ (aps = []
                   \/ exists l p response,
                        llm l p = Some response
                        /\ action_points_of_response response = Some aps)).
  { intros fb Hlt.
    assert (Hne : rest <> []).
    { intros ->. cbn [last] in Hlast. congruence. }
    assert (Hlast' : (last rest 0 <? max_retries)%nat = false).
    { destruct rest; [contradiction | exact Hlast]. }
    destruct (IH Hne Hlast' fb (log ++ [with_feedback prompt feedback]))
      as (aps & more & E & Hlen & Ho).
    exists aps, ([with_feedback prompt feedback] ++ more).
    rewrite app_assoc. split; [exact E |]. split; [| exact Ho].
    rewrite length_app. cbn [length]. lia. }
  assert (Hnow : forall aps : list ActionPoint.t,
             (aps = []
              \/ exists l p response,
                   llm l p = Some response
                   /\ action_points_of_response response = Some aps) ->
             exists (aps' : list ActionPoint.t) (more : Gen.Log),
               (Some aps, log ++ [with_feedback prompt feedback])
               = (Some aps', log ++ more)
               /\ 1 <= List.length more <= List.length (attempt :: rest)
               /\ (aps' = []
                   \/ exists l p response,
                        llm l p = Some response
                        /\ action_points_of_response response = Some aps')).
  { intros aps Ho. exists aps, [with_feedback prompt feedback].
    split; [reflexivity |]. split; [cbn [length]; lia | exact Ho]. }
  cbn [action_point_attempts Gen.invoke].
  destruct (llm log (with_feedback prompt feedback)) as [content |] eqn:El.
  - destruct (action_points_of_response content) as [aps |] eqn:Et.
    + assert (Ho : aps = []
                   \/ exists l p response,
                        llm l p = Some response
                        /\ action_points_of_response response = Some aps).
      { right. eauto. }
      destruct (_validate_action_points aps) as [| issue issues];
        [now apply Hnow |].
      destruct (attempt <? max_retries)%nat eqn:Hlt;
        [now apply Hnext | now apply Hnow].
    + destruct (attempt <? max_retries)%nat eqn:Hlt;
        [now apply Hnext | apply Hnow; now left].
  - destruct (attempt <? max_retries)%nat eqn:Hlt;
      [now apply Hnext | apply Hnow; now left].
Qed.

(** When no answer of the generator gives action points, the loop of
    three attempts calls the generator three times and returns none. *)
Lemma action_point_attempts_give_up (llm : Gen.generator) (prompt : string)
  (feedback : string) (log : Gen.Log) :
  (forall l p,
      match llm l p with
      | Some response => action_points_of_response response = None
      | None => True
      end) ->
  exists more,
    action_point_attempts exn_text llm prompt 3 [1; 2; 3] feedback log
    = (Some [], log ++ more)
    /\ List.length more = 3.
Proof.
  intros Hfail.
  assert (Hnone : forall l p,
             match llm l p with
             | Some content => action_points_of_response content
             | None => None
             end = None).
  { intros l p. specialize (Hfail l p). now destruct (llm l p). }
  cbn [action_point_attempts Gen.invoke]. rewrite !Hnone.
  change (1 <? 3)%nat with true. change (2 <? 3)%nat with true.
  change (3 <? 3)%nat with false. cbv iota.
  eexists. rewrite <- !app_assoc. split; reflexivity.
Qed.

End Loop.

Lemma action_points_of_response_NoDup (response : string)
  (aps : list ActionPoint.t) :
  action_points_of_response response = Some aps ->
  Forall (fun ap => NoDup (ActionPoint.source_facts ap)) aps.
Proof.
  unfold action_points_of_response.
  destruct (loads (_clean_json response)) as [data |]; [| discriminate].
  destruct (iterate data) as [items |]; [| discriminate].
  destruct (Src3.GenerateTodos.traverse Src3.GenerateTodos.dedupe_item items)
    as [data' |] eqn:E1; [| discriminate].
  intros E2.
  exact (traverse_twice action_point_of_json
           (fun ap => NoDup (ActionPoint.source_facts ap))
           action_point_of_json_NoDup items data' aps E1 E2).
Qed.

Lemma generate_action_points_runs :
  forall (load_skill : string -> option string)
         (exn_text : Gen.Log -> string) (state : State.t)
         (validated : ValidatedFacts.t) (skill : string)
         (llm : Gen.generator) (log : Gen.Log),
    State.validated_facts state = Some validated ->
    load_skill "GENERATE_ACTION_POINTS"%string = Some skill ->
    exists aps more,
      generate_action_points load_skill exn_text state llm log
      = (Some (set_action_points aps state), log ++ more)
      /\ List.length more <= 3
      /\ (filter is_relevant (ValidatedFacts.facts validated) = [] ->
          aps = [] /\ more = [])
      /\ (filter is_relevant (ValidatedFacts.facts validated) <> [] ->
          1 <= List.length more)
      /\ (aps = []
          \/ exists l p response,
               llm l p = Some response
               /\ action_points_of_response response = Some aps).
Proof.
  intros load_skill exn_text state validated skill llm log Hv Hs.
  unfold generate_action_points. rewrite Hv, Hs.
  fold is_relevant.
  destruct (filter is_relevant (ValidatedFacts.facts validated))
    as [| f fs] eqn:Ef.
  - exists [], []. rewrite app_nil_r. split; [reflexivity |].
    split; [cbn; lia |]. split; [now split |].
    split; [congruence | now left].
  - match goal with
    | |- context [action_point_attempts exn_text llm ?p 3 (seq 1 3) ?fb log] =>
        destruct (action_point_attempts_returns exn_text llm p 3 (seq 1 3)
                    ltac:(discriminate) eq_refl fb log)
          as (aps & more & E & Hlen & Ho)
    end.
    rewrite E. exists aps, more. split; [reflexivity |].
    split; [apply Hlen |]. split; [discriminate |].
    split; [intros _; apply Hlen | exact Ho].
Qed.

(** X7.  With the validated facts and the skill at hand, the
    action-point stage always returns the state with a list of action
    points, after three generator calls at most.  Without a validated
    decision or action item the list is empty and the generator is not
    called; with one the generator is called at least once.  The action
    points are those read from one answer of the generator, or none.
    When no answer can be read as action points, the stage does not
    raise: the list is empty, after exactly three calls when there is
    a decision or an action item. *)
Theorem action_point_stage_always_returns :
  forall (load_skill : string -> option string)
         (exn_text : Gen.Log -> string) (state : State.t)
         (validated : ValidatedFacts.t) (skill : string)
         (llm : Gen.generator) (log : Gen.Log),
    State.validated_facts state = Some validated ->
    load_skill "GENERATE_ACTION_POINTS"%string = Some skill ->
    exists aps more,
      generate_action_points load_skill exn_text state llm log
      = (Some (set_action_points aps state), log ++ more)
      /\ List.length more <= 3
      /\ (filter is_relevant (ValidatedFacts.facts validated) = [] ->
          aps = [] /\ more = [])
      /\ (filter is_relevant (ValidatedFacts.facts validated) <> [] ->
          1 <= List.length more)
      /\ (aps = []
          \/ exists l p response,
               llm l p = Some response
               /\ action_points_of_response response = Some aps)
      /\ ((forall l p,
              match llm l p with
              | Some response => action_points_of_response response = None
              | None => True
              end) ->
          aps = []
          /\ (filter is_relevant (ValidatedFacts.facts validated) <> [] ->
              List.length more = 3)).
Proof.
  intros load_skill exn_text state validated skill llm log Hv Hs.
  destruct (generate_action_points_runs load_skill exn_text state validated
              skill llm log Hv Hs)
    as (aps & more & E & Hlen & Hnil & Hpos & Ho).
  exists aps, more.
  split; [exact E |]. split; [exact Hlen |]. split; [exact Hnil |].
  split; [exact Hpos |]. split; [exact Ho |].
  intros H. split.
  - destruct Ho as [-> | (l & p & response & Hr & Hp)]; [reflexivity |].
    specialize (H l p). rewrite Hr in H. congruence.
  - intros Hne. unfold generate_action_points in E. rewrite Hv, Hs in E.
    fold is_relevant in E.
    destruct (filter is_relevant (ValidatedFacts.facts validated))
      as [| f fs]; [contradiction |].
    match type of E with
    | context [action_point_attempts exn_text llm ?p 3 (seq 1 3) ?fb log] =>
        destruct (action_point_attempts_give_up exn_text llm p fb log H)
          as (more' & E' & Hlen')
    end.
    cbn [seq] in E. rewrite E' in E. injection E as _ E2.
    apply app_inv_head in E2. now subst more'.
Qed.

Lemma action_point_stage_always_returns_witness :
  exists aps more,
    generate_action_points empty_skills some_text validated_state_v9
      silent_generator []
    = (Some (set_action_points aps validated_state_v9), [] ++ more)
    /\ List.length more <= 3
    /\ (filter is_relevant (ValidatedFacts.facts validated_sample_v9) = [] ->
        aps = [] /\ more = [])
    /\ (filter is_relevant (ValidatedFacts.facts validated_sample_v9) <> [] ->
        1 <= List.length more)
    /\ (aps = []
        \/ exists l p response,
             silent_generator l p = Some response
             /\ action_points_of_response response = Some aps)
    /\ ((forall l p,
            match silent_generator l p with
            | Some response => action_points_of_response response = None
            | None => True
            end) ->
        aps = []
        /\ (filter is_relevant (ValidatedFacts.facts validated_sample_v9)
            <> [] ->
            List.length more = 3)).
Proof.
  apply (action_point_stage_always_returns empty_skills some_text
           validated_state_v9 validated_sample_v9 ""%string
           silent_generator []); reflexivity.
Defined.

(** X8.  No action point that the stage returns names a source fact
    twice. *)
Theorem action_point_source_facts_are_not_repeated :
  forall (load_skill : string -> option string)
         (exn_text : Gen.Log -> string) (state state' : State.t)
         (llm : Gen.generator) (log log' : Gen.Log)
         (aps : list ActionPoint.t),
    generate_action_points load_skill exn_text state llm log
    = (Some state', log') ->
    State.action_points state' = Some aps ->
    Forall (fun ap => NoDup (ActionPoint.source_facts ap)) aps.
Proof.
  intros load_skill exn_text state state' llm log log' aps Hg Ht.
  destruct (State.validated_facts state) as [validated |] eqn:Ev;
    [| unfold generate_action_points in Hg; rewrite Ev in Hg;
       discriminate Hg].
  destruct (load_skill "GENERATE_ACTION_POINTS"%string) as [skill |] eqn:Es.
  - destruct (generate_action_points_runs load_skill exn_text state
                validated skill llm log Ev Es)
      as (aps' & more & E & _ & _ & _ & Ho).
    rewrite E in Hg. injection Hg as <- _.
    cbn in Ht. injection Ht as <-.
    destruct Ho as [-> | (l & p & response & _ & Hr)]; [constructor |].
    now apply (action_points_of_response_NoDup response).
  - unfold generate_action_points in Hg. rewrite Ev, Es in Hg.
    discriminate Hg.
Qed.

Lemma action_point_source_facts_are_not_repeated_witness :
  Forall (fun ap => NoDup (ActionPoint.source_facts ap))
    generated_action_points.
Proof.
  apply (action_point_source_facts_are_not_repeated empty_skills some_text
           validated_state_v9 action_points_state action_points_generator []
           (snd (generate_action_points empty_skills some_text
                   validated_state_v9 action_points_generator []))
           generated_action_points).
  - vm_compute. reflexivity.
  - reflexivity.
Defined.

End ActionPointStageProps.

(* ===================================================================== *)
(** ** The checks that ask for another attempt, and the repair *)
(* ===================================================================== *)

Module IssueProps.
Import Py Json Models Notions TextProps.
Local Open Scope list_scope.

Lemma Forall_iff {A : Type} (P Q : A -> Prop) (l : list A) :
  (forall x, P x <-> Q x) -> Forall P l <-> Forall Q l.
Proof.
  intros H. split; apply Forall_impl; intros x; apply H.
Qed.

Lemma flat_map_nil_iff {A B : Type} (f : A -> list B) (l : list A) :
  flat_map f l = [] <-> Forall (fun x => f x = []) l.
Proof.
  induction l as [| a l IH]; cbn [flat_map].
  - split; [constructor | reflexivity].
  - split.
    + intros H. apply app_eq_nil in H as [H1 H2].
      constructor; [exact H1 | now apply IH].
    + intros H. inversion H as [| ? ? H1 H2]; subst.
      rewrite H1. now apply IH.
Qed.

Lemma duplicates_nil_iff (l : list string) (issue : string) :
  (if negb (List.length l =? List.length (dedupe l))%nat
   then [issue] else []) = []
  <-> NoDup l.
Proof.
  rewrite <- dedupe_length_iff.
  destruct (List.length l =? List.length (dedupe l))%nat eqn:E; cbn [negb].
  - apply Nat.eqb_eq in E. split; [now intros _ | reflexivity].
  - apply Nat.eqb_neq in E. split; [discriminate | intros H; congruence].
Qed.

Lemma in_one_to_five_isdigit (sf : string) :
  mem sf [ "1"; "2"; "3"; "4"; "5" ]%string = true -> isdigit sf = true.
Proof.
  unfold mem. cbn [existsb]. rewrite !orb_true_iff.
  intros [H | [H | [H | [H | [H | H]]]]]; try discriminate H;
    apply String.eqb_eq in H; subst sf; reflexivity.
Qed.

Lemma index_test_is_isdigit (sf : string) :
  isdigit sf || mem sf [ "1"; "2"; "3"; "4"; "5" ]%string = isdigit sf.
Proof.
  destruct (isdigit sf) eqn:E; [reflexivity |]. cbn [orb].
  destruct (mem sf [ "1"; "2"; "3"; "4"; "5" ]%string) eqn:Em;
    [| reflexivity].
  apply in_one_to_five_isdigit in Em. congruence.
Qed.

(** X9.  The to-do check has nothing to object to, so that the stage
    returns at once, exactly when the tasks differ after lowering and
    stripping, no lowered task holds one of the conditional words
    between spaces, and no source fact is a text of digits only; the
    second test on the source facts, for a text from 1 to 5, adds
    nothing to the first. *)
Theorem todo_check_passes_iff (todos : list ToDo.t) :
  Src3.GenerateTodos._validate_todos todos = []
  <-> NoDup (map (fun td => strip (lower (ToDo.task td))) todos)
      /\ Forall (fun td =>
                   existsb (fun word => contains word (lower (ToDo.task td)))
                     conditional_words = false) todos
      /\ Forall (fun td =>
                   Forall (fun sf => isdigit sf = false)
                     (ToDo.source_facts td)) todos.
Proof.
  unfold Src3.GenerateTodos._validate_todos.
  set (tasks := map (fun td => strip (lower (ToDo.task td))) todos).
  assert (Hc : flat_map Src3.GenerateTodos.conditional_issue todos = []
               <-> Forall (fun td =>
                             existsb (fun word =>
                                        contains word (lower (ToDo.task td)))
                               conditional_words = false) todos).
  { rewrite flat_map_nil_iff. apply Forall_iff. intros td.
    unfold Src3.GenerateTodos.conditional_issue. fold conditional_words.
    destruct (existsb _ conditional_words);
      split; intros H; congruence. }
  assert (Hi : flat_map (fun td =>
                           flat_map Src3.GenerateTodos.index_issue
                             (ToDo.source_facts td)) todos = []
               <-> Forall (fun td =>
                             Forall (fun sf => isdigit sf = false)
                               (ToDo.source_facts td)) todos).
  { rewrite flat_map_nil_iff. apply Forall_iff. intros td.
    rewrite flat_map_nil_iff. apply Forall_iff. intros sf.
    unfold Src3.GenerateTodos.index_issue.
    rewrite index_test_is_isdigit.
    destruct (isdigit sf); split; intros H; congruence. }
  rewrite <- Hc, <- Hi, <- (duplicates_nil_iff tasks
    "Contains duplicate todos - remove duplicates").
  split.
  - intros H. apply app_eq_nil in H as [H1 H2].
    apply app_eq_nil in H2 as [H2 H3]. now repeat split.
  - intros (H1 & H2 & H3). now rewrite H1, H2, H3.
Qed.

(** X10.  The action-point check has nothing to object to exactly when
    the descriptions differ after lowering and stripping, no lowered
    description holds one of the conditional words between spaces, and
    no source fact is a text of digits only. *)
Theorem action_point_check_passes_iff (action_points : list ActionPoint.t) :
  Src3.GenerateActionPoints._validate_action_points action_points = []
  <-> NoDup (map (fun ap => strip (lower (ActionPoint.description ap)))
               action_points)
      /\ Forall (fun ap =>
                   existsb (fun word =>
                              contains word
                                (lower (ActionPoint.description ap)))
                     conditional_words = false) action_points
      /\ Forall (fun ap =>
                   Forall (fun sf => isdigit sf = false)
                     (ActionPoint.source_facts ap)) action_points.
Proof.
  unfold Src3.GenerateActionPoints._validate_action_points.
  set (descriptions :=
         map (fun ap => strip (lower (ActionPoint.description ap)))
           action_points).
  assert (Hc : flat_map Src3.GenerateActionPoints.conditional_issue
                 action_points = []
               <-> Forall (fun ap =>
                             existsb (fun word =>
                                        contains word
                                          (lower (ActionPoint.description ap)))
                               conditional_words = false) action_points).
  { rewrite flat_map_nil_iff. apply Forall_iff. intros ap.
    unfold Src3.GenerateActionPoints.conditional_issue.
    fold conditional_words.
    destruct (existsb _ conditional_words);
      split; intros H; congruence. }
  assert (Hi : flat_map (fun ap =>
                           flat_map Src3.GenerateActionPoints.index_issue
                             (ActionPoint.source_facts ap)) action_points = []
               <-> Forall (fun ap =>
                             Forall (fun sf => isdigit sf = false)
                               (ActionPoint.source_facts ap)) action_points).
  { rewrite flat_map_nil_iff. apply Forall_iff. intros ap.
    rewrite flat_map_nil_iff. apply Forall_iff. intros sf.
    unfold Src3.GenerateActionPoints.index_issue.
    rewrite index_test_is_isdigit.
    destruct (isdigit sf); split; intros H; congruence. }
  rewrite <- Hc, <- Hi, <- (duplicates_nil_iff descriptions
    "Contains duplicate action points - group related items").
  split.
  - intros H. apply app_eq_nil in H as [H1 H2].
    apply app_eq_nil in H2 as [H2 H3]. now repeat split.
  - intros (H1 & H2 & H3). now rewrite H1, H2, H3.
Qed.

Lemma fix_todo_fixed_or_null (todo : ToDo.t) :
  Src3.GenerateTodos.fix_todo todo = todo
  \/ ToDo.deadline (Src3.GenerateTodos.fix_todo todo) = None.
Proof.
  unfold Src3.GenerateTodos.fix_todo.
  destruct (ToDo.deadline todo) as [d |] eqn:Hd.
  - destruct (truthy d && mem (lower d) Src3.GenerateTodos.absent_deadlines).
    + right. reflexivity.
    + rewrite Hd. destruct (truthy d); [| now left].
      destruct (existsb _ Src3.GenerateTodos.task_verbs);
        [right; reflexivity | now left].
  - rewrite Hd. now left.
Qed.

Lemma fix_todo_without_deadline (todo : ToDo.t) :
  ToDo.deadline todo = None -> Src3.GenerateTodos.fix_todo todo = todo.
Proof.
  intros Hd. unfold Src3.GenerateTodos.fix_todo. now rewrite Hd, Hd.
Qed.

(** X11.  The repair of the to-dos leaves nothing to repair: a second
    pass changes no to-do, and the list keeps its length and
    order. *)
Theorem repair_is_idempotent (todos : list ToDo.t) :
  Src3.GenerateTodos._fix_common_issues
    (Src3.GenerateTodos._fix_common_issues todos)
  = Src3.GenerateTodos._fix_common_issues todos
  /\ map ToDo.task (Src3.GenerateTodos._fix_common_issues todos)
     = map ToDo.task todos.
Proof.
  unfold Src3.GenerateTodos._fix_common_issues. split.
  - rewrite map_map. apply map_ext. intros td.
    destruct (fix_todo_fixed_or_null td) as [H | H].
    + now rewrite H.
    + now apply fix_todo_without_deadline.
  - rewrite map_map. apply map_ext. intros td.
    apply GenerateTodosProps.fix_todo_keeps_fields.
Qed.

End IssueProps.

(* ===================================================================== *)
(** ** The emails of the email stage *)
(* ===================================================================== *)

Module EmailProps.
Import Py Json Models Samples Scenarios Notions TextProps ItemProps.
Import Src3.GenerateEmail.
Local Open Scope list_scope.

Lemma fallback_lines (facts : list string) :
  forall init,
  exists mid,
    fold_left (fun acc fact => (acc ++ "- " ++ fact ++ nl)%string) facts init
    = (init ++ mid)%string.
Proof.
  induction facts as [| x l IH]; intros init.
  - exists ""%string. cbn. induction init as [| c i IHi]; cbn; congruence.
  - cbn [fold_left]. destruct (IH (init ++ "- " ++ x ++ nl)%string) as [mid E].
    rewrite E. eexists. apply append_assoc.
Qed.

(** The body of the fallback email: a fixed opening, the lines of the
    facts, a fixed close. *)
Lemma fallback_body_shape (relevant : list ValidatedFact.t) :
  exists mid,
    FollowUpEmail.body (fallback_email relevant)
    = (("Following up on our meeting discussion:" ++ nl ++ nl
        ++ "Key items:" ++ nl)
       ++ mid
       ++ (nl ++ "Please let me know if you have any questions."
           ++ nl ++ nl ++ "Best regards"))%string.
Proof.
  unfold fallback_email. cbn [FollowUpEmail.body].
  destruct (fallback_lines
              (map ValidatedFact.content (firstn 5 relevant))
              ("Following up on our meeting discussion:" ++ nl ++ nl
               ++ "Key items:" ++ nl)%string) as [mid E].
  rewrite E. exists mid. apply append_assoc.
Qed.

(** X12.  The fallback email does not pass the check of its own stage:
    its close asks to [let me know if you have any questions], which
    the check takes for conditional language.  The stage returns it
    unchecked. *)
Theorem fallback_email_fails_its_own_check (relevant : list ValidatedFact.t) :
  In "Contains conditional language - remove conditionals"%string
    (_validate_email (fallback_email relevant)).
Proof.
  unfold _validate_email.
  destruct (fallback_body_shape relevant) as [mid E].
  apply in_or_app. right. apply in_or_app. left.
  match goal with
  | |- In _ (if ?b then _ else _) => assert (Hb : b = true)
  end.
  { cbn [existsb]. apply orb_true_iff. left.
    match type of E with
    | _ = (?o ++ ?m ++ ?c)%string =>
        rewrite E, (lower_app o (m ++ c)), (lower_app m c)
    end.
    apply contains_app_r. apply contains_app_r. vm_compute. reflexivity. }
  rewrite Hb. now left.
Qed.

Lemma get_set_other (key k : string) (v : json)
  (members : list (string * json)) :
  (k =? key)%string = false -> get key (set k v members) = get key members.
Proof.
  intros Hk. unfold set. induction members as [| [k' w] rest IH].
  - cbn. now rewrite Hk.
  - cbn [app get]. now rewrite IH.
Qed.

Lemma rstrip_app_fixed (a b : string) :
  b <> ""%string -> rstrip b = b -> rstrip (a ++ b) = (a ++ b)%string.
Proof.
  intros Hne Hb. induction a as [| c a IH]; [exact Hb |].
  change (String c a ++ b)%string with (String c (a ++ b)).
  cbn [rstrip]. rewrite IH.
  destruct (a ++ b)%string eqn:E; [| reflexivity].
  destruct a; [cbn in E; contradiction | discriminate E].
Qed.

Lemma fallback_body_stripped (relevant : list ValidatedFact.t) :
  strip (FollowUpEmail.body (fallback_email relevant))
  = FollowUpEmail.body (fallback_email relevant).
Proof.
  destruct (fallback_body_shape relevant) as [mid E]. rewrite E.
  unfold strip. rewrite lstrip_fixed by (cbn; reflexivity).
  match goal with
  | |- rstrip (?o ++ ?m ++ ?c)%string = _ => rewrite <- (append_assoc o m c)
  end.
  apply rstrip_app_fixed; [discriminate | vm_compute; reflexivity].
Qed.

(** The email read from an answer has a stripped body and no source
    fact twice. *)
Lemma email_of_response_shape (response : string) (email : FollowUpEmail.t) :
  email_of_response response = Some email ->
  strip (FollowUpEmail.body email) = FollowUpEmail.body email
  /\ NoDup (FollowUpEmail.source_facts email).
Proof.
  unfold email_of_response.
  destruct (loads (_clean_json response)) as [[| | | | | members] |];
    try discriminate.
  destruct (get "body" members) as [[| | | body | |] |] eqn:Eb;
    try discriminate.
  - set (members1 := set "body" (JStr (clean_body body)) members).
    assert (Hb1 : get "body" members1 = Some (JStr (clean_body body))).
    { apply get_set. }
    assert (Hshape : forall members2,
               get "body" members2 = Some (JStr (clean_body body)) ->
               (forall sf,
                   as_list_str (get_default "source_facts" (JArr []) members2)
                   = Some sf -> NoDup sf) ->
               FollowUpEmail.of_json (JObj members2) = Some email ->
               strip (FollowUpEmail.body email) = FollowUpEmail.body email
               /\ NoDup (FollowUpEmail.source_facts email)).
    { intros members2 Hb2 Hsf Hof. cbn [FollowUpEmail.of_json] in Hof.
      destruct (get "subject" members2) as [sj |]; [| discriminate Hof].
      rewrite Hb2 in Hof. destruct (as_str sj); [| discriminate Hof].
      cbn [as_str] in Hof.
      destruct (as_list_str _) as [sf |] eqn:Es; [| discriminate Hof].
      injection Hof as <-. cbn [FollowUpEmail.body FollowUpEmail.source_facts].
      split; [| now apply Hsf].
      unfold clean_body. apply strip_idempotent. }
    destruct (get "source_facts" members1) as [v |] eqn:Es.
    + destruct (fromkeys_list v) as [v' |] eqn:Ef; [| discriminate].
      intros Hof.
      apply (Hshape (set "source_facts" v' members1)); [| | exact Hof].
      * rewrite get_set_other; [exact Hb1 | reflexivity].
      * intros sf. unfold get_default. rewrite get_set.
        now apply (fromkeys_list_NoDup v v').
    + intros Hof.
      apply (Hshape members1); [exact Hb1 | | exact Hof].
      intros sf. unfold get_default. rewrite Es. intros [= <-]. constructor.
  - assert (Hnone : forall members2,
               get "body" members2 = None ->
               FollowUpEmail.of_json (JObj members2) = Some email -> False).
    { intros members2 Hb2 Hof. cbn [FollowUpEmail.of_json] in Hof.
      rewrite Hb2 in Hof. destruct (get "subject" members2); discriminate Hof. }
    destruct (get "source_facts" members) as [v |] eqn:Es.
    + destruct (fromkeys_list v) as [v' |]; [| discriminate].
      intros Hof. exfalso.
      apply (Hnone (set "source_facts" v' members)); [| exact Hof].
      rewrite get_set_other; [exact Eb | reflexivity].
    + intros Hof. exfalso. now apply (Hnone members).
Qed.

(** X13.  Every email that the email stage returns has a body without
    white space at either end; its source facts hold no fact twice,
    unless it is the fallback email, which names the contents of the
    first relevant facts as they are. *)
Theorem returned_email_is_stripped :
  forall (load_skill : string -> option string)
         (exn_text : Gen.Log -> string) (state state' : State.t)
         (validated : ValidatedFacts.t)
         (llm : Gen.generator) (log log' : Gen.Log)
         (emails : list FollowUpEmail.t) (email : FollowUpEmail.t),
    State.validated_facts state = Some validated ->
    generate_email load_skill exn_text state llm log = (Some state', log') ->
    State.follow_up_emails state' = Some emails ->
    In email emails ->
    strip (FollowUpEmail.body email) = FollowUpEmail.body email
    /\ (NoDup (FollowUpEmail.source_facts email)
        \/ email = fallback_email (relevant_facts validated)).
Proof.
  intros load_skill exn_text state state' validated llm log log' emails email
    Hv Hg Hf Hin.
  unfold generate_email in Hg. rewrite Hv in Hg.
  destruct (load_skill "GENERATE_EMAIL"%string) as [skill |];
    [| discriminate Hg].
  fold (relevant_facts validated) in Hg.
  destruct (relevant_facts validated) as [| f fs] eqn:Er.
  - injection Hg as <- _. cbn in Hf. injection Hf as <-. destruct Hin.
  - match type of Hg with
    | context [email_attempts exn_text llm ?p ?r 3 (seq 1 3) ?fb log] =>
        destruct (email_attempts exn_text llm p r 3 (seq 1 3) fb log)
          as [[ems |] log1] eqn:Ea; [| discriminate Hg];
        pose proof (GenerateEmailProps.email_attempts_origin exn_text llm p r
                      3 (seq 1 3) fb log log1 ems email Ea) as Ho
    end.
    injection Hg as <- _. cbn in Hf. injection Hf as <-.
    destruct (Ho Hin) as [(l & p & response & _ & Hr) | ->].
    + destruct (email_of_response_shape response email Hr) as [H1 H2].
      split; [exact H1 | now left].
    + split; [apply fallback_body_stripped | now right].
Qed.

Lemma returned_email_is_stripped_witness :
  strip (FollowUpEmail.body
           (fallback_email (relevant_facts validated_sample_v9)))
  = FollowUpEmail.body (fallback_email (relevant_facts validated_sample_v9))
  /\ (NoDup (FollowUpEmail.source_facts
               (fallback_email (relevant_facts validated_sample_v9)))
      \/ fallback_email (relevant_facts validated_sample_v9)
         = fallback_email (relevant_facts validated_sample_v9)).
Proof.
  apply (returned_email_is_stripped empty_skills some_text validated_state_v9
           (State.set_follow_up_emails
              [fallback_email (relevant_facts validated_sample_v9)]
              validated_state_v9)
           validated_sample_v9 prose_generator []
           (snd (generate_email empty_skills some_text validated_state_v9
                   prose_generator []))
           [fallback_email (relevant_facts validated_sample_v9)]
           (fallback_email (relevant_facts validated_sample_v9))).
  - reflexivity.
  - vm_compute. reflexivity.
  - reflexivity.
  - now left.
Defined.

End EmailProps.

(* ===================================================================== *)
(** ** The verdicts of the compliance checks *)
(* ===================================================================== *)

Module VerdictProps.
Import Py Json Models Notions TextProps IssueProps.
Local Open Scope list_scope.

Lemma passed_iff_no_issue (issues : list string) :
  (List.length issues =? 0)%nat = true <-> issues = [].
Proof.
  destruct issues; cbn; split; congruence.
Qed.

Lemma app3_nil {A : Type} (a b c : list A) :
  a ++ b ++ c = [] <-> a = [] /\ b = [] /\ c = [].
Proof.
  split.
  - intros H. apply app_eq_nil in H as [H1 H2].
    apply app_eq_nil in H2 as [H2 H3]. now repeat split.
  - intros (-> & -> & ->). reflexivity.
Qed.

Lemma v9_todo_issues_nil (td : ToDo.t) :
  Src3.ComplianceCheck.todo_issues td = []
  <-> ToDo.source_facts td <> []
      /\ (forall d, ToDo.deadline td = Some d ->
                    mem (lower d) Src3.ComplianceCheck.unspecified_deadlines
                    = false).
Proof.
  unfold Src3.ComplianceCheck.todo_issues.
  destruct (ToDo.source_facts td) as [| sf sfs].
  - split; [discriminate | intros [H _]; congruence].
  - cbn [app]. destruct (ToDo.deadline td) as [d |].
    + destruct (truthy d) eqn:Et; cbn [andb].
      * destruct (mem (lower d) Src3.ComplianceCheck.unspecified_deadlines)
          eqn:Em.
        { split; [discriminate |]. intros [_ H].
          specialize (H d eq_refl). congruence. }
        { split; [| reflexivity]. intros _. split; [discriminate |].
          intros d' [= <-]. exact Em. }
      * split; [| reflexivity]. intros _. split; [discriminate |].
        intros d' [= <-].
        apply GenerateTodosProps.not_truthy_is_empty in Et. subst d.
        reflexivity.
    + split; [| reflexivity]. intros _. split; [discriminate |].
      intros d H. discriminate H.
Qed.

(** X14.  The verdict of the V9 compliance check.  With the outputs and
    the validated facts in the state, the check passes exactly when it
    records no issue, and that is exactly when every action point and
    every to-do names a source fact, no to-do has a deadline that is,
    in any case of letters, [not specified], [none] or [n/a], and no
    email body holds both an opening and a closing square bracket; the
    source facts of the emails are not looked at.  Without the outputs
    or the validated facts the check does not raise: it fails with one
    issue. *)
Theorem v9_compliance_verdict (state : State.t) :
  let checked := Src3.ComplianceCheck.compliance_check state in
  match State.outputs state, State.validated_facts state with
  | Some outputs, Some _ =>
      (State.compliance_passed checked = Some true
       <-> State.compliance_issues checked = Some [])
      /\ (State.compliance_passed checked = Some true
          <-> Forall (fun ap => ActionPoint.source_facts ap <> [])
                (MeetingOutputs.action_points outputs)
              /\ Forall (fun td =>
                           ToDo.source_facts td <> []
                           /\ (forall d,
                                  ToDo.deadline td = Some d ->
                                  mem (lower d)
                                    Src3.ComplianceCheck.unspecified_deadlines
                                  = false))
                   (MeetingOutputs.todos outputs)
              /\ Forall (fun em =>
                           contains "[" (FollowUpEmail.body em)
                           && contains "]" (FollowUpEmail.body em) = false)
                   (MeetingOutputs.follow_up_emails outputs))
  | _, _ =>
      State.compliance_passed checked = Some false
      /\ State.compliance_issues checked
         = Some [ "Missing outputs or validated facts"%string ]
  end.
Proof.
  intros checked. subst checked.
  unfold Src3.ComplianceCheck.compliance_check.
  destruct (State.outputs state) as [outputs |];
    [| split; reflexivity].
  destruct (State.validated_facts state) as [validated |];
    [| split; reflexivity].
  cbn [State.compliance_passed State.compliance_issues State.set_compliance].
  set (issues := flat_map Src3.ComplianceCheck.action_point_issues _ ++ _).
  assert (Hp : Some (List.length issues =? 0)%nat = Some true
               <-> issues = []).
  { rewrite <- passed_iff_no_issue. split; congruence. }
  split.
  - rewrite Hp. split; congruence.
  - rewrite Hp. unfold issues. rewrite app3_nil, !flat_map_nil_iff.
    assert (Ha : forall l,
               Forall (fun ap => Src3.ComplianceCheck.action_point_issues ap
                                 = []) l
               <-> Forall (fun ap => ActionPoint.source_facts ap <> []) l).
    { intros l. apply Forall_iff. intros ap.
      unfold Src3.ComplianceCheck.action_point_issues.
      destruct (ActionPoint.source_facts ap); split; congruence. }
    assert (Ht : forall l,
               Forall (fun td => Src3.ComplianceCheck.todo_issues td = []) l
               <-> Forall (fun td =>
                             ToDo.source_facts td <> []
                             /\ (forall d,
                                    ToDo.deadline td = Some d ->
                                    mem (lower d)
                                      Src3.ComplianceCheck.unspecified_deadlines
                                    = false)) l).
    { intros l. apply Forall_iff. intros td. apply v9_todo_issues_nil. }
    assert (He : forall l,
               Forall (fun em => Src3.ComplianceCheck.email_issues em = []) l
               <-> Forall (fun em =>
                             contains "[" (FollowUpEmail.body em)
                             && contains "]" (FollowUpEmail.body em) = false)
                     l).
    { intros l. apply Forall_iff. intros em.
      unfold Src3.ComplianceCheck.email_issues.
      destruct (contains "[" (FollowUpEmail.body em)
                && contains "]" (FollowUpEmail.body em));
        split; congruence. }
    rewrite Ha, Ht, He. reflexivity.
Qed.

Lemma enumerate_issues_nil {A : Type} (check : nat -> A -> list string)
  (P : A -> Prop) :
  (forall n x, check n x = [] <-> P x) ->
  forall l i,
    Src2.ComplianceCheck.enumerate_issues check i l = [] <-> Forall P l.
Proof.
  intros Hc. induction l as [| x l IH]; intros i.
  - cbn. split; [constructor | reflexivity].
  - cbn [Src2.ComplianceCheck.enumerate_issues]. split.
    + intros H. apply app_eq_nil in H as [H1 H2].
      constructor; [now apply (Hc (i + 1)) | now apply (IH (S i))].
    + intros H. inversion H as [| ? ? H1 H2]; subst.
      apply (Hc (i + 1)) in H1. rewrite H1. now apply IH.
Qed.

(** X15.  The verdict of the V8 compliance check.  With the outputs and
    the validated facts in the state, the check passes exactly when
    every action point, every to-do and every email names a source
    fact, no email body holds one of the three placeholders in the
    spelling of the check, and the summary does not hold both an
    opening and a closing square bracket.  Without the outputs or the
    validated facts the check raises. *)
Theorem v8_compliance_verdict (state : State.t) :
  match State.outputs state, State.validated_facts state with
  | Some outputs, Some _ =>
      exists checked,
        Src2.ComplianceCheck.compliance_check state = Some checked
        /\ (State.compliance_passed checked = Some true
            <-> Forall (fun ap => ActionPoint.source_facts ap <> [])
                  (MeetingOutputs.action_points outputs)
                /\ Forall (fun td => ToDo.source_facts td <> [])
                     (MeetingOutputs.todos outputs)
                /\ Forall (fun em =>
                             FollowUpEmail.source_facts em <> []
                             /\ contains "[Your Name]" (FollowUpEmail.body em)
                                || contains "[Date]" (FollowUpEmail.body em)
                                || contains "[Name]" (FollowUpEmail.body em)
                                = false)
                     (MeetingOutputs.follow_up_emails outputs)
                /\ contains "[" (MeetingOutputs.summary outputs)
                   && contains "]" (MeetingOutputs.summary outputs) = false)
  | _, _ => Src2.ComplianceCheck.compliance_check state = None
  end.
Proof.
  unfold Src2.ComplianceCheck.compliance_check.
  destruct (State.outputs state) as [outputs |]; [| reflexivity].
  destruct (State.validated_facts state) as [validated |]; [| reflexivity].
  eexists. split; [reflexivity |].
  cbn [State.compliance_passed State.set_compliance].
  set (issues := Src2.ComplianceCheck.enumerate_issues _ 0 _ ++ _).
  assert (Hp : Some (List.length issues =? 0)%nat = Some true
               <-> issues = []).
  { rewrite <- passed_iff_no_issue. split; congruence. }
  rewrite Hp. unfold issues.
  rewrite app_assoc, app3_nil.
  assert (H12 : forall a b : list string,
             a ++ b = [] <-> a = [] /\ b = []).
  { intros a b. split; [apply app_eq_nil | intros [-> ->]; reflexivity]. }
  rewrite H12.
  rewrite (enumerate_issues_nil Src2.ComplianceCheck.action_point_issues
             (fun ap => ActionPoint.source_facts ap <> [])).
  2:{ intros n ap. unfold Src2.ComplianceCheck.action_point_issues.
      destruct (ActionPoint.source_facts ap); split; congruence. }
  rewrite (enumerate_issues_nil Src2.ComplianceCheck.todo_issues
             (fun td => ToDo.source_facts td <> [])).
  2:{ intros n td. unfold Src2.ComplianceCheck.todo_issues.
      destruct (ToDo.source_facts td); split; congruence. }
  rewrite (enumerate_issues_nil Src2.ComplianceCheck.email_issues
             (fun em =>
                FollowUpEmail.source_facts em <> []
                /\ contains "[Your Name]" (FollowUpEmail.body em)
                   || contains "[Date]" (FollowUpEmail.body em)
                   || contains "[Name]" (FollowUpEmail.body em)
                   = false)).
  2:{ intros n em. unfold Src2.ComplianceCheck.email_issues.
      destruct (FollowUpEmail.source_facts em);
        destruct (contains "[Your Name]" (FollowUpEmail.body em)
                  || contains "[Date]" (FollowUpEmail.body em)
                  || contains "[Name]" (FollowUpEmail.body em));
        cbn [app];
        (split;
         [ intros H;
           first [discriminate H | split; [discriminate | reflexivity]]
         | intros [H1 H2]; first [reflexivity | congruence] ]). }
  assert (Hs : (if contains "[" (MeetingOutputs.summary outputs)
                   && contains "]" (MeetingOutputs.summary outputs)
                then [ "Summary contains placeholder text"%string ]
                else []) = []
               <-> contains "[" (MeetingOutputs.summary outputs)
                   && contains "]" (MeetingOutputs.summary outputs) = false).
  { destruct (contains "[" (MeetingOutputs.summary outputs)
              && contains "]" (MeetingOutputs.summary outputs));
      split; congruence. }
  rewrite Hs. tauto.
Qed.

End VerdictProps.

(* ===================================================================== *)
(** ** The extraction and validation stages as a whole *)
(* ===================================================================== *)

Module FactStageProps.
Import Py Json Models Samples Scenarios Terms Notions.
Local Open Scope list_scope.

(** A loop whose last attempt number is not below [max_retries] always
    ends in a [return], after at least one generator call and at most
    one call for each attempt. *)
Lemma extract_attempts_runs (llm : Gen.generator) (prompt fact_type : string)
  (max_retries : nat) (attempts : list nat) :
  attempts <> [] ->
  (last attempts 0 <? max_retries)%nat = false ->
  forall log : Gen.Log,
  exists facts more,
    Src3.ExtractFacts.extract_attempts llm prompt fact_type max_retries
      attempts log
    = (Some facts, log ++ more)
    /\ 1 <= List.length more <= List.length attempts.
Proof.
  induction attempts as [| attempt rest IH]; [contradiction |].
  intros _ Hlast log.
  cbn [Src3.ExtractFacts.extract_attempts Gen.invoke].
  destruct (match llm log prompt with
            | Some content => Src3.ExtractFacts._parse_fact_array content fact_type
            | None => None
            end) as [facts |].
  - exists facts, [prompt]. split; [reflexivity | cbn [length]; lia].
  - destruct (attempt <? max_retries)%nat eqn:Hlt.
    + assert (Hne : rest <> []).
      { intros ->. cbn [last] in Hlast. congruence. }
      assert (Hlast' : (last rest 0 <? max_retries)%nat = false).
      { destruct rest; [contradiction | exact Hlast]. }
      destruct (IH Hne Hlast' (log ++ [prompt])) as (facts & more & E & Hlen).
      exists facts, ([prompt] ++ more). rewrite app_assoc.
      split; [exact E |]. rewrite length_app. cbn [length]. lia.
    + exists [], [prompt]. split; [reflexivity | cbn [length]; lia].
Qed.

Lemma extract_fact_type_runs (transcript fact_type skill : string)
  (llm : Gen.generator) (log : Gen.Log) :
  exists facts more,
    Src3.ExtractFacts._extract_fact_type transcript fact_type skill llm log
    = (Some facts, log ++ more)
    /\ 1 <= List.length more <= 3.
Proof.
  unfold Src3.ExtractFacts._extract_fact_type.
  apply (extract_attempts_runs llm _ fact_type 3 (seq 1 3));
    [discriminate | reflexivity].
Qed.

(** The extraction stage returns the facts of its four categories
    after four to twelve generator calls. *)
Lemma extract_facts_runs (load_skill : string -> option string)
  (state : State.t) (transcript skill : string) (llm : Gen.generator)
  (log : Gen.Log) :
  State.normalized_transcript state = Some transcript ->
  load_skill "EXTRACT_FACTS"%string = Some skill ->
  exists d a dl m more,
    Src3.ExtractFacts.extract_facts load_skill state llm log
    = (Some (State.set_extracted_facts (ExtractedFacts.mk d a [] dl m) state),
       log ++ more)
    /\ 4 <= List.length more <= 12.
Proof.
  intros Ht Hs. unfold Src3.ExtractFacts.extract_facts. rewrite Ht, Hs.
  destruct (extract_fact_type_runs transcript "decision" skill llm log)
    as (d & m1 & E1 & H1).
  rewrite E1.
  destruct (extract_fact_type_runs transcript "action_item" skill llm
              (log ++ m1)) as (a & m2 & E2 & H2).
  rewrite E2.
  destruct (extract_fact_type_runs transcript "deadline" skill llm
              ((log ++ m1) ++ m2)) as (dl & m3 & E3 & H3).
  rewrite E3.
  destruct (extract_fact_type_runs transcript "metric" skill llm
              (((log ++ m1) ++ m2) ++ m3)) as (m & m4 & E4 & H4).
  rewrite E4.
  exists d, a, dl, m, (m1 ++ m2 ++ m3 ++ m4).
  split; [now rewrite !app_assoc |].
  rewrite !length_app. lia.
Qed.

(** Appending a prompt to the log, then more copies of it. *)
Lemma log_repeat_step (log : Gen.Log) (prompt : string) (n : nat) :
  (log ++ [prompt]) ++ repeat prompt n = log ++ repeat prompt (S n).
Proof. now rewrite <- app_assoc. Qed.

(** The loop asks one prompt over and over, and returns what it takes
    from the answer to its last call. *)
Lemma extract_attempts_asks (llm : Gen.generator) (prompt fact_type : string)
  (max_retries : nat) (attempts : list nat) :
  attempts <> [] ->
  (last attempts 0 <? max_retries)%nat = false ->
  forall log : Gen.Log,
  exists k,
    Src3.ExtractFacts.extract_attempts llm prompt fact_type max_retries
      attempts log
    = (Some (facts_of_call llm (log ++ repeat prompt k) prompt fact_type),
       log ++ repeat prompt (S k))
    /\ S k <= List.length attempts.
Proof.
  induction attempts as [| attempt rest IH]; [contradiction |].
  intros _ Hlast log.
  cbn [Src3.ExtractFacts.extract_attempts Gen.invoke].
  assert (Hnow : forall facts,
             facts = facts_of_call llm log prompt fact_type ->
             exists k,
               (Some facts, log ++ [prompt])
               = (Some (facts_of_call llm (log ++ repeat prompt k) prompt
                          fact_type),
                  log ++ repeat prompt (S k))
               /\ S k <= List.length (attempt :: rest)).
  { intros facts ->. exists 0. cbn [repeat]. rewrite app_nil_r.
    split; [reflexivity | cbn [length]; lia]. }
  unfold facts_of_call in Hnow at 1.
  destruct (llm log prompt) as [content |].
  - destruct (Src3.ExtractFacts._parse_fact_array content fact_type)
      as [facts |]; [now apply Hnow |].
    destruct (attempt <? max_retries)%nat eqn:Hlt; [| now apply Hnow].
    assert (Hne : rest <> []).
    { intros ->. cbn [last] in Hlast. congruence. }
    assert (Hlast' : (last rest 0 <? max_retries)%nat = false).
    { destruct rest; [contradiction | exact Hlast]. }
    destruct (IH Hne Hlast' (log ++ [prompt])) as (k & E & Hlen).
    exists (S k). rewrite E, !log_repeat_step.
    split; [reflexivity | cbn [length]; lia].
  - destruct (attempt <? max_retries)%nat eqn:Hlt; [| now apply Hnow].
    assert (Hne : rest <> []).
    { intros ->. cbn [last] in Hlast. congruence. }
    assert (Hlast' : (last rest 0 <? max_retries)%nat = false).
    { destruct rest; [contradiction | exact Hlast]. }
    destruct (IH Hne Hlast' (log ++ [prompt])) as (k & E & Hlen).
    exists (S k). rewrite E, !log_repeat_step.
    split; [reflexivity | cbn [length]; lia].
Qed.

Lemma extract_fact_type_asks (transcript fact_type skill : string)
  (llm : Gen.generator) (log : Gen.Log) :
  exists k,
    Src3.ExtractFacts._extract_fact_type transcript fact_type skill llm log
    = (Some (facts_of_call llm
               (log ++ repeat (Src3.ExtractFacts.extract_prompt transcript
                                 fact_type skill) k)
               (Src3.ExtractFacts.extract_prompt transcript fact_type skill)
               fact_type),
       log ++ repeat (Src3.ExtractFacts.extract_prompt transcript fact_type
                        skill) (S k))
    /\ k <= 2.
Proof.
  unfold Src3.ExtractFacts._extract_fact_type.
  destruct (extract_attempts_asks llm
              (Src3.ExtractFacts.extract_prompt transcript fact_type skill)
              fact_type 3 (seq 1 3) ltac:(discriminate) eq_refl log)
    as (k & E & Hlen).
  exists k. split; [exact E | cbn [seq length] in Hlen; lia].
Qed.

(** X16.  With the normalized transcript and the skill at hand, the
    extraction stage always returns: it asks for decisions, action
    items, deadlines and metrics in this order, each with its own
    prompt one to three times and nothing in between, so with four to
    twelve generator calls in all; each list of the result is what the
    stage takes from the answer to the last call for its category; and
    the list of open questions is left empty. *)
Theorem extraction_stage_always_returns :
  forall (load_skill : string -> option string) (state : State.t)
         (transcript skill : string) (llm : Gen.generator) (log : Gen.Log),
    State.normalized_transcript state = Some transcript ->
    load_skill "EXTRACT_FACTS"%string = Some skill ->
    exists extracted more,
      Src3.ExtractFacts.extract_facts load_skill state llm log
      = (Some (State.set_extracted_facts extracted state), log ++ more)
      /\ 4 <= List.length more <= 12
      /\ ExtractedFacts.open_questions extracted = []
      /\ exists k1 k2 k3 k4,
           let ask := fun fact_type =>
                        Src3.ExtractFacts.extract_prompt transcript fact_type
                          skill in
           more = repeat (ask "decision") (S k1)
                  ++ repeat (ask "action_item") (S k2)
                  ++ repeat (ask "deadline") (S k3)
                  ++ repeat (ask "metric") (S k4)
           /\ k1 <= 2 /\ k2 <= 2 /\ k3 <= 2 /\ k4 <= 2
           /\ ExtractedFacts.decisions extracted
              = facts_of_call llm (log ++ repeat (ask "decision") k1)
                  (ask "decision") "decision"
           /\ ExtractedFacts.action_items extracted
              = facts_of_call llm
                  (log ++ repeat (ask "decision") (S k1)
                   ++ repeat (ask "action_item") k2)
                  (ask "action_item") "action_item"
           /\ ExtractedFacts.deadlines extracted
              = facts_of_call llm
                  (log ++ repeat (ask "decision") (S k1)
                   ++ repeat (ask "action_item") (S k2)
                   ++ repeat (ask "deadline") k3)
                  (ask "deadline") "deadline"
           /\ ExtractedFacts.metrics extracted
              = facts_of_call llm
                  (log ++ repeat (ask "decision") (S k1)
                   ++ repeat (ask "action_item") (S k2)
                   ++ repeat (ask "deadline") (S k3)
                   ++ repeat (ask "metric") k4)
                  (ask "metric") "metric".
Proof.
  intros load_skill state transcript skill llm log Ht Hs.
  unfold Src3.ExtractFacts.extract_facts. rewrite Ht, Hs.
  destruct (extract_fact_type_asks transcript "decision" skill llm log)
    as (k1 & E1 & H1).
  rewrite E1.
  destruct (extract_fact_type_asks transcript "action_item" skill llm
              (log ++ repeat (Src3.ExtractFacts.extract_prompt transcript
                                "decision" skill) (S k1)))
    as (k2 & E2 & H2).
  rewrite E2.
  destruct (extract_fact_type_asks transcript "deadline" skill llm
              ((log ++ repeat (Src3.ExtractFacts.extract_prompt transcript
                                 "decision" skill) (S k1))
               ++ repeat (Src3.ExtractFacts.extract_prompt transcript
                            "action_item" skill) (S k2)))
    as (k3 & E3 & H3).
  rewrite E3.
  destruct (extract_fact_type_asks transcript "metric" skill llm
              (((log ++ repeat (Src3.ExtractFacts.extract_prompt transcript
                                  "decision" skill) (S k1))
                ++ repeat (Src3.ExtractFacts.extract_prompt transcript
                             "action_item" skill) (S k2))
               ++ repeat (Src3.ExtractFacts.extract_prompt transcript
                            "deadline" skill) (S k3)))
    as (k4 & E4 & H4).
  rewrite E4.
  eexists. eexists.
  split; [rewrite <- !app_assoc; reflexivity |].
  split; [rewrite !length_app, !repeat_length; lia |].
  split; [reflexivity |].
  exists k1, k2, k3, k4. cbv zeta.
  cbn [ExtractedFacts.decisions ExtractedFacts.action_items
       ExtractedFacts.deadlines ExtractedFacts.metrics].
  rewrite <- ?app_assoc.
  repeat (split; [first [reflexivity | assumption] |]). reflexivity.
Qed.

(** X16, witness: a generator that raises on the first call, gives
    prose to the prompt for the deadlines and a fact to the others.  The
    stage asks twice for decisions, once for action items, three times
    for deadlines and once for metrics. *)
Lemma extraction_stage_always_returns_witness :
  Src3.ExtractFacts.extract_facts empty_skills extracted_state
    category_generator []
  = (Some (State.set_extracted_facts
             (ExtractedFacts.mk
                [ ExtractedFact.mk decision "Run manual test Thursday"
                    "I will run a manual test this Thursday" high None ]
                [ ExtractedFact.mk action_item "Run manual test Thursday"
                    "I will run a manual test this Thursday" high None ]
                []
                []
                [ ExtractedFact.mk metric "12 clients" "we have 12 clients"
                    high None ])
             extracted_state),
     [ Src3.ExtractFacts.extract_prompt "normalized" "decision" "";
       Src3.ExtractFacts.extract_prompt "normalized" "decision" "";
       Src3.ExtractFacts.extract_prompt "normalized" "action_item" "";
       Src3.ExtractFacts.extract_prompt "normalized" "deadline" "";
       Src3.ExtractFacts.extract_prompt "normalized" "deadline" "";
       Src3.ExtractFacts.extract_prompt "normalized" "deadline" "";
       Src3.ExtractFacts.extract_prompt "normalized" "metric" "" ])
  /\ exists extracted more,
       Src3.ExtractFacts.extract_facts empty_skills extracted_state
         category_generator []
       = (Some (State.set_extracted_facts extracted extracted_state),
          [] ++ more)
       /\ 4 <= List.length more <= 12
       /\ ExtractedFacts.open_questions extracted = []
       /\ exists k1 k2 k3 k4,
            let ask := fun fact_type =>
                         Src3.ExtractFacts.extract_prompt "normalized"
                           fact_type "" in
            more = repeat (ask "decision") (S k1)
                   ++ repeat (ask "action_item") (S k2)
                   ++ repeat (ask "deadline") (S k3)
                   ++ repeat (ask "metric") (S k4)
            /\ k1 <= 2 /\ k2 <= 2 /\ k3 <= 2 /\ k4 <= 2
            /\ ExtractedFacts.decisions extracted
               = facts_of_call category_generator
                   ([] ++ repeat (ask "decision") k1)
                   (ask "decision") "decision"
            /\ ExtractedFacts.action_items extracted
               = facts_of_call category_generator
                   ([] ++ repeat (ask "decision") (S k1)
                    ++ repeat (ask "action_item") k2)
                   (ask "action_item") "action_item"
            /\ ExtractedFacts.deadlines extracted
               = facts_of_call category_generator
                   ([] ++ repeat (ask "decision") (S k1)
                    ++ repeat (ask "action_item") (S k2)
                    ++ repeat (ask "deadline") k3)
                   (ask "deadline") "deadline"
            /\ ExtractedFacts.metrics extracted
               = facts_of_call category_generator
                   ([] ++ repeat (ask "decision") (S k1)
                    ++ repeat (ask "action_item") (S k2)
                    ++ repeat (ask "deadline") (S k3)
                    ++ repeat (ask "metric") k4)
                   (ask "metric") "metric".
Proof.
  split; [vm_compute; reflexivity |].
  apply (extraction_stage_always_returns empty_skills extracted_state
           "normalized"%string ""%string category_generator []); reflexivity.
Defined.

(** X17.  With the extracted facts and the skill at hand, the V9
    validator always returns, and its ledger adds up: each fact of the
    four categories is either validated or discarded, the ledger has
    one reason for each discarded fact, and the open questions are
    neither validated nor counted. *)
Theorem validation_ledger_adds_up :
  forall (load_skill : string -> option string) (state : State.t)
         (extracted : ExtractedFacts.t) (skill : string),
    State.extracted_facts state = Some extracted ->
    load_skill "VALIDATE_FACTS"%string = Some skill ->
    exists validated,
      Src3.ValidateFacts.validate_facts load_skill state
      = Some (State.set_validated_facts validated state)
      /\ List.length (ValidatedFacts.facts validated)
         + ValidatedFacts.discarded_count validated
         = List.length (ExtractedFacts.decisions extracted)
           + List.length (ExtractedFacts.action_items extracted)
           + List.length (ExtractedFacts.deadlines extracted)
           + List.length (ExtractedFacts.metrics extracted)
      /\ List.length (ValidatedFacts.discarded_reasons validated)
         = ValidatedFacts.discarded_count validated.
Proof.
  intros load_skill state extracted skill He Hs.
  rewrite ValidateFactsProps.v9_validate_facts_spec, He, Hs.
  eexists. split; [reflexivity |].
  cbn [ValidatedFacts.facts ValidatedFacts.discarded_count
       ValidatedFacts.discarded_reasons].
  split; [| reflexivity].
  rewrite length_map, ValidateFactsProps.v9_rejections_count,
    ValidateFactsProps.filter_length_split.
  unfold all_facts_v9. rewrite !length_app. lia.
Qed.

Lemma validation_ledger_adds_up_witness :
  exists validated,
    Src3.ValidateFacts.validate_facts empty_skills extracted_state
    = Some (State.set_validated_facts validated extracted_state)
    /\ List.length (ValidatedFacts.facts validated)
       + ValidatedFacts.discarded_count validated
       = List.length (ExtractedFacts.decisions extracted_sample)
         + List.length (ExtractedFacts.action_items extracted_sample)
         + List.length (ExtractedFacts.deadlines extracted_sample)
         + List.length (ExtractedFacts.metrics extracted_sample)
    /\ List.length (ValidatedFacts.discarded_reasons validated)
       = ValidatedFacts.discarded_count validated.
Proof.
  apply (validation_ledger_adds_up empty_skills extracted_state
           extracted_sample ""%string); reflexivity.
Defined.

Lemma v9_accepted_rules (fact : ExtractedFact.t) :
  accepted_v9 fact = true ->
  existsb (fun pattern =>
             contains pattern (lower (ExtractedFact.content fact))
             || contains pattern (lower (ExtractedFact.source_quote fact)))
    Src3.ValidateFacts.conditional_patterns = false
  /\ ExtractedFact.confidence fact <> low.
Proof.
  unfold accepted_v9, Src3.ValidateFacts._validate_single_fact.
  destruct (negb (truthy (ExtractedFact.source_quote fact))
            || (String.length (ExtractedFact.source_quote fact) <? 5)%nat);
    [discriminate |].
  destruct (existsb _ Src3.ValidateFacts.conditional_patterns) eqn:Ec;
    [discriminate |].
  destruct ((fact_type_name (ExtractedFact.fact_type fact) =? "action_item")%string
            && negb (existsb _ Src3.ValidateFacts.commitment_words));
    [discriminate |].
  destruct (existsb _ Src3.ValidateFacts.vague_only_phrases);
    [discriminate |].
  destruct (ExtractedFact.confidence fact); cbn; try discriminate.
  - intros _. split; [reflexivity | discriminate].
  - intros _. split; [reflexivity | discriminate].
Qed.

(** X18.  What the V9 validator lets through: no validated fact has
    low confidence, and none holds one of the conditional patterns in
    its content or in its source quote, in any case of letters. *)
Theorem validated_facts_are_firm :
  forall (load_skill : string -> option string) (state state' : State.t)
         (validated : ValidatedFacts.t),
    Src3.ValidateFacts.validate_facts load_skill state = Some state' ->
    State.validated_facts state' = Some validated ->
    Forall (fun f =>
              (ValidatedFact.confidence f = "high"%string
               \/ ValidatedFact.confidence f = "medium"%string)
              /\ forall pattern,
                   In pattern Src3.ValidateFacts.conditional_patterns ->
                   contains pattern (lower (ValidatedFact.content f)) = false
                   /\ contains pattern (lower (ValidatedFact.source_quote f))
                      = false)
      (ValidatedFacts.facts validated).
Proof.
  intros load_skill state state' validated Hv Hs.
  rewrite ValidateFactsProps.v9_validate_facts_spec in Hv.
  destruct (State.extracted_facts state) as [extracted |]; [| discriminate Hv].
  destruct (load_skill "VALIDATE_FACTS"%string); [| discriminate Hv].
  injection Hv as <-. cbn in Hs. injection Hs as <-.
  cbn [ValidatedFacts.facts]. apply Forall_map. apply Forall_forall.
  intros fact Hin. apply filter_In in Hin as [_ Hacc].
  destruct (v9_accepted_rules fact Hacc) as [Hc Hl].
  cbn [Src3.ValidateFacts.validated_of ValidatedFact.confidence
       ValidatedFact.content ValidatedFact.source_quote].
  split.
  - destruct (ExtractedFact.confidence fact);
      [now left | now right | contradiction].
  - intros pattern Hp.
    apply orb_false_iff.
    match goal with
    | |- ?b = false => destruct b eqn:E; [| reflexivity]
    end.
    assert (Ht : existsb (fun pattern0 =>
                            contains pattern0
                              (lower (ExtractedFact.content fact))
                            || contains pattern0
                                 (lower (ExtractedFact.source_quote fact)))
                   Src3.ValidateFacts.conditional_patterns = true).
    { apply existsb_exists. exists pattern. split; [exact Hp | exact E]. }
    congruence.
Qed.

Lemma validated_facts_are_firm_witness :
  Forall (fun f =>
            (ValidatedFact.confidence f = "high"%string
             \/ ValidatedFact.confidence f = "medium"%string)
            /\ forall pattern,
                 In pattern Src3.ValidateFacts.conditional_patterns ->
                 contains pattern (lower (ValidatedFact.content f)) = false
                 /\ contains pattern (lower (ValidatedFact.source_quote f))
                    = false)
    (ValidatedFacts.facts validated_sample_v9).
Proof.
  apply (validated_facts_are_firm empty_skills extracted_state
           validated_state_v9 validated_sample_v9); reflexivity.
Defined.

End FactStageProps.

(* ===================================================================== *)
(** ** The workflow as a whole *)
(* ===================================================================== *)

Module PipelineProps.
Import Py Json Models Samples Scenarios Terms Notions.
Local Open Scope list_scope.

Lemma invoke_step (n : Graph.node) (rest : list Graph.node)
  (llm : Gen.generator) (s s' : State.t) (log log' : Gen.Log) :
  n llm s log = (Some s', log') ->
  Graph.invoke (n :: rest) llm s log = Graph.invoke rest llm s' log'.
Proof. intros E. cbn [Graph.invoke]. now rewrite E. Qed.

(** A node that raises on every state ends every run through it. *)
Lemma invoke_raises_at (n : Graph.node) (pre post : list Graph.node) :
  (forall llm s log, fst (n llm s log) = None) ->
  forall llm s log, fst (Graph.invoke (pre ++ n :: post) llm s log) = None.
Proof.
  intros Hn. induction pre as [| p pre IH]; intros llm s log.
  - cbn [app Graph.invoke]. specialize (Hn llm s log).
    destruct (n llm s log) as [[s' |] log']; [discriminate Hn | reflexivity].
  - cbn [app Graph.invoke].
    destruct (p llm s log) as [[s' |] log']; [apply IH | reflexivity].
Qed.

Lemma skills_present (load_skill : string -> option string) (name : string) :
  Forall (fun name => load_skill name <> None) skill_names ->
  In name skill_names ->
  exists skill, load_skill name = Some skill.
Proof.
  intros H Hin. rewrite Forall_forall in H. specialize (H name Hin).
  destruct (load_skill name) as [skill |]; [now exists skill | contradiction].
Qed.

Lemma generate_email_runs (load_skill : string -> option string)
  (exn_text : Gen.Log -> string) (state : State.t)
  (validated : ValidatedFacts.t) (skill : string) (llm : Gen.generator)
  (log : Gen.Log) :
  State.validated_facts state = Some validated ->
  load_skill "GENERATE_EMAIL"%string = Some skill ->
  exists emails more,
    Src3.GenerateEmail.generate_email load_skill exn_text state llm log
    = (Some (State.set_follow_up_emails emails state), log ++ more)
    /\ List.length more <= 3.
Proof.
  intros Hv Hs. unfold Src3.GenerateEmail.generate_email. rewrite Hv, Hs.
  destruct (filter _ (ValidatedFacts.facts validated)) as [| f fs].
  - exists [], []. rewrite app_nil_r. split; [reflexivity | cbn; lia].
  - match goal with
    | |- context [Src3.GenerateEmail.email_attempts exn_text llm ?p ?r 3
                    (seq 1 3) ?fb log] =>
        destruct (GenerateEmailProps.email_attempts_returns exn_text llm p r
                    3 (seq 1 3) ltac:(discriminate) eq_refl fb log)
          as (email & more & E & Hlen)
    end.
    rewrite E. exists [email], more. split; [reflexivity | apply Hlen].
Qed.

(** With the six skills at hand the workflow runs through its nine
    nodes, whatever the transcript and the generator. *)
Lemma pipeline_runs (load_skill : string -> option string)
  (exn_text : Gen.Log -> string) (started completed transcript : string)
  (llm : Gen.generator) (log : Gen.Log) :
  Forall (fun name => load_skill name <> None) skill_names ->
  exists d a dl m text aps todos emails more,
    Graph.process_meeting_v9 load_skill exn_text started completed transcript
      llm log
    = (Some (final_state started completed transcript
               (ExtractedFacts.mk d a [] dl m) text aps todos emails),
       log ++ more)
    /\ 5 <= List.length more <= 24
    /\ (exists raw, todos = Src3.GenerateTodos._fix_common_issues raw).
Proof.
  intros Hskills.
  destruct (skills_present load_skill "EXTRACT_FACTS" Hskills) as [k1 H1];
    [cbn; tauto |].
  destruct (skills_present load_skill "VALIDATE_FACTS" Hskills) as [k2 H2];
    [cbn; tauto |].
  destruct (skills_present load_skill "GENERATE_SUMMARY" Hskills) as [k3 H3];
    [cbn; tauto |].
  destruct (skills_present load_skill "GENERATE_ACTION_POINTS" Hskills)
    as [k4 H4]; [cbn; tauto |].
  destruct (skills_present load_skill "GENERATE_TODOS" Hskills) as [k5 H5];
    [cbn; tauto |].
  destruct (skills_present load_skill "GENERATE_EMAIL" Hskills) as [k6 H6];
    [cbn; tauto |].
  unfold Graph.process_meeting_v9, Graph.workflow.
  set (s0 := State.mk (Some transcript) None None None None None None None
               None None None (Some started) None).
  set (s1 := Src3.Normalize.set_normalized_transcript
               (Src3.Normalize.normalize_text transcript) s0).
  rewrite (invoke_step _ _ llm s0 s1 log log eq_refl).
  destruct (FactStageProps.extract_facts_runs load_skill s1
              (Src3.Normalize.normalize_text transcript) k1 llm log
              eq_refl H1) as (d & a & dl & m & m1 & E1 & L1).
  set (extracted := ExtractedFacts.mk d a [] dl m) in *.
  set (s2 := State.set_extracted_facts extracted s1) in *.
  rewrite (invoke_step _ _ llm s1 s2 log (log ++ m1) E1).
  set (s3 := State.set_validated_facts (validated_v9 extracted) s2).
  assert (E2 : Graph.validate_facts_node load_skill llm s2 (log ++ m1)
               = (Some s3, log ++ m1)).
  { unfold Graph.validate_facts_node.
    rewrite ValidateFactsProps.v9_validate_facts_spec, H2. reflexivity. }
  rewrite (invoke_step _ _ llm s2 s3 _ _ E2).
  destruct (SummaryProps.generate_summary_runs load_skill s3
              (validated_v9 extracted) k3 llm (log ++ m1) eq_refl H3)
    as (text & m2 & E3 & L3 & _).
  set (s4 := Src3.GenerateSummary.set_summary text s3) in *.
  rewrite (invoke_step _ _ llm s3 s4 _ _ E3).
  destruct (ActionPointStageProps.generate_action_points_runs load_skill
              exn_text s4 (validated_v9 extracted) k4 llm
              ((log ++ m1) ++ m2) eq_refl H4)
    as (aps & m3 & E4 & L4 & _).
  set (s5 := Src3.GenerateActionPoints.set_action_points aps s4) in *.
  rewrite (invoke_step _ _ llm s4 s5 _ _ E4).
  destruct (TodoStageProps.generate_todos_runs load_skill exn_text s5
              (validated_v9 extracted) k5 llm (((log ++ m1) ++ m2) ++ m3)
              eq_refl H5)
    as (todos & m4 & E5 & L5 & _ & _ & Ho).
  set (s6 := State.set_todos todos s5) in *.
  rewrite (invoke_step _ _ llm s5 s6 _ _ E5).
  destruct (generate_email_runs load_skill exn_text s6
              (validated_v9 extracted) k6 llm
              ((((log ++ m1) ++ m2) ++ m3) ++ m4) eq_refl H6)
    as (emails & m5 & E6 & L6).
  set (s7 := State.set_follow_up_emails emails s6) in *.
  rewrite (invoke_step _ _ llm s6 s7 _ _ E6).
  cbn [Graph.invoke Graph.plain].
  exists d, a, dl, m, text, aps, todos, emails, (m1 ++ m2 ++ m3 ++ m4 ++ m5).
  split; [| split].
  - rewrite !app_assoc. reflexivity.
  - rewrite !length_app. lia.
  - destruct Ho as [-> | (l & p & response & _ & Hr)].
    + now exists [].
    + now apply (GenerateTodosProps.todos_of_response_repaired response).
Qed.

(** X19.  With the six skills at hand, [process_meeting_v9] never
    raises, whatever the transcript and whatever the generator
    answers: it returns a state after five to twenty-four generator
    calls, with the transcript as given, the outputs, a verdict of the
    compliance check and both time stamps. *)
Theorem pipeline_always_completes :
  forall (load_skill : string -> option string)
         (exn_text : Gen.Log -> string) (started completed transcript : string)
         (llm : Gen.generator) (log : Gen.Log),
    Forall (fun name => load_skill name <> None) skill_names ->
    exists final more outputs passed,
      Graph.process_meeting_v9 load_skill exn_text started completed
        transcript llm log
      = (Some final, log ++ more)
      /\ 5 <= List.length more <= 24
      /\ State.raw_transcript final = Some transcript
      /\ State.outputs final = Some outputs
      /\ State.compliance_passed final = Some passed
      /\ State.processing_started final = Some started
      /\ State.processing_completed final = Some completed.
Proof.
  intros load_skill exn_text started completed transcript llm log Hskills.
  destruct (pipeline_runs load_skill exn_text started completed transcript
              llm log Hskills)
    as (d & a & dl & m & text & aps & todos & emails & more & E & Hlen & _).
  eexists. exists more. eexists. eexists.
  split; [exact E |]. split; [exact Hlen |].
  repeat split; reflexivity.
Qed.

Lemma pipeline_always_completes_witness :
  exists final more outputs passed,
    Graph.process_meeting_v9 empty_skills some_text
      "2026-01-01T00:00:00" "2026-01-01T00:01:00" "um, we agreed"
      prose_generator []
    = (Some final, [] ++ more)
    /\ 5 <= List.length more <= 24
    /\ State.raw_transcript final = Some "um, we agreed"%string
    /\ State.outputs final = Some outputs
    /\ State.compliance_passed final = Some passed
    /\ State.processing_started final = Some "2026-01-01T00:00:00"%string
    /\ State.processing_completed final = Some "2026-01-01T00:01:00"%string.
Proof.
  apply (pipeline_always_completes empty_skills some_text
           "2026-01-01T00:00:00" "2026-01-01T00:01:00" "um, we agreed"
           prose_generator []).
  repeat constructor; discriminate.
Defined.

Lemma invoke_raises_nth (nodes : list Graph.node) :
  forall (i : nat) (n : Graph.node),
    nth_error nodes i = Some n ->
    (forall llm s log, fst (n llm s log) = None) ->
    forall llm s log, fst (Graph.invoke nodes llm s log) = None.
Proof.
  induction nodes as [| p rest IH]; intros i n Hn Hraise llm s log.
  - destruct i; discriminate Hn.
  - cbn [Graph.invoke]. destruct i as [| i].
    + injection Hn as ->. specialize (Hraise llm s log).
      destruct (n llm s log) as [[s' |] log'];
        [discriminate Hraise | reflexivity].
    + destruct (p llm s log) as [[s' |] log']; [| reflexivity].
      now apply (IH i n).
Qed.

Lemma missing_skill_raises (load_skill : string -> option string)
  (exn_text : Gen.Log -> string) (name : string) :
  In name skill_names ->
  load_skill name = None ->
  forall llm s log,
    fst (Graph.invoke (Graph.workflow load_skill exn_text) llm s log) = None.
Proof.
  intros Hin Hmiss.
  destruct Hin as [<- | [<- | [<- | [<- | [<- | [<- | []]]]]]].
  - apply (invoke_raises_nth (Graph.workflow load_skill exn_text) 1 _ eq_refl).
    intros llm s log. cbn beta. unfold Src3.ExtractFacts.extract_facts.
    rewrite Hmiss. now destruct (State.normalized_transcript s).
  - apply (invoke_raises_nth (Graph.workflow load_skill exn_text) 2 _ eq_refl).
    intros llm s log. unfold Graph.validate_facts_node.
    unfold Src3.ValidateFacts.validate_facts.
    rewrite Hmiss. now destruct (State.extracted_facts s).
  - apply (invoke_raises_nth (Graph.workflow load_skill exn_text) 3 _ eq_refl).
    intros llm s log. cbn beta. unfold Src3.GenerateSummary.generate_summary.
    rewrite Hmiss. now destruct (State.validated_facts s).
  - apply (invoke_raises_nth (Graph.workflow load_skill exn_text) 4 _ eq_refl).
    intros llm s log. cbn beta.
    unfold Src3.GenerateActionPoints.generate_action_points.
    rewrite Hmiss. now destruct (State.validated_facts s).
  - apply (invoke_raises_nth (Graph.workflow load_skill exn_text) 5 _ eq_refl).
    intros llm s log. cbn beta. unfold Src3.GenerateTodos.generate_todos.
    rewrite Hmiss. now destruct (State.validated_facts s).
  - apply (invoke_raises_nth (Graph.workflow load_skill exn_text) 6 _ eq_refl).
    intros llm s log. cbn beta. unfold Src3.GenerateEmail.generate_email.
    rewrite Hmiss. now destruct (State.validated_facts s).
Qed.

(** X20.  When one of the six skill files is missing,
    [process_meeting_v9] raises, whatever the transcript and the
    generator; this holds for the skill of the validator too, whose
    text the validator loads and never reads. *)
Theorem pipeline_needs_every_skill :
  forall (load_skill : string -> option string)
         (exn_text : Gen.Log -> string) (started completed transcript : string)
         (llm : Gen.generator) (log : Gen.Log) (name : string),
    In name skill_names ->
    load_skill name = None ->
    fst (Graph.process_meeting_v9 load_skill exn_text started completed
           transcript llm log) = None.
Proof.
  intros load_skill exn_text started completed transcript llm log name
    Hin Hmiss.
  unfold Graph.process_meeting_v9.
  match goal with
  | |- context [Graph.invoke ?w llm ?s log] =>
      pose proof (missing_skill_raises load_skill exn_text name Hin Hmiss
                    llm s log) as H;
      destruct (Graph.invoke w llm s log) as [[final |] log']
  end.
  - discriminate H.
  - reflexivity.
Qed.

Lemma pipeline_needs_every_skill_witness :
  fst (Graph.process_meeting_v9
         (fun name => if (name =? "VALIDATE_FACTS")%string
                      then None else Some ""%string)
         some_text "2026-01-01T00:00:00" "2026-01-01T00:01:00"
         "um, we agreed" prose_generator []) = None.
Proof.
  apply (pipeline_needs_every_skill
           (fun name => if (name =? "VALIDATE_FACTS")%string
                        then None else Some ""%string)
           some_text "2026-01-01T00:00:00" "2026-01-01T00:01:00"
           "um, we agreed" prose_generator [] "VALIDATE_FACTS"%string).
  - cbn. tauto.
  - reflexivity.
Defined.

Lemma ran_with_every_skill (load_skill : string -> option string)
  (exn_text : Gen.Log -> string) (started completed transcript : string)
  (llm : Gen.generator) (log log' : Gen.Log) (final : State.t) :
  Graph.process_meeting_v9 load_skill exn_text started completed transcript
    llm log = (Some final, log') ->
  Forall (fun name => load_skill name <> None) skill_names.
Proof.
  intros Hrun. apply Forall_forall. intros name Hin Hmiss.
  unfold Graph.process_meeting_v9 in Hrun.
  match type of Hrun with
  | context [Graph.invoke ?w llm ?s log] =>
      pose proof (missing_skill_raises load_skill exn_text name Hin Hmiss
                    llm s log) as H;
      destruct (Graph.invoke w llm s log) as [[f |] l]
  end.
  - discriminate H.
  - discriminate Hrun.
Qed.

(** X21.  In every state that [process_meeting_v9] returns the counts
    of the outputs add up: the facts validated and the facts discarded
    are together the facts extracted. *)
Theorem pipeline_counts_add_up :
  forall (load_skill : string -> option string)
         (exn_text : Gen.Log -> string) (started completed transcript : string)
         (llm : Gen.generator) (log log' : Gen.Log) (final : State.t)
         (outputs : MeetingOutputs.t),
    Graph.process_meeting_v9 load_skill exn_text started completed transcript
      llm log = (Some final, log') ->
    State.outputs final = Some outputs ->
    MeetingOutputs.total_facts_validated outputs
    + MeetingOutputs.facts_discarded outputs
    = MeetingOutputs.total_facts_extracted outputs.
Proof.
  intros load_skill exn_text started completed transcript llm log log' final
    outputs Hrun Hout.
  destruct (pipeline_runs load_skill exn_text started completed transcript
              llm log (ran_with_every_skill _ _ _ _ _ _ _ _ _ Hrun))
    as (d & a & dl & m & text & aps & todos & emails & more & E & _ & _).
  rewrite E in Hrun. injection Hrun as <- _.
  cbn in Hout. injection Hout as <-.
  cbn [MeetingOutputs.total_facts_validated MeetingOutputs.facts_discarded
       MeetingOutputs.total_facts_extracted ValidatedFacts.facts
       ValidatedFacts.discarded_count validated_v9 ExtractedFacts.decisions
       ExtractedFacts.action_items ExtractedFacts.open_questions
       ExtractedFacts.deadlines ExtractedFacts.metrics].
  rewrite length_map, ValidateFactsProps.v9_rejections_count,
    ValidateFactsProps.filter_length_split.
  unfold all_facts_v9.
  cbn [ExtractedFacts.decisions ExtractedFacts.action_items
       ExtractedFacts.deadlines ExtractedFacts.metrics].
  rewrite !length_app. cbn [length]. lia.
Qed.

Lemma pipeline_counts_add_up_witness :
  MeetingOutputs.total_facts_validated sample_outputs
  + MeetingOutputs.facts_discarded sample_outputs
  = MeetingOutputs.total_facts_extracted sample_outputs.
Proof.
  apply (pipeline_counts_add_up empty_skills some_text "2026-01-01T00:00:00"
           "2026-01-01T00:01:00" sample_transcript fact_generator []
           (snd sample_run) sample_final sample_outputs).
  - vm_compute. reflexivity.
  - reflexivity.
Defined.

Lemma repaired_todo_has_no_deadline_issue (raw : ToDo.t) (d : string) :
  ~ In ("Todo has invalid deadline format: " ++ d)%string
      (Src3.ComplianceCheck.todo_issues (Src3.GenerateTodos.fix_todo raw)).
Proof.
  unfold Src3.ComplianceCheck.todo_issues. intros Hin.
  apply in_app_or in Hin as [Hin | Hin].
  - destruct (ToDo.source_facts (Src3.GenerateTodos.fix_todo raw));
      [| destruct Hin].
    destruct Hin as [Hin | []]. cbn in Hin. discriminate Hin.
  - destruct (ToDo.deadline (Src3.GenerateTodos.fix_todo raw)) as [d0 |] eqn:Hd;
      [| destruct Hin].
    pose proof (GenerateTodosProps.fix_todo_no_sentinel raw d0 Hd) as Hno.
    apply GenerateTodosProps.compliance_sentinels_are_repaired in Hno.
    rewrite Hno, andb_false_r in Hin. destruct Hin.
Qed.

(** X22.  The compliance check never objects to the deadline of a
    to-do in a state that [process_meeting_v9] returns: the to-do stage
    has repaired every deadline that the check would refuse, so no
    issue of the run is an invalid deadline format. *)
Theorem pipeline_deadlines_pass_compliance :
  forall (load_skill : string -> option string)
         (exn_text : Gen.Log -> string) (started completed transcript : string)
         (llm : Gen.generator) (log log' : Gen.Log) (final : State.t)
         (issues : list string) (d : string),
    Graph.process_meeting_v9 load_skill exn_text started completed transcript
      llm log = (Some final, log') ->
    State.compliance_issues final = Some issues ->
    ~ In ("Todo has invalid deadline format: " ++ d)%string issues.
Proof.
  intros load_skill exn_text started completed transcript llm log log' final
    issues d0 Hrun Hiss.
  destruct (pipeline_runs load_skill exn_text started completed transcript
              llm log (ran_with_every_skill _ _ _ _ _ _ _ _ _ Hrun))
    as (d & a & dl & m & text & aps & todos & emails & more & E & _ & Hraw).
  rewrite E in Hrun. injection Hrun as <- _.
  destruct Hraw as [raw ->].
  unfold final_state, Graph.set_processing_completed,
    Src3.ComplianceCheck.compliance_check in Hiss.
  cbn [State.outputs State.validated_facts State.compliance_issues
       State.set_compliance MeetingOutputs.action_points MeetingOutputs.todos
       MeetingOutputs.follow_up_emails] in Hiss.
  injection Hiss as <-. intros Hin.
  apply in_app_or in Hin as [Hin | Hin].
  - apply in_flat_map in Hin as (ap & _ & Hin).
    unfold Src3.ComplianceCheck.action_point_issues in Hin.
    destruct (ActionPoint.source_facts ap); [| destruct Hin].
    destruct Hin as [Hin | []]. cbn in Hin. discriminate Hin.
  - apply in_app_or in Hin as [Hin | Hin].
    + apply in_flat_map in Hin as (td & Htd & Hin).
      unfold Src3.GenerateTodos._fix_common_issues in Htd.
      apply in_map_iff in Htd as (r & <- & _).
      now apply (repaired_todo_has_no_deadline_issue r d0).
    + apply in_flat_map in Hin as (em & _ & Hin).
      unfold Src3.ComplianceCheck.email_issues in Hin.
      destruct (contains "[" (FollowUpEmail.body em)
                && contains "]" (FollowUpEmail.body em)); [| destruct Hin].
      destruct Hin as [Hin | []]. cbn in Hin. discriminate Hin.
Qed.

(** X22, witness: a run of the workflow in which the answer to the
    to-do prompt has four to-dos, two of them with deadlines that the
    compliance check refuses.  On the to-dos as parsed the check would
    record both; the run returns them repaired, with the plain day
    kept, and records no issue. *)
Lemma pipeline_deadlines_pass_compliance_witness :
  Src3.GenerateTodos.parsed_todos deadline_todos_response = Some deadline_todos
  /\ flat_map Src3.ComplianceCheck.todo_issues deadline_todos
     = [ "Todo has invalid deadline format: N/A"%string;
         "Todo has invalid deadline format: Not specified"%string ]
  /\ MeetingOutputs.todos staged_outputs
     = [ ToDo.mk "Run the manual test" None High
           [ "Run manual test Thursday"%string ];
         ToDo.mk "Share the results" (Some "Thursday"%string) Medium
           [ "Run manual test Thursday"%string ];
         ToDo.mk "Book the room" None Medium
           [ "Run manual test Thursday"%string ];
         ToDo.mk "Write the notes" None Low
           [ "Run manual test Thursday"%string ] ]
  /\ ~ In ("Todo has invalid deadline format: " ++ "N/A")%string staged_issues
  /\ ~ In ("Todo has invalid deadline format: " ++ "Not specified")%string
         staged_issues.
Proof.
  split; [vm_compute; reflexivity |].
  split; [vm_compute; reflexivity |].
  split; [reflexivity |].
  split.
  - apply (pipeline_deadlines_pass_compliance empty_skills some_text
             "2026-01-01T00:00:00" "2026-01-01T00:01:00" sample_transcript
             staged_generator [] (snd staged_run) staged_final staged_issues
             "N/A"%string).
    + vm_compute. reflexivity.
    + reflexivity.
  - apply (pipeline_deadlines_pass_compliance empty_skills some_text
             "2026-01-01T00:00:00" "2026-01-01T00:01:00" sample_transcript
             staged_generator [] (snd staged_run) staged_final staged_issues
             "Not specified"%string).
    + vm_compute. reflexivity.
    + reflexivity.
Defined.

Lemma extract_fact_type_silent (transcript fact_type skill : string)
  (llm : Gen.generator) (log : Gen.Log) :
  (forall l p, llm l p = None) ->
  exists more,
    Src3.ExtractFacts._extract_fact_type transcript fact_type skill llm log
    = (Some [], log ++ more)
    /\ List.length more = 3.
Proof.
  intros Hfail. unfold Src3.ExtractFacts._extract_fact_type.
  cbn [seq Src3.ExtractFacts.extract_attempts Gen.invoke].
  rewrite !Hfail.
  change (1 <? 3)%nat with true. change (2 <? 3)%nat with true.
  change (3 <? 3)%nat with false. cbv iota.
  eexists. rewrite <- !app_assoc. split; reflexivity.
Qed.

(** X23.  When every generator call raises, [process_meeting_v9] still
    returns, with the six skills at hand: after fifteen calls, twelve
    of the extraction and three of the summary, it leaves an empty
    bundle with the summary [No summary available.] and all counts
    zero, and the compliance check passes with no issue. *)
Theorem pipeline_survives_a_dead_generator :
  forall (load_skill : string -> option string)
         (exn_text : Gen.Log -> string) (started completed transcript : string)
         (llm : Gen.generator) (log : Gen.Log),
    Forall (fun name => load_skill name <> None) skill_names ->
    (forall l p, llm l p = None) ->
    exists final more,
      Graph.process_meeting_v9 load_skill exn_text started completed
        transcript llm log
      = (Some final, log ++ more)
      /\ List.length more = 15
      /\ State.outputs final
         = Some (MeetingOutputs.mk "No summary available." [] [] [] 0 0 0)
      /\ State.compliance_passed final = Some true
      /\ State.compliance_issues final = Some [].
Proof.
  intros load_skill exn_text started completed transcript llm log Hskills
    Hfail.
  destruct (skills_present load_skill "EXTRACT_FACTS" Hskills) as [k1 H1];
    [cbn; tauto |].
  destruct (skills_present load_skill "VALIDATE_FACTS" Hskills) as [k2 H2];
    [cbn; tauto |].
  destruct (skills_present load_skill "GENERATE_SUMMARY" Hskills) as [k3 H3];
    [cbn; tauto |].
  destruct (skills_present load_skill "GENERATE_ACTION_POINTS" Hskills)
    as [k4 H4]; [cbn; tauto |].
  destruct (skills_present load_skill "GENERATE_TODOS" Hskills) as [k5 H5];
    [cbn; tauto |].
  destruct (skills_present load_skill "GENERATE_EMAIL" Hskills) as [k6 H6];
    [cbn; tauto |].
  unfold Graph.process_meeting_v9, Graph.workflow.
  set (s0 := State.mk (Some transcript) None None None None None None None
               None None None (Some started) None).
  set (s1 := Src3.Normalize.set_normalized_transcript
               (Src3.Normalize.normalize_text transcript) s0).
  rewrite (invoke_step _ _ llm s0 s1 log log eq_refl).
  set (s2 := State.set_extracted_facts (ExtractedFacts.mk [] [] [] [] []) s1).
  assert (E1 : exists m1,
             Src3.ExtractFacts.extract_facts load_skill s1 llm log
             = (Some s2, log ++ m1)
             /\ List.length m1 = 12).
  { unfold Src3.ExtractFacts.extract_facts.
    change (State.normalized_transcript s1)
      with (Some (Src3.Normalize.normalize_text transcript)).
    rewrite H1.
    destruct (extract_fact_type_silent
                (Src3.Normalize.normalize_text transcript) "decision" k1 llm
                log Hfail) as (a1 & -> & L1).
    destruct (extract_fact_type_silent
                (Src3.Normalize.normalize_text transcript) "action_item" k1
                llm (log ++ a1) Hfail) as (a2 & -> & L2).
    destruct (extract_fact_type_silent
                (Src3.Normalize.normalize_text transcript) "deadline" k1 llm
                ((log ++ a1) ++ a2) Hfail) as (a3 & -> & L3).
    destruct (extract_fact_type_silent
                (Src3.Normalize.normalize_text transcript) "metric" k1 llm
                (((log ++ a1) ++ a2) ++ a3) Hfail) as (a4 & -> & L4).
    exists (a1 ++ a2 ++ a3 ++ a4). split; [now rewrite !app_assoc |].
    rewrite !length_app. lia. }
  destruct E1 as (m1 & E1 & L1).
  rewrite (invoke_step _ _ llm s1 s2 log (log ++ m1) E1).
  set (s3 := State.set_validated_facts (ValidatedFacts.mk [] 0 []) s2).
  assert (E2 : Graph.validate_facts_node load_skill llm s2 (log ++ m1)
               = (Some s3, log ++ m1)).
  { unfold Graph.validate_facts_node.
    rewrite ValidateFactsProps.v9_validate_facts_spec, H2. reflexivity. }
  rewrite (invoke_step _ _ llm s2 s3 _ _ E2).
  set (s4 := Src3.GenerateSummary.set_summary "No summary available." s3).
  assert (E3 : exists m2,
             Src3.GenerateSummary.generate_summary load_skill s3 llm
               (log ++ m1)
             = (Some s4, (log ++ m1) ++ m2)
             /\ List.length m2 = 3).
  { unfold Src3.GenerateSummary.generate_summary.
    change (State.validated_facts s3) with (Some (ValidatedFacts.mk [] 0 [])).
    rewrite H3.
    cbn [seq Src3.GenerateSummary.summary_attempts Gen.invoke].
    rewrite !Hfail.
    change (1 <? 3)%nat with true. change (2 <? 3)%nat with true.
    change (3 <? 3)%nat with false. cbv iota.
    eexists. rewrite <- !app_assoc. split; reflexivity. }
  destruct E3 as (m2 & E3 & L2).
  rewrite (invoke_step _ _ llm s3 s4 _ _ E3).
  set (s5 := Src3.GenerateActionPoints.set_action_points [] s4).
  assert (E4 : Src3.GenerateActionPoints.generate_action_points load_skill
                 exn_text s4 llm ((log ++ m1) ++ m2)
               = (Some s5, (log ++ m1) ++ m2)).
  { unfold Src3.GenerateActionPoints.generate_action_points.
    change (State.validated_facts s4) with (Some (ValidatedFacts.mk [] 0 [])).
    rewrite H4. reflexivity. }
  rewrite (invoke_step _ _ llm s4 s5 _ _ E4).
  set (s6 := State.set_todos [] s5).
  assert (E5 : Src3.GenerateTodos.generate_todos load_skill exn_text s5 llm
                 ((log ++ m1) ++ m2)
               = (Some s6, (log ++ m1) ++ m2)).
  { unfold Src3.GenerateTodos.generate_todos.
    change (State.validated_facts s5) with (Some (ValidatedFacts.mk [] 0 [])).
    rewrite H5. reflexivity. }
  rewrite (invoke_step _ _ llm s5 s6 _ _ E5).
  set (s7 := State.set_follow_up_emails [] s6).
  assert (E6 : Src3.GenerateEmail.generate_email load_skill exn_text s6 llm
                 ((log ++ m1) ++ m2)
               = (Some s7, (log ++ m1) ++ m2)).
  { unfold Src3.GenerateEmail.generate_email.
    change (State.validated_facts s6) with (Some (ValidatedFacts.mk [] 0 [])).
    rewrite H6. reflexivity. }
  rewrite (invoke_step _ _ llm s6 s7 _ _ E6).
  cbn [Graph.invoke Graph.plain].
  eexists. exists (m1 ++ m2).
  split; [rewrite app_assoc; reflexivity |].
  split; [rewrite length_app; lia |].
  repeat split; reflexivity.
Qed.

Lemma pipeline_survives_a_dead_generator_witness :
  exists final more,
    Graph.process_meeting_v9 empty_skills some_text "2026-01-01T00:00:00"
      "2026-01-01T00:01:00" sample_transcript silent_generator []
    = (Some final, [] ++ more)
    /\ List.length more = 15
    /\ State.outputs final
       = Some (MeetingOutputs.mk "No summary available." [] [] [] 0 0 0)
    /\ State.compliance_passed final = Some true
    /\ State.compliance_issues final = Some [].
Proof.
  apply (pipeline_survives_a_dead_generator empty_skills some_text
           "2026-01-01T00:00:00" "2026-01-01T00:01:00" sample_transcript
           silent_generator []).
  - repeat constructor; discriminate.
  - reflexivity.
Defined.

End PipelineProps.

(* ===================================================================== *)
(** ** The saved document *)
(* ===================================================================== *)

Module EncoderProps.
Import Py Json Models Encoder TextProps Samples Scenarios.
Local Open Scope list_scope.

Lemma json_induction (P : json -> Prop) :
  P JNull ->
  (forall b, P (JBool b)) ->
  (forall literal, P (JNum literal)) ->
  (forall s, P (JStr s)) ->
  (forall items, Forall P items -> P (JArr items)) ->
  (forall members, Forall (fun kv => P (snd kv)) members -> P (JObj members)) ->
  forall v, P v.
Proof.
  intros Hnull Hbool Hnum Hstr Harr Hobj.
  fix IH 1. intros [| b | literal | s | items | members].
  - exact Hnull.
  - apply Hbool.
  - apply Hnum.
  - apply Hstr.
  - apply Harr. induction items as [| x xs IHxs]; constructor;
      [apply IH | exact IHxs].
  - apply Hobj. induction members as [| [k x] ms IHms]; constructor;
      [apply IH | exact IHms].
Qed.

(** One character of a string body reads back from what the encoder
    writes for it. *)
Lemma escape_char_reads_back (c : ascii) (tail : string) :
  scanstring (escape_char c ++ tail) = cons_char c (scanstring tail).
Proof.
  destruct c as [[] [] [] [] [] [] [] []]; reflexivity.
Qed.

Lemma escape_reads_back (s rest : string) :
  scanstring (escape s ++ String dquote rest) = Some (s, rest).
Proof.
  induction s as [| c s IH]; [reflexivity |].
  cbn [escape]. rewrite append_assoc, escape_char_reads_back, IH.
  reflexivity.
Qed.

Lemma basestring_shape (s rest : string) :
  (encode_basestring s ++ rest)%string
  = String dquote (escape s ++ String dquote rest).
Proof.
  unfold encode_basestring, dq.
  change (String dquote (escape s) ++ String dquote "")%string
    with (String dquote (escape s ++ String dquote "")).
  change (String dquote (escape s ++ String dquote "") ++ rest)%string
    with (String dquote ((escape s ++ String dquote "") ++ rest)).
  now rewrite append_assoc.
Qed.


Lemma to_uint_shape (n : nat) :
  match Nat.to_uint n with
  | Decimal.Nil => False
  | Decimal.D0 Decimal.Nil => True
  | Decimal.D0 _ => False
  | _ => True
  end.
Proof.
  assert (H : Decimal.unorm (Nat.to_uint n) = Nat.to_uint n).
  { rewrite <- DecimalNat.Unsigned.to_of, DecimalNat.Unsigned.of_to.
    reflexivity. }
  destruct (Nat.to_uint n) as [| d | d | d | d | d | d | d | d | d | d];
    try exact I.
  - discriminate H.
  - unfold Decimal.unorm in H. rewrite DecimalFacts.nzhead_D0 in H.
    destruct (Decimal.nzhead d) eqn:E; try discriminate H.
    + injection H as <-. exact I.
    + injection H as ->. exfalso. exact (DecimalFacts.nzhead_nonzero _ _ E).
Qed.

Lemma delimited_not_digit (rest : string) :
  delimited rest = true ->
  match rest with
  | String c _ => is_digit c = false
  | ""%string => True
  end.
Proof.
  destruct rest as [| c r]; [easy |]. cbn [delimited].
  intros H. apply negb_true_iff in H.
  now repeat (apply orb_false_iff in H as [H _]).
Qed.

Lemma span_digits_uint (d : Decimal.uint) (rest : string) :
  delimited rest = true ->
  span_digits (NilEmpty.string_of_uint d ++ rest)
  = (NilEmpty.string_of_uint d, rest).
Proof.
  intros Hr. apply delimited_not_digit in Hr.
  induction d as [| d IH | d IH | d IH | d IH | d IH | d IH | d IH | d IH
                  | d IH | d IH];
    cbn [NilEmpty.string_of_uint append];
    try (cbn [span_digits]; change (is_digit _) with true; cbv iota;
         rewrite IH; reflexivity).
  destruct rest as [| c r]; [reflexivity |].
  cbn [span_digits]. now rewrite Hr.
Qed.

Lemma no_fraction_no_exponent (rest : string) :
  delimited rest = true ->
  match_frac rest = (""%string, rest) /\ match_exp rest = (""%string, rest).
Proof.
  destruct rest as [| c r]; [easy |]. cbn [delimited].
  intros H. apply negb_true_iff in H.
  apply orb_false_iff in H as [H He2].
  apply orb_false_iff in H as [H He1].
  apply orb_false_iff in H as [_ Hdot].
  cbn [match_frac match_exp]. now rewrite Hdot, He1, He2.
Qed.

(** A natural number in decimal reads back as the number with that
    literal. *)
Lemma number_reads_back (n fuel : nat) (rest : string) :
  delimited rest = true ->
  scan_once (S fuel) (str_of_nat n ++ rest)
  = Some (JNum (str_of_nat n), rest).
Proof.
  intros Hr. unfold str_of_nat.
  pose proof (to_uint_shape n) as Hshape.
  destruct (no_fraction_no_exponent rest Hr) as [Hf He].
  destruct (Nat.to_uint n) as [| d | d | d | d | d | d | d | d | d | d];
    [contradiction | | | | | | | | | |].
  1:{ destruct d; try contradiction.
      cbn [NilEmpty.string_of_uint append scan_once Re.is_char Ascii.eqb
           Bool.eqb andb dquote].
      unfold match_number. cbn [match_int Re.is_char Ascii.eqb Bool.eqb andb].
      rewrite Hf, He. reflexivity. }
  all: match goal with
       | |- context [NilEmpty.string_of_uint ?u] =>
           pose proof (span_digits_uint u rest Hr) as Hspan
       end;
    cbn [NilEmpty.string_of_uint append] in Hspan |- *;
    cbn [scan_once Re.is_char Ascii.eqb Bool.eqb andb dquote];
    unfold match_number;
    cbn [match_int Re.is_char Ascii.eqb Bool.eqb andb];
    change (is_digit _) with true; cbv iota;
    rewrite Hspan, Hf, He; cbn [append];
    rewrite append_nil_r; reflexivity.
Qed.

Lemma skip_spaces (n : nat) (s : string) :
  skip_ws (spaces n ++ s) = skip_ws s.
Proof. induction n as [| n IH]; [reflexivity | exact IH]. Qed.

Lemma skip_newline_indent (level : nat) (s : string) :
  skip_ws (newline_indent level ++ s) = skip_ws s.
Proof. unfold newline_indent. cbn [append skip_ws]. apply skip_spaces. Qed.

(** What the encoder writes begins with a character that is neither
    white space nor a closing bracket. *)
Lemma encode_head (v : json) (level : nat) :
  plain_numbers v ->
  exists c tail,
    encode level v = String c tail
    /\ is_ws c = false
    /\ Re.is_char "]" c = false
    /\ Re.is_char "}" c = false.
Proof.
  destruct v as [| [|] | literal | s | [| x xs] | [| [k x] ms]]; intros Hp;
    try (cbn [encode]; eexists; eexists; repeat split; reflexivity).
  - destruct Hp as [n ->]. cbn [encode]. unfold str_of_nat.
    pose proof (to_uint_shape n) as Hshape.
    destruct (Nat.to_uint n) as [| d | d | d | d | d | d | d | d | d | d];
      [contradiction | | | | | | | | | |];
      cbn [NilEmpty.string_of_uint]; eexists; eexists;
      repeat split; reflexivity.
Qed.

Lemma skip_ws_encode (v : json) (level : nat) (rest : string) :
  plain_numbers v ->
  exists c tail,
    (encode level v ++ rest)%string = String c tail
    /\ skip_ws (String c tail) = String c tail
    /\ Re.is_char "]" c = false
    /\ Re.is_char "}" c = false.
Proof.
  intros Hp.
  destruct (encode_head v level Hp) as (c & tail & E & Hws & H1 & H2).
  exists c, (tail ++ rest)%string. rewrite E.
  repeat split; [| exact H1 | exact H2].
  cbn [skip_ws]. now rewrite Hws.
Qed.

Lemma array_items_read_back (xs : list json) :
  Forall (fun x => plain_numbers x -> reads_back x) xs ->
  every plain_numbers xs ->
  forall x,
    reads_back x ->
    forall L level rest,
    exists N, forall f, N <= f ->
      array_items f
        (encode L x ++ items_text (encode L) (newline_indent L) xs
         ++ newline_indent level ++ "]" ++ rest)
      = Some (x :: xs, rest).
Proof.
  induction xs as [| y ys IH]; intros Hall Hplain x Hx L level rest.
  - destruct (Hx L (newline_indent level ++ "]" ++ rest)%string eq_refl)
      as [N1 H1].
    exists (S N1). intros f Hf. destruct f as [| f]; [lia |].
    cbn [items_text append array_items] in H1 |- *.
    rewrite (H1 f) by lia. rewrite skip_newline_indent. reflexivity.
  - inversion Hall as [| ? ? Hy Hys]; subst.
    destruct Hplain as [Hpy Hpys].
    destruct (Hx L ("," ++ newline_indent L ++ encode L y
                    ++ items_text (encode L) (newline_indent L) ys
                    ++ newline_indent level ++ "]" ++ rest)%string eq_refl)
      as [N1 H1].
    destruct (IH Hys Hpys y (Hy Hpy) L level rest) as [N2 H2].
    exists (S (Nat.max N1 N2)). intros f Hf. destruct f as [| f]; [lia |].
    cbn [items_text array_items]. rewrite !append_assoc.
    cbn [append] in H1, H2 |- *.
    rewrite (H1 f) by lia.
    cbn [skip_ws is_ws Re.is_char Ascii.eqb Bool.eqb andb orb LF].
    rewrite skip_newline_indent.
    destruct (skip_ws_encode y L
                (items_text (encode L) (newline_indent L) ys
                 ++ newline_indent level ++ String "]" rest)%string Hpy)
      as (c & tail & E & Hskip & _ & _).
    rewrite E, Hskip, <- E. rewrite (H2 f) by lia. reflexivity.
Qed.

Lemma object_members_read_back (ms : list (string * json)) :
  Forall (fun kv => plain_numbers (snd kv) -> reads_back (snd kv)) ms ->
  every (fun kv => plain_numbers (snd kv)) ms ->
  forall k x,
    reads_back x ->
    plain_numbers x ->
    forall L level rest,
    exists N, forall f, N <= f ->
      object_members f
        (encode_basestring k ++ ": " ++ encode L x
         ++ members_text (encode L) (newline_indent L) ms
         ++ newline_indent level ++ "}" ++ rest)
      = Some ((k, x) :: ms, rest).
Proof.
  induction ms as [| [k' y] ms' IH]; intros Hall Hplain k x Hx Hpx L level rest.
  - destruct (Hx L (newline_indent level ++ "}" ++ rest)%string eq_refl)
      as [N1 H1].
    exists (S N1). intros f Hf. destruct f as [| f]; [lia |].
    rewrite basestring_shape.
    cbn [members_text append object_members] in H1 |- *.
    change (Re.is_char dquote dquote) with true. cbv iota.
    rewrite escape_reads_back.
    cbn [skip_ws is_ws Re.is_char Ascii.eqb Bool.eqb andb orb LF].
    destruct (skip_ws_encode x L
                (newline_indent level ++ String "}" rest)%string Hpx)
      as (c & tail & E & Hskip & _ & _).
    rewrite E, Hskip, <- E.
    rewrite (H1 f) by lia. rewrite skip_newline_indent. reflexivity.
  - inversion Hall as [| ? ? Hy Hys]; subst. cbn [snd] in Hy.
    destruct Hplain as [Hpy Hpys]. cbn [snd] in Hpy.
    destruct (Hx L ("," ++ newline_indent L ++ encode_basestring k' ++ ": "
                    ++ encode L y
                    ++ members_text (encode L) (newline_indent L) ms'
                    ++ newline_indent level ++ "}" ++ rest)%string eq_refl)
      as [N1 H1].
    destruct (IH Hys Hpys k' y (Hy Hpy) Hpy L level rest) as [N2 H2].
    exists (S (Nat.max N1 N2)). intros f Hf. destruct f as [| f]; [lia |].
    rewrite basestring_shape.
    cbn [members_text object_members]. rewrite !append_assoc.
    cbn [append] in H1, H2 |- *.
    change (Re.is_char dquote dquote) with true. cbv iota.
    rewrite escape_reads_back.
    cbn [skip_ws is_ws Re.is_char Ascii.eqb Bool.eqb andb orb LF].
    match goal with
    | |- context [scan_once f (skip_ws (encode L x ++ ?Z))] =>
        destruct (skip_ws_encode x L Z Hpx) as (c & tail & E & Hskip & _ & _)
    end.
    rewrite E, Hskip, <- E.
    rewrite (H1 f) by lia.
    cbn [skip_ws is_ws Re.is_char Ascii.eqb Bool.eqb andb orb LF].
    rewrite skip_newline_indent.
    rewrite basestring_shape.
    cbn [skip_ws is_ws Re.is_char Ascii.eqb Bool.eqb andb orb LF dquote].
    rewrite <- basestring_shape.
    rewrite (H2 f) by lia. reflexivity.
Qed.

(** Every value with plain numbers reads back from what the encoder
    writes for it, whatever follows that cannot carry on a number. *)
Lemma encode_reads_back (v : json) : plain_numbers v -> reads_back v.
Proof.
  induction v as [| b | literal | s | items IH | members IH]
    using json_induction; intros Hp level rest Hr.
  - exists 1. intros f Hf. destruct f as [| f]; [lia |]. reflexivity.
  - exists 1. intros f Hf. destruct f as [| f]; [lia |].
    destruct b; reflexivity.
  - destruct Hp as [n ->]. exists 1. intros f Hf.
    destruct f as [| f]; [lia |]. cbn [encode].
    now apply number_reads_back.
  - exists 1. intros f Hf. destruct f as [| f]; [lia |].
    cbn [encode]. rewrite basestring_shape. cbn [scan_once].
    change (Re.is_char dquote dquote) with true. cbv iota.
    now rewrite escape_reads_back.
  - destruct items as [| x xs].
    + exists 1. intros f Hf. destruct f as [| f]; [lia |]. reflexivity.
    + inversion IH as [| ? ? Hx Hxs]; subst. destruct Hp as [Hpx Hpxs].
      destruct (array_items_read_back xs Hxs Hpxs x (Hx Hpx) (S level) level
                  rest) as [N HN].
      exists (S N). intros f Hf. destruct f as [| f]; [lia |].
      cbn [encode]. rewrite !append_assoc.
      cbn [append scan_once] in HN |- *.
      change (Re.is_char dquote "[") with false.
      change (Re.is_char "{" "[") with false.
      change (Re.is_char "[" "[") with true. cbv iota.
      rewrite skip_newline_indent.
      match goal with
      | |- context [skip_ws (encode (S level) x ++ ?Z)] =>
          destruct (skip_ws_encode x (S level) Z Hpx)
            as (c & tail & E & Hskip & Hb & _)
      end.
      rewrite E, Hskip, Hb, <- E. rewrite (HN f) by lia. reflexivity.
  - destruct members as [| [k x] ms].
    + exists 1. intros f Hf. destruct f as [| f]; [lia |]. reflexivity.
    + inversion IH as [| ? ? Hx Hxs]; subst. cbn [snd] in Hx.
      destruct Hp as [Hpx Hpxs]. cbn [snd] in Hpx.
      destruct (object_members_read_back ms Hxs Hpxs k x (Hx Hpx) Hpx
                  (S level) level rest) as [N HN].
      exists (S N). intros f Hf. destruct f as [| f]; [lia |].
      cbn [encode]. rewrite !append_assoc.
      cbn [append scan_once] in HN |- *.
      change (Re.is_char dquote "{") with false.
      change (Re.is_char "{" "{") with true. cbv iota.
      rewrite skip_newline_indent.
      rewrite basestring_shape in HN |- *.
      cbn [skip_ws]. change (is_ws dquote) with false.
      change (Re.is_char "}" dquote) with false. cbv iota.
      rewrite (HN f) by lia. reflexivity.
Qed.

(** What [dumps] writes of a value with plain numbers, [loads] reads
    back as that value. *)
Lemma dumps_loads (v : json) :
  plain_numbers v -> loads (dumps v) = Some v.
Proof.
  intros Hp. destruct (encode_reads_back v Hp 0 ""%string eq_refl) as [N HN].
  apply (JsonProps.loads_fuel_is_enough _ N v ""%string); [| reflexivity].
  destruct (skip_ws_encode v 0 ""%string Hp) as (c & tail & E & Hskip & _).
  rewrite append_nil_r in E, HN. unfold dumps. rewrite E, Hskip, <- E.
  now apply HN.
Qed.

Lemma every_map_strings (l : list string) :
  every plain_numbers (map JStr l).
Proof. induction l as [| x l IH]; cbn; [exact I | now split]. Qed.

Lemma every_map {A : Type} (f : A -> json) (l : list A) :
  (forall x, plain_numbers (f x)) -> every plain_numbers (map f l).
Proof.
  intros H. induction l as [| x l IH]; cbn [map every]; [exact I |].
  split; [apply H | exact IH].
Qed.

Lemma of_optional_plain (o : option string) :
  plain_numbers (Processor.of_optional o).
Proof. destruct o; exact I. Qed.

Lemma of_nat_plain (n : nat) : plain_numbers (Processor.of_nat n).
Proof. now exists n. Qed.

(** The document of [save_outputs] has plain numbers only. *)
Lemma output_data_plain (result : State.t) (doc : json) :
  Processor.output_data result = Some doc -> plain_numbers doc.
Proof.
  unfold Processor.output_data.
  destruct (State.outputs result) as [outputs |]; [| discriminate].
  intros [= <-].
  cbn [plain_numbers every snd Processor.of_strings].
  repeat split;
    try apply of_optional_plain; try apply of_nat_plain;
    try apply every_map_strings.
  - apply every_map. intros ap. cbn. repeat split.
    apply every_map_strings.
  - apply every_map. intros td. cbn. repeat split;
      [apply of_optional_plain | apply every_map_strings].
  - apply every_map. intros em. cbn. repeat split.
    apply every_map_strings.
Qed.

(** X24.  The file that [save_outputs] writes can be read back: the
    text that [json.dump] makes of the outputs, with its indentation
    and its escapes, is a JSON text that [json.loads] turns into the
    document again, whatever characters the generator put into the
    summary, the tasks and the emails.  Without the outputs in the
    result, [save_outputs] raises. *)
Theorem saved_outputs_read_back (result : State.t) :
  match State.outputs result with
  | Some _ =>
      exists doc text,
        Processor.output_data result = Some doc
        /\ Processor.saved_text result = Some text
        /\ loads text = Some doc
  | None => Processor.saved_text result = None
  end.
Proof.
  unfold Processor.saved_text.
  destruct (State.outputs result) as [outputs |] eqn:Eo.
  - destruct (Processor.output_data result) as [doc |] eqn:Ed.
    + exists doc, (dumps doc). repeat split.
      apply dumps_loads. now apply (output_data_plain result).
    + unfold Processor.output_data in Ed. rewrite Eo in Ed. discriminate Ed.
  - unfold Processor.output_data. now rewrite Eo.
Qed.

End EncoderProps.

(* ===================================================================== *)
(** ** The parse of the extraction answers in V8 and in V9 *)
(* ===================================================================== *)

Module ParseProps.
Import Py Json Models Samples Scenarios.
Local Open Scope list_scope.

Lemma split_aux_second (sep : string) (s : string) :
  forall skip,
    contains sep (drop skip s) = true ->
    sep <> ""%string ->
    snd (split_aux sep skip s) <> [].
Proof.
  induction s as [| c s IH]; intros skip Hc Hsep.
  - destruct skip; cbn in Hc; destruct sep; try contradiction;
      discriminate Hc.
  - cbn [split_aux]. destruct skip as [| k].
    + cbn [drop] in Hc. cbn [contains] in Hc.
      destruct (startswith sep (String c s)) eqn:Es.
      * destruct (split_aux sep (String.length sep - 1) s). discriminate.
      * cbn [orb] in Hc. specialize (IH 0 Hc Hsep).
        destruct (split_aux sep 0 s). exact IH.
    + cbn [drop] in Hc. now apply IH.
Qed.

(** A text that holds the separator splits into two parts at
    least. *)
Lemma split_second (sep s : string) :
  contains sep s = true ->
  sep <> ""%string ->
  exists part, nth_error (split sep s) 1 = Some part
               /\ nth 1 (split sep s) ""%string = part
               /\ (2 <=? List.length (split sep s))%nat = true.
Proof.
  intros Hc Hsep. unfold split.
  pose proof (split_aux_second sep s 0 Hc Hsep) as H.
  destruct (split_aux sep 0 s) as [p [| q ps]]; [now cbn in H |].
  exists q. repeat split.
Qed.

(** The second part of the split is always there: the cleaning of V8
    never raises, and gives the text that the cleaning of V9 gives. *)
Lemma v8_cleaning_is_v9_cleaning (content : string) :
  Src2Extract.clean_fact_array content
  = Some (Src3.ExtractFacts.clean_fact_array content).
Proof.
  unfold Src2Extract.clean_fact_array, Src3.ExtractFacts.clean_fact_array.
  destruct (contains "```" (strip content)) eqn:Ec; [| reflexivity].
  destruct (split_second "```" (strip content) Ec ltac:(discriminate))
    as (part & -> & -> & ->).
  reflexivity.
Qed.

Lemma v8_items_are_v9_items (fact_type : string) (items : list json) :
  forall facts,
    Src2Extract.facts_of_items fact_type items = Some facts ->
    Src3.ExtractFacts.facts_of_items fact_type items = facts.
Proof.
  induction items as [| item rest IH]; intros facts.
  - now intros [= <-].
  - cbn [Src2Extract.facts_of_items Src3.ExtractFacts.facts_of_items].
    destruct item as [| b | n | s | l | members]; try apply IH.
    destruct (ExtractedFact.new _ _ _ _ _) as [fact |]; [| discriminate].
    destruct (Src2Extract.facts_of_items fact_type rest) as [fs |];
      [| discriminate].
    intros [= <-]. f_equal. now apply IH.
Qed.

(** X25.  The parse of V9 extends the parse of V8: whenever the V8
    parse of an answer returns a list of facts, the V9 parse of the
    same answer for the same category returns the same list.  The V9
    parse also returns where the V8 parse raises: the empty list for an
    answer that cleans to nothing, and the other items when the model
    refuses an item. *)
Theorem v9_parse_extends_v8_parse :
  forall (response fact_type : string) (facts : list ExtractedFact.t),
    Src2Extract._parse_fact_array response fact_type = Some facts ->
    Src3.ExtractFacts._parse_fact_array response fact_type = Some facts.
Proof.
  intros response fact_type facts.
  unfold Src2Extract._parse_fact_array, Src3.ExtractFacts._parse_fact_array.
  rewrite v8_cleaning_is_v9_cleaning.
  set (content := Src3.ExtractFacts.clean_fact_array response).
  destruct (content =? "")%string eqn:E1.
  - apply String.eqb_eq in E1. rewrite E1. discriminate.
  - destruct (content =? "[]")%string eqn:E2.
    + apply String.eqb_eq in E2. rewrite E2. cbn [orb].
      vm_compute. now intros [= <-].
    + cbn [orb].
      destruct (loads content) as [data |]; [| discriminate].
      destruct (iterate data) as [items |]; [| discriminate].
      intros H. f_equal. now apply v8_items_are_v9_items.
Qed.

Lemma v9_parse_extends_v8_parse_witness :
  Src3.ExtractFacts._parse_fact_array fenced_metric_response "metric"
  = Some [raised_fact].
Proof.
  apply (v9_parse_extends_v8_parse fenced_metric_response "metric"
           [raised_fact]).
  vm_compute. reflexivity.
Defined.

(** Two answers on which the V8 parse raises and the V9 parse
    returns. *)
Example v9_parse_is_more_lenient :
  Src2Extract._parse_fact_array "No items." "metric" = None
  /\ Src3.ExtractFacts._parse_fact_array "No items." "metric" = None
  /\ Src2Extract._parse_fact_array "" "metric" = None
  /\ Src3.ExtractFacts._parse_fact_array "" "metric" = Some []
  /\ Src2Extract._parse_fact_array half_good_response "metric" = None
  /\ Src3.ExtractFacts._parse_fact_array half_good_response "metric"
     = Some [unlabelled_fact].
Proof. repeat split; vm_compute; reflexivity. Qed.

End ParseProps.

(* ===================================================================== *)
(** ** What the normalizers keep and what the V8 normalizer adds *)
(* ===================================================================== *)

Module NormalizerProps.
Import Py Models Notions TextProps NormalizeProps.
Import Src2Normalize.
Local Open Scope list_scope.

Lemma count_app (c : ascii) (a b : string) :
  count_char c (a ++ b) = count_char c a + count_char c b.
Proof.
  induction a as [| x a IH]; [reflexivity |].
  cbn [append count_char]. rewrite IH. lia.
Qed.

Lemma take_add (a b : nat) (s : string) :
  take (a + b) s = (take a s ++ take b (drop a s))%string.
Proof.
  revert s. induction a as [| a IH]; intros s; [reflexivity |].
  destruct s as [| c s]; cbn [Nat.add take drop append].
  - now destruct b.
  - now rewrite IH.
Qed.

(** The substitution of a pattern drops the matches alone: a character
    that no match holds is as frequent after it as before. *)
Lemma sub_from_count (c : ascii) (matcher : bool -> string -> option nat) :
  (forall prev s len,
      matcher prev s = Some len ->
      1 <= len /\ count_char c (take len s) = 0) ->
  forall s prev skip,
    count_char c (take skip s) = 0 ->
    count_char c (sub_from matcher prev skip s) = count_char c s.
Proof.
  intros Hm. induction s as [| a s IH]; intros prev skip Hskip;
    [reflexivity |].
  cbn [sub_from]. destruct skip as [| k].
  - destruct (matcher prev (String a s)) as [len |] eqn:E.
    + destruct (Hm _ _ _ E) as [Hlen Hc].
      destruct len as [| l]; [lia |].
      cbn [take count_char] in Hc.
      rewrite (IH _ (S l - 1)).
      * cbn [count_char]. lia.
      * replace (S l - 1) with l by lia. lia.
    + cbn [count_char]. rewrite (IH _ 0); reflexivity.
  - cbn [take count_char] in Hskip. rewrite (IH _ k) by lia.
    cbn [count_char]. lia.
Qed.

Lemma sub_words_is_sub_from (alternatives : list string) (s : string) :
  forall prev skip,
    ReWords.sub_words_from alternatives prev skip s
    = sub_from (fun prev s =>
                  if ReWords.boundary prev s
                  then ReWords.alternative_at alternatives s
                  else None) prev skip s.
Proof.
  induction s as [| a s IH]; intros prev skip; [reflexivity |].
  cbn [ReWords.sub_words_from sub_from]. destruct skip as [| k].
  - destruct (if ReWords.boundary prev (String a s)
              then ReWords.alternative_at alternatives (String a s)
              else None); now rewrite IH.
  - apply IH.
Qed.

Lemma startswith_ci_clear (c : ascii) (p : string) :
  clear_of c p = true ->
  forall s,
    ReWords.startswith_ci p s = true ->
    count_char c (take (String.length p) s) = 0.
Proof.
  induction p as [| x p IH]; intros Hclear s Hs; [reflexivity |].
  destruct s as [| a s]; [discriminate Hs |].
  cbn [clear_of] in Hclear. apply andb_true_iff in Hclear as [Hx Hp].
  cbn [ReWords.startswith_ci] in Hs. apply andb_true_iff in Hs as [Ha Hs].
  cbn [String.length take count_char]. rewrite (IH Hp s Hs).
  destruct (Ascii.eqb_spec c a) as [<- |]; [| reflexivity].
  rewrite Ha in Hx. discriminate Hx.
Qed.

Lemma run_length_clear (c more : ascii) (s : string) :
  Ascii.eqb (lower_char more) (lower_char c) = false ->
  count_char c (take (run_length more s) s) = 0.
Proof.
  intros Hm. induction s as [| a s IH]; [reflexivity |].
  cbn [run_length].
  destruct (Ascii.eqb (lower_char more) (lower_char a)) eqn:E;
    [| reflexivity].
  cbn [take count_char]. rewrite IH.
  destruct (Ascii.eqb_spec c a) as [<- |]; [| reflexivity].
  congruence.
Qed.

Lemma alternative_at_in (alternatives : list string) (s : string) (len : nat) :
  ReWords.alternative_at alternatives s = Some len ->
  exists text,
    In text alternatives
    /\ len = String.length text /\ ReWords.startswith_ci text s = true.
Proof.
  induction alternatives as [| a rest IH]; [discriminate |].
  cbn [ReWords.alternative_at].
  destruct (ReWords.startswith_ci a s
            && ReWords.boundary (ReWords.last_is_word a false)
                 (drop (String.length a) s)) eqn:E.
  - intros [= <-]. apply andb_true_iff in E as [E _].
    exists a. repeat split; [now left | exact E].
  - intros H. destruct (IH H) as (text & Hin & Hlen & Hs).
    exists text. repeat split; [now right | exact Hlen | exact Hs].
Qed.

(** The removal of fixed texts keeps every character that differs, in
    either case, from their letters. *)
Lemma sub_words_count (c : ascii) (alternatives : list string) (s : string) :
  forallb (clear_of c) alternatives = true ->
  Forall (fun text => text <> ""%string) alternatives ->
  count_char c (ReWords.sub_words alternatives s) = count_char c s.
Proof.
  intros Hclear Hne. unfold ReWords.sub_words.
  rewrite sub_words_is_sub_from.
  apply sub_from_count; [| reflexivity].
  intros prev t len.
  destruct (ReWords.boundary prev t); [| discriminate].
  intros E. apply alternative_at_in in E as (text & Hin & -> & Hs).
  rewrite forallb_forall in Hclear. rewrite Forall_forall in Hne.
  split.
  - specialize (Hne text Hin). destruct text; [contradiction | cbn; lia].
  - apply startswith_ci_clear; [now apply Hclear | exact Hs].
Qed.

(** The removal of a filler keeps every character that differs, in
    either case, from the letters of the filler. *)
Lemma remove_filler_count (c : ascii) (f : filler) (s : string) :
  filler_clear_of c f = true ->
  match f with Fixed ""%string => False | _ => True end ->
  count_char c (remove_filler s f) = count_char c s.
Proof.
  intros Hclear Hne. destruct f as [first more | text]; cbn [remove_filler].
  - cbn [filler_clear_of] in Hclear.
    apply andb_true_iff in Hclear as [Hf Hm].
    apply negb_true_iff in Hf. apply negb_true_iff in Hm.
    apply sub_from_count; [| reflexivity].
    intros prev t len. unfold stretched_at.
    destruct t as [| a t]; [discriminate |].
    destruct (ReWords.boundary prev (String a t)
              && Ascii.eqb (lower_char first) (lower_char a)) eqn:E;
      [| discriminate].
    apply andb_true_iff in E as [_ Ea].
    destruct ((1 <=? run_length more t)%nat
              && ReWords.boundary true (drop (run_length more t) t));
      [| discriminate].
    intros [= <-]. split; [lia |].
    cbn [take count_char]. rewrite (run_length_clear c more t Hm).
    destruct (Ascii.eqb_spec c a) as [<- |]; [| reflexivity].
    congruence.
  - cbn [filler_clear_of] in Hclear. apply sub_words_count.
    + cbn [forallb]. now rewrite Hclear.
    + constructor; [| constructor]. intros ->. exact Hne.
Qed.

Lemma fillers_count (c : ascii) (l : list filler) :
  forallb (filler_clear_of c) l = true ->
  Forall (fun f => match f with Fixed ""%string => False | _ => True end) l ->
  forall s, count_char c (fold_left remove_filler l s) = count_char c s.
Proof.
  induction l as [| f l IH]; intros Hclear Hne s; [reflexivity |].
  cbn [forallb] in Hclear. apply andb_true_iff in Hclear as [Hf Hl].
  inversion Hne as [| ? ? H1 H2]; subst.
  cbn [fold_left]. rewrite (IH Hl H2). now apply remove_filler_count.
Qed.

Lemma space_run_clear (c : ascii) (s : string) :
  isspace c = false -> count_char c (take (space_run s) s) = 0.
Proof.
  intros Hc. induction s as [| a s IH]; [reflexivity |].
  cbn [space_run]. destruct (isspace a) eqn:Ea; [| reflexivity].
  cbn [take count_char]. rewrite IH.
  destruct (Ascii.eqb_spec c a) as [<- |]; [congruence | reflexivity].
Qed.

Lemma take_clause (s : string) :
  take (String.length (clause s)) s = clause s.
Proof.
  induction s as [| a s IH]; [reflexivity |].
  cbn [clause]. destruct (ends_sentence a); [reflexivity |].
  cbn [String.length take]. now rewrite IH.
Qed.

Lemma last_space_clear (c : ascii) (s : string) (k : nat) :
  isspace c = false ->
  k < space_run s ->
  count_char c (take 1 (drop k s)) = 0.
Proof.
  intros Hc. revert k. induction s as [| a s IH]; intros k Hk;
    [cbn in Hk; lia |].
  cbn [space_run] in Hk. destruct (isspace a) eqn:Ea; [| lia].
  destruct k as [| k].
  - cbn. destruct (Ascii.eqb_spec c a) as [<- |]; [congruence | reflexivity].
  - cbn [drop]. apply IH. lia.
Qed.

(** A match of a marker holds its clause and, beside it, only the
    marker text and white space. *)
Lemma uncertain_at_count (c : ascii) (marker s group : string) (len : nat) :
  clear_of c marker = true ->
  isspace c = false ->
  marker <> ""%string ->
  uncertain_at marker s = Some (group, len) ->
  1 <= len /\ count_char c (take len s) = count_char c group.
Proof.
  intros Hclear Hc Hne. unfold uncertain_at.
  destruct (ReWords.startswith_ci marker s) eqn:Hs; [| discriminate].
  pose proof (startswith_ci_clear c marker Hclear s Hs) as Hm.
  set (r := drop (String.length marker) s) in *.
  assert (Hlen : 1 <= String.length marker).
  { destruct marker; [contradiction | cbn; lia]. }
  destruct (space_run r) as [| k] eqn:En; [discriminate |].
  destruct (clause (drop (S k) r)) as [| g0 g] eqn:Eg.
  - destruct k as [| k']; [discriminate |].
    intros [= <- <-]. split; [lia |].
    rewrite take_add, count_app, Hm. fold r.
    rewrite <- En, (space_run_clear c r Hc).
    symmetry. apply (last_space_clear c r (S k') Hc). lia.
  - intros [= <- <-]. split; [lia |].
    change (S (String.length g)) with (String.length (String g0 g)).
    rewrite <- Eg.
    rewrite <- Nat.add_assoc, take_add, count_app, Hm. fold r.
    rewrite take_add, count_app.
    replace (take (S k) r) with (take (space_run r) r) by now rewrite En.
    rewrite (space_run_clear c r Hc), take_clause. reflexivity.
Qed.

(** The marking puts one opening and one closing bracket around the
    clause of each match, and drops the marker and the white space. *)
Lemma mark_from_count (marker label : string) :
  clear_of "[" marker = true ->
  clear_of "]" marker = true ->
  marker <> ""%string ->
  count_char "[" label = 0 ->
  count_char "]" label = 0 ->
  forall s skip,
  exists m,
    count_char "[" (mark_from marker label skip s)
    + count_char "[" (take skip s)
    = count_char "[" s + m
    /\ count_char "]" (mark_from marker label skip s)
       + count_char "]" (take skip s)
       = count_char "]" s + m.
Proof.
  intros Ho Hc Hne Hlo Hlc.
  induction s as [| a s IH]; intros skip.
  - exists 0. destruct skip; split; reflexivity.
  - cbn [mark_from]. destruct skip as [| k].
    + destruct (uncertain_at marker (String a s)) as [[group len] |] eqn:E.
      * destruct (uncertain_at_count "[" marker _ group len Ho eq_refl Hne E)
          as [Hlen H1].
        destruct (uncertain_at_count "]" marker _ group len Hc eq_refl Hne E)
          as [_ H2].
        destruct len as [| l]; [lia |].
        replace (S l - 1) with l by lia.
        destruct (IH l) as (m & Hm1 & Hm2).
        exists (S m).
        cbn [take count_char] in H1, H2.
        repeat first [rewrite count_app | progress cbn [append count_char]].
        rewrite Hlo, Hlc.
        change (Ascii.eqb "[" "[") with true.
        change (Ascii.eqb "]" "]") with true.
        change (Ascii.eqb "[" "]") with false.
        change (Ascii.eqb "]" "[") with false.
        change (Ascii.eqb "[" ":") with false.
        change (Ascii.eqb "]" ":") with false.
        change (Ascii.eqb "[" " ") with false.
        change (Ascii.eqb "]" " ") with false.
        cbv iota. cbn [take count_char]. split; lia.
      * destruct (IH 0) as (m & Hm1 & Hm2). exists m.
        cbn [take count_char] in *. split; lia.
    + destruct (IH k) as (m & Hm1 & Hm2). exists m.
      cbn [take count_char]. split; lia.
Qed.

(** The marking keeps every character that is not white space and
    occurs neither in the marker nor in the mark. *)
Lemma mark_from_keeps (c : ascii) (marker label : string) :
  clear_of c marker = true ->
  isspace c = false ->
  marker <> ""%string ->
  count_char c ("[" ++ label ++ ": ]") = 0 ->
  forall s skip,
    count_char c (mark_from marker label skip s) + count_char c (take skip s)
    = count_char c s.
Proof.
  intros Hclear Hc Hne Hmark.
  assert (Hparts : forall group rest,
             count_char c ("[" ++ label ++ ": " ++ group ++ "]" ++ rest)
             = count_char c group + count_char c rest).
  { intros group rest.
    change ("[" ++ label ++ ": ]")%string
      with ("[" ++ (label ++ ": " ++ "]"))%string in Hmark.
    rewrite count_app in Hmark.
    rewrite (count_app c label) in Hmark.
    rewrite (count_app c ": " "]") in Hmark.
    rewrite (count_app c "["), (count_app c label), (count_app c ": "),
      (count_app c group), (count_app c "]"). lia. }
  induction s as [| a s IH]; intros skip.
  - destruct skip; reflexivity.
  - cbn [mark_from]. destruct skip as [| k].
    + destruct (uncertain_at marker (String a s)) as [[group len] |] eqn:E.
      * destruct (uncertain_at_count c marker _ group len Hclear Hc Hne E)
          as [Hlen H1].
        destruct len as [| l]; [lia |].
        replace (S l - 1) with l by lia.
        specialize (IH l). rewrite Hparts.
        cbn [take count_char] in H1 |- *. lia.
      * specialize (IH 0). cbn [take count_char] in IH |- *. lia.
    + specialize (IH k). cbn [take count_char]. lia.
Qed.

Lemma sub_runs_count (c : ascii) (cls : ascii -> bool) (s : string) :
  cls c = false ->
  Ascii.eqb c " " = false ->
  forall in_run,
    count_char c (Re.sub_runs_from cls in_run s) = count_char c s.
Proof.
  intros Hcls Hsp. induction s as [| a s IH]; intros in_run; [reflexivity |].
  cbn [Re.sub_runs_from]. destruct (cls a) eqn:Ea.
  - assert (Hca : Ascii.eqb c a = false).
    { destruct (Ascii.eqb_spec c a) as [<- |]; [congruence | reflexivity]. }
    destruct in_run; cbn [count_char]; rewrite ?Hsp, Hca, IH; reflexivity.
  - cbn [count_char]. now rewrite IH.
Qed.

Lemma strip_count (c : ascii) (s : string) :
  isspace c = false -> count_char c (strip s) = count_char c s.
Proof.
  intros Hc.
  assert (Hl : forall t, count_char c (lstrip t) = count_char c t).
  { induction t as [| a t IH]; [reflexivity |].
    cbn [lstrip]. destruct (isspace a) eqn:Ea; [| reflexivity].
    cbn [count_char]. rewrite IH.
    destruct (Ascii.eqb_spec c a) as [<- |]; [congruence | reflexivity]. }
  assert (Hr : forall t, count_char c (rstrip t) = count_char c t).
  { induction t as [| a t IH]; [reflexivity |].
    cbn [rstrip]. destruct (rstrip t) as [| b r] eqn:Er.
    - cbn [count_char] in IH |- *. rewrite <- IH.
      destruct (isspace a) eqn:Ea; cbn [count_char]; [| lia].
      destruct (Ascii.eqb_spec c a) as [<- |]; [congruence | reflexivity].
    - cbn [count_char] in IH |- *. now rewrite IH. }
  unfold strip. now rewrite Hr, Hl.
Qed.

Lemma markers_count (l : list (string * string)) :
  Forall (fun m =>
            clear_of "[" (fst m) = true /\ clear_of "]" (fst m) = true
            /\ fst m <> ""%string
            /\ count_char "[" (snd m) = 0 /\ count_char "]" (snd m) = 0) l ->
  forall s,
  exists n,
    count_char "[" (fold_left (fun text m => mark_from (fst m) (snd m) 0 text)
                      l s)
    = count_char "[" s + n
    /\ count_char "]" (fold_left
                         (fun text m => mark_from (fst m) (snd m) 0 text) l s)
       = count_char "]" s + n.
Proof.
  induction l as [| m l IH]; intros Hall s.
  - exists 0. split; cbn; lia.
  - inversion Hall as [| ? ? (H1 & H2 & H3 & H4 & H5) Hrest]; subst.
    cbn [fold_left].
    destruct (mark_from_count (fst m) (snd m) H1 H2 H3 H4 H5 s 0)
      as (n1 & Hn1 & Hn2).
    destruct (IH Hrest (mark_from (fst m) (snd m) 0 s)) as (n2 & Hn3 & Hn4).
    exists (n1 + n2). cbn [take count_char] in Hn1, Hn2. split; lia.
Qed.

(** X26.  The text that the V8 normalizer makes of a transcript has no
    white space other than the space, no two spaces in a row and no
    white space at either end; and the uncertainty marks are put in
    whole: the normalizer adds as many opening as closing square
    brackets, and takes none away. *)
Theorem v8_normalized_text_is_marked_in_pairs (transcript : string) :
  let text := Src2Normalize.normalize_text transcript in
  (forall c, In c (list_ascii_of_string text) ->
             isspace c = true -> c = " "%char)
  /\ contains "  " text = false
  /\ strip text = text
  /\ exists marks,
       count_char "[" text = count_char "[" transcript + marks
       /\ count_char "]" text = count_char "]" transcript + marks.
Proof.
  intros text. subst text. unfold Src2Normalize.normalize_text.
  set (unfilled := fold_left remove_filler fillers transcript).
  set (marked := fold_left _ uncertainty_markers unfilled).
  destruct (stripped_runs_shape isspace marked eq_refl) as (Ha & Hb & Hc);
    [auto |].
  split; [exact Ha |]. split; [exact Hb |]. split; [exact Hc |].
  destruct (markers_count uncertainty_markers) with (s := unfilled)
    as (n & Hn1 & Hn2).
  { repeat constructor; discriminate. }
  exists n. fold marked in Hn1, Hn2.
  unfold Re.sub_spaces.
  rewrite !strip_count, !sub_runs_count by reflexivity.
  rewrite Hn1, Hn2. unfold unfilled.
  rewrite !fillers_count; try reflexivity; repeat constructor.
Qed.

(** The V8 normalizer can make a text longer, and a marker right
    before a full stop stays as it is. *)
Example v8_normalizer_marks :
  Src2Normalize.normalize_text "Umm, we might delay.  Maybe not!"
  = ", we [possible: delay]. [uncertain: not]!"%string
  /\ Src2Normalize.normalize_text "maybe." = "maybe."%string
  /\ Src2Normalize.normalize_text "I think we just ship  it"
     = "we ship it"%string.
Proof. repeat split; vm_compute; reflexivity. Qed.

Lemma markers_keep (c : ascii) (l : list (string * string)) :
  isspace c = false ->
  Forall (fun m => fst m <> ""%string) l ->
  forallb (fun m =>
             clear_of c (fst m)
             && (count_char c ("[" ++ snd m ++ ": ]") =? 0)%nat) l = true ->
  forall s,
    count_char c (fold_left (fun text m => mark_from (fst m) (snd m) 0 text)
                    l s)
    = count_char c s.
Proof.
  intros Hc. induction l as [| m l IH]; intros Hne Hall s; [reflexivity |].
  inversion Hne as [| ? ? H1 H2]; subst.
  cbn [forallb] in Hall. apply andb_true_iff in Hall as [Hm Hl].
  apply andb_true_iff in Hm as [Hm1 Hm2]. apply Nat.eqb_eq in Hm2.
  cbn [fold_left]. rewrite (IH H2 Hl).
  pose proof (mark_from_keeps c (fst m) (snd m) Hm1 Hc H1 Hm2 s 0) as H.
  cbn [take count_char] in H. lia.
Qed.

(** X27.  What the two normalizers never touch.  A character that is
    not white space and occurs in none of the fillers of the V9
    normalizer (in either case) is as frequent in the normalized text
    as in the transcript; so is, for the V8 normalizer, a character
    that is not white space and occurs in none of its fillers, markers
    and marks.  The digits, the dollar sign and the percent sign are
    such characters for both: no number of the transcript loses or
    gains a digit. *)
Theorem normalizers_keep_the_digits (transcript : string) (c : ascii) :
  (kept_by_v9 c = true ->
   count_char c (Src3.Normalize.normalize_text transcript)
   = count_char c transcript)
  /\ (kept_by_v8 c = true ->
      count_char c (Src2Normalize.normalize_text transcript)
      = count_char c transcript)
  /\ (Json.is_digit c = true \/ c = "$"%char \/ c = "%"%char ->
      kept_by_v9 c = true /\ kept_by_v8 c = true).
Proof.
  split; [| split].
  - unfold kept_by_v9. intros H. apply andb_true_iff in H as [Hc Hf].
    apply negb_true_iff in Hc.
    assert (Hsp : Ascii.eqb c " " = false).
    { destruct (Ascii.eqb_spec c " ") as [-> |]; [discriminate Hc | easy]. }
    unfold Src3.Normalize.normalize_text, ReWords.sub_space_runs,
      Re.sub_spaces.
    rewrite (strip_count c _ Hc).
    rewrite sub_runs_count;
      [| unfold Re.is_char; now rewrite Ascii.eqb_sym | exact Hsp].
    rewrite sub_runs_count; [| exact Hc | exact Hsp].
    apply sub_words_count; [exact Hf |].
    repeat constructor; discriminate.
  - unfold kept_by_v8. intros H. apply andb_true_iff in H as [H Hm].
    apply andb_true_iff in H as [Hc Hf]. apply negb_true_iff in Hc.
    assert (Hsp : Ascii.eqb c " " = false).
    { destruct (Ascii.eqb_spec c " ") as [-> |]; [discriminate Hc | easy]. }
    unfold Src2Normalize.normalize_text, Re.sub_spaces.
    rewrite (strip_count c _ Hc).
    rewrite sub_runs_count; [| exact Hc | exact Hsp].
    rewrite (markers_keep c _ Hc); [| repeat constructor; discriminate | exact Hm].
    apply fillers_count; [exact Hf | repeat constructor].
  - intros [H | [-> | ->]]; [| split; reflexivity | split; reflexivity].
    destruct c as [[] [] [] [] [] [] [] []];
      try discriminate H; split; reflexivity.
Qed.

End NormalizerProps.

(* ===================================================================== *)
(** ** The cleaned answers and the email check *)
(* ===================================================================== *)

Module CleaningProps.
Import Py Json Models Notions TextProps IssueProps.
Local Open Scope list_scope.

Lemma filter_str_chars (keep : ascii -> bool) (s : string) (c : ascii) :
  In c (list_ascii_of_string (Re.filter_str keep s)) ->
  keep c = true /\ In c (list_ascii_of_string s).
Proof.
  induction s as [| a s IH]; [intros [] |].
  cbn [Re.filter_str]. destruct (keep a) eqn:Ea.
  - intros [<- | H]; [split; [exact Ea | now left] |].
    destruct (IH H) as [H1 H2]. split; [exact H1 | now right].
  - intros H. destruct (IH H) as [H1 H2]. split; [exact H1 | now right].
Qed.

Lemma sub_trailing_commas_chars (s : string) (c : ascii) :
  In c (list_ascii_of_string (Re.sub_trailing_commas s)) ->
  In c (list_ascii_of_string s).
Proof.
  induction s as [| a s IH]; [intros [] |].
  cbn [Re.sub_trailing_commas].
  destruct (Re.is_char "," a && Re.closes_after_space s).
  - intros H. right. now apply IH.
  - intros [<- | H]; [now left | right; now apply IH].
Qed.

Lemma strip_chars (s : string) (c : ascii) :
  In c (list_ascii_of_string (strip s)) -> In c (list_ascii_of_string s).
Proof.
  intros H. destruct (strip_middle s) as (p & q & E). rewrite E.
  apply In_app_string. right. apply In_app_string. now left.
Qed.

(** X28.  The answers to the extraction, to-do and action-point prompts
    reach [json.loads] without control characters: the cleaned text
    holds no character of the ranges U+0000..U+0008, U+000B..U+000C,
    U+000E..U+001F and U+007F..U+009F, and no white space at either
    end.  Tabs, line feeds and carriage returns stay where they
    are. *)
Theorem cleaned_arrays_hold_no_control_character (response : string) :
  let cleaned :=
    [ Src3.ExtractFacts.clean_fact_array response;
      Src3.GenerateTodos._clean_json response;
      Src3.GenerateActionPoints._clean_json response ] in
  Forall (fun text =>
            (forall c, In c (list_ascii_of_string text) ->
                       Re.is_control c = false)
            /\ strip text = text) cleaned.
Proof.
  assert (H : forall x,
             (forall c,
                 In c (list_ascii_of_string
                         (strip (Re.sub_trailing_commas (Re.sub_control x)))) ->
                 Re.is_control c = false)
             /\ strip (strip (Re.sub_trailing_commas (Re.sub_control x)))
                = strip (Re.sub_trailing_commas (Re.sub_control x))).
  { intros x. split; [| apply strip_idempotent].
    intros c Hin. apply strip_chars, sub_trailing_commas_chars in Hin.
    apply filter_str_chars in Hin as [Hk _].
    now apply negb_true_iff in Hk. }
  repeat constructor; apply H.
Qed.




Lemma placeholder_issues_nil (body_lower : string) (l : list string) :
  flat_map (fun ph =>
              if contains ph body_lower
              then [ ("Contains placeholder: " ++ ph
                      ++ " - remove all placeholders")%string ]
              else []) l = []
  <-> existsb (fun ph => contains ph body_lower) l = false.
Proof.
  induction l as [| ph l IH]; cbn [flat_map existsb]; [easy |].
  destruct (contains ph body_lower); cbn [app orb].
  - split; discriminate.
  - exact IH.
Qed.

(** X30.  The email check has nothing to object to exactly when the
    lowered body holds none of the five placeholders, none of the
    conditional words between spaces, and the body has fifty to three
    hundred words: a body of up to three hundred words passes,
    although the text of the issue asks to keep it under two
    hundred. *)
Theorem email_check_passes_iff (email : FollowUpEmail.t) :
  Src3.GenerateEmail._validate_email email = []
  <-> existsb (fun ph => contains ph (lower (FollowUpEmail.body email)))
        Src3.GenerateEmail.placeholders = false
      /\ existsb (fun word =>
                    contains word (lower (FollowUpEmail.body email)))
           conditional_words = false
      /\ 50 <= List.length (words (FollowUpEmail.body email)) <= 300.
Proof.
  unfold Src3.GenerateEmail._validate_email. fold conditional_words.
  set (body_lower := lower (FollowUpEmail.body email)).
  set (word_count := List.length (words (FollowUpEmail.body email))).
  rewrite <- (placeholder_issues_nil body_lower
                Src3.GenerateEmail.placeholders).
  set (ph := flat_map _ Src3.GenerateEmail.placeholders).
  set (conditional := existsb _ conditional_words).
  set (short := if (word_count <? 50)%nat then _ else _).
  set (long := if (300 <? word_count)%nat then _ else _).
  assert (Hcond : (if conditional
                   then [ "Contains conditional language - remove conditionals"%string ]
                   else []) = [] <-> conditional = false).
  { destruct conditional; split; congruence. }
  assert (Hshort : short = [] <-> 50 <= word_count).
  { unfold short. destruct (word_count <? 50)%nat eqn:E.
    - apply Nat.ltb_lt in E. split; [discriminate | lia].
    - apply Nat.ltb_ge in E. split; [now intros _ | reflexivity]. }
  assert (Hlong : long = [] <-> word_count <= 300).
  { unfold long. destruct (300 <? word_count)%nat eqn:E.
    - apply Nat.ltb_lt in E. split; [discriminate | lia].
    - apply Nat.ltb_ge in E. split; [now intros _ | reflexivity]. }
  split.
  - intros H. apply app_eq_nil in H as [H1 H].
    apply app_eq_nil in H as [H2 H]. apply app_eq_nil in H as [H3 H4].
    split; [exact H1 |]. split; [now apply Hcond |].
    split; [now apply Hshort | now apply Hlong].
  - intros (H1 & H2 & H3 & H4).
    apply Hcond in H2. apply Hshort in H3. apply Hlong in H4.
    now rewrite H1, H2, H3, H4.
Qed.

End CleaningProps.
